(** * NJDOT Knowledge Hub: segmentation, retrieval fusion and answer assembly

    A shallow embedding of the retrieval and ingestion code of
    [backend/app/services]:

    - [chunking.py]          page segmentation and cross-page chunk merging
    - [chunk_ingestion.py]   table extraction, table identifiers, chunk rebuild
                             and the linking of inline table references
    - [bm25_chunks.py]       scope-filtered lexical search over chunks
    - [faiss_chunks.py]      scope-filtered vector search over chunks
    - [hybrid_chunks.py]     reciprocal rank fusion, confidence levels and the
                             hybrid search with its table and section passes
    - [rerank.py]            section intent and the table-of-contents penalty
    - [ask.py]               the answer cascade after retrieval, its fallbacks
                             and the error boundary of [ask_question]
    - [tables.py]            the rows of a table and the cell grid parsed
                             from them
    - [library_search.py]    a page of filtered search results
    - [ingestion.py]         classifying a PDF, upserting a document and its
                             pages
    - [auth.py]              the verification of a bearer token against the
                             cached key set of the project

    and of [backend/app/routers]:

    - [tables.py]            the row pages and the cell grid of a table
    - [chat.py]              the citations of [/chat/ask]

    Modelling conventions.
    - A Python [str] is a [string] of 8-bit characters; [len], slicing, case
      mapping and the character classes of [re] are those of the ASCII range.
    - A Python [float] score is an exact rational ([Q]); rounding and NaN are
      outside the model.
    - A Python [int] is a [Z]; list positions, counts and the result size [k]
      are [nat].
    - A nullable column or attribute is an [option]; [x or ""] and truthiness
      are written out.
    - [dict[int, float]] is a [gmap Z Q]; a table of the document store is the
      list of its rows in insertion order.
    - A call that may raise is a value of [Exc]; [try/except] is a match on it.
      A search whose only exception is the [IndexError] of an index that
      disagrees with its metadata returns an [option]; an endpoint ends in an
      [outcome]: its payload, a 404, or an uncaught [IndexError].
    - Collaborators that live outside the modelled files (the SHA-1 digest,
      the BM25 scorer, the vector index, the generation model, the retrieval
      stage and the store lookups of the cascade, the files and the PDF
      reader of the ingestion, the environment, the key endpoint and the
      JWT library of the token check) are arguments of the functions that
      use them, as is the float heuristic [equation_score]. *)

From Stdlib Require Import String Ascii List ZArith QArith Bool Lia.
From Stdlib Require Import Sorting.Sorted Sorting.Permutation.
From Stdlib Require Import Numbers.DecimalString.
From stdpp Require Import base gmap.
Import ListNotations.

Local Open Scope string_scope.
Local Open Scope list_scope.

(* ------------------------------------------------------------------------- *)
(** ** Python string primitives *)
(* ------------------------------------------------------------------------- *)

Module Str.

Definition code (c : ascii) : nat := nat_of_ascii c.

Definition between (lo hi : nat) (c : ascii) : bool :=
  Nat.leb lo (code c) && Nat.leb (code c) hi.

Definition is_digit : ascii -> bool := between 48 57.
Definition is_upper : ascii -> bool := between 65 90.
Definition is_lower : ascii -> bool := between 97 122.
Definition is_alpha (c : ascii) : bool := is_upper c || is_lower c.
Definition is_alnum (c : ascii) : bool := is_alpha c || is_digit c.

(** [\w] of [re]: letters, digits and the underscore. *)
Definition is_word (c : ascii) : bool := is_alnum c || Nat.eqb (code c) 95.

(** [str.isspace] and [\s]: space, TAB..CR and the separators FS..US. *)
Definition is_space (c : ascii) : bool :=
  Nat.eqb (code c) 32 || between 9 13 c || between 28 31 c.

Definition is_newline (c : ascii) : bool := Nat.eqb (code c) 10.

Definition to_lower (c : ascii) : ascii :=
  if is_upper c then ascii_of_nat (code c + 32) else c.

Definition to_upper (c : ascii) : ascii :=
  if is_lower c then ascii_of_nat (code c - 32) else c.

Fixpoint map_chars (f : ascii -> ascii) (s : string) : string :=
  match s with
  | EmptyString => EmptyString
  | String c t => String (f c) (map_chars f t)
  end.

Definition lower : string -> string := map_chars to_lower.
Definition upper : string -> string := map_chars to_upper.

Fixpoint rev_onto (s acc : string) : string :=
  match s with
  | EmptyString => acc
  | String c t => rev_onto t (String c acc)
  end.

Definition rev (s : string) : string := rev_onto s EmptyString.

Fixpoint lstrip (s : string) : string :=
  match s with
  | String c t => if is_space c then lstrip t else s
  | EmptyString => EmptyString
  end.

Definition rstrip (s : string) : string := rev (lstrip (rev s)).
Definition strip (s : string) : string := rstrip (lstrip s).

Definition is_empty (s : string) : bool :=
  match s with EmptyString => true | _ => false end.

(** [s.strip(chars)] *)
Fixpoint lstrip_chars (p : ascii -> bool) (s : string) : string :=
  match s with
  | String c t => if p c then lstrip_chars p t else s
  | EmptyString => EmptyString
  end.

Definition strip_chars (p : ascii -> bool) (s : string) : string :=
  rev (lstrip_chars p (rev (lstrip_chars p s))).

(** [s.startswith(p)], [s.endswith(p)] and [p in s]. *)
Definition startswith (s p : string) : bool := String.prefix p s.
Definition endswith (s p : string) : bool := String.prefix (rev p) (rev s).

Fixpoint contains (needle hay : string) : bool :=
  String.prefix needle hay ||
  match hay with
  | EmptyString => false
  | String _ t => contains needle t
  end.

(** [s.count(needle)]: non-overlapping occurrences of a non-empty needle. *)
Fixpoint count_skip (needle s : string) (skip : nat) : nat :=
  match s with
  | EmptyString => 0
  | String _ t =>
      match skip with
      | S k => count_skip needle t k
      | O =>
          if String.prefix needle s
          then S (count_skip needle t (String.length needle - 1))
          else count_skip needle t 0
      end
  end.

Definition count (needle s : string) : nat := count_skip needle s 0.

(** [s[:n]]. *)
Definition take (n : nat) (s : string) : string := String.substring 0 n s.

(** [s[a:b]] for [a <= b]. *)
Definition slice (a b : nat) (s : string) : string := String.substring a (b - a) s.

(** [s.replace(old, new)] for a one-character [old]. *)
Fixpoint replace_char (old : ascii) (new : string) (s : string) : string :=
  match s with
  | EmptyString => EmptyString
  | String c t =>
      if Ascii.eqb c old then new ++ replace_char old new t
      else String c (replace_char old new t)
  end.

Definition nl : string := String (ascii_of_nat 10) EmptyString.

(** [sep.join(parts)]. *)
Fixpoint join (sep : string) (parts : list string) : string :=
  match parts with
  | [] => EmptyString
  | [p] => p
  | p :: rest => p ++ sep ++ join sep rest
  end.

(** [str.splitlines()]: the line boundaries of the ASCII range are LF, CR,
    CRLF, VT, FF, FS, GS and RS; no trailing empty line is produced. *)
Definition is_linebreak (c : ascii) : bool :=
  between 10 13 c || between 28 30 c.

Fixpoint splitlines_aux (s : string) (cur : string) : list string :=
  match s with
  | EmptyString => if is_empty cur then [] else [rev cur]
  | String c t =>
      if is_linebreak c then
        match t with
        | String d t' =>
            if Nat.eqb (code c) 13 && Nat.eqb (code d) 10
            then rev cur :: splitlines_aux t' EmptyString
            else rev cur :: splitlines_aux t EmptyString
        | EmptyString => [rev cur]
        end
      else splitlines_aux t (String c cur)
  end.

Definition splitlines (s : string) : list string := splitlines_aux s EmptyString.

(** [str(n)] for an integer. *)
Definition of_Z (n : Z) : string := NilEmpty.string_of_int (Z.to_int n).
Definition of_nat (n : nat) : string := of_Z (Z.of_nat n).

(** [sum(ch.isdigit() for ch in s)]. *)
Fixpoint count_chars (p : ascii -> bool) (s : string) : nat :=
  match s with
  | EmptyString => 0
  | String c t => (if p c then 1 else 0) + count_chars p t
  end.

End Str.

(* ------------------------------------------------------------------------- *)
(** ** The fragment of Python's [re] used by the services

    A backtracking matcher in continuation-passing style: alternatives are
    tried left to right, [Star] is greedy and [StarLazy] is not, so the first
    success is the match [re] reports.  An iteration of a star must consume a
    character, hence at most [length rest] iterations are ever needed and the
    inner loop never runs out of steps. *)
(* ------------------------------------------------------------------------- *)

Module Re.

Inductive re : Type :=
| Eps
| Chr (c : ascii)
| Cls (p : ascii -> bool)
| Seq (a b : re)
| Alt (a b : re)
| Star (a : re)
| StarLazy (a : re)
| Bol
| Eol
| WordB
| Grp (i : nat) (a : re).

Record flags := { ignorecase : bool; multiline : bool }.

Definition plain : flags := {| ignorecase := false; multiline := false |}.
Definition I : flags := {| ignorecase := true; multiline := false |}.
Definition M : flags := {| ignorecase := false; multiline := true |}.
Definition MI : flags := {| ignorecase := true; multiline := true |}.

(** A position in the subject: the offset, the character before it, the text
    from it on, and the groups closed so far (most recent first). *)
Record cursor := {
  pos : nat;
  prev : option ascii;
  rest : string;
  caps : list (nat * (nat * nat))
}.

Definition start_of (s : string) : cursor :=
  {| pos := 0; prev := None; rest := s; caps := [] |}.

Definition advance (cu : cursor) (c : ascii) (t : string) : cursor :=
  {| pos := S (pos cu); prev := Some c; rest := t; caps := caps cu |}.

Definition close_group (i from : nat) (cu : cursor) : cursor :=
  {| pos := pos cu; prev := prev cu; rest := rest cu;
     caps := (i, (from, pos cu)) :: caps cu |}.

Definition chr_ok (f : flags) (c d : ascii) : bool :=
  if ignorecase f then Ascii.eqb (Str.to_lower c) (Str.to_lower d)
  else Ascii.eqb c d.

Definition cls_ok (f : flags) (p : ascii -> bool) (d : ascii) : bool :=
  if ignorecase f then p d || p (Str.to_lower d) || p (Str.to_upper d)
  else p d.

Definition word_before (cu : cursor) : bool :=
  match prev cu with Some c => Str.is_word c | None => false end.

Definition word_after (cu : cursor) : bool :=
  match rest cu with String c _ => Str.is_word c | EmptyString => false end.

Definition at_bol (f : flags) (cu : cursor) : bool :=
  match prev cu with
  | None => true
  | Some c => multiline f && Str.is_newline c
  end.

Definition at_eol (f : flags) (cu : cursor) : bool :=
  match rest cu with
  | EmptyString => true
  | String c t => Str.is_newline c && (multiline f || Str.is_empty t)
  end.

Definition or_else {A} (x y : option A) : option A :=
  match x with Some _ => x | None => y end.

Fixpoint run (f : flags) (r : re) (cu : cursor) (k : cursor -> option cursor)
  {struct r} : option cursor :=
  match r with
  | Eps => k cu
  | Chr c =>
      match rest cu with
      | String d t => if chr_ok f c d then k (advance cu d t) else None
      | EmptyString => None
      end
  | Cls p =>
      match rest cu with
      | String d t => if cls_ok f p d then k (advance cu d t) else None
      | EmptyString => None
      end
  | Seq a b => run f a cu (fun cu' => run f b cu' k)
  | Alt a b => or_else (run f a cu k) (run f b cu k)
  | Star a =>
      (fix loop (n : nat) (c0 : cursor) {struct n} : option cursor :=
         or_else
           (run f a c0 (fun c1 =>
              if Nat.eqb (pos c1) (pos c0) then None
              else match n with O => None | S n' => loop n' c1 end))
           (k c0))
        (String.length (rest cu)) cu
  | StarLazy a =>
      (fix loop (n : nat) (c0 : cursor) {struct n} : option cursor :=
         or_else
           (k c0)
           (run f a c0 (fun c1 =>
              if Nat.eqb (pos c1) (pos c0) then None
              else match n with O => None | S n' => loop n' c1 end)))
        (String.length (rest cu)) cu
  | Bol => if at_bol f cu then k cu else None
  | Eol => if at_eol f cu then k cu else None
  | WordB => if xorb (word_before cu) (word_after cu) then k cu else None
  | Grp i a => run f a cu (fun cu' => k (close_group i (pos cu) cu'))
  end.

(** A match object: [m.start()], [m.end()], the groups, and the cursor after
    the match (from which [finditer] resumes). *)
Record mobj := {
  m_start : nat;
  m_end : nat;
  m_caps : list (nat * (nat * nat));
  m_after : cursor
}.

Definition mk_mobj (from : nat) (cu : cursor) : mobj :=
  {| m_start := from; m_end := pos cu; m_caps := caps cu; m_after := cu |}.

(** [re.match]: anchored at the cursor. *)
Definition match_at (f : flags) (r : re) (cu : cursor) : option mobj :=
  option_map (mk_mobj (pos cu)) (run f r cu Some).

(** [re.search] from a cursor: the leftmost start that matches. *)
Fixpoint search_at (f : flags) (r : re) (p : nat) (pv : option ascii)
  (cs : list (nat * (nat * nat))) (s : string) {struct s} : option mobj :=
  let cu := {| pos := p; prev := pv; rest := s; caps := cs |} in
  match match_at f r cu with
  | Some m => Some m
  | None =>
      match s with
      | EmptyString => None
      | String c t => search_at f r (S p) (Some c) cs t
      end
  end.

Definition search_from (f : flags) (r : re) (cu : cursor) : option mobj :=
  search_at f r (pos cu) (prev cu) [] (rest cu).

Definition search (f : flags) (r : re) (s : string) : option mobj :=
  search_from f r (start_of s).

Definition matches (f : flags) (r : re) (s : string) : bool :=
  match search f r s with Some _ => true | None => false end.

Definition match_ (f : flags) (r : re) (s : string) : option mobj :=
  match_at f r (start_of s).

Definition fullmatch (f : flags) (r : re) (s : string) : option mobj :=
  option_map (mk_mobj 0)
    (run f r (start_of s)
       (fun cu => if Str.is_empty (rest cu) then Some cu else None)).

(** One step past an empty match, so that scanning always progresses. *)
Definition resume (m : mobj) : option cursor :=
  if Nat.eqb (m_end m) (m_start m) then
    match rest (m_after m) with
    | String c t => Some (advance (m_after m) c t)
    | EmptyString => None
    end
  else Some (m_after m).

(** [re.finditer]: successive non-overlapping matches, left to right. *)
Fixpoint finditer_from (fuel : nat) (f : flags) (r : re) (cu : cursor)
  : list mobj :=
  match fuel with
  | O => []
  | S fuel' =>
      match search_from f r cu with
      | None => []
      | Some m =>
          m :: match resume m with
               | Some cu' => finditer_from fuel' f r cu'
               | None => []
               end
      end
  end.

Definition finditer (f : flags) (r : re) (s : string) : list mobj :=
  finditer_from (S (String.length s)) f r (start_of s).

(** [m.group(0)] and [m.group(i)] read against the searched text. *)
Definition group0 (s : string) (m : mobj) : string :=
  Str.slice (m_start m) (m_end m) s.

Fixpoint lookup_cap (i : nat) (cs : list (nat * (nat * nat)))
  : option (nat * nat) :=
  match cs with
  | [] => None
  | (j, se) :: tl => if Nat.eqb i j then Some se else lookup_cap i tl
  end.

Definition group (s : string) (m : mobj) (i : nat) : option string :=
  option_map (fun se => Str.slice (fst se) (snd se) s) (lookup_cap i (m_caps m)).

(** [re.findall] for a pattern without groups. *)
Definition findall (f : flags) (r : re) (s : string) : list string :=
  map (group0 s) (finditer f r s).

(** [re.sub] with a replacement computed from the match. *)
Fixpoint splice (s : string) (from : nat) (repl : mobj -> string)
  (ms : list mobj) : string :=
  match ms with
  | [] => Str.slice from (String.length s) s
  | m :: tl =>
      (Str.slice from (m_start m) s ++ repl m ++ splice s (m_end m) repl tl)%string
  end.

Definition sub_with (f : flags) (r : re) (repl : mobj -> string) (s : string)
  : string :=
  splice s 0 repl (finditer f r s).

(** [re.sub(r, repl, s)] for a constant [repl], and for [repl = r"\1"]. *)
Definition sub (f : flags) (r : re) (repl : string) (s : string) : string :=
  sub_with f r (fun _ => repl) s.

Definition sub_group1 (f : flags) (r : re) (s : string) : string :=
  sub_with f r
    (fun m => match group s m 1 with Some g => g | None => EmptyString end) s.

(** *** Pattern syntax *)

Fixpoint lit (s : string) : re :=
  match s with
  | EmptyString => Eps
  | String c EmptyString => Chr c
  | String c t => Seq (Chr c) (lit t)
  end.

Fixpoint seqs (rs : list re) : re :=
  match rs with
  | [] => Eps
  | [r] => r
  | r :: tl => Seq r (seqs tl)
  end.

Fixpoint alts (rs : list re) : re :=
  match rs with
  | [] => Eps
  | [r] => r
  | r :: tl => Alt r (alts tl)
  end.

Definition opt (r : re) : re := Alt r Eps.
Definition plus (r : re) : re := Seq r (Star r).

(** [r{n}], [r{n,}] and [r{n,m}], all greedy. *)
Fixpoint times (n : nat) (r : re) : re :=
  match n with
  | O => Eps
  | S O => r
  | S n' => Seq r (times n' r)
  end.

Fixpoint upto (n : nat) (r : re) : re :=
  match n with
  | O => Eps
  | S n' => opt (Seq r (upto n' r))
  end.

Definition at_least (n : nat) (r : re) : re := Seq (times n r) (Star r).
Definition range (n m : nat) (r : re) : re := Seq (times n r) (upto (m - n) r).

Definition d : re := Cls Str.is_digit.
Definition s : re := Cls Str.is_space.
Definition dot : re := Cls (fun c => negb (Str.is_newline c)).
Definition b : re := WordB.
Definition chr (c : string) : re := lit c.

(** [\d{3}\.\d{2}(?:\.\d{2})?], the subsection id shared by most patterns. *)
Definition section_dot : re :=
  seqs [times 3 d; chr "."; times 2 d; opt (seqs [chr "."; times 2 d])].

End Re.

(* ------------------------------------------------------------------------- *)
(** ** Python builtins shared by the services *)
(* ------------------------------------------------------------------------- *)

Module Py.

(** [x or ""] for a nullable string. *)
Definition or_empty (x : option string) : string :=
  match x with Some s => s | None => EmptyString end.

(** Truthiness of a nullable string: present and non-empty. *)
Definition truthy (x : option string) : bool :=
  match x with Some s => negb (Str.is_empty s) | None => false end.

(** [sorted(l, key=...)] is a stable sort: [before x y] says that [x], which
    stood left of [y], stays left of it.  For an ascending sort this is
    [key x <= key y], for [reverse=True] it is [key x >= key y]. *)
Section Sorted.

Context {A : Type} (before : A -> A -> bool).

Fixpoint insert (x : A) (l : list A) : list A :=
  match l with
  | [] => [x]
  | y :: t => if before x y then x :: l else y :: insert x t
  end.

Definition sorted (l : list A) : list A := fold_right insert [] l.

End Sorted.

(** [enumerate(l, start)] *)
Fixpoint enumerate {A : Type} (start : nat) (l : list A) : list (nat * A) :=
  match l with
  | [] => []
  | x :: t => (start, x) :: enumerate (S start) t
  end.

(** A filter whose test may fail (an index out of range). *)
Fixpoint filter_opt {A : Type} (p : A -> option bool) (l : list A)
  : option (list A) :=
  match l with
  | [] => Some []
  | x :: t =>
      match p x with
      | None => None
      | Some keep =>
          match filter_opt p t with
          | None => None
          | Some r => Some (if keep then x :: r else r)
          end
      end
  end.

Fixpoint map_opt {A B : Type} (f : A -> option B) (l : list A)
  : option (list B) :=
  match l with
  | [] => Some []
  | x :: t =>
      match f x with
      | None => None
      | Some y =>
          match map_opt f t with
          | None => None
          | Some r => Some (y :: r)
          end
      end
  end.

Definition str_in (x : string) (l : list string) : bool :=
  existsb (String.eqb x) l.

(** The distinct strings of a list in order of first appearance (the keys of
    a dict filled from the list, or a set built from it). *)
Fixpoint unique_from (seen l : list string) : list string :=
  match l with
  | [] => []
  | x :: t =>
      if str_in x seen then unique_from seen t
      else x :: unique_from (x :: seen) t
  end.

Definition unique (l : list string) : list string := unique_from [] l.

End Py.

(* ------------------------------------------------------------------------- *)
(** ** hybrid_chunks.py: fusion and confidence *)
(* ------------------------------------------------------------------------- *)

Module HybridChunks.

(** One pass of the inner loop: [fused[key] = fused.get(key, 0.0) + 1.0 / (k + rank)]. *)
Definition bump (k : Z) (fused : gmap Z Q) (rk : nat * Z) : gmap Z Q :=
  let '(rank, key) := rk in
  <[ key := (default 0 (fused !! key) + 1 / inject_Z (k + Z.of_nat rank))%Q ]> fused.

Definition fuse_list (k : Z) (fused : gmap Z Q) (lst : list Z) : gmap Z Q :=
  fold_left (bump k) (Py.enumerate 1 lst) fused.

Definition reciprocal_rank_fusion (ranked_lists : list (list Z)) (k : Z)
  : gmap Z Q :=
  fold_left (fuse_list k) ranked_lists ∅.

Definition compute_confidence (top_rrf : Q) (overlap_top10 : Z) : string :=
  if Qle_bool 0.035 top_rrf && (1 <=? overlap_top10)%Z then "strong"
  else if Qle_bool 0.02 top_rrf then "medium"
  else "weak".

End HybridChunks.

(* ------------------------------------------------------------------------- *)
(** ** bm25_chunks.py: scope-filtered lexical search *)
(* ------------------------------------------------------------------------- *)

Module BM25Chunks.

(** [_WORD_RE = [A-Za-z0-9]+(?:[.\-/:][A-Za-z0-9]+)*] *)
Definition _WORD_RE : Re.re :=
  let alnum := Re.Cls Str.is_alnum in
  let sep := Re.Cls (fun c => Py.str_in (String c "") ["."; "-"; "/"; ":"]) in
  Re.Seq (Re.plus alnum) (Re.Star (Re.Seq sep (Re.plus alnum))).

Definition dash : ascii := "-"%char.
Definition slash : ascii := "/"%char.

Definition expand (t : string) : list string :=
  if Str.contains "-" t || Str.contains "/" t
  then [t; Str.replace_char slash "" (Str.replace_char dash "" t)]
  else [t].

Definition tokenize (text : string) : list string :=
  flat_map expand (map Str.lower (Re.findall Re.plain _WORD_RE text)).

(** A row of [index.meta]. *)
Record Meta := {
  m_chunk_id : Z;
  m_document_id : Z;
  m_filename : string;
  m_display_name : string;
  m_doc_type : option string;
  m_mp_id : option string;
  m_section_id : option string;
  m_heading : option string;
  m_page_start : Z;
  m_page_end : Z;
  m_chunk_kind : option string;
  m_equation_score : Q;
  m_table_uid : option string;
  m_table_label : option string;
  m_table_row_index : option Z;
  m_text : string
}.

Record BM25ChunkHit := {
  score : Q;
  chunk_id : Z;
  document_id : Z;
  filename : string;
  display_name : string;
  doc_type : option string;
  mp_id : option string;
  section_id : option string;
  heading : option string;
  page_start : Z;
  page_end : Z;
  snippet : string;
  chunk_kind : option string;
  table_uid : option string;
  table_label : option string;
  table_row_index : option Z
}.

(** The pickled index: the scorer of [rank_bm25] (one score per corpus row
    for a tokenised query) and the metadata rows. *)
Record BM25ChunksIndex := {
  get_scores : list string -> list Q;
  meta : list Meta
}.

Definition ellipsis : string := "…".

(** The scope predicate [allowed] on one metadata row. *)
Definition allowed_meta (scope : string) (mp_ids_norm : list string)
  (min_equation_score : option Q) (m : Meta) : bool :=
  let doc_type := Str.lower (Py.or_empty (m_doc_type m)) in
  let mp_id := Py.or_empty (m_mp_id m) in
  let eq_score := m_equation_score m in
  if match min_equation_score with
     | Some lo => negb (Qle_bool lo eq_score)
     | None => false
     end
  then false
  else if String.eqb scope "all" then true
  else if String.eqb scope "standspec" then String.eqb doc_type "standspec"
  else if String.eqb scope "scheduling" then String.eqb doc_type "scheduling"
  else if String.eqb scope "mp" then String.eqb doc_type "mp"
  else if String.eqb scope "mp_only"
       then String.eqb doc_type "mp" && Py.str_in (Str.upper mp_id) mp_ids_norm
  else true.

(** [scores[i] > 0] *)
Definition positive (x : Q) : bool := negb (Qle_bool x 0).

Definition score_at (scores : list Q) (i : nat) : Q := nth i scores 0%Q.

(** [sorted(range(len(scores)), key=lambda i: scores[i], reverse=True)] *)
Definition ranked_all (scores : list Q) : list nat :=
  Py.sorted (fun i j => Qle_bool (score_at scores j) (score_at scores i))
            (seq 0 (length scores)).

Definition hit_of (scores : list Q) (i : nat) (m : Meta) : BM25ChunkHit :=
  let text := m_text m in
  let snippet :=
    (Str.strip (Str.replace_char (ascii_of_nat 10) " " (Str.take 350 text))
     ++ (if Nat.ltb 350 (String.length text) then ellipsis else ""))%string in
  {| score := score_at scores i;
     chunk_id := m_chunk_id m;
     document_id := m_document_id m;
     filename := m_filename m;
     display_name := m_display_name m;
     doc_type := m_doc_type m;
     mp_id := m_mp_id m;
     section_id := m_section_id m;
     heading := m_heading m;
     page_start := m_page_start m;
     page_end := m_page_end m;
     snippet := snippet;
     chunk_kind := m_chunk_kind m;
     table_uid := m_table_uid m;
     table_label := m_table_label m;
     table_row_index := m_table_row_index m |}.

(** [index.meta[i]] raises [IndexError] past the end of the metadata; [None]
    stands for that exception. *)
Definition bm25_chunks_search_filtered (index : BM25ChunksIndex)
  (query : string) (k : nat) (scope : string) (mp_ids : list string)
  (min_equation_score : option Q) : option (list BM25ChunkHit) :=
  let scores := get_scores index (tokenize query) in
  let mp_ids_norm := map Str.upper mp_ids in
  let allowed (i : nat) : option bool :=
    option_map (allowed_meta scope mp_ids_norm min_equation_score)
               (nth_error (meta index) i) in
  let all := ranked_all scores in
  match Py.filter_opt
          (fun i => match allowed i with
                    | Some true => Some (positive (score_at scores i))
                    | other => other
                    end) all with
  | None => None
  | Some positive_first =>
      let ranked := firstn k positive_first in
      match (match ranked with
             | [] => option_map (firstn k) (Py.filter_opt allowed all)
             | _ => Some ranked
             end) with
      | None => None
      | Some ranked =>
          Py.map_opt (fun i => option_map (hit_of scores i) (nth_error (meta index) i))
                     ranked
      end
  end.

End BM25Chunks.

(* ------------------------------------------------------------------------- *)
(** ** chunking.py: page segments and chunks *)
(* ------------------------------------------------------------------------- *)

Module Chunking.

(** [SECTION_RE = (?mi)^\s*SECTION\s+(\d{3})\b] *)
Definition SECTION_RE : Re.re :=
  Re.seqs [Re.Bol; Re.Star Re.s; Re.lit "SECTION"; Re.plus Re.s;
           Re.Grp 1 (Re.times 3 Re.d); Re.b].

(** [SUBSECTION_HEADER_RE =
      (?m)^\s*(\d{3}\.\d{2}(?:\.\d{2})?)\s{2,}([A-Z][^\n]{2,})\s*$] *)
Definition SUBSECTION_HEADER_RE : Re.re :=
  Re.seqs [Re.Bol; Re.Star Re.s; Re.Grp 1 Re.section_dot;
           Re.at_least 2 Re.s;
           Re.Grp 2 (Re.Seq (Re.Cls Str.is_upper) (Re.at_least 2 Re.dot));
           Re.Star Re.s; Re.Eol].

Record Chunk := {
  section_id : option string;
  heading : option string;
  page_start : Z;
  page_end : Z;
  text : string
}.

Record PageSegment := {
  seg_section_id : option string;
  seg_heading : option string;
  seg_text : string
}.

(** The first line naming [SECTION <marker>], else the bare marker line. *)
Fixpoint first_section_line (marker : string) (lines : list string)
  : option string :=
  match lines with
  | [] => None
  | ln :: tl =>
      if Re.matches Re.I
           (Re.seqs [Re.b; Re.lit "SECTION"; Re.plus Re.s; Re.lit marker; Re.b]) ln
      then Some (Str.take 200 (Str.strip ln))
      else first_section_line marker tl
  end.

Definition _section_heading_line (text marker : string) : option string :=
  if Str.is_empty text then None
  else match first_section_line marker (Str.splitlines text) with
       | Some ln => Some ln
       | None => Some (Str.take 200 ("SECTION " ++ marker))
       end.

Definition preamble_min_chars : nat := 40.

(** The loop over the header matches of one page: a segment runs from its
    header to the next header (or the end of the page); the preamble joins
    the first segment when it is long enough. *)
Fixpoint segments_between (text preamble : string) (first : bool)
  (ms : list Re.mobj) (mk : Re.mobj -> string -> PageSegment)
  : list PageSegment :=
  match ms with
  | [] => []
  | m :: tl =>
      let start := Re.m_start m in
      let stop := match tl with
                  | m' :: _ => Re.m_start m'
                  | [] => String.length text
                  end in
      let seg := Str.strip (Str.slice start stop text) in
      let seg := if first && Nat.leb preamble_min_chars (String.length preamble)
                 then (preamble ++ Str.nl ++ seg)%string else seg in
      mk m seg :: segments_between text preamble false tl mk
  end.

Definition preamble_of (text : string) (ms : list Re.mobj) : string :=
  match ms with
  | m :: _ => Str.strip (Str.take (Re.m_start m) text)
  | [] => EmptyString
  end.

Definition split_page_into_segments (text : string) : list PageSegment :=
  if Str.is_empty text then
    [ {| seg_section_id := None; seg_heading := None; seg_text := "" |} ]
  else
    match Re.finditer Re.M SUBSECTION_HEADER_RE text with
    | (_ :: _) as sub_matches =>
        segments_between text (preamble_of text sub_matches) true sub_matches
          (fun m seg =>
             {| seg_section_id := Re.group text m 1;
                seg_heading := Some (Str.take 200 (Str.strip (Re.group0 text m)));
                seg_text := seg |})
    | [] =>
        match Re.finditer Re.MI SECTION_RE text with
        | (_ :: _) as sec_matches =>
            segments_between text (preamble_of text sec_matches) true sec_matches
              (fun m seg =>
                 let sec_id := Py.or_empty (Re.group text m 1) in
                 {| seg_section_id := Some sec_id;
                    seg_heading := _section_heading_line seg sec_id;
                    seg_text := seg |})
        | [] =>
            [ {| seg_section_id := None; seg_heading := None;
                 seg_text := Str.strip text |} ]
        end
    end.

(** The locals of [chunk_document_pages] that its closure [flush] rebinds,
    together with the output list. *)
Record acc := {
  chunks : list Chunk;
  cur_section : option string;
  cur_heading : option string;
  cur_start : option Z;
  cur_end : option Z;
  cur_buf : list string
}.

Definition init : acc :=
  {| chunks := []; cur_section := None; cur_heading := None;
     cur_start := None; cur_end := None; cur_buf := [] |}.

Definition flush (a : acc) : acc :=
  match cur_start a, cur_end a, cur_buf a with
  | Some s, Some e, _ :: _ =>
      let text := Str.strip (Str.join Str.nl (cur_buf a)) in
      {| chunks :=
           if Str.is_empty text then chunks a
           else chunks a ++
                [ {| section_id := cur_section a; heading := cur_heading a;
                     page_start := s; page_end := e; text := text |} ];
         cur_section := None; cur_heading := None;
         cur_start := None; cur_end := None; cur_buf := [] |}
  | _, _, _ => a
  end.

Definition opt_str_eqb (x y : option string) : bool :=
  match x, y with
  | Some a, Some b => String.eqb a b
  | None, None => true
  | _, _ => false
  end.

Definition is_some {A} (x : option A) : bool :=
  match x with Some _ => true | None => false end.

(** The body of the inner loop, for one segment of page [page_no]. *)
Definition step (page_no : Z) (a : acc) (seg : PageSegment) : acc :=
  let is_new_marker :=
    is_some (seg_section_id seg)
    && negb (opt_str_eqb (seg_section_id seg) (cur_section a)) in
  let a1 :=
    match cur_start a with
    | None =>
        {| chunks := chunks a; cur_section := seg_section_id seg;
           cur_heading := seg_heading seg; cur_start := Some page_no;
           cur_end := cur_end a; cur_buf := cur_buf a |}
    | Some _ =>
        if is_new_marker then
          let f := flush a in
          {| chunks := chunks f; cur_section := seg_section_id seg;
             cur_heading := seg_heading seg; cur_start := Some page_no;
             cur_end := cur_end f; cur_buf := cur_buf f |}
        else if negb (is_some (cur_section a)) && is_some (seg_section_id seg) then
          {| chunks := chunks a; cur_section := seg_section_id seg;
             cur_heading := seg_heading seg; cur_start := cur_start a;
             cur_end := cur_end a; cur_buf := cur_buf a |}
        else a
    end in
  {| chunks := chunks a1; cur_section := cur_section a1;
     cur_heading := cur_heading a1; cur_start := cur_start a1;
     cur_end := Some page_no; cur_buf := cur_buf a1 ++ [seg_text seg] |}.

Definition page_step (a : acc) (page : Z * string) : acc :=
  fold_left (step (fst page)) (split_page_into_segments (snd page)) a.

Definition chunk_document_pages (pages : list (Z * string)) : list Chunk :=
  chunks (flush (fold_left page_step pages init)).

End Chunking.

(* ------------------------------------------------------------------------- *)
(** ** chunk_ingestion.py: tables and the chunk rebuild *)
(* ------------------------------------------------------------------------- *)

Module ChunkIngestion.

Definition table_word : Re.re := Re.Alt (Re.lit "table") (Re.lit "tab.").

(** [_TABLE_TOKEN_RE = \b(?:table|tab\.)\s*(\d{3}\.\d{2}(?:\.\d{2})?-\d+)\b], re.I *)
Definition _TABLE_TOKEN_RE : Re.re :=
  Re.seqs [Re.b; table_word; Re.Star Re.s;
           Re.Grp 1 (Re.seqs [Re.section_dot; Re.chr "-"; Re.plus Re.d]); Re.b].

(** [_TABLE_HEADER_RE = ^\s*(?:table|tab\.)\s+\d{3}\.\d{2}], re.I *)
Definition _TABLE_HEADER_RE : Re.re :=
  Re.seqs [Re.Bol; Re.Star Re.s; table_word; Re.plus Re.s;
           Re.times 3 Re.d; Re.chr "."; Re.times 2 Re.d].

(** [_SECTION_HEADER_RE = ^\s*\d{3}\.\d{2}\b] *)
Definition _SECTION_HEADER_RE : Re.re :=
  Re.seqs [Re.Bol; Re.Star Re.s; Re.times 3 Re.d; Re.chr "."; Re.times 2 Re.d; Re.b].

(** [toc_line_re = \b\d{3}\.\d{2}(?:\.\d{2})?\b.*?\.{2,}.*?\b\d{1,4}\b] *)
Definition toc_line_re : Re.re :=
  Re.seqs [Re.b; Re.section_dot; Re.b; Re.StarLazy Re.dot;
           Re.at_least 2 (Re.chr "."); Re.StarLazy Re.dot;
           Re.b; Re.range 1 4 Re.d; Re.b].

Definition looks_like_toc_block (text : string) : bool :=
  if Str.contains "TABLE OF CONTENTS" (Str.upper text) then true
  else if Re.matches Re.plain toc_line_re text then true
  else if Nat.ltb (String.length text) 300 then false
  else Nat.leb 6 (length (Re.findall Re.plain toc_line_re text)).

Definition classify_chunk (section_id : option string) (text : string) : string :=
  if looks_like_toc_block text then "toc"
  else match section_id with
       | None => "front_matter"
       | Some _ => "content"
       end.

Record TableBlock := {
  lines : list string;
  start_line : Z;
  end_line : Z
}.

(** The locals that the closure [flush] of [extract_table_blocks] rebinds. *)
Record scan := {
  blocks : list TableBlock;
  buf : list string;
  buf_start : option Z
}.

Definition flush (end_i : Z) (st : scan) : scan :=
  {| blocks :=
       match buf_start st, buf st with
       | Some b, _ :: _ =>
           let non_empty :=
             List.filter (fun ln => negb (Str.is_empty (Str.strip ln))) (buf st) in
           if Nat.leb 5 (length non_empty)
           then blocks st ++ [ {| lines := buf st; start_line := b; end_line := end_i |} ]
           else blocks st
       | _, _ => blocks st
       end;
     buf := [];
     buf_start := None |}.

(** One line of the scan.  The second header test inside the
    [buf_start is not None] branch of the source is shadowed by the first. *)
Definition scan_line (st : scan) (iln : nat * string) : scan :=
  let i := Z.of_nat (fst iln) in
  let ln := snd iln in
  if Re.matches Re.I _TABLE_HEADER_RE ln then
    let st1 := match buf_start st with
               | Some _ => flush (i - 1) st
               | None => st
               end in
    {| blocks := blocks st1; buf := buf st1 ++ [ln]; buf_start := Some i |}
  else
    match buf_start st with
    | Some _ =>
        if Re.matches Re.plain _SECTION_HEADER_RE ln then flush (i - 1) st
        else {| blocks := blocks st; buf := buf st ++ [ln]; buf_start := buf_start st |}
    | None => st
    end.

Definition extract_table_blocks (page_text : string) : list TableBlock :=
  let lns := Str.splitlines page_text in
  let st := fold_left scan_line (Py.enumerate 0 lns)
              {| blocks := []; buf := []; buf_start := None |} in
  match buf_start st with
  | Some _ => blocks (flush (Z.of_nat (length lns) - 1) st)
  | None => blocks st
  end.

(** *** The document store *)

Record Document := {
  d_id : Z;
  d_filename : string;
  d_display_name : string;
  d_doc_type : option string;
  d_mp_id : option string
}.

Record Page := {
  p_document_id : Z;
  p_page_number : Z;
  p_text : option string
}.

Record ChunkRow := {
  c_document_id : Z;
  c_chunk_index : Z;
  c_section_id : option string;
  c_heading : option string;
  c_page_start : Z;
  c_page_end : Z;
  c_text : string;
  c_is_table : bool;
  c_chunk_kind : option string;
  c_equation_score : Q;
  c_table_uid : option string;
  c_table_row_index : option Z;
  c_table_label : option string
}.

Record TableRec := {
  t_table_uid : string;
  t_document_id : Z;
  t_filename : string;
  t_display_name : string;
  t_doc_type : option string;
  t_mp_id : option string;
  t_section_id : option string;
  t_page_number : Z;
  t_table_index_on_page : Z;
  t_table_label : string
}.

Record TableRowRec := {
  r_table_uid : string;
  r_row_index : Z;
  r_row_text : string
}.

Record DB := {
  documents : list Document;
  pages : list Page;
  chunks : list ChunkRow;
  tables : list TableRec;
  table_rows : list TableRowRec
}.

(** [INSERT OR REPLACE INTO tables]: [table_uid] identifies a table, a row
    with the same identifier is replaced. *)
Definition insert_or_replace_table (t : TableRec) (ts : list TableRec)
  : list TableRec :=
  List.filter (fun t' => negb (String.eqb (t_table_uid t') (t_table_uid t))) ts ++ [t].

(** *** Linking inline table references *)

Definition candidates_on (db : DB) (document_id page : Z) : list TableRec :=
  Py.sorted (fun a b => (t_table_index_on_page a <=? t_table_index_on_page b)%Z)
    (List.filter (fun t => (t_document_id t =? document_id)%Z
                      && (t_page_number t =? page)%Z) (tables db)).

(** [SELECT DISTINCT table_uid FROM table_rows WHERE table_uid IN (...) AND
    row_text LIKE '%token%'] *)
Definition matching_uids (db : DB) (uids : list string) (token : string)
  : list string :=
  Py.unique
    (map r_table_uid
       (List.filter (fun r => Py.str_in (r_table_uid r) uids
                         && Str.contains (Str.lower token) (Str.lower (r_row_text r)))
               (table_rows db))).

Definition label_of (cands : list TableRec) (uid : string) : string :=
  match List.filter (fun c => String.eqb (t_table_uid c) uid) cands with
  | c :: _ => t_table_label c
  | [] => ""
  end.

Definition resolve_on_page (db : DB) (cands : list TableRec) (token : string)
  : option (string * string) :=
  match cands with
  | [c] => Some (t_table_uid c, t_table_label c)
  | _ =>
      let matched := matching_uids db (map t_table_uid cands) token in
      match matched with
      | [uid] => Some (uid, label_of cands uid)
      | _ =>
          match List.filter (fun c => Py.str_in (t_table_uid c) matched) cands with
          | c :: _ => Some (t_table_uid c, t_table_label c)
          | [] => None
          end
      end
  end.

(** The loop over the page offsets 0, -1, 1: the first page that holds a
    table decides. *)
Fixpoint resolve_offsets (db : DB) (document_id page_no : Z) (token : string)
  (offsets : list Z) : option (string * string) :=
  match offsets with
  | [] => None
  | off :: tl =>
      match candidates_on db document_id (page_no + off) with
      | [] => resolve_offsets db document_id page_no token tl
      | cands => resolve_on_page db cands token
      end
  end.

Definition _resolve_table_uid (db : DB) (document_id page_no : Z) (token : string)
  : option (string * string) :=
  resolve_offsets db document_id page_no token [0; -1; 1]%Z.

Definition linkable (document_id : Z) (c : ChunkRow) : bool :=
  (c_document_id c =? document_id)%Z
  && match c_chunk_kind c with
     | None => true
     | Some kind => negb (Py.str_in kind ["toc"; "front_matter"])
     end
  && negb (Chunking.is_some (c_table_uid c)).

Definition link_chunk (db : DB) (document_id : Z) (c : ChunkRow) : ChunkRow :=
  if linkable document_id c then
    match Re.search Re.I _TABLE_TOKEN_RE (c_text c) with
    | None => c
    | Some m =>
        let token := Py.or_empty (Re.group (c_text c) m 1) in
        match _resolve_table_uid db document_id (c_page_start c) token with
        | None => c
        | Some (table_uid, table_label) =>
            {| c_document_id := c_document_id c;
               c_chunk_index := c_chunk_index c;
               c_section_id := c_section_id c;
               c_heading := c_heading c;
               c_page_start := c_page_start c;
               c_page_end := c_page_end c;
               c_text := c_text c;
               c_is_table := c_is_table c;
               c_chunk_kind := c_chunk_kind c;
               c_equation_score := c_equation_score c;
               c_table_uid := Some table_uid;
               c_table_row_index := c_table_row_index c;
               c_table_label := Some table_label |}
        end
    end
  else c.

(** The rows are selected first and updated by id afterwards, and an update
    never changes what [_resolve_table_uid] reads. *)
Definition link_table_uids_for_document (db : DB) (document_id : Z) : DB :=
  {| documents := documents db;
     pages := pages db;
     chunks := map (link_chunk db document_id) (chunks db);
     tables := tables db;
     table_rows := table_rows db |}.

(** *** The rebuild

    [hashlib.sha1(...).hexdigest()] and the float heuristic [equation_score]
    are parameters of the rebuild. *)

Section Rebuild.

Variable sha1_hex : string -> string.
Variable equation_score : string -> Q.

Definition _stable_table_uid (document_id : Z) (filename : string)
  (page_number table_index_on_page : Z) (lines : list string) : string :=
  let content := Str.join Str.nl (firstn 25 lines) in
  let raw := (Str.of_Z document_id ++ "|" ++ filename ++ "|"
              ++ Str.of_Z page_number ++ "|" ++ Str.of_Z table_index_on_page
              ++ "|" ++ content)%string in
  ("tbl_" ++ sha1_hex raw)%string.

(** The running totals and the insert position, threaded through the loops. *)
Record ins := {
  db : DB;
  chunk_index : Z;
  total_chunks : Z;
  total_tables : Z;
  total_table_rows : Z
}.

Definition insert_chunk (c : ChunkRow) (st : ins) : ins :=
  {| db := {| documents := documents (db st);
              pages := pages (db st);
              chunks := chunks (db st) ++ [c];
              tables := tables (db st);
              table_rows := table_rows (db st) |};
     chunk_index := chunk_index st + 1;
     total_chunks := total_chunks st + 1;
     total_tables := total_tables st;
     total_table_rows := total_table_rows st |}.

Definition insert_table (t : TableRec) (st : ins) : ins :=
  {| db := {| documents := documents (db st);
              pages := pages (db st);
              chunks := chunks (db st);
              tables := insert_or_replace_table t (tables (db st));
              table_rows := table_rows (db st) |};
     chunk_index := chunk_index st;
     total_chunks := total_chunks st;
     total_tables := total_tables st + 1;
     total_table_rows := total_table_rows st |}.

Definition insert_table_row (r : TableRowRec) (st : ins) : ins :=
  {| db := {| documents := documents (db st);
              pages := pages (db st);
              chunks := chunks (db st);
              tables := tables (db st);
              table_rows := table_rows (db st) ++ [r] |};
     chunk_index := chunk_index st;
     total_chunks := total_chunks st;
     total_tables := total_tables st;
     total_table_rows := total_table_rows st + 1 |}.

(** The first insert loop: one row per chunk of the segmenter. *)
Definition content_row (doc_id : Z) (st : ins) (ch : Chunking.Chunk) : ChunkRow :=
  let eq_score := equation_score (Chunking.text ch) in
  let kind := if Qle_bool 0.45 eq_score then "equation"
              else classify_chunk (Chunking.section_id ch) (Chunking.text ch) in
  {| c_document_id := doc_id;
     c_chunk_index := chunk_index st;
     c_section_id := Chunking.section_id ch;
     c_heading := Chunking.heading ch;
     c_page_start := Chunking.page_start ch;
     c_page_end := Chunking.page_end ch;
     c_text := Chunking.text ch;
     c_is_table := false;
     c_chunk_kind := Some kind;
     c_equation_score := eq_score;
     c_table_uid := None;
     c_table_row_index := None;
     c_table_label := None |}.

Definition insert_content (doc_id : Z) (st : ins) (ch : Chunking.Chunk) : ins :=
  insert_chunk (content_row doc_id st ch) st.

(** The section context of each page, for tagging tables: the chunks sorted
    by page range are consumed while they start at or before the page. *)
Definition ctx : Type := option string * option string.

Fixpoint consume (page_no : Z) (remaining : list Chunking.Chunk) (cur : ctx)
  : list Chunking.Chunk * ctx :=
  match remaining with
  | [] => ([], cur)
  | ch :: tl =>
      if (Chunking.page_start ch <=? page_no)%Z then
        consume page_no tl
          (if Py.truthy (Chunking.section_id ch)
           then (Chunking.section_id ch, Chunking.heading ch) else cur)
      else (remaining, cur)
  end.

Definition context_step (st : list Chunking.Chunk * ctx * gmap Z ctx)
  (page : Z * string) : list Chunking.Chunk * ctx * gmap Z ctx :=
  let '(remaining, cur, by_page) := st in
  let '(remaining', cur') := consume (fst page) remaining cur in
  (remaining', cur', <[ fst page := cur' ]> by_page).

Definition section_context_by_page (chunks : list Chunking.Chunk)
  (pages : list (Z * string)) : gmap Z ctx :=
  let chunks_sorted :=
    Py.sorted (fun a b =>
                 (Chunking.page_start a <? Chunking.page_start b)%Z
                 || ((Chunking.page_start a =? Chunking.page_start b)%Z
                     && (Chunking.page_end a <=? Chunking.page_end b)%Z))
              chunks in
  snd (fold_left context_step pages (chunks_sorted, (None, None), ∅)).

(** The innermost loop: one [table_rows] row and one [table_row] chunk per
    non-blank line of the block. *)
Definition insert_row (doc_id page_no : Z) (section : ctx)
  (table_uid table_label : string) (st : ins) (row : nat * string) : ins :=
  let r_idx := Z.of_nat (fst row) in
  let row_text := Str.strip (snd row) in
  if Str.is_empty row_text then st
  else
    let st1 := insert_table_row
                 {| r_table_uid := table_uid; r_row_index := r_idx;
                    r_row_text := row_text |} st in
    insert_chunk
      {| c_document_id := doc_id;
         c_chunk_index := chunk_index st1;
         c_section_id := fst section;
         c_heading := snd section;
         c_page_start := page_no;
         c_page_end := page_no;
         c_text := row_text;
         c_is_table := true;
         c_chunk_kind := Some "table_row";
         c_equation_score := 0;
         c_table_uid := Some table_uid;
         c_table_row_index := Some r_idx;
         c_table_label := Some table_label |} st1.

Definition insert_block (d : Document) (page_no : Z) (section : ctx)
  (st : ins) (tb : nat * TableBlock) : ins :=
  let t_idx := Z.of_nat (fst tb) in
  let blk := snd tb in
  let table_uid := _stable_table_uid (d_id d) (d_filename d) page_no t_idx (lines blk) in
  let table_label :=
    ("Table (p. " ++ Str.of_Z page_no ++ ") #" ++ Str.of_Z t_idx)%string in
  let st1 := insert_table
               {| t_table_uid := table_uid;
                  t_document_id := d_id d;
                  t_filename := d_filename d;
                  t_display_name := d_display_name d;
                  t_doc_type := d_doc_type d;
                  t_mp_id := d_mp_id d;
                  t_section_id := fst section;
                  t_page_number := page_no;
                  t_table_index_on_page := t_idx;
                  t_table_label := table_label |} st in
  fold_left (insert_row (d_id d) page_no section table_uid table_label)
            (Py.enumerate 0 (lines blk)) st1.

Definition insert_page_tables (d : Document) (by_page : gmap Z ctx)
  (st : ins) (page : Z * string) : ins :=
  let page_no := fst page in
  let section := default (None, None) (by_page !! page_no) in
  fold_left (insert_block d page_no section)
            (Py.enumerate 1 (extract_table_blocks (snd page))) st.

(** [SELECT page_number, text FROM pages WHERE document_id = ? ORDER BY
    page_number], read as [(int(page_number), text or "")]. *)
Definition pages_of (store : DB) (doc_id : Z) : list (Z * string) :=
  map (fun p => (p_page_number p, Py.or_empty (p_text p)))
    (Py.sorted (fun a b => (p_page_number a <=? p_page_number b)%Z)
       (List.filter (fun p => (p_document_id p =? doc_id)%Z) (pages store))).

(** The body of the loop over the documents. *)
Definition rebuild_document (st : ins) (d : Document) : ins :=
  let doc_pages := pages_of (db st) (d_id d) in
  let doc_chunks := Chunking.chunk_document_pages doc_pages in
  let by_page := section_context_by_page doc_chunks doc_pages in
  let st0 := {| db := db st; chunk_index := 0;
                total_chunks := total_chunks st;
                total_tables := total_tables st;
                total_table_rows := total_table_rows st |} in
  let st1 := fold_left (insert_content (d_id d)) doc_chunks st0 in
  let st2 := fold_left (insert_page_tables d by_page) doc_pages st1 in
  {| db := link_table_uids_for_document (db st2) (d_id d);
     chunk_index := chunk_index st2;
     total_chunks := total_chunks st2;
     total_tables := total_tables st2;
     total_table_rows := total_table_rows st2 |}.

Record Counts := {
  n_documents : Z;
  n_chunks : Z;
  n_tables : Z;
  n_table_rows : Z
}.

(** [SELECT ... FROM documents ORDER BY id] *)
Definition docs_of (store : DB) : list Document :=
  Py.sorted (fun a b => (d_id a <=? d_id b)%Z) (documents store).

Definition wiped (store : DB) : DB :=
  {| documents := documents store; pages := pages store;
     chunks := []; tables := []; table_rows := [] |}.

Definition rebuild_state (store : DB) : ins :=
  fold_left rebuild_document (docs_of store)
    {| db := wiped store; chunk_index := 0; total_chunks := 0;
       total_tables := 0; total_table_rows := 0 |}.

Definition rebuild_chunks (store : DB) : DB * Counts :=
  let st := rebuild_state store in
  (db st,
   {| n_documents := Z.of_nat (length (docs_of store));
      n_chunks := total_chunks st;
      n_tables := total_tables st;
      n_table_rows := total_table_rows st |}).

End Rebuild.

End ChunkIngestion.

(* ------------------------------------------------------------------------- *)
(** ** rerank.py *)
(* ------------------------------------------------------------------------- *)

Module Rerank.

(** [is_section_intent]: [\b\d{3}(?:\.\d{2}){0,2}\b] in the upper-cased
    query, or the word SECTION. *)
Definition is_section_intent (query : string) : bool :=
  let q := Str.upper (Str.strip query) in
  Re.matches Re.plain
    (Re.seqs [Re.b; Re.times 3 Re.d;
              Re.upto 2 (Re.Seq (Re.chr ".") (Re.times 2 Re.d)); Re.b]) q
  || Str.contains "SECTION" q.

End Rerank.

(* ------------------------------------------------------------------------- *)
(** ** ask.py: the answer cascade *)
(* ------------------------------------------------------------------------- *)

Module Ask.

(** *** Exceptions *)

Inductive exn : Type :=
| LLMError (msg : string)
| StoreError (msg : string)
| OtherError (msg : string).

Inductive Exc (A : Type) : Type :=
| Ok (a : A)
| Raise (e : exn).

Arguments Ok {A} a.
Arguments Raise {A} e.

Definition bind {A B : Type} (m : Exc A) (f : A -> Exc B) : Exc B :=
  match m with
  | Ok a => f a
  | Raise e => Raise e
  end.

Notation "'perform' x <- m ; k" := (bind m (fun x => k))
  (at level 10, x name, m at level 100, k at level 200).

(** *** Hits and results *)

(** The attributes the cascade reads off a hit.  [text] is an attribute of
    the store hits only ([None] when the object has no such attribute). *)
Record Hit := {
  score : Q;
  chunk_id : Z;
  filename : string;
  display_name : string;
  section_id : option string;
  heading : option string;
  page_start : Z;
  page_end : Z;
  snippet : string;
  chunk_kind : option string;
  table_uid : option string;
  table_label : option string;
  text : option string
}.

Record TableOut := {
  out_table_uid : string;
  out_table_label : string;
  out_page_number : Z;
  out_open_url : string;
  out_filename : string;
  out_display_name : string
}.

(** The dict returned by the orchestrator. *)
Record AskResult := {
  confidence : string;
  answer : string;
  hits : list Hit;
  table : option TableOut
}.

Definition opt_eqb {A} (eqb : A -> A -> bool) (x y : option A) : bool :=
  match x, y with
  | Some a, Some b => eqb a b
  | None, None => true
  | _, _ => false
  end.

(** Dataclass equality, as used by [h in top_hits]. *)
Definition hit_eqb (a b : Hit) : bool :=
  Qeq_bool (score a) (score b)
  && (chunk_id a =? chunk_id b)%Z
  && String.eqb (filename a) (filename b)
  && String.eqb (display_name a) (display_name b)
  && opt_eqb String.eqb (section_id a) (section_id b)
  && opt_eqb String.eqb (heading a) (heading b)
  && (page_start a =? page_start b)%Z
  && (page_end a =? page_end b)%Z
  && String.eqb (snippet a) (snippet b)
  && opt_eqb String.eqb (chunk_kind a) (chunk_kind b)
  && opt_eqb String.eqb (table_uid a) (table_uid b)
  && opt_eqb String.eqb (table_label a) (table_label b)
  && opt_eqb String.eqb (text a) (text b).

Definition hit_in (h : Hit) (l : list Hit) : bool := existsb (hit_eqb h) l.

Definition kind_in (h : Hit) (kinds : list string) : bool :=
  match chunk_kind h with
  | Some kd => Py.str_in kd kinds
  | None => false
  end.

(** *** Small helpers of the cascade *)

(** [_is_time_limit_question]:
    [\bwithin how many days\b|\bwithin \d+ days\b|\bdays after\b|\bwithin .* days\b] *)
Definition _is_time_limit_question (query : string) : bool :=
  Re.matches Re.plain
    (Re.alts [Re.seqs [Re.b; Re.lit "within how many days"; Re.b];
              Re.seqs [Re.b; Re.lit "within "; Re.plus Re.d; Re.lit " days"; Re.b];
              Re.seqs [Re.b; Re.lit "days after"; Re.b];
              Re.seqs [Re.b; Re.lit "within "; Re.Star Re.dot; Re.lit " days"; Re.b]])
    (Str.lower query).

Definition pay_word : Re.re :=
  Re.alts [Re.lit "receipt"; Re.lit "receiv"; Re.lit "payment"; Re.lit "paid"].

(** [_has_payment_days_phrase]:
    [\b(\d+)\s+days.{0,120}\b(receipt|receiv|payment|paid)\b] or
    [\b(receipt|receiv|payment|paid)\b.{0,120}\b(\d+)\s+days\b], re.I *)
Definition _has_payment_days_phrase (text : string) : bool :=
  if Str.is_empty text then false
  else
    Re.matches Re.I
      (Re.seqs [Re.b; Re.Grp 1 (Re.plus Re.d); Re.plus Re.s; Re.lit "days";
                Re.range 0 120 Re.dot; Re.b; Re.Grp 2 pay_word; Re.b]) text
    || Re.matches Re.I
      (Re.seqs [Re.b; Re.Grp 1 pay_word; Re.b; Re.range 0 120 Re.dot; Re.b;
                Re.Grp 2 (Re.plus Re.d); Re.plus Re.s; Re.lit "days"; Re.b]) text.

Definition source_block (ih : nat * Hit) : string :=
  let '(i, h) := ih in
  ("[SOURCE " ++ Str.of_nat i ++ "]" ++ Str.nl
   ++ "Section: " ++ Py.or_empty (section_id h) ++ Str.nl
   ++ "Pages: " ++ Str.of_Z (page_start h) ++ "-" ++ Str.of_Z (page_end h) ++ Str.nl
   ++ "Excerpt:" ++ Str.nl
   ++ snippet h ++ Str.nl)%string.

Definition _format_sources_compact (hs : list Hit) : string :=
  Str.join Str.nl (map source_block (Py.enumerate 1 hs)).

Definition _llm_fallback_answer (hs : list Hit) : AskResult :=
  match hs with
  | h :: _ =>
      let snip := Str.strip (snippet h) in
      let ans :=
        if negb (Str.is_empty snip) then
          if Str.endswith snip "]" then snip else (snip ++ " [1]")%string
        else "Insufficient Evidence in retrieved sources. [1]" in
      {| confidence := "medium"; answer := ans; hits := firstn 1 hs; table := None |}
  | [] =>
      {| confidence := "low"; answer := "Insufficient Evidence."; hits := [];
         table := None |}
  end.

Definition _STOPWORDS : list string :=
  ["what"; "requirement"; "section"; "sections"; "the"; "a"; "an"; "for"; "of";
   "is"; "are"; "in"; "to"; "and"; "does"; "say"; "about"].

Definition lower_alnum : Re.re :=
  Re.plus (Re.Cls (fun c => Str.is_lower c || Str.is_digit c)).

(** [_tokenize_relevance]: a set, kept as a duplicate-free list. *)
Definition _tokenize_relevance (t : string) : list string :=
  Py.unique
    (List.filter (fun w => negb (Py.str_in w _STOPWORDS) && Nat.leb 3 (String.length w))
            (Re.findall Re.plain lower_alnum (Str.lower t))).

(** [_extract_section_pattern]: [\b\d{3}\.\d{2}(?:\.\d{2})?\b] *)
Definition _extract_section_pattern (query : string) : option string :=
  option_map (Re.group0 query)
    (Re.search Re.plain (Re.seqs [Re.b; Re.section_dot; Re.b]) query).

(** [q_tokens & s_tokens] *)
Definition overlap (q_tokens s_tokens : list string) : list string :=
  List.filter (fun t => Py.str_in t s_tokens) q_tokens.

Definition _is_relevant_hit (query : string) (h : Hit) : bool :=
  if match _extract_section_pattern query with
     | Some section_pat =>
         negb (Str.is_empty section_pat)
         && Str.startswith (Py.or_empty (section_id h)) section_pat
     | None => false
     end
  then true
  else
    let q_tokens := _tokenize_relevance query in
    match q_tokens with
    | [] => false
    | _ =>
        let snip := Str.lower (snippet h) in
        if existsb (fun tok => Str.contains tok snip) q_tokens then true
        else
          let s_tokens := _tokenize_relevance snip in
          Nat.leb 2 (length (overlap q_tokens s_tokens))
    end.

Definition insufficient_msg : string :=
  "Insufficient Evidence. I couldn’t find a reliable answer in the provided NJDOT manuals for that question. Try rephrasing using a section number, exact term, or MP ID, or switch to Sources Only.".

Definition weak_empty : AskResult :=
  {| confidence := "weak"; answer := insufficient_msg; hits := []; table := None |}.

Definition _weak_response (hs : list Hit) (query : string) : AskResult :=
  match hs with
  | [] => weak_empty
  | top :: _ =>
      if negb (_is_relevant_hit query top) then weak_empty
      else
        let snip := Str.strip (snippet top) in
        if Str.is_empty snip then weak_empty
        else
          {| confidence := "weak";
             answer := ("Closest match from NJDOT manuals: " ++ snip ++ " [1]")%string;
             hits := firstn 1 hs;
             table := None |}
  end.

(** *** Answer polishing *)

Definition _safe_confidence (conf ans : string) : string :=
  let a := Str.lower ans in
  if Str.contains "couldn’t find" a
     || Str.contains "could not find" a
     || Str.contains "not present in sources" a
     || Str.contains "not contained in sources" a
     || Str.contains "insufficient evidence" a
  then "weak" else conf.

Definition _looks_like_list_table_snippet (snip : string) : bool :=
  if Str.contains "Provide materials as specified in" snip then true
  else if Nat.leb 3 (Str.count "..." snip) then true
  else
    let lns := List.filter (fun ln => negb (Str.is_empty ln))
                 (map Str.strip (Str.splitlines snip)) in
    Nat.leb 4 (length lns)
    && Nat.leb 3 (length (List.filter (fun ln => Nat.leb (String.length ln) 80) lns)).

Definition _is_materials_heading (h : Hit) : bool :=
  Str.contains "materials" (Str.lower (Py.or_empty (heading h))).

(** [\d{3}(?:\.\d{2}){0,2}] *)
Definition section_num : Re.re :=
  Re.Seq (Re.times 3 Re.d) (Re.upto 2 (Re.Seq (Re.chr ".") (Re.times 2 Re.d))).

(** [[A-Z][A-Z0-9\s\-/]{6,}] *)
Definition caps_heading : Re.re :=
  Re.Seq (Re.Cls Str.is_upper)
    (Re.at_least 6
       (Re.Cls (fun c => Str.is_upper c || Str.is_digit c || Str.is_space c
                         || Py.str_in (String c "") ["-"; "/"]))).

Definition _make_answer_user_friendly (ans : string) : string :=
  if Str.is_empty ans then ans
  else
    let ans := Re.sub Re.plain
                 (Re.seqs [Re.Bol; Re.Star Re.s; section_num; Re.plus Re.s]) "" ans in
    let ans := Re.sub Re.plain
                 (Re.seqs [Re.Bol; Re.Star Re.s; caps_heading; Re.chr ":"; Re.Star Re.s])
                 "" ans in
    let ans := Re.sub Re.plain
                 (Re.seqs [Re.Bol; Re.Star Re.s; caps_heading; Re.plus Re.s;
                           Re.chr "-"; Re.Star Re.s]) "" ans in
    let ans := Re.sub Re.I
                 (Re.seqs [Re.b; Re.lit "specified in"; Re.plus Re.s;
                           Re.section_dot; Re.b])
                 "specified in the NJDOT manual" ans in
    let ans := Re.sub Re.I
                 (Re.seqs [Re.b; Re.lit "in"; Re.plus Re.s; Re.section_dot; Re.b])
                 "in the NJDOT manual" ans in
    Re.sub Re.I
      (Re.seqs [Re.b; Re.lit "specified in the NJDOT manual as:"; Re.Star Re.s])
      "" ans.

Definition section_page_triggers : list string :=
  ["which section"; "what section"; "section number"; "section id";
   "what page"; "which page"; "page number"; "where in the manual";
   "where in the spec"; "where can i find"; "cite"; "citation"; "reference"].

Definition _question_asks_for_section_or_page (query : string) : bool :=
  let q := Str.lower query in
  if existsb (fun t => Str.contains t q) section_page_triggers then true
  else Re.matches Re.I (Re.seqs [Re.b; Re.section_dot; Re.b]) q.

Definition _is_bare_section_id_query (query : string) : bool :=
  Chunking.is_some
    (Re.fullmatch Re.plain
       (Re.seqs [Re.Star Re.s; Re.section_dot; Re.Star Re.s]) query).

Definition punct : ascii -> bool :=
  fun c => Py.str_in (String c "") [","; "."; ";"; ":"].

Definition punct_or_space : ascii -> bool :=
  fun c => Nat.eqb (Str.code c) 32 || punct c.

(** The three clean-up substitutions shared by the polishing passes:
    [\s+([,.;:])] and [([,.;:])\s*,] keep the punctuation mark, [\s{2,}]
    becomes one blank. *)
Definition tidy (ans : string) : string :=
  let ans := Re.sub_group1 Re.plain
               (Re.Seq (Re.plus Re.s) (Re.Grp 1 (Re.Cls punct))) ans in
  let ans := Re.sub_group1 Re.plain
               (Re.seqs [Re.Grp 1 (Re.Cls punct); Re.Star Re.s; Re.chr ","]) ans in
  Re.sub Re.plain (Re.at_least 2 Re.s) " " ans.

Definition _strip_answer_metadata (ans query : string) : string :=
  if Str.is_empty ans then ans
  else
    let ans := Str.strip
                 (Re.sub Re.plain
                    (Re.seqs [Re.Star Re.s; Re.chr "["; Re.plus Re.d; Re.chr "]";
                              Re.Star Re.s]) " " ans) in
    let ans := Re.sub Re.I
                 (Re.seqs [Re.Star Re.s; Re.opt (Re.Alt (Re.chr "(") (Re.chr "["));
                           Re.Star Re.s; Re.lit "source"; Re.Star Re.s; Re.plus Re.d;
                           Re.Star Re.s; Re.opt (Re.Alt (Re.chr ")") (Re.chr "]"));
                           Re.Star Re.s]) " " ans in
    let ans := Re.sub Re.I
                 (Re.seqs [Re.b; Re.lit "source"; Re.Star Re.s; Re.chr ":"; Re.Star Re.s])
                 "" ans in
    if _question_asks_for_section_or_page query then
      Str.strip_chars punct_or_space
        (Re.sub Re.plain (Re.at_least 2 Re.s) " " ans)
    else
      let ans := Re.sub Re.I
                   (Re.seqs [Re.b;
                             Re.Grp 1 (Re.alts [Re.lit "as specified in"; Re.lit "per";
                                                Re.lit "in"; Re.lit "see"]);
                             Re.plus Re.s; Re.lit "section"; Re.plus Re.s;
                             section_num; Re.b]) "" ans in
      let ans := Re.sub Re.I
                   (Re.seqs [Re.b; Re.lit "section"; Re.plus Re.s; section_num; Re.b])
                   "" ans in
      let ans := Re.sub Re.I
                   (Re.seqs [Re.b; Re.lit "page"; Re.opt (Re.chr "s"); Re.plus Re.s;
                             Re.plus Re.d; Re.Star Re.s;
                             Re.Alt (Re.chr "-") (Re.lit "–");
                             Re.Star Re.s; Re.plus Re.d; Re.b]) "" ans in
      let ans := Re.sub Re.I
                   (Re.seqs [Re.b; Re.lit "page"; Re.plus Re.s; Re.plus Re.d; Re.b])
                   "" ans in
      Str.strip_chars punct_or_space (tidy ans).

(** [$] preceded by a fixed tail, for the dangling-fragment patterns. *)
Definition at_end (rs : list Re.re) : Re.re := Re.seqs (rs ++ [Re.Eol]).

Definition trailing : Re.re :=
  Re.Star (Re.Cls (fun c => Py.str_in (String c "") ["."; "!"] || Str.is_space c)).

Definition _polish_answer_text (ans : string) : string :=
  if Str.is_empty ans then ans
  else
    let ans := Re.sub Re.I
                 (Re.seqs [Re.b;
                           Re.Grp 1 (Re.alts [Re.lit "according to"; Re.lit "as stated in";
                                              Re.lit "as specified in"]);
                           Re.b; Re.opt (Re.Seq (Re.plus Re.s) (Re.lit "the"));
                           Re.plus Re.s;
                           Re.Grp 2 (Re.Alt (Re.Seq (Re.lit "source") (Re.opt (Re.chr "s")))
                                            (Re.lit "source"));
                           Re.b]) "" ans in
    let ans := Re.sub Re.I
                 (Re.seqs [Re.b;
                           Re.Grp 1 (Re.alts [Re.lit "stated in the source";
                                              Re.lit "provided sources";
                                              Re.lit "the sources say"]);
                           Re.b]) "" ans in
    let ans := Re.sub Re.I
                 (at_end [Re.b; Re.lit "according to";
                          Re.opt (Re.lit " the provided sources"); Re.opt (Re.chr ".")])
                 "" (Str.strip ans) in
    let ans := Re.sub Re.I
                 (at_end [Re.b; Re.lit "this is specified"; Re.opt (Re.lit " in");
                          Re.opt (Re.chr ".")]) "" (Str.strip ans) in
    let ans := Re.sub Re.I
                 (at_end [Re.b; Re.lit "this is stated"; Re.opt (Re.lit " in");
                          Re.opt (Re.chr ".")]) "" (Str.strip ans) in
    let ans := Re.sub Re.I
                 (at_end [Re.b; Re.lit "as stated in"; Re.opt (Re.chr ".")])
                 "" (Str.strip ans) in
    let ans := Re.sub Re.I
                 (at_end [Re.b; Re.lit "this is specified in"; Re.b])
                 "" (Str.strip ans) in
    let ans := Re.sub Re.I
                 (at_end [Re.b; Re.lit "this requirement is specified";
                          Re.opt (Re.Alt (Re.lit " in") (Re.lit " by")); Re.b; trailing])
                 "" (Str.strip ans) in
    let ans := Re.sub Re.I
                 (at_end [Re.b; Re.lit "this requirement is stated"; Re.b; trailing])
                 "" (Str.strip ans) in
    let ans := Str.strip (tidy ans) in
    if negb (Str.is_empty ans)
       && Re.matches Re.plain (Re.Seq (Re.Cls Str.is_alnum) Re.Eol) ans
    then (ans ++ ".")%string else ans.

(** *** Query shapes *)

Definition _looks_like_table_query (q : string) : bool :=
  let s := Str.lower q in
  existsb (fun w => Str.contains w s)
    ["table"; "tab."; "chart"; "tbl"; "requirements table"].

(** [\btable\s*(\d{3}\.\d{2}\.\d{2}-\d+|\d{3}\.\d{2}-\d+)\b], re.I *)
Definition _extract_table_token (query : string) : option string :=
  match Re.search Re.I
          (Re.seqs [Re.b; Re.lit "table"; Re.Star Re.s;
                    Re.Grp 1
                      (Re.Alt
                         (Re.seqs [Re.times 3 Re.d; Re.chr "."; Re.times 2 Re.d;
                                   Re.chr "."; Re.times 2 Re.d; Re.chr "-"; Re.plus Re.d])
                         (Re.seqs [Re.times 3 Re.d; Re.chr "."; Re.times 2 Re.d;
                                   Re.chr "-"; Re.plus Re.d]));
                    Re.b]) query with
  | Some m => Re.group query m 1
  | None => None
  end.

Definition _extract_exact_section_id (query : string) : option string :=
  let q := Str.strip query in
  match Re.fullmatch Re.plain Re.section_dot q with
  | Some _ => Some q
  | None =>
      match Re.match_ Re.plain
              (Re.seqs [Re.Bol; Re.Star Re.s; Re.Grp 1 Re.section_dot; Re.b]) q with
      | Some m => Re.group q m 1
      | None => None
      end
  end.

Definition _extract_section_prefix (query : string) : option string :=
  match Re.search Re.I
          (Re.seqs [Re.b; Re.lit "section"; Re.Star Re.s;
                    Re.Grp 1 (Re.times 3 Re.d); Re.b]) query with
  | Some m => Re.group query m 1
  | None =>
      match Re.search Re.plain
              (Re.seqs [Re.b; Re.lit "§"; Re.Star Re.s;
                        Re.Grp 1 (Re.times 3 Re.d); Re.b]) query with
      | Some m => Re.group query m 1
      | None =>
          match Re.fullmatch Re.plain
                  (Re.seqs [Re.Star Re.s; Re.times 3 Re.d; Re.Star Re.s])
                  (Str.strip query) with
          | Some _ => Some (Str.strip query)
          | None => None
          end
      end
  end.

(** *** Deterministic section excerpts *)

Definition _select_section_hits (hs : list Hit) : list Hit :=
  match hs with
  | [] => []
  | _ => firstn (Nat.min 6 (Nat.max 4 (length hs))) hs
  end.

Definition _trim_snippet (t : string) : string :=
  let s := Str.strip t in
  if Nat.ltb 600 (String.length s)
  then (Str.rstrip (Str.take 600 s) ++ "...")%string else s.

Definition excerpt_line (ih : nat * Hit) : string :=
  let '(idx, h) := ih in
  let hd := Str.strip (Py.or_empty (heading h)) in
  let pages :=
    if negb (page_end h =? 0)%Z && negb (page_end h =? page_start h)%Z
    then ("pp. " ++ Str.of_Z (page_start h) ++ "-" ++ Str.of_Z (page_end h))%string
    else ("p. " ++ Str.of_Z (page_start h))%string in
  let snip := _trim_snippet (snippet h) in
  if negb (Str.is_empty hd)
  then ("[" ++ Str.of_nat idx ++ "] " ++ hd ++ " (" ++ pages ++ "): " ++ snip)%string
  else ("[" ++ Str.of_nat idx ++ "] (" ++ pages ++ "): " ++ snip)%string.

Definition _build_section_excerpt (section_id_ : option string) (hs : list Hit)
  : string :=
  let first_id := match hs with h :: _ => section_id h | [] => None end in
  let section_label :=
    if Py.truthy section_id_ then Py.or_empty section_id_
    else if Py.truthy first_id then Py.or_empty first_id
    else "Section" in
  Str.strip
    (Str.join Str.nl
       ((section_label ++ " — Relevant excerpts from NJDOT manuals:")%string
        :: map excerpt_line (Py.enumerate 1 hs))).

(** *** Ranking the sources of a synthesis *)

Definition numeric_words : list string :=
  ["minimum"; "limit"; "limits"; "percent"; "percentage"; "days"; "day"; "$";
   "per occurrence"].

(** [(\$?\d[\d,]*(?:\.\d+)?|\b\d+%\b|percent)] *)
Definition amount_re : Re.re :=
  Re.Grp 1
    (Re.alts
       [Re.seqs [Re.opt (Re.chr "$"); Re.d;
                 Re.Star (Re.Cls (fun c => Str.is_digit c || Ascii.eqb c ","%char));
                 Re.opt (Re.Seq (Re.chr ".") (Re.plus Re.d))];
        Re.seqs [Re.b; Re.plus Re.d; Re.chr "%"; Re.b];
        Re.lit "percent"]).

Definition _keyword_overlap_score (query : string) (h : Hit) : nat :=
  match _tokenize_relevance query with
  | [] => 0
  | tokens =>
      let t := Str.lower (Py.or_empty (heading h) ++ " " ++ snippet h)%string in
      let base := length (List.filter (fun tok => Str.contains tok t) tokens) in
      let ql := Str.lower query in
      let numeric_intent :=
        existsb (fun w => Str.contains w ql) numeric_words
        || Re.matches Re.plain Re.d query in
      let s1 := if numeric_intent && Re.matches Re.plain amount_re t
                then base + 2 else base in
      if (Str.contains "liability" ql || Str.contains "insurance" ql)
         && (Str.contains "comprehensive general liability" t
             || Str.contains "general liability" t)
      then s1 + 3 else s1
  end.

Definition _is_prompt_payment_interest_intent (q : string) : bool :=
  let s := Str.lower q in
  if existsb (fun t => Str.contains t s)
       ["52:32-40"; "52:32-41"; "interest"; "prime rate"; "plus 1 percent";
        "accrue"; "tenth day"; "withholding payment"]
  then true
  else Re.matches Re.plain
         (Re.seqs [Re.b; Re.lit "52"; Re.Star Re.s; Re.chr ":"; Re.Star Re.s;
                   Re.lit "32-4"; Re.Grp 1 (Re.Alt (Re.chr "0") (Re.chr "1")); Re.b]) s.

Definition _statute_hit_score (h : Hit) : nat :=
  let t := Str.lower (Py.or_empty (heading h) ++ " " ++ snippet h ++ " "
                      ++ Py.or_empty (text h))%string in
  length (List.filter (fun key => Str.contains key t)
            ["52:32-40"; "52:32-41"; "prime rate"; "plus 1 percent"; "tenth day";
             "interest begins to accrue"]).

Definition days_patterns : list Re.re :=
  let n := Re.Grp 1 (Re.plus Re.d) in
  [Re.seqs [Re.lit "not paid within"; Re.plus Re.s; n; Re.plus Re.s; Re.lit "days"];
   Re.seqs [Re.lit "within"; Re.plus Re.s; n; Re.plus Re.s; Re.lit "days after receipt"];
   Re.seqs [Re.lit "within"; Re.plus Re.s; n; Re.plus Re.s; Re.lit "days of receipt"]].

Fixpoint first_days (t : string) (pats : list Re.re) : option string :=
  match pats with
  | [] => None
  | pat :: tl =>
      match Re.search Re.I pat t with
      | Some m => Re.group t m 1
      | None => first_days t tl
      end
  end.

Definition _extract_prompt_payment_days (t : string) : option string :=
  if Str.is_empty t then None else first_days t days_patterns.

(** [_top_table_block]: the hits of the table with the most hits (the first
    such table in hit order), at most eight of them. *)
Definition uid_of (h : Hit) : string := Py.or_empty (table_uid h).

Definition _top_table_block (hs : list Hit)
  : option string * option string * list Hit :=
  let table_hits := List.filter (fun h => Py.truthy (table_uid h)) hs in
  match table_hits with
  | [] => (None, None, [])
  | _ =>
      let uids := Py.unique (map uid_of table_hits) in
      let rows_of uid := List.filter (fun h => String.eqb (uid_of h) uid) table_hits in
      let best_uid :=
        fold_left (fun best uid =>
                     if Nat.ltb (length (rows_of best)) (length (rows_of uid))
                     then uid else best)
                  uids (hd "" uids) in
      let rows := firstn 8 (rows_of best_uid) in
      let label := match rows with
                   | r :: _ => if Py.truthy (table_label r)
                               then Py.or_empty (table_label r) else "Table"
                   | [] => "Table"
                   end in
      (Some best_uid, Some label, rows)
  end.

(** *** The collaborators of the cascade

    Everything the orchestrator obtains from the document store, the indexes
    and the generation model.  Each operation may raise. *)

Inductive Retrieval : Type :=
| Answered (res : AskResult)
| Retrieved (hs : list Hit) (conf : string) (used_prefix_fallback : bool).

Record Env := {
  (** The deterministic lookups and the retrieval that open
      [_ask_question_inner]: the explicit-table prelookup and the exact-section
      fetch answer at once; the section-prefix fetch and the hybrid search
      hand over hits and a confidence. *)
  retrieval : string -> string -> list string -> nat -> string -> Exc Retrieval;
  (** [_hydrate_text_for_hits] and the rebuilt query-focused snippets. *)
  rehydrate : list Hit -> string -> Exc (list Hit);
  (** The body of [if table_token:], which always returns. *)
  table_token_answer : string -> string -> list Hit -> string -> Exc AskResult;
  (** [_table_has_enough_rows(table_uid, min_rows)] *)
  _table_has_enough_rows : string -> nat -> Exc bool;
  (** [get_table_meta] with the display title and the link built from it,
      for a table token, a table uid, a label of the hits and the hit whose
      heading, snippet and text are title candidates: the answer text and the
      table block, [None] without metadata. *)
  table_block : option string -> string -> option string -> Hit
                -> Exc (option (string * TableOut));
  (** [get_llm()] *)
  get_llm : Exc unit;
  (** [llm.chat([system, user])] *)
  chat : string -> string -> Exc string
}.

Definition dq : string := String (ascii_of_nat 34) EmptyString.

Definition SYNTHESIS_PROMPT : string :=
  Str.join Str.nl
    ["You are NJDOT Knowledge Hub, a retrieval-first assistant.";
     EmptyString;
     "Use ONLY the provided SOURCES to answer the question.";
     "Answer in 2–4 sentences. Paraphrase; do NOT quote long passages.";
     ("If the evidence is insufficient, respond exactly: " ++ dq
      ++ "Insufficient Evidence." ++ dq)%string;
     "Do not add citations or mention chunk IDs.";
     "Do NOT include bracketed citations like [1] or [2].";
     "Do NOT mention section numbers or page numbers unless the user explicitly asks for a section/page.";
     ("Avoid phrases like " ++ dq ++ "as specified in Section..." ++ dq
      ++ " unless the user asked for section/page.")%string;
     ("Do NOT write " ++ dq ++ "SOURCE 1" ++ dq ++ ", " ++ dq ++ "SOURCE 2" ++ dq
      ++ ", or " ++ dq ++ "SOURCE:" ++ dq ++ " in the answer.")%string;
     ("Do NOT say " ++ dq ++ "according to the sources" ++ dq ++ " or " ++ dq
      ++ "the source states" ++ dq ++ ".")%string;
     ("Do NOT leave incomplete clauses (no trailing " ++ dq ++ "according to."
      ++ dq ++ ").")%string;
     "If you mention an amount/time/percentage, state it directly.";
     EmptyString].

(** *** Generative synthesis (the end of [_ask_question_inner]) *)

Definition low_value_kinds : list string := ["table_row"; "toc"; "front_matter"].

Definition preferred_of (hs : list Hit) : list Hit :=
  List.filter (fun h => negb (kind_in h low_value_kinds)) hs.

(** The keyword ranking, with statute-scoring chunks first for prompt-payment
    questions. *)
Definition rank_sources (q : string) (preferred : list Hit) : list Hit :=
  let ranked :=
    Py.sorted (fun a b => Nat.leb (_keyword_overlap_score q b)
                                  (_keyword_overlap_score q a)) preferred in
  if _is_prompt_payment_interest_intent q then
    let statute_ranked :=
      Py.sorted (fun a b => Nat.leb (_statute_hit_score b) (_statute_hit_score a))
                ranked in
    let statute_strong :=
      List.filter (fun h => Nat.leb 2 (_statute_hit_score h)) statute_ranked in
    match statute_strong with
    | [] => ranked
    | _ => statute_strong ++ List.filter (fun h => negb (hit_in h statute_strong)) ranked
    end
  else ranked.

(** The loop that pads [top_hits] up to four from the full hit list. *)
Fixpoint pad_top_hits (top_hits hs : list Hit) : list Hit :=
  match hs with
  | [] => top_hits
  | h :: tl =>
      if hit_in h top_hits then pad_top_hits top_hits tl
      else
        let top' := top_hits ++ [h] in
        if Nat.leb 4 (length top') then top' else pad_top_hits top' tl
  end.

Definition top_hits_of (q : string) (hs : list Hit) : list Hit :=
  let top := firstn 6 (rank_sources q (preferred_of hs)) in
  if Nat.ltb (length top) 4 then pad_top_hits top hs else top.

Definition user_prompt_of (q sources_text : string) : string :=
  ("QUESTION:" ++ Str.nl ++ q ++ Str.nl ++ Str.nl
   ++ "SOURCES:" ++ Str.nl ++ sources_text ++ Str.nl)%string.

(** The gate of the numeric guard:
    [\bhow many days\b|\bwithin \d+ days\b|\bdays\b] on the lower-cased query. *)
Definition days_question (q : string) : bool :=
  Re.matches Re.plain
    (Re.alts [Re.seqs [Re.b; Re.lit "how many days"; Re.b];
              Re.seqs [Re.b; Re.lit "within "; Re.plus Re.d; Re.lit " days"; Re.b];
              Re.seqs [Re.b; Re.lit "days"; Re.b]])
    (Str.lower q).

(** [set(re.findall(r"\b\d+\b", answer))] *)
Definition nums_in_answer (ans : string) : list string :=
  Py.unique (Re.findall Re.plain (Re.seqs [Re.b; Re.plus Re.d; Re.b]) ans).

(** [nums_in_answer and not any(n in src_blob for n in nums_in_answer)] *)
Definition numeric_guard_trips (sources_text ans : string) : bool :=
  let src_blob := Str.lower sources_text in
  let nums := nums_in_answer ans in
  negb (Nat.eqb (length nums) 0)
  && negb (existsb (fun n => Str.contains n src_blob) nums).

(** The deterministic prompt-payment sentence, or the empty string. *)
Definition statute_answer (q : string) (top_hits : list Hit) : string :=
  if _is_prompt_payment_interest_intent q then
    match find (fun h => Nat.leb 2 (_statute_hit_score h)) top_hits with
    | Some statute_best =>
        let statute_text :=
          (Py.or_empty (text statute_best) ++ " " ++ snippet statute_best)%string in
        match _extract_prompt_payment_days statute_text with
        | Some days =>
            if Str.is_empty days then EmptyString
            else ("Interest begins to accrue if the subcontractor is not paid within "
                  ++ days ++ " days after receipt of payment.")%string
        | None => EmptyString
        end
    | None => EmptyString
    end
  else EmptyString.

(** How the [try] block ends: with a [return], or by falling through with
    the accepted answer. *)
Inductive flow : Type :=
| Return (res : AskResult)
| Continue (ans : string).

(** The answer before the guard: the deterministic prompt-payment sentence
    when there is one, else the stripped reply of the generation model. *)
Definition draft_answer (env : Env) (q : string) (top_hits : list Hit)
  (sources_text : string) : Exc string :=
  let ans0 := statute_answer q top_hits in
  if Str.is_empty ans0
  then perform a <- chat env SYNTHESIS_PROMPT (user_prompt_of q sources_text);
       Ok (Str.strip a)
  else Ok ans0.

(** The body of the [try] block. *)
Definition synthesis_try (env : Env) (q : string) (hs top_hits : list Hit)
  (sources_text : string) : Exc flow :=
  perform _ <- get_llm env;
  if _is_time_limit_question q && negb (_has_payment_days_phrase sources_text) then
    Ok (Return {| confidence := "weak"; answer := "Insufficient Evidence.";
                  hits := hs; table := None |})
  else
    perform ans <- draft_answer env q top_hits sources_text;
    if days_question q && numeric_guard_trips sources_text ans
    then Ok (Return (_llm_fallback_answer hs))
    else Ok (Continue ans).

(** From [# LLM synthesis for answer mode] to the end of the function: both
    [except] clauses return the fallback. *)
Definition synthesis (env : Env) (q conf : string) (hs : list Hit) : AskResult :=
  match preferred_of hs with
  | [] => _weak_response hs q
  | _ =>
      let top_hits := top_hits_of q hs in
      let sources_text := _format_sources_compact top_hits in
      match synthesis_try env q hs top_hits sources_text with
      | Raise _ => _llm_fallback_answer hs
      | Ok (Return res) => res
      | Ok (Continue ans) =>
          {| confidence := _safe_confidence conf ans;
             answer := _polish_answer_text
                         (_strip_answer_metadata (_make_answer_user_friendly ans) q);
             hits := hs;
             table := None |}
      end
  end.

(** *** The deterministic passthroughs before synthesis *)

Definition cite (snip : string) : string :=
  let ans := Str.strip snip in
  if Str.endswith ans "]" then ans else (ans ++ " [1]")%string.

(** The top hit is table-backed and the query asks about a table. *)
Definition top_table_answer (env : Env) (q : string) (hs : list Hit)
  (table_token : option string) : Exc (option AskResult) :=
  match hs with
  | h0 :: _ =>
      if Py.truthy (table_uid h0) && _looks_like_table_query q then
        perform enough <- _table_has_enough_rows env (uid_of h0) 2;
        if enough then
          perform tb <- table_block env table_token (uid_of h0) None h0;
          Ok (option_map
                (fun at_ : string * TableOut =>
                   {| confidence := "strong"; answer := fst at_;
                      hits := firstn 1 hs; table := Some (snd at_) |}) tb)
        else Ok None
      else Ok None
  | [] => Ok None
  end.

(** [\btable\s*(\d{3}\.\d{2}-\d+)\b] on the lower-cased query, and the first
    hit whose snippet shows that table with at least 25 digits. *)
Definition table_header_answer (q conf : string) (hs : list Hit)
  : option AskResult :=
  let ql := Str.lower q in
  match Re.search Re.plain
          (Re.seqs [Re.b; Re.lit "table"; Re.Star Re.s;
                    Re.Grp 1 (Re.seqs [Re.times 3 Re.d; Re.chr "."; Re.times 2 Re.d;
                                       Re.chr "-"; Re.plus Re.d]);
                    Re.b]) ql with
  | Some m =>
      let token := Py.or_empty (Re.group ql m 1) in
      match find (fun h =>
                    let s := Str.lower (snippet h) in
                    Str.contains ("table " ++ token)%string s
                    && Nat.leb 25 (Str.count_chars Str.is_digit s)) hs with
      | Some best =>
          Some {| confidence := conf; answer := cite (snippet best);
                  hits := [best]; table := None |}
      | None => None
      end
  | None => None
  end.

Definition materials_answer (conf : string) (hs : list Hit) : option AskResult :=
  match hs with
  | h0 :: _ =>
      if _is_materials_heading h0 && _looks_like_list_table_snippet (snippet h0)
      then Some {| confidence := conf; answer := cite (snippet h0);
                   hits := firstn 1 hs; table := None |}
      else None
  | [] => None
  end.

Definition block_table_answer (env : Env) (q conf : string) (hs : list Hit)
  (table_token : option string) : Exc (option AskResult) :=
  let '(tuid, tlabel, table_rows) := _top_table_block hs in
  match table_rows, tuid with
  | r0 :: _, Some uid =>
      if _looks_like_table_query q && negb (Str.is_empty uid) then
        perform tb <- table_block env table_token uid tlabel r0;
        Ok (option_map
              (fun at_ : string * TableOut =>
                 {| confidence := conf; answer := fst at_;
                    hits := table_rows; table := Some (snd at_) |}) tb)
      else Ok None
  | _, _ => Ok None
  end.

(** From [# Weak retrieval: do not synthesize] to the end of the function. *)
Definition answer_tail (env : Env) (q conf : string) (hs : list Hit)
  (table_token : option string) : Exc AskResult :=
  if String.eqb conf "weak" || Nat.eqb (length hs) 0 then Ok (_weak_response hs q)
  else
    perform r1 <- top_table_answer env q hs table_token;
    match r1 with
    | Some res => Ok res
    | None =>
        match table_header_answer q conf hs with
        | Some res => Ok res
        | None =>
            match materials_answer conf hs with
            | Some res => Ok res
            | None =>
                perform r2 <- block_table_answer env q conf hs table_token;
                match r2 with
                | Some res => Ok res
                | None => Ok (synthesis env q conf hs)
                end
            end
        end
    end.

(** *** The cascade after retrieval *)

(** Prefer content chunks, keeping at most one low-value chunk ahead of the
    rest when fewer than [k] content chunks were retrieved. *)
Definition prefer_content (k : nat) (hs : list Hit) : list Hit :=
  let preferred := preferred_of hs in
  let low_value := List.filter (fun h => kind_in h low_value_kinds) hs in
  match preferred with
  | [] => hs
  | _ =>
      if Nat.leb k (length preferred) then firstn k preferred ++ low_value
      else
        let allowed_low_value := Nat.min 1 (k - length preferred) in
        preferred ++ firstn allowed_low_value low_value
                  ++ skipn allowed_low_value low_value
  end.

Definition plain_result (conf ans : string) (hs : list Hit) : AskResult :=
  {| confidence := conf; answer := ans; hits := hs; table := None |}.

Definition cascade (env : Env) (q : string) (k : nat) (mode conf : string)
  (hs : list Hit) (used_prefix_fallback : bool) : Exc AskResult :=
  let exact := _extract_exact_section_id q in
  let prefix := _extract_section_prefix q in
  let table_token := _extract_table_token q in
  if String.eqb mode "sources_only" then
    Ok (plain_result conf "Sources only: see citations on the right." hs)
  else if String.eqb mode "answer" && _is_bare_section_id_query q then
    Ok (plain_result conf
          ("See the citations panel for Section " ++ Str.strip q ++ ".")%string hs)
  else if String.eqb mode "answer" && _question_asks_for_section_or_page q
          && negb (_is_bare_section_id_query q) then
    Ok (plain_result conf "See the citations panel" hs)
  else
    let table_intent := _looks_like_table_query q in
    let hs := if negb table_intent
              then List.filter (fun h => negb (kind_in h ["table_row"])) hs else hs in
    let hs := if String.eqb mode "answer" && negb table_intent
                 && negb (Rerank.is_section_intent q)
              then prefer_content k hs else hs in
    if Rerank.is_section_intent q && negb (_looks_like_table_query q)
       && negb (_question_asks_for_section_or_page q) then
      match hs with
      | [] =>
          Ok (plain_result "weak"
                "Insufficient Evidence. I couldn’t find that section in the provided manuals."
                [])
      | _ =>
          let section_label := if Py.truthy exact then exact else prefix in
          let merged_hits := _select_section_hits hs in
          Ok (plain_result conf (_build_section_excerpt section_label merged_hits)
                merged_hits)
      end
    else if Py.truthy table_token then
      table_token_answer env (Py.or_empty table_token) q hs conf
    else answer_tail env q conf hs table_token.

Definition _ask_question_inner (env : Env) (query scope : string)
  (mp_ids : list string) (k : nat) (mode : string) : Exc AskResult :=
  perform r <- retrieval env query scope mp_ids k mode;
  match r with
  | Answered res => Ok res
  | Retrieved hs conf used_prefix_fallback =>
      perform hs' <- rehydrate env hs query;
      cascade env query k mode conf hs' used_prefix_fallback
  end.

(** [except Exception]: log, and answer [_weak_response([], query)]. *)
Definition ask_question (env : Env) (query scope : string)
  (mp_ids : list string) (k : nat) (mode : string) : AskResult :=
  match _ask_question_inner env query scope mp_ids k mode with
  | Ok res => res
  | Raise _ => _weak_response [] query
  end.

End Ask.

(* ------------------------------------------------------------------------- *)
(** ** Vocabulary of the properties, and sample data *)
(* ------------------------------------------------------------------------- *)

Section FusionVocabulary.

Import HybridChunks.

(** The three confidence levels in increasing order. *)
Definition level (c : string) : nat :=
  if String.eqb c "strong" then 2 else if String.eqb c "medium" then 1 else 0.

(** The 1-based rank of [key] in a list enumerated from [start]. *)
Fixpoint rank_of (key : Z) (lst : list Z) (start : nat) : option nat :=
  match lst with
  | [] => None
  | x :: t => if (x =? key)%Z then Some start else rank_of key t (S start)
  end.

(** What one list adds to the fused score of [key]. *)
Definition contribution (k key : Z) (lst : list Z) : Q :=
  match rank_of key lst 1 with
  | Some r => (1 / inject_Z (k + Z.of_nat r))%Q
  | None => 0%Q
  end.

Definition appears (key : Z) (lst : list Z) : bool := existsb (Z.eqb key) lst.

(** The sum of the reciprocal ranks over the lists in which [key] appears. *)
Definition rrf_sum (k key : Z) (lists : list (list Z)) : Q :=
  fold_right Qplus 0%Q (map (contribution k key) (List.filter (appears key) lists)).

End FusionVocabulary.

Section LexicalVocabulary.

Import BM25Chunks.

Definition allowedb (index : BM25ChunksIndex) (ok : Meta -> bool) (i : nat) : bool :=
  match nth_error (meta index) i with Some m => ok m | None => false end.

(** The in-scope rows of the index in rank order, each with its position. *)
Definition in_scope_rows (index : BM25ChunksIndex) (scores : list Q)
  (ok : Meta -> bool) : list (nat * Meta) :=
  flat_map (fun i => match nth_error (meta index) i with
                     | Some m => if ok m then [(i, m)] else []
                     | None => []
                     end) (ranked_all scores).

Definition sample_meta (id : Z) (kind body : string) : Meta :=
  {| m_chunk_id := id; m_document_id := 1; m_filename := "manual.pdf";
     m_display_name := "Manual"; m_doc_type := Some kind; m_mp_id := None;
     m_section_id := None; m_heading := None; m_page_start := 1; m_page_end := 1;
     m_chunk_kind := Some "content"; m_equation_score := 0;
     m_table_uid := None; m_table_label := None; m_table_row_index := None;
     m_text := body |}.

(** Three chunks, none of which scores above zero for any query. *)
Definition sample_index : BM25ChunksIndex :=
  {| get_scores := fun _ => [-0.5; 0; -0.25]%Q;
     meta := [sample_meta 1 "standspec" "Rigid metallic conduit";
              sample_meta 2 "mp" "Sampling of aggregate";
              sample_meta 3 "standspec" "Coarse aggregate gradation"] |}.

End LexicalVocabulary.

Section SegmenterVocabulary.

Import Chunking.

Definition nonempty_text (c : Chunk) : Prop := text c <> "".

Definition ordered_pages (c : Chunk) : Prop := (page_start c <= page_end c)%Z.

(** While the pages are scanned: the open chunk started at or before page
    [b], and every closed chunk has an ordered page range. *)
Definition tracking (b : Z) (a : acc) : Prop :=
  Forall ordered_pages (chunks a)
  /\ (forall s, cur_start a = Some s -> (s <= b)%Z)
  /\ (forall s e, cur_start a = Some s -> cur_end a = Some e -> (s <= e)%Z).

End SegmenterVocabulary.

Section RebuildVocabulary.

Import ChunkIngestion.

(** What every chunk row stored by a rebuild satisfies. *)
Definition chunk_invariant (c : ChunkRow) : Prop :=
  (c_page_start c <= c_page_end c)%Z
  /\ (c_table_row_index c <> None <-> c_chunk_kind c = Some "table_row").

Definition stored_ok (st : ins) : Prop := Forall chunk_invariant (chunks (db st)).

(** The rebuild reads the documents and the pages and never writes them. *)
Definition same_sources (store : DB) (st : ins) : Prop :=
  documents (db st) = documents store /\ pages (db st) = pages store.

Definition table_page : string :=
  Str.join Str.nl
    ["701.01  DESCRIPTION"; "See Table 701.02-1 for sizes.";
     "TABLE 701.02-1 Sizes"; "No. 4   100"; "No. 8   90-100";
     "No. 16  25-60"; "No. 50  0-15"; "701.02  MATERIALS"; "Provide it."].

Definition sample_store : DB :=
  {| documents := [ {| d_id := 7; d_filename := "spec.pdf"; d_display_name := "Spec";
                       d_doc_type := Some "standspec"; d_mp_id := None |} ];
     pages := [ {| p_document_id := 7; p_page_number := 2; p_text := Some table_page |};
                {| p_document_id := 7; p_page_number := 1; p_text := None |} ];
     chunks := []; tables := []; table_rows := [] |}.

(** The same documents and pages with a left-over table row. *)
Definition stale_store : DB :=
  {| documents := documents sample_store;
     pages := pages sample_store;
     chunks := [];
     tables := [];
     table_rows := [ {| r_table_uid := "tbl_old"; r_row_index := 0;
                        r_row_text := "stale" |} ] |}.

Definition long_table (last : string) : list string :=
  repeat "No. 4   100" 25 ++ [last].

End RebuildVocabulary.

Section AskVocabulary.

Import Ask.

(** The query names a subsection id that prefixes the hit's section id. *)
Definition shares_section_prefix (q : string) (h : Hit) : Prop :=
  exists pat, _extract_section_pattern q = Some pat
              /\ Str.startswith (Py.or_empty (section_id h)) pat = true.

(** Some relevance token of the query occurs inside the lower-cased snippet. *)
Definition token_in_snippet (q : string) (h : Hit) : Prop :=
  exists tok, In tok (_tokenize_relevance q)
              /\ Str.contains tok (Str.lower (snippet h)) = true.

(** The shape of every answer of [_weak_response]. *)
Definition defensive (q : string) (hs : list Hit) (r : AskResult) : Prop :=
  confidence r = "weak"
  /\ table r = None
  /\ ((hits r = [] /\ answer r = insufficient_msg)
      \/ exists top rest,
           hs = top :: rest
           /\ hits r = [top]
           /\ answer r = ("Closest match from NJDOT manuals: "
                          ++ Str.strip (snippet top) ++ " [1]")%string
           /\ Str.strip (snippet top) <> ""
           /\ (shares_section_prefix q top \/ token_in_snippet q top)).

(** The source block text and the final polishing of the synthesis step. *)
Definition sources_text_of (q : string) (hs : list Hit) : string :=
  _format_sources_compact (top_hits_of q hs).

Definition polished (ans q : string) : string :=
  _polish_answer_text (_strip_answer_metadata (_make_answer_user_friendly ans) q).

Definition confidence_levels : list string := ["strong"; "medium"; "weak"].

(** The answer text of the one-snippet fallback for a first hit [h]. *)
Definition fallback_text (h : Hit) : string :=
  let snip := Str.strip (snippet h) in
  if negb (Str.is_empty snip) then
    if Str.endswith snip "]" then snip else (snip ++ " [1]")%string
  else "Insufficient Evidence in retrieved sources. [1]".

Definition pay_hit : Hit :=
  {| score := 0.04; chunk_id := 41; filename := "standspec.pdf";
     display_name := "Standard Specifications";
     section_id := Some "109.05"; heading := Some "109.05  ESTIMATES";
     page_start := 12; page_end := 12;
     snippet := "Pay each subcontractor within 10 days after receipt of payment from the Department.";
     chunk_kind := Some "content"; table_uid := None; table_label := None;
     text := None |}.

Definition curing_hit : Hit :=
  {| score := 0.01; chunk_id := 77; filename := "standspec.pdf";
     display_name := "Standard Specifications";
     section_id := None; heading := None;
     page_start := 3; page_end := 3;
     snippet := "Concrete curing shall be kept separate.";
     chunk_kind := Some "content"; table_uid := None; table_label := None;
     text := None |}.

(** A store that retrieves [hs] at confidence [conf] and holds no table, and
    a generation model that always gives [reply]. *)
Definition env_with (hs : list Hit) (conf : string) (reply : Exc string) : Env :=
  {| retrieval := fun _ _ _ _ _ => Ok (Retrieved hs conf false);
     rehydrate := fun hs' _ => Ok hs';
     table_token_answer := fun _ q _ _ => Ok (_weak_response [] q);
     _table_has_enough_rows := fun _ _ => Ok false;
     table_block := fun _ _ _ _ => Ok None;
     get_llm := Ok tt;
     chat := fun _ _ => reply |}.



(** An exception [e] is raised inside the orchestration: by the retrieval
    stage, by the re-hydration of the snippets, or by the cascade that follows
    (the table lookups of its passthroughs included). *)
Definition raised_inside (env : Env) (query scope : string) (mp_ids : list string)
  (k : nat) (mode : string) (e : exn) : Prop :=
  retrieval env query scope mp_ids k mode = Raise e
  \/ exists hs conf u,
       retrieval env query scope mp_ids k mode = Ok (Retrieved hs conf u)
       /\ (rehydrate env hs query = Raise e
           \/ exists hs', rehydrate env hs query = Ok hs'
                          /\ cascade env query k mode conf hs' u = Raise e).

(** The exception [e] is raised by one of the operations on the document
    store that the request can call: its retrieval, the re-hydration of the
    snippets, the answer for the table its query names, or a table lookup of
    the passthroughs. *)
Definition raised_by_store (env : Env) (query scope : string)
  (mp_ids : list string) (k : nat) (mode : string) (e : exn) : Prop :=
  retrieval env query scope mp_ids k mode = Raise e
  \/ (exists hs, rehydrate env hs query = Raise e)
  \/ (exists hs conf,
        table_token_answer env (Py.or_empty (_extract_table_token query)) query
          hs conf = Raise e)
  \/ (exists uid, _table_has_enough_rows env uid 2 = Raise e)
  \/ (exists uid label h,
        table_block env (_extract_table_token query) uid label h = Raise e).

Definition days_query : string :=
  "Within how many days must the contractor pay a subcontractor?".
Definition due_query : string := "When is payment due to a subcontractor?".
Definition rate_query : string := "What is the rate for the job?".

Definition mixed_reply : string :=
  "The contractor must pay within 10 days, and never later than 45 days.".
Definition cited_reply : string := "Payment is due in 45 days [1].".
Definition invented_reply : string := "The contractor must pay within 45 days.".
Definition llm_timeout : exn := LLMError "request timed out".


End AskVocabulary.

(* ------------------------------------------------------------------------- *)
(** ** rerank.py: table-of-contents penalty *)
(* ------------------------------------------------------------------------- *)

Module RerankToc.

(** The tail shared by the three entry patterns: [.*?\.{2,}.*?\b\d{1,4}\b$] *)
Definition leader_and_page : list Re.re :=
  [Re.StarLazy Re.dot; Re.at_least 2 (Re.chr "."); Re.StarLazy Re.dot;
   Re.b; Re.range 1 4 Re.d; Re.b; Re.Eol].

(** [pat_sub = \b\d{3}\.\d{2}\b.*?\.{2,}.*?\b\d{1,4}\b$] *)
Definition pat_sub : Re.re :=
  Re.seqs ([Re.b; Re.times 3 Re.d; Re.chr "."; Re.times 2 Re.d; Re.b]
           ++ leader_and_page).

(** [pat_sec = \bSECTION\s+\d{3}\b.*?\.{2,}.*?\b\d{1,4}\b$] *)
Definition pat_sec : Re.re :=
  Re.seqs ([Re.b; Re.lit "SECTION"; Re.plus Re.s; Re.times 3 Re.d; Re.b]
           ++ leader_and_page).

(** [pat_div = \bDIVISION\s+\d{3}\b.*?\.{2,}.*?\b\d{1,4}\b$] *)
Definition pat_div : Re.re :=
  Re.seqs ([Re.b; Re.lit "DIVISION"; Re.plus Re.s; Re.times 3 Re.d; Re.b]
           ++ leader_and_page).

(** [[ln.strip() for ln in t.splitlines() if ln.strip()]] *)
Definition stripped_lines (t : string) : list string :=
  List.filter (fun ln => negb (Str.is_empty ln)) (map Str.strip (Str.splitlines t)).

Definition toc_entry_count (text : string) : nat :=
  length
    (List.filter (fun ln => Re.matches Re.plain pat_sub ln
                            || Re.matches Re.plain pat_sec ln
                            || Re.matches Re.plain pat_div ln)
       (stripped_lines text)).

Definition toc_penalty (text : string) (strong : bool) : Q :=
  let n := toc_entry_count text in
  if Nat.leb n 0 then 1
  else if strong then 1 / (1 + 3 * inject_Z (Z.of_nat n))
  else 1 / (1 + 0.5 * inject_Z (Z.of_nat n)).

End RerankToc.

(* ------------------------------------------------------------------------- *)
(** ** faiss_chunks.py: scope-filtered vector search *)
(* ------------------------------------------------------------------------- *)

Module FaissChunks.

Record FaissChunkHit := {
  score : Q;
  chunk_id : Z;
  document_id : Z;
  filename : string;
  display_name : string;
  doc_type : option string;
  mp_id : option string;
  section_id : option string;
  heading : option string;
  page_start : Z;
  page_end : Z;
  snippet : string;
  chunk_kind : option string;
  table_uid : option string;
  table_label : option string;
  table_row_index : option Z
}.

(** The loaded index: [index.search(embed_texts([query]), n)] as the list of
    [(score, idx)] pairs it yields for a query and a result count (the
    embedding model and the vector index live outside the repository), and
    the pickled metadata rows. *)
Record FaissChunksIndex := {
  search : string -> nat -> list (Q * Z);
  meta : list BM25Chunks.Meta
}.

Definition hit_of (score_ : Q) (m : BM25Chunks.Meta) : FaissChunkHit :=
  let txt := BM25Chunks.m_text m in
  let snippet :=
    (Str.strip (Str.replace_char (ascii_of_nat 10) " " (Str.take 350 txt))
     ++ (if Nat.ltb 350 (String.length txt) then BM25Chunks.ellipsis else ""))%string in
  {| score := score_;
     chunk_id := BM25Chunks.m_chunk_id m;
     document_id := BM25Chunks.m_document_id m;
     filename := BM25Chunks.m_filename m;
     display_name := BM25Chunks.m_display_name m;
     doc_type := BM25Chunks.m_doc_type m;
     mp_id := BM25Chunks.m_mp_id m;
     section_id := BM25Chunks.m_section_id m;
     heading := BM25Chunks.m_heading m;
     page_start := BM25Chunks.m_page_start m;
     page_end := BM25Chunks.m_page_end m;
     snippet := snippet;
     chunk_kind := BM25Chunks.m_chunk_kind m;
     table_uid := BM25Chunks.m_table_uid m;
     table_label := BM25Chunks.m_table_label m;
     table_row_index := BM25Chunks.m_table_row_index m |}.

(** The loop over the search results: negative indices are skipped,
    [meta[idx]] raises [IndexError] past the end ([None]), rows out of scope
    are skipped, and the loop stops once [len(hits) >= k]. *)
Fixpoint collect (metas : list BM25Chunks.Meta) (ok : BM25Chunks.Meta -> bool)
  (k : nat) (hits : list FaissChunkHit) (results : list (Q * Z))
  : option (list FaissChunkHit) :=
  match results with
  | [] => Some hits
  | (sc, idx) :: tl =>
      if (idx <? 0)%Z then collect metas ok k hits tl
      else
        match nth_error metas (Z.to_nat idx) with
        | None => None
        | Some m =>
            if negb (ok m) then collect metas ok k hits tl
            else
              let hits' := hits ++ [hit_of sc m] in
              if Nat.leb k (length hits') then Some hits'
              else collect metas ok k hits' tl
        end
  end.

Definition faiss_chunks_search_filtered (index : FaissChunksIndex)
  (query : string) (k : nat) (scope : string) (mp_ids : list string)
  (min_equation_score : option Q) : option (list FaissChunkHit) :=
  let mp_ids_norm := map Str.upper mp_ids in
  let n := Nat.min (length (meta index)) (Nat.max (k * 8) 50) in
  collect (meta index)
    (BM25Chunks.allowed_meta scope mp_ids_norm min_equation_score)
    k [] (search index query n).

End FaissChunks.

(* ------------------------------------------------------------------------- *)
(** ** hybrid_chunks.py: the hybrid search over chunks *)
(* ------------------------------------------------------------------------- *)

Module HybridChunksSearch.

(** [extract_section_dot]: [\b(\d{3}\.\d{2}(?:\.\d{2})?)\b] *)
Definition extract_section_dot (query : string) : option string :=
  match Re.search Re.plain
          (Re.seqs [Re.b; Re.Grp 1 Re.section_dot; Re.b]) query with
  | Some m => Re.group query m 1
  | None => None
  end.

(** [extract_section_prefix]: [\bsection\s*(\d{3})\b] with re.I, then the
    section-sign pattern as the source file spells it. *)
Definition extract_section_prefix (query : string) : option string :=
  match Re.search Re.I
          (Re.seqs [Re.b; Re.lit "section"; Re.Star Re.s;
                    Re.Grp 1 (Re.times 3 Re.d); Re.b]) query with
  | Some m => Re.group query m 1
  | None =>
      match Re.search Re.plain
              (Re.seqs [Re.b; Re.lit "Â§"; Re.Star Re.s;
                        Re.Grp 1 (Re.times 3 Re.d); Re.b]) query with
      | Some m => Re.group query m 1
      | None => None
      end
  end.

(** [_TABLE_QUERY_RE = \b(table|tbl|tab\.)\b], re.I *)
Definition _TABLE_QUERY_RE : Re.re :=
  Re.seqs [Re.b;
           Re.Grp 1 (Re.alts [Re.lit "table"; Re.lit "tbl"; Re.lit "tab."]);
           Re.b].

(** [_EQUATION_QUERY_RE], re.I *)
Definition _EQUATION_QUERY_RE : Re.re :=
  Re.seqs [Re.b;
           Re.Grp 1
             (Re.alts (map Re.lit
                ["equation"; "equations"; "formula"; "calculate"; "calculation";
                 "compute"; "how to compute"; "pay adjustment"; "ppa"; "pd";
                 "ql"; "iri"]));
           Re.b].

Definition is_table_query (q : string) : bool :=
  Re.matches Re.I _TABLE_QUERY_RE q.

Definition is_equation_query (q : string) : bool :=
  Re.matches Re.I _EQUATION_QUERY_RE q.

(** [SELECT COUNT(1) FROM table_rows WHERE table_uid = ?] *)
Definition table_row_count (rows : list ChunkIngestion.TableRowRec)
  (table_uid : string) : Z :=
  Z.of_nat
    (length (List.filter
               (fun r => String.eqb (ChunkIngestion.r_table_uid r) table_uid) rows)).

Record HybridChunkHit := {
  score : Q;
  chunk_id : Z;
  document_id : Z;
  filename : string;
  display_name : string;
  doc_type : option string;
  mp_id : option string;
  section_id : option string;
  heading : option string;
  page_start : Z;
  page_end : Z;
  snippet : string;
  chunk_kind : option string;
  bm25_score : option Q;
  vec_score : option Q;
  table_uid : option string;
  table_row_index : option Z;
  table_label : option string
}.

(** [h.score = s]: the one attribute the search rewrites. *)
Definition with_score (h : HybridChunkHit) (s : Q) : HybridChunkHit :=
  {| score := s;
     chunk_id := chunk_id h;
     document_id := document_id h;
     filename := filename h;
     display_name := display_name h;
     doc_type := doc_type h;
     mp_id := mp_id h;
     section_id := section_id h;
     heading := heading h;
     page_start := page_start h;
     page_end := page_end h;
     snippet := snippet h;
     chunk_kind := chunk_kind h;
     bm25_score := bm25_score h;
     vec_score := vec_score h;
     table_uid := table_uid h;
     table_row_index := table_row_index h;
     table_label := table_label h |}.

(** Dataclass equality, as used by [h not in preferred]. *)
Definition hit_eqb (a b : HybridChunkHit) : bool :=
  Qeq_bool (score a) (score b)
  && (chunk_id a =? chunk_id b)%Z
  && (document_id a =? document_id b)%Z
  && String.eqb (filename a) (filename b)
  && String.eqb (display_name a) (display_name b)
  && Ask.opt_eqb String.eqb (doc_type a) (doc_type b)
  && Ask.opt_eqb String.eqb (mp_id a) (mp_id b)
  && Ask.opt_eqb String.eqb (section_id a) (section_id b)
  && Ask.opt_eqb String.eqb (heading a) (heading b)
  && (page_start a =? page_start b)%Z
  && (page_end a =? page_end b)%Z
  && String.eqb (snippet a) (snippet b)
  && Ask.opt_eqb String.eqb (chunk_kind a) (chunk_kind b)
  && Ask.opt_eqb Qeq_bool (bm25_score a) (bm25_score b)
  && Ask.opt_eqb Qeq_bool (vec_score a) (vec_score b)
  && Ask.opt_eqb String.eqb (table_uid a) (table_uid b)
  && Ask.opt_eqb Z.eqb (table_row_index a) (table_row_index b)
  && Ask.opt_eqb String.eqb (table_label a) (table_label b).

Definition hit_in (h : HybridChunkHit) (l : list HybridChunkHit) : bool :=
  existsb (hit_eqb h) l.

(** [sort(key=lambda x: x.score, reverse=True)] *)
Definition by_score_desc (a b : HybridChunkHit) : bool :=
  Qle_bool (score b) (score a).

Definition sort_by_score (l : list HybridChunkHit) : list HybridChunkHit :=
  Py.sorted by_score_desc l.

Definition uid_of (h : HybridChunkHit) : string := Py.or_empty (table_uid h).

(** *** boost_table_hits_for_table_queries *)

Definition boosted_score (rows : list ChunkIngestion.TableRowRec)
  (target_section : option string) (h : HybridChunkHit) : Q :=
  let sc := score h in
  let hd := Str.lower (Py.or_empty (heading h)) in
  let sid := Str.lower (Py.or_empty (section_id h)) in
  let snip := Str.lower (snippet h) in
  if Py.truthy (table_uid h) then
    let nrows := table_row_count rows (uid_of h) in
    let sc := if (6 <=? nrows)%Z then (sc + 0.08)%Q
              else if (nrows <=? 2)%Z then (sc - 0.03)%Q else sc in
    let sc := if Str.contains "coarse aggregate" hd
                 || Str.contains "coarse aggregate" snip
              then (sc + 0.05)%Q else sc in
    let sc := if Str.contains "table" snip then (sc + 0.03)%Q else sc in
    if Py.truthy target_section
       && String.eqb sid (Py.or_empty target_section)
    then (sc + 0.12)%Q else sc
  else sc.

Definition boost_table_hits_for_table_queries
  (rows : list ChunkIngestion.TableRowRec) (query : string)
  (hits : list HybridChunkHit) : list HybridChunkHit :=
  let q := Str.lower query in
  let target_section := extract_section_dot q in
  let boosted := map (fun h => (boosted_score rows target_section h, h)) hits in
  map snd (Py.sorted (fun x y : Q * HybridChunkHit => Qle_bool (fst y) (fst x)) boosted).

(** [_text_dominant_section]: [(?m)^\s*(\d{3}\.\d{2}(?:\.\d{2})?)\b] in the
    first 350 characters. *)
Definition _text_dominant_section (snippet_ : string) : option string :=
  if Str.is_empty snippet_ then None
  else
    let head := Str.take 350 snippet_ in
    match Re.search Re.M
            (Re.seqs [Re.Bol; Re.Star Re.s; Re.Grp 1 Re.section_dot; Re.b]) head with
    | Some m => Re.group head m 1
    | None => None
    end.

(** *** _table_group_boost *)

Definition table_intent_words : list string :=
  ["table"; "chart"; "row"; "values"; "limit"].

(** [max(x.score for x in rows)] for a non-empty list. *)
Definition max_score (rows : list HybridChunkHit) : Q :=
  match rows with
  | [] => 0
  | r :: tl => fold_left (fun m x => if Qle_bool (score x) m then m else score x)
                 tl (score r)
  end.

(** The key [(len(rows), max score)] of a table, compared as tuples. *)
Definition key_lt (a b : nat * Q) : bool :=
  Nat.ltb (fst a) (fst b)
  || (Nat.eqb (fst a) (fst b) && negb (Qle_bool (snd b) (snd a))).

Definition _table_group_boost (results : list HybridChunkHit) (query : string)
  : list HybridChunkHit :=
  match results with
  | [] => results
  | _ =>
      let q := Str.lower query in
      if negb (existsb (fun w => Str.contains w q) table_intent_words) then results
      else
        let table_hits := List.filter (fun h => Py.truthy (table_uid h)) results in
        let uids := Py.unique (map uid_of table_hits) in
        let rows_of uid := List.filter (fun h => String.eqb (uid_of h) uid) table_hits in
        let eligible := List.filter (fun uid => Nat.leb 2 (length (rows_of uid))) uids in
        match eligible with
        | [] => results
        | first :: others =>
            let key uid := (length (rows_of uid), max_score (rows_of uid)) in
            let best_uid :=
              fold_left (fun best uid => if key_lt (key best) (key uid) then uid else best)
                        others first in
            let best_rows := firstn 6 (sort_by_score (rows_of best_uid)) in
            let rest :=
              List.filter (fun h => negb (Py.truthy (table_uid h))
                                    || negb (String.eqb (uid_of h) best_uid)) results in
            sort_by_score (best_rows ++ rest)
        end
  end.

(** *** collapse_tables *)

(** [best_by_table]: a dict from table uid to its best hit so far, in
    insertion order. *)
Fixpoint keep_best (best : list (string * HybridChunkHit)) (uid : string)
  (h : HybridChunkHit) : list (string * HybridChunkHit) :=
  match best with
  | [] => [(uid, h)]
  | (u, prev) :: tl =>
      if String.eqb u uid
      then (if negb (Qle_bool (score h) (score prev)) then (u, h) else (u, prev)) :: tl
      else (u, prev) :: keep_best tl uid h
  end.

Definition collapse_step (st : list (string * HybridChunkHit) * list HybridChunkHit)
  (h : HybridChunkHit) : list (string * HybridChunkHit) * list HybridChunkHit :=
  let '(best, non_table) := st in
  if Py.truthy (table_uid h) then (keep_best best (uid_of h) h, non_table)
  else (best, non_table ++ [h]).

Definition collapse_tables (hits : list HybridChunkHit) (k : nat)
  : list HybridChunkHit :=
  let '(best, non_table) := fold_left collapse_step hits ([], []) in
  firstn k (sort_by_score (map snd best ++ non_table)).

(** *** hybrid_chunks_search *)

(** The distinct keys of a list in order of first appearance: the key order
    of a dict filled from it. *)
Fixpoint distinct_from (seen l : list Z) : list Z :=
  match l with
  | [] => []
  | x :: t =>
      if existsb (Z.eqb x) seen then distinct_from seen t
      else x :: distinct_from (x :: seen) t
  end.

Definition distinct (l : list Z) : list Z := distinct_from [] l.

(** [{h.chunk_id: h for h in hits}.get(cid)]: the last hit with that id. *)
Definition last_with {H : Type} (id_of : H -> Z) (hits : list H) (cid : Z)
  : option H :=
  find (fun h => (id_of h =? cid)%Z) (rev hits).

(** [ref = b or v or eq_map.get(cid)]: the lexical hit, else the vector hit,
    else the hit of the equation pool. *)
Inductive ref : Type :=
| Lexical (h : BM25Chunks.BM25ChunkHit)
| Vector (h : FaissChunks.FaissChunkHit).

Definition fused_hit (sc : Q) (cid : Z) (r : ref)
  (b : option BM25Chunks.BM25ChunkHit) (v : option FaissChunks.FaissChunkHit)
  : HybridChunkHit :=
  let b_score := option_map BM25Chunks.score b in
  let v_score := option_map FaissChunks.score v in
  match r with
  | Lexical h =>
      {| score := sc; chunk_id := cid;
         document_id := BM25Chunks.document_id h;
         filename := BM25Chunks.filename h;
         display_name := BM25Chunks.display_name h;
         doc_type := BM25Chunks.doc_type h;
         mp_id := BM25Chunks.mp_id h;
         section_id := BM25Chunks.section_id h;
         heading := BM25Chunks.heading h;
         page_start := BM25Chunks.page_start h;
         page_end := BM25Chunks.page_end h;
         snippet := BM25Chunks.snippet h;
         chunk_kind := BM25Chunks.chunk_kind h;
         bm25_score := b_score; vec_score := v_score;
         table_uid := BM25Chunks.table_uid h;
         table_row_index := BM25Chunks.table_row_index h;
         table_label := BM25Chunks.table_label h |}
  | Vector h =>
      {| score := sc; chunk_id := cid;
         document_id := FaissChunks.document_id h;
         filename := FaissChunks.filename h;
         display_name := FaissChunks.display_name h;
         doc_type := FaissChunks.doc_type h;
         mp_id := FaissChunks.mp_id h;
         section_id := FaissChunks.section_id h;
         heading := FaissChunks.heading h;
         page_start := FaissChunks.page_start h;
         page_end := FaissChunks.page_end h;
         snippet := FaissChunks.snippet h;
         chunk_kind := FaissChunks.chunk_kind h;
         bm25_score := b_score; vec_score := v_score;
         table_uid := FaissChunks.table_uid h;
         table_row_index := FaissChunks.table_row_index h;
         table_label := FaissChunks.table_label h |}
  end.

(** The equation pool: [eq_map] is filled from the lexical hits and updated
    with the vector hits, so a vector hit wins. *)
Definition eq_lookup (eq_bm25_hits : list BM25Chunks.BM25ChunkHit)
  (eq_vec_hits : list FaissChunks.FaissChunkHit) (cid : Z) : option ref :=
  match last_with FaissChunks.chunk_id eq_vec_hits cid with
  | Some v => Some (Vector v)
  | None => option_map Lexical (last_with BM25Chunks.chunk_id eq_bm25_hits cid)
  end.

(** One pass of the loop that builds [results]. *)
Definition result_for (fused : gmap Z Q)
  (bm25_hits eq_bm25_hits : list BM25Chunks.BM25ChunkHit)
  (vec_hits eq_vec_hits : list FaissChunks.FaissChunkHit) (cid : Z)
  : list HybridChunkHit :=
  let b := last_with BM25Chunks.chunk_id bm25_hits cid in
  let v := last_with FaissChunks.chunk_id vec_hits cid in
  let r := match b, v with
           | Some h, _ => Some (Lexical h)
           | None, Some h => Some (Vector h)
           | None, None => eq_lookup eq_bm25_hits eq_vec_hits cid
           end in
  match r with
  | Some r => [fused_hit (default 0%Q (fused !! cid)) cid r b v]
  | None => []
  end.

(** The section-intent clean-up. *)
Definition low_kinds : list string := ["toc"; "front_matter"].

Definition kind_in (h : HybridChunkHit) (kinds : list string) : bool :=
  match chunk_kind h with
  | Some kd => Py.str_in kd kinds
  | None => false
  end.

Definition mismatched (h : HybridChunkHit) : bool :=
  match _text_dominant_section (snippet h) with
  | Some dom =>
      Py.truthy (section_id h) && negb (Str.is_empty dom)
      && negb (String.eqb dom (Py.or_empty (section_id h)))
  | None => false
  end.

Definition prefer (p : HybridChunkHit -> bool) (results : list HybridChunkHit)
  : list HybridChunkHit :=
  match List.filter p results with
  | [] => results
  | preferred =>
      preferred ++ List.filter (fun h => negb (hit_in h preferred)) results
  end.

Definition section_cleanup (query : string) (results : list HybridChunkHit)
  : list HybridChunkHit :=
  let section_prefix := extract_section_prefix query in
  let exact_section := extract_section_dot query in
  if Rerank.is_section_intent query then
    let results := List.filter (fun h => negb (kind_in h low_kinds)) results in
    let results := List.filter (fun h => negb (mismatched h)) results in
    if Py.truthy exact_section then
      prefer (fun h => Ask.opt_eqb String.eqb (section_id h) exact_section) results
    else if Py.truthy section_prefix then
      prefer (fun h => Py.truthy (section_id h)
                       && Str.startswith (Py.or_empty (section_id h))
                                         (Py.or_empty section_prefix)) results
    else results
  else results.

(** The equation boost. *)
Definition equation_boost (query : string) (results : list HybridChunkHit)
  : list HybridChunkHit :=
  if is_equation_query query then
    sort_by_score
      (map (fun h => if Ask.opt_eqb String.eqb (chunk_kind h) (Some "equation")
                     then with_score h (score h * 1.35)%Q else h) results)
  else results.

(** [\btable\s*([0-9]{3}\.[0-9]{2}-[0-9]+)\b] on the lower-cased query. *)
Definition table_token_of (query : string) : option string :=
  let qlow := Str.lower query in
  match Re.search Re.plain
          (Re.seqs [Re.b; Re.lit "table"; Re.Star Re.s;
                    Re.Grp 1 (Re.seqs [Re.times 3 Re.d; Re.chr "."; Re.times 2 Re.d;
                                       Re.chr "-"; Re.plus Re.d]);
                    Re.b]) qlow with
  | Some m => Re.group qlow m 1
  | None => None
  end.

(** [\b(percent|percentage|sieve|no\.\s*\d+)\b] *)
Definition tabular_words : Re.re :=
  Re.seqs [Re.b;
           Re.Grp 1 (Re.alts [Re.lit "percent"; Re.lit "percentage"; Re.lit "sieve";
                              Re.seqs [Re.lit "no."; Re.Star Re.s; Re.plus Re.d]]);
           Re.b].

Definition _table_token_bonus (table_token : string) (h : HybridChunkHit) : Q :=
  let s := Str.lower (snippet h) in
  let digits := Str.count_chars Str.is_digit s in
  let bonus :=
    if Str.contains ("table " ++ table_token)%string s then
      let b := 0.15%Q in
      let b := if Re.matches Re.plain tabular_words s then (b + 0.08)%Q else b in
      if Nat.leb 25 digits then (b + 0.05)%Q else b
    else 0%Q in
  if negb (Py.truthy (table_uid h))
     && Str.contains ("specified table " ++ table_token)%string s
     && Nat.ltb digits 10
  then (bonus - 0.08)%Q else bonus.

Definition table_token_boost (query : string) (results : list HybridChunkHit)
  : list HybridChunkHit :=
  match table_token_of query with
  | Some table_token =>
      if Str.is_empty table_token then results
      else sort_by_score
             (map (fun h => with_score h (score h + _table_token_bonus table_token h)%Q)
                  results)
  | None => results
  end.

(** [len(set(bm25_keys[:10]) & set(vec_keys[:10]))] *)
Definition overlap_top10 (bm25_keys vec_keys : list Z) : Z :=
  Z.of_nat
    (length (List.filter (fun key => existsb (Z.eqb key) (firstn 10 vec_keys))
               (distinct (firstn 10 bm25_keys)))).

(** Everything from [fused = ...] on, once the four searches have returned. *)
Definition fuse_and_shape (rows : list ChunkIngestion.TableRowRec)
  (query : string) (k : nat)
  (bm25_hits eq_bm25_hits : list BM25Chunks.BM25ChunkHit)
  (vec_hits eq_vec_hits : list FaissChunks.FaissChunkHit)
  : list HybridChunkHit * string :=
  let pool_k := Nat.max 60 (k * 12) in
  let bm25_keys := map BM25Chunks.chunk_id bm25_hits in
  let vec_keys := map FaissChunks.chunk_id vec_hits in
  let eq_keys := distinct (map BM25Chunks.chunk_id eq_bm25_hits
                           ++ map FaissChunks.chunk_id eq_vec_hits) in
  let ranked_lists :=
    match eq_keys with
    | [] => [bm25_keys; vec_keys]
    | _ => [bm25_keys; vec_keys; eq_keys]
    end in
  let fused := HybridChunks.reciprocal_rank_fusion ranked_lists 60 in
  let keys := distinct (concat ranked_lists) in
  let ranked_ids :=
    firstn (Nat.max pool_k 120)
      (Py.sorted (fun a b => Qle_bool (default 0%Q (fused !! b))
                                      (default 0%Q (fused !! a))) keys) in
  let results :=
    flat_map (result_for fused bm25_hits eq_bm25_hits vec_hits eq_vec_hits)
             ranked_ids in
  let results := section_cleanup query results in
  let results := equation_boost query results in
  let results := table_token_boost query results in
  let results := _table_group_boost results query in
  let results := collapse_tables results (Nat.max pool_k 120) in
  let results := if is_table_query query
                 then boost_table_hits_for_table_queries rows query results
                 else results in
  let results := sort_by_score results in
  let conf :=
    match results with
    | top :: _ =>
        HybridChunks.compute_confidence (score top) (overlap_top10 bm25_keys vec_keys)
    | [] => "weak"
    end in
  (firstn k results, conf).

(** The four searches; [None] is the [IndexError] of a search whose index
    and metadata disagree. *)
Definition hybrid_chunks_search (lexical : BM25Chunks.BM25ChunksIndex)
  (vectors : FaissChunks.FaissChunksIndex)
  (rows : list ChunkIngestion.TableRowRec)
  (query : string) (k : nat) (scope : string) (mp_ids : list string)
  : option (list HybridChunkHit * string) :=
  let pool_k := Nat.max 60 (k * 12) in
  match BM25Chunks.bm25_chunks_search_filtered lexical query pool_k scope mp_ids None with
  | None => None
  | Some bm25_hits =>
      match FaissChunks.faiss_chunks_search_filtered vectors query pool_k scope mp_ids None with
      | None => None
      | Some vec_hits =>
          if is_equation_query query then
            match BM25Chunks.bm25_chunks_search_filtered lexical query 50 scope mp_ids
                    (Some 0.45%Q) with
            | None => None
            | Some eq_bm25_hits =>
                match FaissChunks.faiss_chunks_search_filtered vectors query 50 scope
                        mp_ids (Some 0.45%Q) with
                | None => None
                | Some eq_vec_hits =>
                    Some (fuse_and_shape rows query k bm25_hits eq_bm25_hits
                            vec_hits eq_vec_hits)
                end
            end
          else Some (fuse_and_shape rows query k bm25_hits [] vec_hits [])
      end
  end.

End HybridChunksSearch.

Section GeneralVocabulary.

Context {A : Type}.

(** [l'] holds elements of [l], each at most as often as [l] does. *)
Definition sub_perm (l' l : list A) : Prop := exists rest, Permutation (l' ++ rest) l.

End GeneralVocabulary.

Section HybridVocabulary.

Import HybridChunksSearch.

(** The hit belongs to a stored table. *)
Definition table_backed (h : HybridChunkHit) : bool := Py.truthy (table_uid h).

(** Hits in non-increasing score order. *)
Definition score_ordered (l : list HybridChunkHit) : Prop :=
  StronglySorted (fun a b => (score b <= score a)%Q) l.

(** The table uids of the table-backed hits of a list. *)
Definition table_uids_of (l : list HybridChunkHit) : list string :=
  map uid_of (List.filter table_backed l).

(** What the loop of [collapse_tables] has after the hits [seen]. *)
Definition collapsed (seen : list HybridChunkHit)
  (st : list (string * HybridChunkHit) * list HybridChunkHit) : Prop :=
  let '(best, non_table) := st in
  List.NoDup (map fst best)
  /\ (forall u b, In (u, b) best -> In b seen /\ table_backed b = true /\ uid_of b = u)
  /\ (forall h, In h non_table -> In h seen /\ table_backed h = false)
  /\ (forall h, In h seen -> table_backed h = true ->
                exists b, In (uid_of h, b) best /\ (score h <= score b)%Q)
  /\ (forall h, In h seen -> table_backed h = false -> In h non_table)
  /\ (length best + length non_table <= length seen)%nat
  /\ sub_perm (map snd best ++ non_table) seen.

(** A hit without its score: what the shaping passes never change. *)
Definition core (h : HybridChunkHit) : HybridChunkHit := with_score h 0.

(** The hits of [l'] are hits of [l] up to their scores, none used twice. *)
Definition derived (l' l : list HybridChunkHit) : Prop :=
  sub_perm (map core l') (map core l).

(** The hit shows the chunk of the metadata row [m]. *)
Definition built_from (h : HybridChunkHit) (m : BM25Chunks.Meta) : Prop :=
  chunk_id h = BM25Chunks.m_chunk_id m
  /\ document_id h = BM25Chunks.m_document_id m
  /\ doc_type h = BM25Chunks.m_doc_type m
  /\ mp_id h = BM25Chunks.m_mp_id m
  /\ section_id h = BM25Chunks.m_section_id m
  /\ chunk_kind h = BM25Chunks.m_chunk_kind m
  /\ table_uid h = BM25Chunks.m_table_uid m.

(** The chunk of the hit is a row of one of the two indexes, and the scope
    filter allows that row. *)
Definition retrieved_in_scope (lexical : BM25Chunks.BM25ChunksIndex)
  (vectors : FaissChunks.FaissChunksIndex) (scope : string) (mp_ids : list string)
  (h : HybridChunkHit) : Prop :=
  exists m, (In m (BM25Chunks.meta lexical) \/ In m (FaissChunks.meta vectors))
            /\ BM25Chunks.allowed_meta scope (map Str.upper mp_ids) None m = true
            /\ built_from h m.

(** A small corpus: a table of contents, two sections and two rows of one
    table; the lexical and the vector index rank it differently. *)
Definition corpus_row (id : Z) (kind : string) (section : option string)
  (uid : option string) (body : string) : BM25Chunks.Meta :=
  {| BM25Chunks.m_chunk_id := id; BM25Chunks.m_document_id := 1;
     BM25Chunks.m_filename := "spec.pdf"; BM25Chunks.m_display_name := "Spec";
     BM25Chunks.m_doc_type := Some "standspec"; BM25Chunks.m_mp_id := None;
     BM25Chunks.m_section_id := section; BM25Chunks.m_heading := None;
     BM25Chunks.m_page_start := id; BM25Chunks.m_page_end := id;
     BM25Chunks.m_chunk_kind := Some kind; BM25Chunks.m_equation_score := 0;
     BM25Chunks.m_table_uid := uid; BM25Chunks.m_table_label := None;
     BM25Chunks.m_table_row_index := None; BM25Chunks.m_text := body |}.

Definition corpus : list BM25Chunks.Meta :=
  [corpus_row 1 "toc" None None "701.01 Description ........ 339";
   corpus_row 2 "content" (Some "701.01") None "701.01  DESCRIPTION This section covers conduit.";
   corpus_row 3 "content" (Some "701.02") None "701.02  MATERIALS Provide conduit.";
   corpus_row 4 "table_row" (Some "701.02") (Some "tbl_a") "No. 4   100";
   corpus_row 5 "table_row" (Some "701.02") (Some "tbl_a") "No. 8   90-100"].

Definition corpus_lexical : BM25Chunks.BM25ChunksIndex :=
  {| BM25Chunks.get_scores := fun _ => [2; 1.5; 0.5; 1; 0.75]%Q;
     BM25Chunks.meta := corpus |}.

Definition corpus_vectors : FaissChunks.FaissChunksIndex :=
  {| FaissChunks.search := fun _ n =>
       firstn n [(0.9%Q, 1%Z); (0.8%Q, 3%Z); (0.7%Q, 4%Z); (0.6%Q, (-1)%Z); (0.5%Q, 0%Z)];
     FaissChunks.meta := corpus |}.

(** The rows of the corpus as fused hits, scored by the lexical index. *)
Definition corpus_hits : list HybridChunkHit :=
  map (fun im =>
         let h := BM25Chunks.hit_of (BM25Chunks.get_scores corpus_lexical [])
                                    (fst im) (snd im) in
         fused_hit (BM25Chunks.score h) (BM25Chunks.chunk_id h) (Lexical h) (Some h) None)
      (combine (seq 0 (length corpus)) corpus).

End HybridVocabulary.

Section TableVocabulary.

Import ChunkIngestion.

Definition table_header (ln : string) : bool := Re.matches Re.I _TABLE_HEADER_RE ln.

Definition section_header (ln : string) : bool :=
  Re.matches Re.plain _SECTION_HEADER_RE ln.

Definition nonblank (ln : string) : bool := negb (Str.is_empty (Str.strip ln)).

(** The lines under a table header: no further header of a table or of a
    section. *)
Definition table_body (tl : list string) : Prop :=
  Forall (fun ln => table_header ln = false /\ section_header ln = false) tl.

(** The block is a run of consecutive lines of [lns], from [start_line] to
    [end_line] inclusive, that opens with a table header. *)
Definition table_block_of (lns : list string) (b : TableBlock) : Prop :=
  exists pre post hd tl,
    lns = pre ++ lines b ++ post
    /\ lines b = hd :: tl
    /\ start_line b = Z.of_nat (length pre)
    /\ end_line b = (start_line b + Z.of_nat (length tl))%Z
    /\ table_header hd = true
    /\ table_body tl
    /\ (5 <= length (List.filter nonblank (lines b)))%nat.

Definition apart (a b : TableBlock) : Prop := (end_line a < start_line b)%Z.

(** What the scan of [extract_table_blocks] holds after the lines [seen]. *)
Definition scanned (seen : list string) (st : scan) : Prop :=
  Forall (table_block_of seen) (blocks st)
  /\ StronglySorted apart (blocks st)
  /\ match buf_start st with
     | Some s =>
         exists pre hd tl,
           seen = pre ++ buf st /\ buf st = hd :: tl /\ s = Z.of_nat (length pre)
           /\ table_header hd = true /\ table_body tl
           /\ Forall (fun b => (end_line b < s)%Z) (blocks st)
     | None =>
         buf st = []
         /\ Forall (fun b => (end_line b < Z.of_nat (length seen))%Z) (blocks st)
     end.

(** A table with this uid is stored. *)
Definition has_table (ts : list TableRec) (uid : string) : Prop :=
  exists t, In t ts /\ t_table_uid t = uid.

(** The table [uid] with label [label] is a table of the document on the
    page [p] or on a page next to it. *)
Definition table_near (store : DB) (document_id p : Z) (uid label : string) : Prop :=
  exists t, In t (tables store)
            /\ t_table_uid t = uid /\ t_table_label t = label
            /\ t_document_id t = document_id
            /\ (p - 1 <= t_page_number t <= p + 1)%Z.

(** The references of a chunk row resolve: its table is stored, and a table
    row chunk repeats a stored row of that table. *)
Definition chunk_refs (ts : list TableRec) (rs : list TableRowRec) (c : ChunkRow)
  : Prop :=
  (forall uid, c_table_uid c = Some uid -> has_table ts uid)
  /\ (forall idx, c_table_row_index c = Some idx ->
        exists r, In r rs /\ c_table_uid c = Some (r_table_uid r)
                  /\ r_row_index r = idx /\ r_row_text r = c_text c).

Definition refs_ok (store : DB) : Prop :=
  Forall (chunk_refs (tables store) (table_rows store)) (chunks store)
  /\ Forall (fun r => has_table (tables store) (r_table_uid r)) (table_rows store).

(** The chunk rows of one document, in insert order. *)
Definition chunks_of (document_id : Z) (cs : list ChunkRow) : list ChunkRow :=
  List.filter (fun c => (c_document_id c =? document_id)%Z) cs.

Definition counting_from (base : Z) (n : nat) : list Z :=
  map (fun i => (base + Z.of_nat i)%Z) (seq 0 n).

(** Within every document the chunk indexes count up from 0. *)
Definition indexed (cs : list ChunkRow) : Prop :=
  forall document_id,
    map c_chunk_index (chunks_of document_id cs)
    = counting_from 0 (length (chunks_of document_id cs)).

(** The running totals agree with the store. *)
Definition counted (st : ins) : Prop :=
  total_chunks st = Z.of_nat (length (chunks (db st)))
  /\ total_table_rows st = Z.of_nat (length (table_rows (db st)))
  /\ (Z.of_nat (length (tables (db st))) <= total_tables st)%Z.

(** [st'] has the chunk rows of [st] and then rows of the document, numbered
    on from the insert position of [st]. *)
Definition appended (document_id : Z) (st st' : ins) : Prop :=
  exists new,
    chunks (db st') = chunks (db st) ++ new
    /\ Forall (fun c => c_document_id c = document_id) new
    /\ map c_chunk_index new = counting_from (chunk_index st) (length new)
    /\ chunk_index st' = (chunk_index st + Z.of_nat (length new))%Z.

(** The sample store after a rebuild, with the digest replaced by the
    identity and no equations. *)
Definition rebuilt_sample : DB :=
  fst (rebuild_chunks (fun s => s) (fun _ => 0%Q) sample_store).

End TableVocabulary.

Section ChunkVocabulary.

Import Chunking.

(** Every chunk but the first has a section id. *)
Definition sectioned_after_first (l : list Chunk) : Prop :=
  match l with
  | [] => True
  | _ :: rest => Forall (fun c => section_id c <> None) rest
  end.

Definition short_heading (h : option string) : Prop :=
  forall s, h = Some s -> (String.length s <= 200)%nat.

(** The chunk starts and ends on pages of [page_numbers] and its heading
    has at most 200 characters. *)
Definition chunk_of_pages (page_numbers : list Z) (c : Chunk) : Prop :=
  In (page_start c) page_numbers
  /\ In (page_end c) page_numbers
  /\ short_heading (heading c).

(** While the pages are scanned: the closed chunks and the open one. *)
Definition sectioning (a : acc) : Prop :=
  sectioned_after_first (chunks a)
  /\ (cur_start a = None -> chunks a = [])
  /\ (chunks a <> [] -> cur_section a <> None).

Definition paging (page_numbers : list Z) (a : acc) : Prop :=
  Forall (chunk_of_pages page_numbers) (chunks a)
  /\ (forall s, cur_start a = Some s -> In s page_numbers)
  /\ (forall e, cur_end a = Some e -> In e page_numbers)
  /\ short_heading (cur_heading a).

End ChunkVocabulary.

Section CitationVocabulary.

Import Ask.

(** The result cites retrieved hits only. *)
Definition cites_only (hs : list Hit) (res : AskResult) : Prop :=
  Forall (fun h => In h hs) (hits res).

(** The hits of low-value kinds, which [prefer_content] moves to the end. *)
Definition low_value_of (hs : list Hit) : list Hit :=
  List.filter (fun h => kind_in h low_value_kinds) hs.

Definition toc_hit : Hit :=
  {| score := 0.02; chunk_id := 5; filename := "standspec.pdf";
     display_name := "Standard Specifications";
     section_id := None; heading := None;
     page_start := 1; page_end := 1;
     snippet := "109.05 Estimates ........ 12";
     chunk_kind := Some "toc"; table_uid := None; table_label := None;
     text := None |}.

End CitationVocabulary.

(* ------------------------------------------------------------------------- *)
(** ** [tables.py]: table rows and the cell grid parsed from them *)
(* ------------------------------------------------------------------------- *)

Module Tables.

Record TableRow := {
  table_uid : string;
  row_index : Z;
  row_text : string
}.

Record TableCell := {
  cell_table_uid : string;
  row_num : Z;
  col_num : Z;
  cell_text : string;
  row_index_min : option Z;
  row_index_max : option Z
}.

(** A row of the [table_cells] table; the text and the row index bounds are
    nullable columns. *)
Record CellRec := {
  s_table_uid : string;
  s_row_num : Z;
  s_col_num : Z;
  s_cell_text : option string;
  s_row_index_min : option Z;
  s_row_index_max : option Z
}.

(** [SELECT ... FROM table_rows WHERE table_uid = ? ORDER BY row_index ASC] *)
Definition rows_of_table (store : list ChunkIngestion.TableRowRec) (uid : string)
  : list ChunkIngestion.TableRowRec :=
  Py.sorted (fun a b => (ChunkIngestion.r_row_index a <=? ChunkIngestion.r_row_index b)%Z)
    (List.filter (fun r => String.eqb (ChunkIngestion.r_table_uid r) uid) store).

Definition get_all_table_rows (store : list ChunkIngestion.TableRowRec) (uid : string)
  : list TableRow :=
  map (fun r => {| table_uid := ChunkIngestion.r_table_uid r;
                   row_index := ChunkIngestion.r_row_index r;
                   row_text := ChunkIngestion.r_row_text r |})
      (rows_of_table store uid).

(** [SELECT ... FROM table_cells WHERE table_uid = ? ORDER BY row_num ASC,
    col_num ASC] *)
Definition get_table_cells (store : list CellRec) (uid : string) : list TableCell :=
  map (fun r => {| cell_table_uid := s_table_uid r;
                   row_num := s_row_num r;
                   col_num := s_col_num r;
                   cell_text := Py.or_empty (s_cell_text r);
                   row_index_min := s_row_index_min r;
                   row_index_max := s_row_index_max r |})
      (Py.sorted (fun a b => (s_row_num a <? s_row_num b)%Z
                             || ((s_row_num a =? s_row_num b)%Z
                                 && (s_col_num a <=? s_col_num b)%Z))
         (List.filter (fun r => String.eqb (s_table_uid r) uid) store)).

(** [_MULTISPACE_RE = \s{2,}] *)
Definition _MULTISPACE_RE : Re.re := Re.at_least 2 Re.s.

(** [_DATA_ROW_START], re.I: after optional blanks at the start of the text,
    one of [\d+], [no\.], [no\b], [size], [nominal], [\d+/\d+], digits and
    a double quote (inches), digits and a single quote (feet). *)
Definition _DATA_ROW_START : Re.re :=
  Re.seqs [Re.Bol; Re.Star Re.s;
           Re.alts [Re.plus Re.d;
                    Re.lit "no.";
                    Re.Seq (Re.lit "no") Re.b;
                    Re.lit "size";
                    Re.lit "nominal";
                    Re.seqs [Re.plus Re.d; Re.chr "/"; Re.plus Re.d];
                    Re.Seq (Re.plus Re.d) (Re.Chr (ascii_of_nat 34));
                    Re.Seq (Re.plus Re.d) (Re.chr "'")]].

(** [s.split(sep)] for a one-character separator. *)
Fixpoint split_char_aux (sep : ascii) (s cur : string) : list string :=
  match s with
  | EmptyString => [Str.rev cur]
  | String c t =>
      if Ascii.eqb c sep then Str.rev cur :: split_char_aux sep t EmptyString
      else split_char_aux sep t (String c cur)
  end.

Definition split_char (sep : ascii) (s : string) : list string :=
  split_char_aux sep s EmptyString.

(** [pattern.split(s)] for a pattern without groups that matches no empty
    string: the text between the matches. *)
Fixpoint pieces (text : string) (from : nat) (ms : list Re.mobj) : list string :=
  match ms with
  | [] => [Str.slice from (String.length text) text]
  | m :: tl => Str.slice from (Re.m_start m) text :: pieces text (Re.m_end m) tl
  end.

Definition re_split (f : Re.flags) (r : Re.re) (text : string) : list string :=
  pieces text 0 (Re.finditer f r text).

Definition _split_cells (text : string) : list string :=
  let parts :=
    if Str.contains "|" text then map Str.strip (split_char "|" text)
    else map Str.strip (re_split Re.plain _MULTISPACE_RE (Str.strip text)) in
  List.filter (fun p => negb (Str.is_empty p)) parts.

Definition _is_data_row (text : string) : bool :=
  Re.matches Re.I _DATA_ROW_START text.

(** The locals of the loop of [parse_table_rows_to_cells]. *)
Record parsing := {
  parsed_rows : list (Z * Z * list string);
  current_row_cells : list string;
  current_row_index_min : option Z;
  current_row_index_max : option Z
}.

(** [x or 0] and the truthiness of an optional integer. *)
Definition or_zero (x : option Z) : Z :=
  match x with Some z => z | None => 0%Z end.

Definition truthy_int (x : option Z) : bool :=
  match x with Some z => negb (z =? 0)%Z | None => false end.

(** [(min or 0, max or min or 0, cells)] *)
Definition closed_row (st : parsing) : Z * Z * list string :=
  (or_zero (current_row_index_min st),
   if truthy_int (current_row_index_max st)
   then or_zero (current_row_index_max st)
   else or_zero (current_row_index_min st),
   current_row_cells st).

Definition is_nil {A} (l : list A) : bool :=
  match l with [] => true | _ => false end.

Definition parse_step (st : parsing) (row : TableRow) : parsing :=
  let text := Str.strip (row_text row) in
  if Str.is_empty text then st
  else
    let cells := _split_cells text in
    if is_nil cells then st
    else
      let starts_new := _is_data_row text in
      let st1 :=
        if starts_new && negb (is_nil (current_row_cells st)) then
          {| parsed_rows := parsed_rows st ++ [closed_row st];
             current_row_cells := [];
             current_row_index_min := None;
             current_row_index_max := None |}
        else st in
      {| parsed_rows := parsed_rows st1;
         current_row_cells := current_row_cells st1 ++ cells;
         current_row_index_min :=
           match current_row_index_min st1 with
           | None => Some (row_index row)
           | Some m => Some m
           end;
         current_row_index_max := Some (row_index row) |}.

(** The rows of the grid: the loop and the row still open at its end. *)
Definition parsed_rows_of (rows : list TableRow) : list (Z * Z * list string) :=
  let st := fold_left parse_step rows
              {| parsed_rows := []; current_row_cells := [];
                 current_row_index_min := None; current_row_index_max := None |} in
  if is_nil (current_row_cells st) then parsed_rows st
  else parsed_rows st ++ [closed_row st].

(** [max(len(cells) for _min, _max, cells in parsed_rows)] *)
Definition col_count_of (parsed : list (Z * Z * list string)) : nat :=
  fold_right Nat.max 0%nat (map (fun r => length (snd r)) parsed).

Definition cells_of_row (uid : string) (col_count : nat)
  (ir : nat * (Z * Z * list string)) : list TableCell :=
  let '(row_num_, (row_index_min_, row_index_max_, cells)) := ir in
  map (fun col_num_ =>
         {| cell_table_uid := uid;
            row_num := Z.of_nat row_num_;
            col_num := Z.of_nat col_num_;
            cell_text := nth col_num_ cells EmptyString;
            row_index_min := Some row_index_min_;
            row_index_max := Some row_index_max_ |})
      (seq 0 col_count).

Definition parse_table_rows_to_cells (rows : list TableRow) : list TableCell :=
  match rows with
  | [] => []
  | first :: _ =>
      let parsed := parsed_rows_of rows in
      if Nat.ltb (length parsed) 2 then []
      else
        let col_count := col_count_of parsed in
        if Nat.ltb col_count 2 then []
        else flat_map (cells_of_row (table_uid first) col_count)
                      (Py.enumerate 0 parsed)
  end.

End Tables.

(* ------------------------------------------------------------------------- *)
(** ** [routers/tables.py]: the rows and the cell grid of a table *)
(* ------------------------------------------------------------------------- *)

Module TablesRouter.

(** How an endpoint ends: with its payload, with [HTTPException(404)], or
    with an uncaught [IndexError]. *)
Inductive outcome (A : Type) : Type :=
| Done (payload : A)
| NotFound (detail : string)
| IndexError.

Arguments Done {A} payload.
Arguments NotFound {A} detail.
Arguments IndexError {A}.

Record RowOut := {
  o_row_index : Z;
  o_row_text : string
}.

Record CellsOut := {
  g_table_uid : string;
  row_count : Z;
  col_count : Z;
  grid : list (list string)
}.

Record RowsOut := {
  p_table_uid : string;
  offset : nat;
  limit : nat;
  total : nat;
  rows : list RowOut;
  next_offset : option nat;
  cells : option CellsOut
}.

(** [l[i]] for a Python list of length [n]: a negative index counts from
    the end. *)
Definition py_index (n : nat) (i : Z) : option nat :=
  if (0 <=? i)%Z && (i <? Z.of_nat n)%Z then Some (Z.to_nat i)
  else if (- Z.of_nat n <=? i)%Z && (i <? 0)%Z then Some (Z.to_nat (Z.of_nat n + i))
  else None.

(** [grid[r][c] = text] *)
Definition set_cell (g : list (list string)) (r c : Z) (text : string)
  : option (list (list string)) :=
  match py_index (length g) r with
  | None => None
  | Some ri =>
      match g !! ri with
      | None => None
      | Some row =>
          match py_index (length row) c with
          | None => None
          | Some ci => Some (<[ri := <[ci := text]> row]> g)
          end
      end
  end.

Definition fill (g : option (list (list string))) (c : Tables.TableCell)
  : option (list (list string)) :=
  match g with
  | None => None
  | Some g' => set_cell g' (Tables.row_num c) (Tables.col_num c) (Tables.cell_text c)
  end.

(** [max(... for c in cells)] of a non-empty list. *)
Definition max_of (f : Tables.TableCell -> Z) (first : Tables.TableCell)
  (others : list Tables.TableCell) : Z :=
  fold_left (fun m c => Z.max m (f c)) others (f first).

(** The grid that both [/tables/rows] and [/tables/cells] build from the
    stored cells of a table. *)
Definition grid_of (uid : string) (first : Tables.TableCell)
  (others : list Tables.TableCell) : outcome CellsOut :=
  let row_count_ := (max_of Tables.row_num first others + 1)%Z in
  let col_count_ := (max_of Tables.col_num first others + 1)%Z in
  let empty := repeat (repeat EmptyString (Z.to_nat col_count_)) (Z.to_nat row_count_) in
  match fold_left fill (first :: others) (Some empty) with
  | None => IndexError
  | Some g => Done {| g_table_uid := uid; row_count := row_count_;
                      col_count := col_count_; grid := g |}
  end.

Definition table_cells (store : list Tables.CellRec) (uid : string)
  : outcome CellsOut :=
  match Tables.get_table_cells store uid with
  | [] => NotFound "Table cells not found"
  | first :: others => grid_of uid first others
  end.

(** [/tables/rows]: [offset] is the number of rows already fetched. *)
Definition table_rows (row_store : list ChunkIngestion.TableRowRec)
  (cell_store : list Tables.CellRec) (uid : string) (limit_ offset_ : nat)
  (include_cells : bool) : outcome RowsOut :=
  let all := Tables.rows_of_table row_store uid in
  let page := firstn limit_ (skipn offset_ all) in
  let total_n := length all in
  let payload (cs : option CellsOut) :=
    {| p_table_uid := uid; offset := offset_; limit := limit_; total := total_n;
       rows := map (fun r => {| o_row_index := ChunkIngestion.r_row_index r;
                                o_row_text := ChunkIngestion.r_row_text r |}) page;
       next_offset := if Nat.ltb (offset_ + length page) total_n
                      then Some (offset_ + length page)%nat else None;
       cells := cs |} in
  if include_cells then
    match Tables.get_table_cells cell_store uid with
    | [] => Done (payload None)
    | first :: others =>
        match grid_of uid first others with
        | Done g => Done (payload (Some g))
        | NotFound d => NotFound d
        | IndexError => IndexError
        end
    end
  else Done (payload None).

End TablesRouter.

Section TablesVocabulary.

Import Tables TablesRouter.

Definition coordinates (c : TableCell) : Z * Z := (row_num c, col_num c).

Definition counting (n : nat) : list Z := map Z.of_nat (seq 0 n).

Definition nonempty_cell (s : string) : bool := negb (Str.is_empty s).

(** The cell of a grid at row [r] and column [c]. *)
Definition cell_at (g : list (list string)) (r c : nat) : option string :=
  match g !! r with
  | Some row => row !! c
  | None => None
  end.

Definition rectangular (g : list (list string)) (n m : nat) : Prop :=
  length g = n /\ Forall (fun row => length row = m) g.

(** The cell lies at row [r], column [c]. *)
Definition placed_at (r c : nat) (x : TableCell) : Prop :=
  row_num x = Z.of_nat r /\ col_num x = Z.of_nat c.

(** The grid shows, where a cell of [cs] is placed, the text of such a cell,
    and the empty string elsewhere. *)
Definition shows (cs : list TableCell) (g : list (list string)) : Prop :=
  forall r c s, cell_at g r c = Some s ->
    (exists x, In x cs /\ placed_at r c x /\ s = cell_text x)
    \/ ((forall x, In x cs -> ~ placed_at r c x) /\ s = EmptyString).

Definition natural (x : TableCell) : Prop := (0 <= row_num x)%Z /\ (0 <= col_num x)%Z.

Definition sieve_rows : list TableRow :=
  [ {| table_uid := "tbl_a"; row_index := 0; row_text := "TABLE 901.03-1 Gradation" |};
    {| table_uid := "tbl_a"; row_index := 1; row_text := "Sieve   Percent Passing" |};
    {| table_uid := "tbl_a"; row_index := 2; row_text := "No. 4   100" |};
    {| table_uid := "tbl_a"; row_index := 3; row_text := "No. 8   90-100   coarse" |} ].

Definition sieve_cells : list CellRec :=
  map (fun c => {| s_table_uid := cell_table_uid c; s_row_num := row_num c;
                   s_col_num := col_num c; s_cell_text := Some (cell_text c);
                   s_row_index_min := row_index_min c;
                   s_row_index_max := row_index_max c |})
      (parse_table_rows_to_cells sieve_rows).

Definition sieve_store : list ChunkIngestion.TableRowRec :=
  map (fun r => {| ChunkIngestion.r_table_uid := table_uid r;
                   ChunkIngestion.r_row_index := row_index r;
                   ChunkIngestion.r_row_text := row_text r |}) sieve_rows.

Definition row_out (r : ChunkIngestion.TableRowRec) : RowOut :=
  {| o_row_index := ChunkIngestion.r_row_index r;
     o_row_text := ChunkIngestion.r_row_text r |}.

End TablesVocabulary.

(* ------------------------------------------------------------------------- *)
(** ** [urllib.parse.quote] *)
(* ------------------------------------------------------------------------- *)

Module Url.

Definition hex_digit (n : nat) : ascii :=
  if Nat.ltb n 10 then ascii_of_nat (48 + n) else ascii_of_nat (55 + n).

(** The characters [quote] leaves alone: letters, digits, [_.-~] and the
    default safe character [/]. *)
Definition unreserved (c : ascii) : bool :=
  Str.is_alnum c
  || existsb (Nat.eqb (Str.code c)) [95; 46; 45; 126; 47]%nat.

Definition quote_char (c : ascii) : string :=
  if unreserved c then String c EmptyString
  else String "%" (String (hex_digit (Str.code c / 16))
                     (String (hex_digit (Str.code c mod 16)) EmptyString)).

Fixpoint quote (s : string) : string :=
  match s with
  | EmptyString => EmptyString
  | String c t => (quote_char c ++ quote t)%string
  end.

End Url.

(* ------------------------------------------------------------------------- *)
(** ** [routers/chat.py]: the citations of [/chat/ask] *)
(* ------------------------------------------------------------------------- *)

Module ChatRouter.

(** The attributes [chat_ask] reads off a hit of the answer. *)
Record Hit := {
  chunk_id : Z;
  display_name : string;
  filename : string;
  doc_type : string;
  mp_id : option string;
  section_id : option string;
  heading : option string;
  page_start : Z;
  page_end : Z;
  snippet : string;
  chunk_kind : option string;
  table_uid : option string;
  table_label : option string;
  table_row_index : option Z
}.

Record AskCitation := {
  c_chunk_id : Z;
  c_display_name : string;
  c_filename : string;
  c_doc_type : string;
  c_mp_id : option string;
  c_section_id : option string;
  c_heading : option string;
  c_page_start : Z;
  c_page_end : Z;
  c_snippet : string;
  c_open_url : string;
  c_chunk_kind : option string;
  c_table_uid : option string;
  c_table_label : option string;
  c_table_row_index : option Z
}.

Record AskRequest := {
  query : string;
  scope : string;
  mp_ids : list string;
  k : nat;
  mode : string
}.

(** The dictionary that [chat_retrieve] hands back. *)
Record Out := {
  o_confidence : string;
  o_answer : string;
  o_hits : list Hit;
  o_table : option Ask.TableOut
}.

Record AskResponse := {
  r_query : string;
  r_scope : string;
  r_mp_ids : list string;
  r_confidence : string;
  r_answer : string;
  r_citations : list AskCitation;
  r_table : option Ask.TableOut
}.

(** [_CITE_MARK_RE = \[(\d+)\]] *)
Definition _CITE_MARK_RE : Re.re :=
  Re.seqs [Re.chr "["; Re.Grp 1 (Re.plus Re.d); Re.chr "]"].

(** [int(s)] for a string of decimal digits. *)
Definition int_of_digits (s : string) : nat :=
  let fix go (s : string) (acc : nat) : nat :=
    match s with
    | EmptyString => acc
    | String c t => go t (10 * acc + (Str.code c - 48))%nat
    end in
  go s 0%nat.

Definition cited_numbers (answer : string) : list nat :=
  map (fun m => int_of_digits (Py.or_empty (Re.group answer m 1)))
      (Re.finditer Re.plain _CITE_MARK_RE answer).

Definition filter_citations_by_answer_markers (answer : string)
  (citations : list AskCitation) : list AskCitation :=
  let nums := cited_numbers answer in
  match nums with
  | [] => firstn (Nat.min 3 (length citations)) citations
  | _ =>
      map snd (List.filter (fun ic => existsb (Nat.eqb (fst ic)) nums)
                           (Py.enumerate 1 citations))
  end.

Definition is_tocish (snippet_ : string) : bool :=
  let s := Str.upper snippet_ in
  if Str.contains "TABLE OF CONTENTS" s then true
  else Nat.leb 8 (Str.count "..." s).

Definition filter_sources_only (citations : list AskCitation) (k_ : nat)
  : list AskCitation :=
  firstn k_ (List.filter (fun c => negb (is_tocish (c_snippet c))) citations).

Definition normalize_section (value : option string) : string :=
  if Py.truthy value then
    let out := Str.upper (Str.strip (Py.or_empty value)) in
    if Str.startswith out "SECTION"
    then Str.strip (Str.slice 7 (String.length out) out)
    else out
  else EmptyString.

(** The pattern of [extract_section_id], re.I: a word boundary, optionally
    [section] and blanks, then group 1 = [\d{3}(?:\.\d{2}){0,2}], and a word
    boundary. *)
Definition section_id_re : Re.re :=
  Re.seqs [Re.b; Re.opt (Re.Seq (Re.lit "section") (Re.Star Re.s));
           Re.Grp 1 (Re.Seq (Re.times 3 Re.d)
                            (Re.upto 2 (Re.Seq (Re.chr ".") (Re.times 2 Re.d))));
           Re.b].

Definition extract_section_id (query_ : string) : option string :=
  match Re.search Re.I section_id_re query_ with
  | Some m => Re.group query_ m 1
  | None => None
  end.

Definition section_prefix_match (target : string) (candidate : option string) : bool :=
  let tgt := normalize_section (Some target) in
  let cand := normalize_section candidate in
  if Str.is_empty tgt || Str.is_empty cand then false
  else if String.eqb cand tgt then true
  else Str.startswith cand (tgt ++ ".").

Definition citation_of (h : Hit) : AskCitation :=
  {| c_chunk_id := chunk_id h;
     c_display_name := display_name h;
     c_filename := filename h;
     c_doc_type := doc_type h;
     c_mp_id := mp_id h;
     c_section_id := section_id h;
     c_heading := heading h;
     c_page_start := page_start h;
     c_page_end := page_end h;
     c_snippet := snippet h;
     c_open_url := ("/documents/open?filename=" ++ Url.quote (filename h)
                    ++ "&page=" ++ Str.of_Z (page_start h))%string;
     c_chunk_kind := chunk_kind h;
     c_table_uid := table_uid h;
     c_table_label := table_label h;
     c_table_row_index := table_row_index h |}.

(** [chat_ask] after [chat_retrieve] has answered with [out]. *)
Definition chat_ask (req : AskRequest) (out : Out) : AskResponse :=
  let original_citations := map citation_of (o_hits out) in
  let citations :=
    if String.eqb (mode req) "answer" then
      filter_citations_by_answer_markers (o_answer out) original_citations
    else if String.eqb (mode req) "sources_only" then
      let cleaned := filter_sources_only original_citations (k req) in
      match extract_section_id (query req) with
      | Some target =>
          if Str.is_empty target then cleaned
          else
            match List.filter (fun c => section_prefix_match target (c_section_id c))
                              cleaned with
            | [] => cleaned
            | filtered => filtered
            end
      | None => cleaned
      end
    else original_citations in
  let citations :=
    match citations with
    | [] => firstn (Nat.min 3 (length original_citations)) original_citations
    | _ => citations
    end in
  {| r_query := query req;
     r_scope := scope req;
     r_mp_ids := mp_ids req;
     r_confidence := o_confidence out;
     r_answer := o_answer out;
     r_citations := citations;
     r_table := o_table out |}.

End ChatRouter.

(* ------------------------------------------------------------------------- *)
(** ** [library_search.py]: a page of search results *)
(* ------------------------------------------------------------------------- *)

Module LibrarySearch.

Import HybridChunksSearch.

Record DocumentSearchRequest := {
  query : string;
  scope : string;
  req_doc_type : option string;
  req_mp_id : option string;
  k : nat;
  offset : nat
}.

Record DocumentSearchResult := {
  r_chunk_id : Z;
  r_score : Q;
  r_snippet : string;
  r_page_start : Z;
  r_page_end : Z;
  r_filename : string;
  r_display_name : string;
  r_doc_type : option string;
  r_mp_id : option string;
  r_section_id : option string;
  r_heading : option string;
  r_chunk_kind : option string;
  r_table_uid : option string;
  r_table_label : option string;
  r_open_url : string
}.

Record DocumentSearchResponse := {
  resp_query : string;
  resp_scope : string;
  total : option nat;
  resp_offset : nat;
  limit : nat;
  results : list DocumentSearchResult
}.

Definition doc_type_filter (req : DocumentSearchRequest) : string :=
  Str.lower (Str.strip (Py.or_empty (req_doc_type req))).

Definition mp_filter (req : DocumentSearchRequest) : string :=
  Str.upper (Str.strip (Py.or_empty (req_mp_id req))).

(** The body of the filter loop: [true] when the hit is appended. *)
Definition keeps (req : DocumentSearchRequest) (h : HybridChunkHit) : bool :=
  if negb (Str.is_empty (doc_type_filter req))
     && negb (String.eqb (Str.lower (Py.or_empty (doc_type h))) (doc_type_filter req))
  then false
  else if negb (Str.is_empty (mp_filter req)) then
    let mp := Str.upper (Py.or_empty (mp_id h)) in
    if Str.is_empty mp
       || (negb (Str.startswith mp (mp_filter req))
           && negb (String.eqb mp (mp_filter req)))
    then false else true
  else true.

Definition result_of (h : HybridChunkHit) : DocumentSearchResult :=
  {| r_chunk_id := chunk_id h;
     r_score := score h;
     r_snippet := snippet h;
     r_page_start := page_start h;
     r_page_end := page_end h;
     r_filename := filename h;
     r_display_name := display_name h;
     r_doc_type := doc_type h;
     r_mp_id := mp_id h;
     r_section_id := section_id h;
     r_heading := heading h;
     r_chunk_kind := chunk_kind h;
     r_table_uid := table_uid h;
     r_table_label := table_label h;
     r_open_url := ("/documents/open?filename=" ++ Url.quote (filename h)
                    ++ "&page=" ++ Str.of_Z (page_start h))%string |}.

Definition pool_k_of (req : DocumentSearchRequest) : nat :=
  Nat.max 200 ((offset req + k req) * 10).

(** [None] stands for the [IndexError] of the searches underneath. *)
Definition library_search (lexical : BM25Chunks.BM25ChunksIndex)
  (vectors : FaissChunks.FaissChunksIndex) (rows : list ChunkIngestion.TableRowRec)
  (req : DocumentSearchRequest) : option DocumentSearchResponse :=
  let limit_ := k req in
  let offset_ := offset req in
  let pool_k := pool_k_of req in
  let mp_ids := if String.eqb (scope req) "mp_only" && Py.truthy (req_mp_id req)
                then [Py.or_empty (req_mp_id req)] else [] in
  match hybrid_chunks_search lexical vectors rows (query req) pool_k (scope req) mp_ids with
  | None => None
  | Some (hits, _conf) =>
      let filtered := List.filter (keeps req) hits in
      let page_hits := firstn limit_ (skipn offset_ filtered) in
      Some {| resp_query := query req;
              resp_scope := scope req;
              total := if Nat.ltb (length filtered) pool_k
                       then Some (length filtered) else None;
              resp_offset := offset_;
              limit := limit_;
              results := map result_of page_hits |}
  end.

End LibrarySearch.

Section RouterVocabulary.

Import ChatRouter.

Definition not_tocish (c : AskCitation) : Prop := is_tocish (c_snippet c) = false.

Definition in_section (target : string) (c : AskCitation) : Prop :=
  section_prefix_match target (c_section_id c) = true.

Definition section_hit (id : Z) (section : option string) (body : string) : Hit :=
  {| chunk_id := id; display_name := "Standard Specifications";
     filename := "stand spec.pdf"; doc_type := "standspec"; mp_id := None;
     section_id := section; heading := None; page_start := id; page_end := id;
     snippet := body; chunk_kind := Some "content"; table_uid := None;
     table_label := None; table_row_index := None |}.

Definition section_hits : list Hit :=
  [section_hit 1 None "TABLE OF CONTENTS 701 General Items";
   section_hit 2 (Some "701.03") "701.03  CONSTRUCTION";
   section_hit 3 (Some "7011") "not the section";
   section_hit 4 (Some "Section 701") "SECTION 701 GENERAL ITEMS"].

Definition section_request : AskRequest :=
  {| query := "Section 701"; scope := "all"; mp_ids := []; k := 6;
     mode := "sources_only" |}.

Definition section_out : Out :=
  {| o_confidence := "medium";
     o_answer := "Sources only: see citations on the right.";
     o_hits := section_hits; o_table := None |}.

End RouterVocabulary.

Section LibraryVocabulary.

Import LibrarySearch.

(** The result passes the document-type and the MP filter of the request. *)
Definition passes (req : DocumentSearchRequest) (r : DocumentSearchResult) : Prop :=
  (doc_type_filter req <> EmptyString ->
   Str.lower (Py.or_empty (r_doc_type r)) = doc_type_filter req)
  /\ (mp_filter req <> EmptyString ->
      Str.startswith (Str.upper (Py.or_empty (r_mp_id r))) (mp_filter req) = true).

Definition corpus_request : DocumentSearchRequest :=
  {| query := "conduit"; scope := "all"; req_doc_type := Some " StandSpec ";
     req_mp_id := None; k := 2; offset := 1 |}.

End LibraryVocabulary.

(* ------------------------------------------------------------------------- *)
(** ** [ingestion.py]: documents and their pages *)
(* ------------------------------------------------------------------------- *)

Module Ingestion.

Record DocRow := {
  id : Z;
  filename : string;
  display_name : string;
  doc_type : string;
  mp_id : option string;
  file_path : string;
  file_hash : string;
  page_count : nat;
  ingested_at : string
}.

Record PageRow := {
  document_id : Z;
  page_number : Z;
  text : string;
  char_count : nat
}.

Record Store := {
  documents : list DocRow;
  pages : list PageRow
}.

(** The file system and the libraries around it: [pathlib]'s [name] and
    [stem] of a path, the SHA-256 digest of the file, the page texts that
    PyMuPDF extracts, and the row id that SQLite gives to a new document. *)
Section Files.

Variable path_name : string -> string.
Variable path_stem : string -> string.
Variable sha256_file : string -> string.
Variable extract_pages_text : string -> list string.
Variable lastrowid : list DocRow -> Z.

(** [(doc_type, mp_id, display_name)] *)
Definition classify_pdf (pdf_path : string) : string * option string * string :=
  let name := Str.lower (path_name pdf_path) in
  let stem := Str.upper (path_stem pdf_path) in
  if Str.startswith stem "MP" && Str.contains "-" stem then ("mp", Some stem, stem)
  else if Str.contains "standspec" name || Str.contains "standard spec" name
  then ("standspec", None, "2019 Standard Specifications (Road & Bridge)")
  else if Str.contains "scheduling" name
  then ("scheduling", None, "Construction Scheduling Manual")
  else ("other", None, path_stem pdf_path).

(** [INSERT INTO pages] for [enumerate(pages, start=1)] *)
Definition page_rows (document_id_ : Z) (texts : list string) : list PageRow :=
  map (fun it => {| document_id := document_id_;
                    page_number := Z.of_nat (fst it);
                    text := snd it;
                    char_count := String.length (snd it) |})
      (Py.enumerate 1 texts).

(** [(did_ingest, document_id, pages_written)] and the store afterwards;
    [now] is the time stamp of the call. *)
Definition upsert_document_and_pages (now : string) (pdf_path : string) (st : Store)
  : (bool * Z * nat) * Store :=
  let file_hash_ := sha256_file pdf_path in
  let '(doc_type_, mp_id_, display_name_) := classify_pdf pdf_path in
  let texts := extract_pages_text pdf_path in
  let row (id_ : Z) :=
    {| id := id_; filename := path_name pdf_path; display_name := display_name_;
       doc_type := doc_type_; mp_id := mp_id_; file_path := pdf_path;
       file_hash := file_hash_; page_count := length texts; ingested_at := now |} in
  match find (fun d => String.eqb (file_path d) pdf_path) (documents st) with
  | Some existing =>
      if String.eqb (file_hash existing) file_hash_ then ((false, id existing, 0%nat), st)
      else
        let document_id_ := id existing in
        let updated :=
          map (fun d => if (id d =? document_id_)%Z
                        then {| id := id d; filename := path_name pdf_path;
                                display_name := display_name_; doc_type := doc_type_;
                                mp_id := mp_id_; file_path := file_path d;
                                file_hash := file_hash_; page_count := length texts;
                                ingested_at := now |}
                        else d)
              (documents st) in
        let kept := List.filter (fun p => negb (document_id p =? document_id_)%Z)
                                (pages st) in
        ((true, document_id_, length texts),
         {| documents := updated; pages := kept ++ page_rows document_id_ texts |})
  | None =>
      let document_id_ := lastrowid (documents st) in
      ((true, document_id_, length texts),
       {| documents := documents st ++ [row document_id_];
          pages := pages st ++ page_rows document_id_ texts |})
  end.

End Files.

End Ingestion.

Section IngestionVocabulary.

Import Ingestion.

(** The page rows of one document, in insert order. *)
Definition pages_for (document_id_ : Z) (st : Store) : list PageRow :=
  List.filter (fun p => (document_id p =? document_id_)%Z) (pages st).

Definition known (pdf_path : string) (st : Store) : option DocRow :=
  find (fun d => String.eqb (file_path d) pdf_path) (documents st).

End IngestionVocabulary.

(* ------------------------------------------------------------------------- *)
(** ** [auth.py]: verifying an access token against the cached key set *)
(* ------------------------------------------------------------------------- *)

Module Auth.

(** A key of the key set document, with the attributes the module reads. *)
Record Jwk := {
  kid : option string;
  material : string
}.

(** A value of a token claim: [None], a string, a list of strings, or
    another JSON value, of which only the truthiness matters. *)
Inductive claim : Type :=
| CNone
| CStr (s : string)
| CList (l : list string)
| COther (truthy : bool).

(** The claims of a token; a key that is absent is [None]. *)
Record Claims := {
  iss : option claim;
  aud : option claim;
  sub : string
}.

(** How a call ends: with its value, with an [HTTPException], or with an
    exception that nobody catches. *)
Inductive result (A : Type) : Type :=
| Return (a : A)
| Http (status : nat) (detail : string)
| Uncaught.

Arguments Return {A} a.
Arguments Http {A} status detail.
Arguments Uncaught {A}.

(** What [jwt.decode] does: it returns the claims, raises
    [ExpiredSignatureError], raises another [InvalidTokenError], or raises
    something else. *)
Inductive decoding : Type :=
| Decoded (c : Claims)
| ExpiredSignature
| InvalidToken
| OtherError.

(** An entry of [_JWKS_CACHE]: the dict of the keys by [kid], as the list of
    its items in insertion order with the last item of a [kid] the one in
    force, and the time of the fetch. *)
Record entry := {
  keys : list Jwk;
  fetched_at : Q
}.

Definition cache : Type := list (string * entry).

Definition _JWKS_TTL_SECONDS : Q := 600.

(** [s.rstrip("/")] *)
Definition rstrip_slash (s : string) : string :=
  Str.rev (Str.lstrip_chars (Ascii.eqb "/") (Str.rev s)).

(** [_JWKS_CACHE.get(url)] and [_JWKS_CACHE[url] = e] *)
Definition cache_get (c : cache) (url : string) : option entry :=
  option_map snd (find (fun ue => String.eqb (fst ue) url) c).

Definition cache_set (c : cache) (url : string) (e : entry) : cache :=
  (url, e) :: List.filter (fun ue => negb (String.eqb (fst ue) url)) c.

(** [keys.get(kid) if kid else None] *)
Definition key_for (ks : list Jwk) (kid_ : option string) : option Jwk :=
  if Py.truthy kid_
  then find (fun k => Ask.opt_eqb String.eqb (kid k) kid_) (rev ks)
  else None.

(** The environment, the network and the [jwt] library. *)
Section Collaborators.

(** [os.getenv("SUPABASE_URL")] *)
Variable supabase_env : option string.
(** The [keys] list of the document behind a URL ([[]] without that key);
    [None] when the request or the decoding of its body raises. *)
Variable http_get_keys : string -> option (list Jwk).
(** [jwt.get_unverified_header(token).get("kid")]; the outer [None] is an
    exception. *)
Variable unverified_kid : string -> option (option string).
(** [jwt.algorithms.ECAlgorithm.from_jwk(json.dumps(jwk))] *)
Variable from_jwk : Jwk -> option string.
(** [jwt.decode(token, options={"verify_signature": False})] *)
Variable decode_unverified : string -> decoding.
(** [jwt.decode(token, public_key, algorithms=["ES256"], ...)], with the
    audience "authenticated" verified when [aud_present]. *)
Variable decode : string -> string -> bool -> decoding.

Definition _get_supabase_url : result string :=
  let url := Str.strip (Py.or_empty supabase_env) in
  if Str.is_empty url then Http 500 "SUPABASE_URL is not configured"
  else Return (rstrip_slash url).

Definition _fetch_jwks (supabase_url : string) : result (list Jwk) :=
  match http_get_keys (supabase_url ++ "/auth/v1/.well-known/jwks.json") with
  | Some ks => Return ks
  | None => Http 503 "Unable to fetch JWKS"
  end.

(** [now] is [time.monotonic()] at the call. *)
Definition _get_jwks_keys (now : Q) (c : cache) (supabase_url : string)
  (force_refresh : bool) : result (list Jwk) * cache :=
  let refresh :=
    match _fetch_jwks supabase_url with
    | Return jwks =>
        let ks := List.filter (fun k => Py.truthy (kid k)) jwks in
        match ks with
        | [] => (Http 503 "JWKS did not contain any keys", c)
        | _ => (Return ks,
                cache_set c supabase_url {| keys := ks; fetched_at := now |})
        end
    | Http status detail => (Http status detail, c)
    | Uncaught => (Uncaught, c)
    end in
  match cache_get c supabase_url with
  | Some e =>
      if negb force_refresh
         && negb (Qle_bool _JWKS_TTL_SECONDS (now - fetched_at e))
      then (Return (keys e), c)
      else refresh
  | None => refresh
  end.

Definition issuer_of (claims : Claims) : result string :=
  match iss claims with
  | None | Some CNone => Return EmptyString
  | Some (CStr s) => Return (rstrip_slash s)
  | Some (CList []) => Return EmptyString
  | Some (CList (_ :: _)) => Uncaught
  | Some (COther truthy) => if truthy then Uncaught else Return EmptyString
  end.

Definition valid_aud (a : claim) : bool :=
  match a with
  | CList l => Py.str_in "authenticated" l
  | CStr s => String.eqb s "authenticated"
  | _ => false
  end.

(** The checks of [verify_jwt] on the verified claims. *)
Definition check_claims (expected_iss : string) (claims : Claims) : result Claims :=
  match issuer_of claims with
  | Return iss_ =>
      if negb (String.eqb iss_ (rstrip_slash expected_iss))
      then Http 401 "Invalid token issuer"
      else
        match aud claims with
        | Some a => if valid_aud a then Return claims
                    else Http 401 "Invalid token audience"
        | None => Return claims
        end
  | Http status detail => Http status detail
  | Uncaught => Uncaught
  end.

(** [now] and [later] are the two readings of the clock, the second one
    taken only for the forced refresh. *)
Definition verify_jwt (now later : Q) (c : cache) (token : string)
  : result Claims * cache :=
  match _get_supabase_url with
  | Return supabase_url =>
      let expected_iss := (supabase_url ++ "/auth/v1")%string in
      match unverified_kid token with
      | None => (Http 401 "Invalid token", c)
      | Some kid_ =>
          match _get_jwks_keys now c supabase_url false with
          | (Return ks, c1) =>
              let found :=
                match key_for ks kid_ with
                | Some jwk => (Return (Some jwk), c1)
                | None =>
                    match _get_jwks_keys later c1 supabase_url true with
                    | (Return ks', c2) => (Return (key_for ks' kid_), c2)
                    | (Http status detail, c2) => (Http status detail, c2)
                    | (Uncaught, c2) => (Uncaught, c2)
                    end
                end in
              match found with
              | (Return (Some jwk), c') =>
                  match from_jwk jwk with
                  | None => (Http 401 "Invalid token", c')
                  | Some public_key =>
                      match decode_unverified token with
                      | Decoded unverified_claims =>
                          let aud_present := Chunking.is_some (aud unverified_claims) in
                          match decode token public_key aud_present with
                          | Decoded claims => (check_claims expected_iss claims, c')
                          | ExpiredSignature => (Http 401 "Token expired", c')
                          | InvalidToken => (Http 401 "Invalid token", c')
                          | OtherError => (Uncaught, c')
                          end
                      | ExpiredSignature => (Http 401 "Token expired", c')
                      | InvalidToken => (Http 401 "Invalid token", c')
                      | OtherError => (Uncaught, c')
                      end
                  end
              | (Return None, c') => (Http 401 "Invalid token", c')
              | (Http status detail, c') => (Http status detail, c')
              | (Uncaught, c') => (Uncaught, c')
              end
          | (Http status detail, c1) => (Http status detail, c1)
          | (Uncaught, c1) => (Uncaught, c1)
          end
      end
  | Http status detail => (Http status detail, c)
  | Uncaught => (Uncaught, c)
  end.

End Collaborators.

End Auth.

Section AuthVocabulary.

Import Auth.

(** The issuer of the claims is the auth endpoint of the project. *)
Definition issued_by (supabase_url : string) (claims : Claims) : Prop :=
  issuer_of claims = Return (rstrip_slash (supabase_url ++ "/auth/v1")).

(** An audience, when the token has one, is or holds "authenticated". *)
Definition for_authenticated (claims : Claims) : Prop :=
  forall a, aud claims = Some a -> valid_aud a = true.

(** The key is in force for its [kid] in the cached key set of the project. *)
Definition cached_key (c : cache) (supabase_url : string) (kid_ : option string)
  (jwk : Jwk) : Prop :=
  exists e, cache_get c supabase_url = Some e /\ key_for (keys e) kid_ = Some jwk.

Definition project_key : Jwk := {| kid := Some "k1"; material := "P-256 point" |}.

Definition user_claims : Claims :=
  {| iss := Some (CStr "https://nj.example.co/auth/v1/");
     aud := Some (CList ["authenticated"]); sub := "user-1" |}.

End AuthVocabulary.

(* ------------------------------------------------------------------------- *)
(** ** General facts: folds, stable sorting, strings *)
(* ------------------------------------------------------------------------- *)

Section FoldInvariant.

Context {A B : Type} (P : A -> Prop) (f : A -> B -> A).

Lemma fold_left_invariant (l : list B) (a : A) :
  P a -> (forall a' b, In b l -> P a' -> P (f a' b)) -> P (fold_left f l a).
Proof.
  revert a. induction l as [|b t IH]; intros a Ha Hstep; cbn; [exact Ha |].
  apply IH.
  - apply Hstep; [now left | exact Ha].
  - intros a' b' Hb. apply Hstep. now right.
Qed.

End FoldInvariant.

Lemma Forall_snoc {A} (P : A -> Prop) (l : list A) (x : A) :
  Forall P l -> P x -> Forall P (l ++ [x]).
Proof. intros Hl Hx. apply List.Forall_app. split; [exact Hl | now constructor]. Qed.

Lemma In_firstn {A} (x : A) (n : nat) (l : list A) : In x (firstn n l) -> In x l.
Proof.
  revert n. induction l as [|y t IH]; intros [|n]; cbn; try tauto.
  intros [-> | H]; [now left | right; eauto].
Qed.

Section StableSort.

Context {A : Type} (before : A -> A -> bool).

Lemma insert_In (x y : A) (l : list A) :
  In y (Py.insert before x l) <-> y = x \/ In y l.
Proof.
  induction l as [|z t IH]; cbn.
  - intuition congruence.
  - destruct (before x z); cbn; [intuition congruence |].
    rewrite IH. intuition congruence.
Qed.

(** Sorting keeps exactly the elements of the list. *)
Lemma sorted_In (y : A) (l : list A) : In y (Py.sorted before l) <-> In y l.
Proof.
  induction l as [|x t IH]; cbn; [reflexivity |].
  rewrite insert_In, IH. intuition congruence.
Qed.

Lemma insert_Forall (Q : A -> Prop) (x : A) (l : list A) :
  Q x -> Forall Q l -> Forall Q (Py.insert before x l).
Proof.
  intros Hx Hl. induction Hl as [|y t Hy Ht IH]; cbn.
  - constructor; [exact Hx | constructor].
  - destruct (before x y); repeat constructor; auto.
Qed.

Hypothesis before_total : forall x y, before x y = false -> before y x = true.
Hypothesis before_trans :
  forall x y z, before x y = true -> before y z = true -> before x z = true.

Lemma insert_sorted (x : A) (l : list A) :
  StronglySorted (fun a b => before a b = true) l ->
  StronglySorted (fun a b => before a b = true) (Py.insert before x l).
Proof.
  intros Hs. induction Hs as [|y t Ht IH Hy]; cbn.
  - repeat constructor.
  - destruct (before x y) eqn:E.
    + constructor; [now constructor |].
      constructor; [exact E |].
      eapply List.Forall_impl; [| exact Hy]. intros z Hz.
      eapply before_trans; eassumption.
    + constructor; [exact IH |].
      apply insert_Forall; [now apply before_total | exact Hy].
Qed.

(** For a total and transitive key order the result is sorted. *)
Lemma sorted_StronglySorted (l : list A) :
  StronglySorted (fun a b => before a b = true) (Py.sorted before l).
Proof.
  induction l as [|x t IH]; cbn; [constructor | now apply insert_sorted].
Qed.

End StableSort.

Lemma StronglySorted_map {A B} (R : A -> A -> Prop) (S : B -> B -> Prop)
  (f : A -> B) (l : list A) :
  (forall x y, R x y -> S (f x) (f y)) ->
  StronglySorted R l -> StronglySorted S (map f l).
Proof.
  intros HRS Hs. induction Hs as [|x t Ht IH Hx]; cbn; constructor; [exact IH |].
  apply List.Forall_map. eapply List.Forall_impl; [| exact Hx]. intros y. apply HRS.
Qed.

Lemma filter_opt_total {A} (p : A -> option bool) (f : A -> bool) (l : list A) :
  (forall x, In x l -> p x = Some (f x)) ->
  Py.filter_opt p l = Some (List.filter f l).
Proof.
  induction l as [|x t IH]; intros H; cbn; [reflexivity |].
  rewrite (H x) by now left.
  rewrite IH by (intros; apply H; now right).
  reflexivity.
Qed.

Lemma map_opt_rows {A B C} (f : A -> option C) (g : A * B -> C) (r : list (A * B)) :
  (forall ab, In ab r -> f (fst ab) = Some (g ab)) ->
  Py.map_opt f (map fst r) = Some (map g r).
Proof.
  induction r as [|ab t IH]; intros H; cbn; [reflexivity |].
  rewrite (H ab) by now left.
  rewrite IH by (intros; apply H; now right).
  reflexivity.
Qed.

Lemma str_in_In (x : string) (l : list string) : Py.str_in x l = true -> In x l.
Proof.
  unfold Py.str_in. rewrite existsb_exists. intros (y & Hy & E).
  apply String.eqb_eq in E. now subst.
Qed.

Lemma unique_from_In (seen l : list string) (x : string) :
  In x (Py.unique_from seen l) -> In x l.
Proof.
  revert seen. induction l as [|y t IH]; intros seen; cbn; [tauto |].
  destruct (Py.str_in y seen); [right; eauto |].
  intros [-> | H]; [now left | right; eauto].
Qed.

Lemma is_empty_false (s : string) : Str.is_empty s = false -> s <> "".
Proof. destruct s; discriminate. Qed.

Lemma to_lower_idem (c : ascii) : Str.to_lower (Str.to_lower c) = Str.to_lower c.
Proof. destruct c as [[] [] [] [] [] [] [] []]; reflexivity. Qed.

Lemma lower_idem (s : string) : Str.lower (Str.lower s) = Str.lower s.
Proof.
  unfold Str.lower. induction s as [|c t IH]; cbn; [reflexivity |].
  now rewrite to_lower_idem, IH.
Qed.

Lemma prefix_substring (n : nat) (s : string) :
  String.prefix (String.substring 0 n s) s = true.
Proof.
  revert n. induction s as [|c t IH]; intros [|n]; cbn; try reflexivity.
  destruct (ascii_dec c c); [apply IH | congruence].
Qed.

(** A slice of a text occurs in the text. *)
Lemma contains_substring (a n : nat) (s : string) :
  Str.contains (String.substring a n s) s = true.
Proof.
  revert a. induction s as [|c t IH]; intros a.
  - destruct a, n; reflexivity.
  - destruct a as [|a].
    + unfold Str.contains; fold Str.contains. now rewrite prefix_substring.
    + change (String.substring (S a) n (String c t)) with (String.substring a n t).
      unfold Str.contains; fold Str.contains. rewrite IH. apply orb_true_r.
Qed.

(** What [findall] returns are pieces of the searched text. *)
Lemma findall_substring (f : Re.flags) (r : Re.re) (s t : string) :
  In t (Re.findall f r s) -> Str.contains t s = true.
Proof.
  unfold Re.findall. rewrite in_map_iff. intros (m & <- & _).
  apply contains_substring.
Qed.

(* ------------------------------------------------------------------------- *)
(** ** Fusion and confidence *)
(* ------------------------------------------------------------------------- *)

Section FusionProperties.

Import HybridChunks.

Lemma level_compute_confidence_mono (s s' : Q) (n : Z) :
  (s' <= s)%Q ->
  (level (compute_confidence s' n) <= level (compute_confidence s n))%nat.
Proof.
  intros Hle. unfold compute_confidence.
  destruct (Qle_bool 0.035 s') eqn:A'; destruct (Qle_bool 0.035 s) eqn:A;
    destruct (Qle_bool 0.02 s') eqn:B'; destruct (Qle_bool 0.02 s) eqn:B;
    destruct (1 <=? n)%Z eqn:N; cbn; try lia;
    repeat match goal with
           | H : Qle_bool _ _ = true |- _ => apply Qle_bool_iff in H
           | H : Qle_bool _ _ = false |- _ =>
               apply not_true_iff_false in H; rewrite Qle_bool_iff in H
           end;
    exfalso;
    first [ apply A; eapply Qle_trans; eassumption
          | apply B; eapply Qle_trans; eassumption ].
Qed.

(** C5. [compute_confidence s n] is "strong" when [s >= 0.035] and [n >= 1],
    otherwise "medium" when [s >= 0.02], otherwise "weak"; and for a fixed
    overlap the level never rises when the score falls. *)
Theorem compute_confidence_threshold_rule (s s' : Q) (n : Z) :
  (s' <= s)%Q ->
  ((0.035 <= s)%Q /\ (1 <= n)%Z -> compute_confidence s n = "strong") /\
  (~ ((0.035 <= s)%Q /\ (1 <= n)%Z) -> (0.02 <= s)%Q ->
     compute_confidence s n = "medium") /\
  (~ ((0.035 <= s)%Q /\ (1 <= n)%Z) -> ~ (0.02 <= s)%Q ->
     compute_confidence s n = "weak") /\
  (level (compute_confidence s' n) <= level (compute_confidence s n))%nat.
Proof.
  intros Hle. unfold compute_confidence at 1 2 3.
  repeat split.
  - intros [Hs Hn]. apply Qle_bool_iff in Hs. apply Z.leb_le in Hn.
    now rewrite Hs, Hn.
  - intros Hno Hm.
    destruct (Qle_bool 0.035 s) eqn:A; destruct (1 <=? n)%Z eqn:N; cbn;
      try (apply Qle_bool_iff in Hm; now rewrite Hm).
    exfalso. apply Hno. split; [now apply Qle_bool_iff | now apply Z.leb_le].
  - intros Hno Hm.
    destruct (Qle_bool 0.035 s) eqn:A; destruct (1 <=? n)%Z eqn:N; cbn;
      try (destruct (Qle_bool 0.02 s) eqn:B;
           [exfalso; apply Hm; now apply Qle_bool_iff | reflexivity]).
    exfalso. apply Hno. split; [now apply Qle_bool_iff | now apply Z.leb_le].
  - now apply level_compute_confidence_mono.
Qed.

Lemma compute_confidence_threshold_rule_witness :
  (0.01 <= 0.04)%Q /\
  compute_confidence 0.04 1 = "strong" /\
  (level (compute_confidence 0.01 1) <= level (compute_confidence 0.04 1))%nat.
Proof.
  assert (H : (0.01 <= 0.04)%Q) by (unfold Qle; simpl; lia).
  destruct (compute_confidence_threshold_rule 0.04 0.01 1 H) as (A & _ & _ & D).
  split; [exact H |]. split; [| exact D].
  apply A. split; [unfold Qle; simpl; lia | lia].
Defined.

Lemma appears_In key lst : appears key lst = true <-> In key lst.
Proof.
  unfold appears. rewrite existsb_exists. split.
  - intros (x & Hx & E). apply Z.eqb_eq in E. now subst.
  - intros H. exists key. split; [exact H | apply Z.eqb_refl].
Qed.

Lemma rank_of_None key lst start : rank_of key lst start = None <-> ~ In key lst.
Proof.
  revert start. induction lst as [|x t IH]; intros start; cbn.
  - split; [intros _ [] | reflexivity].
  - destruct (x =? key)%Z eqn:E.
    + apply Z.eqb_eq in E. split; [discriminate | intros H; exfalso; apply H; now left].
    + apply Z.eqb_neq in E. rewrite IH. split.
      * intros H [A | A]; [now apply E | now apply H].
      * intros H A. apply H. now right.
Qed.

(** A list that does not hold the key leaves its entry alone. *)
Lemma fuse_absent k key lst : forall start (fused : gmap Z Q),
  ~ In key lst ->
  fold_left (bump k) (Py.enumerate start lst) fused !! key = fused !! key.
Proof.
  induction lst as [|x t IH]; intros start fused Hn; cbn; [reflexivity |].
  rewrite IH.
  - apply lookup_insert_ne. intros ->. apply Hn. now left.
  - intros H. apply Hn. now right.
Qed.

(** A duplicate-free list that holds the key adds its reciprocal rank once. *)
Lemma fuse_present k key lst : forall start r (fused : gmap Z Q),
  List.NoDup lst ->
  rank_of key lst start = Some r ->
  fold_left (bump k) (Py.enumerate start lst) fused !! key
  = Some (default 0 (fused !! key) + 1 / inject_Z (k + Z.of_nat r))%Q.
Proof.
  induction lst as [|x t IH]; intros start r fused Hnd Hr; cbn in *; [discriminate |].
  inversion Hnd as [|? ? Hx Ht]; subst.
  destruct (x =? key)%Z eqn:E.
  - apply Z.eqb_eq in E. subst x. injection Hr as <-.
    rewrite fuse_absent by exact Hx. apply lookup_insert_eq.
  - apply Z.eqb_neq in E. rewrite (IH _ _ _ Ht Hr).
    rewrite lookup_insert_ne by exact E. reflexivity.
Qed.

Lemma rrf_sum_cons_in k key l lists :
  In key l -> rrf_sum k key (l :: lists) = (contribution k key l + rrf_sum k key lists)%Q.
Proof.
  intros H. unfold rrf_sum. cbn. apply appears_In in H. now rewrite H.
Qed.

Lemma rrf_sum_cons_out k key l lists :
  ~ In key l -> rrf_sum k key (l :: lists) = rrf_sum k key lists.
Proof.
  intros H. unfold rrf_sum. cbn.
  destruct (appears key l) eqn:E; [| reflexivity].
  apply appears_In in E. contradiction.
Qed.

(** The outer loop, started from any dict. *)
Lemma rrf_fold k key lists : forall fused : gmap Z Q,
  Forall (@List.NoDup Z) lists ->
  match fold_left (fuse_list k) lists fused !! key with
  | Some v =>
      (v == default 0 (fused !! key) + rrf_sum k key lists)%Q
      /\ (is_Some (fused !! key) \/ exists l, In l lists /\ In key l)
  | None => fused !! key = None /\ forall l, In l lists -> ~ In key l
  end.
Proof.
  induction lists as [|l lists IH]; intros fused Hnd; cbn [fold_left].
  - destruct (fused !! key) as [v|] eqn:E; cbn.
    + split; [unfold rrf_sum; cbn; ring | left; eauto].
    + split; [reflexivity | intros _ []].
  - inversion Hnd as [|? ? Hl Hrest]; subst.
    specialize (IH (fuse_list k fused l) Hrest).
    destruct (fold_left (fuse_list k) lists (fuse_list k fused l) !! key) as [v|].
    + destruct IH as [Hv Hsrc].
      destruct (rank_of key l 1) as [r|] eqn:Er.
      * assert (Hin : In key l).
        { destruct (in_dec Z.eq_dec key l) as [i|n]; [exact i |].
          apply rank_of_None with (start := 1%nat) in n. congruence. }
        unfold fuse_list in Hv at 1. rewrite (fuse_present _ _ _ _ _ _ Hl Er) in Hv.
        cbn in Hv. split.
        -- rewrite Hv, (rrf_sum_cons_in _ _ _ _ Hin). unfold contribution.
           rewrite Er. ring.
        -- right. exists l. split; [now left | exact Hin].
      * apply rank_of_None in Er.
        unfold fuse_list in Hv at 1, Hsrc. rewrite (fuse_absent _ _ _ _ _ Er) in Hv, Hsrc.
        split.
        -- now rewrite (rrf_sum_cons_out _ _ _ _ Er).
        -- destruct Hsrc as [? | (l' & ? & ?)]; [now left |].
           right. exists l'. split; [now right | assumption].
    + destruct IH as [Hnone Hall].
      destruct (rank_of key l 1) as [r|] eqn:Er.
      * unfold fuse_list in Hnone. rewrite (fuse_present _ _ _ _ _ _ Hl Er) in Hnone.
        discriminate.
      * apply rank_of_None in Er.
        unfold fuse_list in Hnone. rewrite (fuse_absent _ _ _ _ _ Er) in Hnone.
        split; [exact Hnone |]. intros l' [<- | Hl']; [exact Er | now apply Hall].
Qed.

(** C6. For ranked lists without repeated items, the fused score of an item
    is the sum of [1 / (60 + rank)] over exactly the lists that hold it, its
    rank being its 1-based position there; an item of no list has no score. *)
Theorem reciprocal_rank_fusion_score (lists : list (list Z)) (key : Z) :
  Forall (@List.NoDup Z) lists ->
  match reciprocal_rank_fusion lists 60 !! key with
  | Some v => (v == rrf_sum 60 key lists)%Q /\ exists l, In l lists /\ In key l
  | None => forall l, In l lists -> ~ In key l
  end.
Proof.
  intros Hnd. unfold reciprocal_rank_fusion.
  pose proof (rrf_fold 60 key lists ∅ Hnd) as H.
  destruct (fold_left (fuse_list 60) lists ∅ !! key) as [v|].
  - destruct H as [Hv Hsrc]. rewrite lookup_empty in Hv, Hsrc. cbn in Hv. split.
    + rewrite Hv. ring.
    + destruct Hsrc as [[? Hx] | H]; [discriminate | exact H].
  - now destruct H.
Qed.

Lemma reciprocal_rank_fusion_score_witness :
  Forall (@List.NoDup Z) [[7; 3; 9]; [3; 5]; [8]]%Z /\
  match reciprocal_rank_fusion [[7; 3; 9]; [3; 5]; [8]]%Z 60 !! 3%Z with
  | Some v => (v == 1 / 62 + 1 / 61)%Q
  | None => False
  end.
Proof.
  assert (H : Forall (@List.NoDup Z) [[7; 3; 9]; [3; 5]; [8]]%Z).
  { repeat constructor; cbn; intuition lia. }
  split; [exact H |].
  pose proof (reciprocal_rank_fusion_score _ 3%Z H) as T.
  destruct (reciprocal_rank_fusion [[7; 3; 9]; [3; 5]; [8]]%Z 60 !! 3%Z) as [v|].
  - destruct T as [Hv _]. rewrite Hv. vm_compute. reflexivity.
  - apply (T [3; 5]%Z); cbn; auto.
Defined.

End FusionProperties.

(* ------------------------------------------------------------------------- *)
(** ** Lexical search *)
(* ------------------------------------------------------------------------- *)

Section LexicalProperties.

Import BM25Chunks.

Lemma ranked_all_In (scores : list Q) (i : nat) :
  In i (ranked_all scores) <-> (i < length scores)%nat.
Proof.
  unfold ranked_all. rewrite sorted_In, in_seq. lia.
Qed.

Lemma rows_fst (index : BM25ChunksIndex) (ok : Meta -> bool) (l : list nat) :
  map fst (flat_map (fun i => match nth_error (meta index) i with
                               | Some m => if ok m then [(i, m)] else []
                               | None => []
                               end) l)
  = List.filter (allowedb index ok) l.
Proof.
  induction l as [|i t IH]; cbn; [reflexivity |].
  rewrite map_app, IH. unfold allowedb at 2.
  destruct (nth_error (meta index) i) as [m|]; [| reflexivity].
  destruct (ok m); reflexivity.
Qed.

Lemma rows_sound (index : BM25ChunksIndex) (scores : list Q) (ok : Meta -> bool)
  (im : nat * Meta) :
  In im (in_scope_rows index scores ok) <->
  (fst im < length scores)%nat /\ nth_error (meta index) (fst im) = Some (snd im)
  /\ ok (snd im) = true.
Proof.
  unfold in_scope_rows. rewrite in_flat_map. split.
  - intros (i & Hi & Hin). apply ranked_all_In in Hi.
    destruct (nth_error (meta index) i) as [m|] eqn:E; [| destruct Hin].
    destruct (ok m) eqn:O; [| destruct Hin].
    destruct Hin as [<- | []]. cbn. auto.
  - intros (Hi & E & O). exists (fst im). split; [now apply ranked_all_In |].
    rewrite E, O. left. now destruct im.
Qed.

(** C10. When the scorer gives one score per index row, [k >= 1] and no
    in-scope row scores above zero, the search returns the first [k] in-scope
    rows in rank order, all with a score of at most zero, and the list is not
    empty as soon as one row is in scope. *)
Theorem bm25_zero_score_fallback (index : BM25ChunksIndex) (query scope : string)
  (k : nat) (mp_ids : list string) (min_equation_score : option Q) :
  let scores := get_scores index (tokenize query) in
  let ok := allowed_meta scope (map Str.upper mp_ids) min_equation_score in
  length scores = length (meta index) ->
  (1 <= k)%nat ->
  (forall i m, nth_error (meta index) i = Some m -> ok m = true ->
               ~ (0 < score_at scores i)%Q) ->
  exists hits,
    bm25_chunks_search_filtered index query k scope mp_ids min_equation_score
    = Some hits
    /\ hits = map (fun im => hit_of scores (fst im) (snd im))
                  (firstn k (in_scope_rows index scores ok))
    /\ Forall (fun h => (score h <= 0)%Q) hits
    /\ ((exists i m, nth_error (meta index) i = Some m /\ ok m = true) -> hits <> []).
Proof.
  intros scores ok Hlen Hk Hzero.
  set (rows := in_scope_rows index scores ok).
  exists (map (fun im => hit_of scores (fst im) (snd im)) (firstn k rows)).
  assert (Hmeta : forall i, In i (ranked_all scores) ->
                            exists m, nth_error (meta index) i = Some m).
  { intros i Hi. apply ranked_all_In in Hi.
    destruct (nth_error (meta index) i) as [m|] eqn:E; [eauto |].
    apply nth_error_None in E. lia. }
  split; [| split; [reflexivity | split]].
  - unfold bm25_chunks_search_filtered. fold scores. fold ok.
    rewrite (filter_opt_total _ (fun _ => false)).
    + assert (F : List.filter (fun _ : nat => false) (ranked_all scores) = []).
      { clear. induction (ranked_all scores) as [|a l IHl]; [reflexivity | exact IHl]. }
      rewrite F. replace (firstn k []) with (@nil nat) by now destruct k.
      rewrite (filter_opt_total _ (allowedb index ok)).
      * cbn [option_map]. rewrite <- (rows_fst index ok), firstn_map.
        apply map_opt_rows. intros im Him.
        apply In_firstn, rows_sound in Him. destruct Him as (_ & E & _).
        now rewrite E.
      * intros i Hi. destruct (Hmeta i Hi) as [m E]. unfold allowedb.
        now rewrite E.
    + intros i Hi. destruct (Hmeta i Hi) as [m E]. rewrite E. cbn.
      destruct (ok m) eqn:O; [| reflexivity].
      f_equal. unfold positive. apply negb_false_iff, Qle_bool_iff, Qnot_lt_le.
      now apply (Hzero i m).
  - apply List.Forall_forall. intros h Hh. apply in_map_iff in Hh.
    destruct Hh as (im & <- & Him). cbn.
    apply In_firstn, rows_sound in Him. destruct Him as (_ & E & O).
    apply Qnot_lt_le. now apply (Hzero _ _ E O).
  - intros (i & m & E & O).
    assert (Hin : In (i, m) rows).
    { apply rows_sound. cbn. repeat split; auto.
      rewrite Hlen. apply nth_error_Some. congruence. }
    destruct rows as [|r0 rt]; [destruct Hin |].
    destruct k; [lia |]. discriminate.
Qed.

Lemma bm25_zero_score_fallback_witness :
  exists hits,
    bm25_chunks_search_filtered sample_index "zebra crossing" 1 "standspec" [] None
    = Some hits
    /\ map chunk_id hits = [3%Z]
    /\ Forall (fun h => (score h <= 0)%Q) hits.
Proof.
  destruct (bm25_zero_score_fallback sample_index "zebra crossing" "standspec" 1 [] None)
    as (hits & E & Hform & Hle & _).
  - reflexivity.
  - lia.
  - intros i m Hm _. destruct i as [|[|[|i]]]; cbn in *;
      [unfold Qlt; cbn; lia .. | destruct i; discriminate].
  - exists hits. split; [exact E |]. split; [| exact Hle].
    rewrite Hform. vm_compute. reflexivity.
Defined.

End LexicalProperties.

(* ------------------------------------------------------------------------- *)
(** ** Segmentation *)
(* ------------------------------------------------------------------------- *)

Section SegmenterProperties.

Import Chunking.

Lemma flush_nonempty (a : acc) :
  Forall nonempty_text (chunks a) -> Forall nonempty_text (chunks (flush a)).
Proof.
  intros H. unfold flush.
  destruct (cur_start a), (cur_end a), (cur_buf a); cbn; try exact H.
  destruct (Str.is_empty _) eqn:E; [exact H |].
  apply Forall_snoc; [exact H | now apply is_empty_false].
Qed.

Lemma step_nonempty (p : Z) (a : acc) (seg : PageSegment) :
  Forall nonempty_text (chunks a) -> Forall nonempty_text (chunks (step p a seg)).
Proof.
  intros H. unfold step. cbn.
  destruct (cur_start a); cbn; [| exact H].
  destruct (_ && _); cbn; [now apply flush_nonempty |].
  destruct (_ && _); exact H.
Qed.

(** The segmenter never emits a chunk without text. *)
Lemma chunks_nonempty (pages : list (Z * string)) :
  Forall nonempty_text (chunk_document_pages pages).
Proof.
  unfold chunk_document_pages. apply flush_nonempty.
  apply fold_left_invariant; [constructor |].
  intros a pg _ Ha. unfold page_step.
  apply fold_left_invariant; [exact Ha |].
  intros a' seg _. apply step_nonempty.
Qed.

Lemma flush_ordered (a : acc) :
  Forall ordered_pages (chunks a) ->
  (forall s e, cur_start a = Some s -> cur_end a = Some e -> (s <= e)%Z) ->
  Forall ordered_pages (chunks (flush a)).
Proof.
  intros H Hse. unfold flush.
  destruct (cur_start a) as [s|], (cur_end a) as [e|], (cur_buf a); cbn; try exact H.
  destruct (Str.is_empty _); [exact H |].
  apply Forall_snoc; [exact H |]. unfold ordered_pages. cbn. now apply Hse.
Qed.

Lemma step_tracking (p : Z) (a : acc) (seg : PageSegment) :
  tracking p a -> tracking p (step p a seg).
Proof.
  intros (Hc & Hs & Hse).
  assert (Hf : Forall ordered_pages (chunks (flush a))) by now apply flush_ordered.
  unfold step, tracking. cbn.
  destruct (cur_start a) as [s|] eqn:Es; cbn.
  - specialize (Hs s eq_refl).
    destruct (_ && _); cbn.
    + repeat split; [exact Hf | |]; intros; simplify_eq; lia.
    + destruct (_ && _); cbn; (repeat split; [exact Hc | |]);
        intros; rewrite ?Es in *; simplify_eq; lia.
  - repeat split; [exact Hc | |]; intros; simplify_eq; lia.
Qed.

Lemma tracking_le (b b' : Z) (a : acc) : (b <= b')%Z -> tracking b a -> tracking b' a.
Proof.
  intros Hb (Hc & Hs & Hse). repeat split; auto.
  intros s E. specialize (Hs s E). lia.
Qed.

Lemma pages_tracking (pages : list (Z * string)) : forall (b : Z) (a : acc),
  StronglySorted Z.le (b :: map fst pages) ->
  tracking b a ->
  exists b', tracking b' (fold_left page_step pages a).
Proof.
  induction pages as [|[p t] rest IH]; intros b a Hs Ha; cbn; [eauto |].
  inversion Hs as [|? ? Hrest Hb]; subst. cbn in Hrest, Hb.
  inversion Hb as [|? ? Hbp _]; subst.
  apply (IH p); [exact Hrest |].
  unfold page_step. cbn.
  apply fold_left_invariant; [now apply (tracking_le b) |].
  intros a' seg _. apply step_tracking.
Qed.

(** On pages in page order every chunk has an ordered page range. *)
Lemma chunks_ordered (pages : list (Z * string)) :
  StronglySorted Z.le (map fst pages) ->
  Forall ordered_pages (chunk_document_pages pages).
Proof.
  intros Hs. unfold chunk_document_pages.
  assert (H : exists b, tracking b (fold_left page_step pages init)).
  { destruct pages as [|[p t] rest];
      [exists 0%Z; repeat split; [constructor | |]; discriminate |].
    apply (pages_tracking _ p).
    - cbn in *. constructor; [exact Hs |]. inversion Hs; subst.
      constructor; [lia | assumption].
    - repeat split; [constructor | |]; discriminate. }
  destruct H as (b & Hc & _ & Hse). now apply flush_ordered.
Qed.

(** C9, as the code has it.  An empty page text gives exactly one segment,
    with no section id and empty text; the chunks of a document never have
    an empty text, and a document of one empty page has no chunk at all. *)
Theorem empty_page_segmentation (pages : list (Z * string)) (p : Z) :
  split_page_into_segments ""
  = [ {| seg_section_id := None; seg_heading := None; seg_text := "" |} ]
  /\ Forall nonempty_text (chunk_document_pages pages)
  /\ chunk_document_pages [(p, "")] = [].
Proof.
  split; [reflexivity |]. split; [apply chunks_nonempty | reflexivity].
Qed.

(** C9, as stated, fails: the empty page yields no empty-text chunk.  Alone
    it yields nothing; after a section page it only widens that chunk. *)
Lemma empty_page_dropped :
  chunk_document_pages [(1%Z, "")] = []
  /\ map (fun c => (page_start c, page_end c, text c))
         (chunk_document_pages [(1%Z, "SECTION 701 GENERAL"); (2%Z, "")])
     = [(1%Z, 2%Z, "SECTION 701 GENERAL")].
Proof. split; vm_compute; reflexivity. Qed.

End SegmenterProperties.

(* ------------------------------------------------------------------------- *)
(** ** The chunk rebuild *)
(* ------------------------------------------------------------------------- *)

Section RebuildProperties.

Import ChunkIngestion.

Variables (sha1_hex : string -> string) (equation_score : string -> Q).

Lemma pages_of_sorted (store : DB) (doc_id : Z) :
  StronglySorted Z.le (map fst (pages_of store doc_id)).
Proof.
  unfold pages_of. rewrite map_map. cbn.
  apply (StronglySorted_map
           (fun a b => (p_page_number a <=? p_page_number b)%Z = true)).
  - intros x y H. now apply Z.leb_le.
  - apply sorted_StronglySorted.
    + intros x y H. apply Z.leb_le. apply Z.leb_gt in H. lia.
    + intros x y z H1 H2. apply Z.leb_le. apply Z.leb_le in H1, H2. lia.
Qed.

Lemma classify_chunk_kind (sid : option string) (t : string) :
  classify_chunk sid t <> "table_row".
Proof.
  unfold classify_chunk. destruct (looks_like_toc_block t); [discriminate |].
  destruct sid; discriminate.
Qed.

Lemma content_row_ok (doc_id : Z) (st : ins) (ch : Chunking.Chunk) :
  ordered_pages ch -> chunk_invariant (content_row equation_score doc_id st ch).
Proof.
  intros Ho. split; cbn; [exact Ho |]. split; [congruence |].
  destruct (Qle_bool 0.45 _); [discriminate |].
  intros E. injection E as E. now apply classify_chunk_kind in E.
Qed.

Lemma insert_row_ok (doc_id page_no : Z) (section : ctx) (uid label : string)
  (st : ins) (row : nat * string) :
  stored_ok st -> stored_ok (insert_row doc_id page_no section uid label st row).
Proof.
  intros H. unfold insert_row. destruct (Str.is_empty _); [exact H |].
  unfold stored_ok. cbn. apply Forall_snoc; [exact H |].
  split; cbn; [lia |]. split; [reflexivity | discriminate].
Qed.

Lemma insert_block_ok (d : Document) (page_no : Z) (section : ctx)
  (st : ins) (tb : nat * TableBlock) :
  stored_ok st -> stored_ok (insert_block sha1_hex d page_no section st tb).
Proof.
  intros H. unfold insert_block.
  apply fold_left_invariant; [exact H |].
  intros st' row _. apply insert_row_ok.
Qed.

Lemma insert_page_tables_ok (d : Document) (by_page : gmap Z ctx)
  (st : ins) (page : Z * string) :
  stored_ok st -> stored_ok (insert_page_tables sha1_hex d by_page st page).
Proof.
  intros H. unfold insert_page_tables.
  apply fold_left_invariant; [exact H |].
  intros st' tb _. apply insert_block_ok.
Qed.

Lemma insert_contents_ok (doc_id : Z) (chs : list Chunking.Chunk) (st : ins) :
  Forall ordered_pages chs -> stored_ok st ->
  stored_ok (fold_left (insert_content equation_score doc_id) chs st).
Proof.
  revert st. induction chs as [|ch t IH]; intros st Ho H; cbn; [exact H |].
  inversion Ho; subst. apply IH; [assumption |].
  unfold stored_ok, insert_content. cbn.
  apply Forall_snoc; [exact H | now apply content_row_ok].
Qed.

(** Linking touches the table uid and label of a row, nothing else. *)
Lemma link_chunk_ok (store : DB) (doc_id : Z) (c : ChunkRow) :
  chunk_invariant c -> chunk_invariant (link_chunk store doc_id c).
Proof.
  intros H. unfold link_chunk.
  destruct (linkable doc_id c); [| exact H].
  destruct (Re.search _ _ _); [| exact H].
  destruct (_resolve_table_uid _ _ _ _) as [[uid label]|]; [| exact H].
  exact H.
Qed.

Lemma rebuild_document_ok (st : ins) (d : Document) :
  stored_ok st -> stored_ok (rebuild_document sha1_hex equation_score st d).
Proof.
  intros H. unfold rebuild_document, stored_ok. cbn.
  apply List.Forall_map. eapply List.Forall_impl; [intros c; apply link_chunk_ok |].
  apply (fold_left_invariant stored_ok).
  - apply insert_contents_ok; [| exact H].
    apply chunks_ordered, pages_of_sorted.
  - intros st' pg _. apply insert_page_tables_ok.
Qed.

Lemma rebuild_document_sources (store : DB) (st : ins) (d : Document) :
  same_sources store st ->
  same_sources store (rebuild_document sha1_hex equation_score st d).
Proof.
  intros H. unfold rebuild_document, same_sources. cbn.
  apply (fold_left_invariant (same_sources store)).
  - apply (fold_left_invariant (same_sources store)); [exact H |].
    intros st' ch _ H'. exact H'.
  - intros st' pg _ H'. unfold insert_page_tables.
    apply (fold_left_invariant (same_sources store)); [exact H' |].
    intros st2 tb _ H2. unfold insert_block.
    apply (fold_left_invariant (same_sources store)); [exact H2 |].
    intros st3 row _ H3. unfold insert_row.
    destruct (Str.is_empty _); exact H3.
Qed.

Lemma rebuild_state_sources (store : DB) :
  same_sources store (rebuild_state sha1_hex equation_score store).
Proof.
  unfold rebuild_state. apply fold_left_invariant; [split; reflexivity |].
  intros st d _. apply rebuild_document_sources.
Qed.

(** A rebuild is a function of the documents and the pages alone. *)
Lemma rebuild_chunks_sources_only (s1 s2 : DB) :
  documents s1 = documents s2 -> pages s1 = pages s2 ->
  rebuild_chunks sha1_hex equation_score s1 = rebuild_chunks sha1_hex equation_score s2.
Proof.
  intros Hd Hp. unfold rebuild_chunks, rebuild_state, docs_of, wiped.
  now rewrite Hd, Hp.
Qed.

(** C7. Every chunk row stored by a rebuild has [page_start <= page_end],
    and its [table_row_index] is set exactly when its kind is [table_row]. *)
Theorem rebuild_chunk_invariant (store : DB) :
  Forall chunk_invariant (chunks (fst (rebuild_chunks sha1_hex equation_score store))).
Proof.
  unfold rebuild_chunks, rebuild_state. cbn.
  apply (fold_left_invariant (stored_ok)); [constructor |].
  intros st d _. apply rebuild_document_ok.
Qed.

(** C8. The table uid is a function of the document id, the filename, the
    page, the index on the page and the first 25 lines of the block; two
    stores with the same documents and pages are rebuilt to the same tables,
    and rebuilding a rebuilt store leaves its tables as they are. *)
Theorem table_uid_stable (s1 s2 : DB)
  (document_id : Z) (filename : string) (page_number table_index_on_page : Z)
  (lines lines' : list string) :
  firstn 25 lines = firstn 25 lines' ->
  documents s1 = documents s2 ->
  pages s1 = pages s2 ->
  _stable_table_uid sha1_hex document_id filename page_number table_index_on_page lines
  = _stable_table_uid sha1_hex document_id filename page_number table_index_on_page lines'
  /\ tables (fst (rebuild_chunks sha1_hex equation_score s1))
     = tables (fst (rebuild_chunks sha1_hex equation_score s2))
  /\ tables (fst (rebuild_chunks sha1_hex equation_score
                    (fst (rebuild_chunks sha1_hex equation_score s1))))
     = tables (fst (rebuild_chunks sha1_hex equation_score s1)).
Proof.
  intros Hl Hd Hp. split; [| split].
  - unfold _stable_table_uid. now rewrite Hl.
  - now rewrite (rebuild_chunks_sources_only s1 s2).
  - f_equal. f_equal. apply rebuild_chunks_sources_only;
      apply (rebuild_state_sources s1).
Qed.

End RebuildProperties.

Section RebuildSample.

Import ChunkIngestion.

(** The sample store holds one table; with the digest replaced by the
    identity its uid shows what is hashed. *)
Lemma table_uid_stable_witness :
  _stable_table_uid (fun s => s) 7 "spec.pdf" 2 1 (long_table "No. 50  0-15")
  = _stable_table_uid (fun s => s) 7 "spec.pdf" 2 1 (long_table "No. 200  0-5")
  /\ tables (fst (rebuild_chunks (fun s => s) (fun _ => 0%Q) sample_store))
     = tables (fst (rebuild_chunks (fun s => s) (fun _ => 0%Q) stale_store))
  /\ map t_table_index_on_page
         (tables (fst (rebuild_chunks (fun s => s) (fun _ => 0%Q) sample_store)))
     = [1%Z].
Proof.
  destruct (table_uid_stable (fun s => s) (fun _ => 0%Q) sample_store stale_store
              7 "spec.pdf" 2 1
              (long_table "No. 50  0-15") (long_table "No. 200  0-5"))
    as (U & T & _); try reflexivity.
  split; [exact U |]. split; [exact T |]. vm_compute. reflexivity.
Defined.

End RebuildSample.

(* ------------------------------------------------------------------------- *)
(** ** The answer cascade *)
(* ------------------------------------------------------------------------- *)

Section AskProperties.

Import Ask.

(** *** Weak retrieval *)

Lemma token_is_substring (x tok : string) :
  In tok (_tokenize_relevance x) -> Str.contains tok (Str.lower x) = true.
Proof.
  unfold _tokenize_relevance, Py.unique. intros H.
  apply unique_from_In, filter_In in H. destruct H as [H _].
  now apply findall_substring in H.
Qed.

(** The relevance check amounts to a shared section prefix or one query
    token inside the snippet: a token common to the query and the snippet is
    inside the snippet, so the overlap count never decides. *)
Lemma relevant_hit_characterised (q : string) (h : Hit) :
  _is_relevant_hit q h = true -> shares_section_prefix q h \/ token_in_snippet q h.
Proof.
  unfold _is_relevant_hit. cbv zeta.
  destruct (match _extract_section_pattern q with
            | Some section_pat => _
            | None => false
            end) eqn:Es.
  - intros _. left.
    destruct (_extract_section_pattern q) as [pat|] eqn:Ep; [| discriminate].
    exists pat. split; [exact Ep |]. now apply andb_true_iff in Es.
  - clear Es. right. unfold token_in_snippet.
    destruct (_tokenize_relevance q) as [|t0 ts] eqn:Et; [discriminate |].
    destruct (existsb _ (t0 :: ts)) eqn:Ex.
    + apply existsb_exists in Ex. destruct Ex as (tok & Hin & Hc).
      exists tok. split; assumption.
    + exfalso.
      destruct (overlap (t0 :: ts) _) as [|tok rest] eqn:Eo; [discriminate |].
      assert (Hin : In tok (overlap (t0 :: ts)
                              (_tokenize_relevance (Str.lower (snippet h)))))
        by (rewrite Eo; now left).
      apply filter_In in Hin. destruct Hin as [Hq Hs].
      apply str_in_In, token_is_substring in Hs. rewrite lower_idem in Hs.
      assert (existsb (fun tok => Str.contains tok (Str.lower (snippet h))) (t0 :: ts)
              = true) by (apply existsb_exists; eauto).
      congruence.
Qed.

Lemma weak_response_defensive (hs : list Hit) (q : string) :
  defensive q hs (_weak_response hs q).
Proof.
  unfold _weak_response, defensive.
  destruct hs as [|top rest]; [cbn; auto |].
  destruct (_is_relevant_hit q top) eqn:Er; cbn; [| auto].
  destruct (Str.is_empty (Str.strip (snippet top))) eqn:Ee; cbn; [auto |].
  repeat split. right. exists top, rest. repeat split.
  - intros E. rewrite E in Ee. discriminate.
  - now apply relevant_hit_characterised.
Qed.

Lemma weak_response_confidence (hs : list Hit) (q : string) :
  confidence (_weak_response hs q) = "weak".
Proof. apply weak_response_defensive. Qed.

(** C4, as the code has it.  At the weak-retrieval step (confidence "weak"
    or no hit) the cascade answers at confidence "weak" with either the fixed
    message and no hit, or the stripped snippet of the first hit and that hit
    alone; the hit is shown only when its section id starts with the
    subsection id named in the query or when one relevance token of the query
    occurs inside its lower-cased snippet. *)
Theorem weak_retrieval_defensive (env : Env) (q conf : string) (hs : list Hit)
  (table_token : option string) :
  conf = "weak" \/ hs = [] ->
  exists r, answer_tail env q conf hs table_token = Ok r /\ defensive q hs r.
Proof.
  intros H. exists (_weak_response hs q). split; [| apply weak_response_defensive].
  unfold answer_tail. destruct H as [-> | ->]; [reflexivity |].
  cbn. now rewrite orb_true_r.
Qed.

Lemma weak_retrieval_defensive_witness :
  exists r,
    answer_tail (env_with [curing_hit] "weak" (Ok EmptyString)) rate_query "weak"
      [curing_hit] None = Ok r
    /\ defensive rate_query [curing_hit] r.
Proof.
  exact (weak_retrieval_defensive (env_with [curing_hit] "weak" (Ok EmptyString))
           rate_query "weak" [curing_hit] None (or_introl eq_refl)).
Defined.

(** C4, as stated, fails: the query names no section and shares no token
    with the snippet, yet the hit is cited, because "rate" occurs inside
    "separate". *)
Lemma weak_response_cites_substring_match :
  ask_question (env_with [curing_hit] "weak" (Ok EmptyString)) rate_query "all" [] 6
    "answer"
  = {| confidence := "weak";
       answer := "Closest match from NJDOT manuals: Concrete curing shall be kept separate. [1]";
       hits := [curing_hit]; table := None |}
  /\ _extract_section_pattern rate_query = None
  /\ _tokenize_relevance rate_query = ["rate"; "job"]
  /\ overlap (_tokenize_relevance rate_query)
             (_tokenize_relevance (Str.lower (snippet curing_hit))) = [].
Proof. repeat split; vm_compute; reflexivity. Qed.

(** *** The numeric guard *)

Lemma numeric_guard_trips_iff (src ans : string) :
  numeric_guard_trips src ans = true <->
  nums_in_answer ans <> []
  /\ forall n, In n (nums_in_answer ans) -> Str.contains n (Str.lower src) = false.
Proof.
  unfold numeric_guard_trips. cbv zeta.
  rewrite andb_true_iff, !negb_true_iff. split.
  - intros [Hn He]. split.
    + intros E. rewrite E in Hn. discriminate.
    + intros n Hin. destruct (Str.contains n (Str.lower src)) eqn:C; [| reflexivity].
      assert (existsb (fun n => Str.contains n (Str.lower src)) (nums_in_answer ans)
              = true) by (apply existsb_exists; eauto).
      congruence.
  - intros [Hn Hall]. split.
    + destruct (nums_in_answer ans); [congruence | reflexivity].
    + destruct (existsb _ _) eqn:E; [| reflexivity].
      apply existsb_exists in E. destruct E as (n & Hin & Hc).
      rewrite (Hall n Hin) in Hc. discriminate.
Qed.

(** The synthesis step once an answer is at hand. *)
Lemma synthesis_with_answer (env : Env) (q conf : string) (hs : list Hit)
  (ans : string) :
  preferred_of hs <> [] ->
  get_llm env = Ok tt ->
  _is_time_limit_question q && negb (_has_payment_days_phrase (sources_text_of q hs))
  = false ->
  draft_answer env q (top_hits_of q hs) (sources_text_of q hs) = Ok ans ->
  synthesis env q conf hs
  = if days_question q && numeric_guard_trips (sources_text_of q hs) ans
    then _llm_fallback_answer hs
    else {| confidence := _safe_confidence conf ans; answer := polished ans q;
            hits := hs; table := None |}.
Proof.
  intros Hp Hllm Hgate Hans. unfold sources_text_of in *.
  unfold synthesis, synthesis_try. cbv zeta.
  destruct (preferred_of hs) as [|p0 pt]; [congruence |].
  rewrite Hllm. cbn [bind]. rewrite Hgate, Hans. cbn [bind].
  destruct (days_question q && _); reflexivity.
Qed.

(** C1, as the code has it.  When the synthesis step has an answer for a
    query whose lower-cased text matches
    [\bhow many days\b|\bwithin \d+ days\b|\bdays\b], and the answer holds at
    least one integer token none of which occurs in the lower-cased source
    block text, the answer is discarded for the one-snippet fallback
    (confidence "medium", the first hit).  A query without that wording is
    not checked: its answer is polished and returned. *)
Theorem numeric_guard_on_day_questions (env : Env) (q conf : string)
  (hs : list Hit) (ans : string) :
  preferred_of hs <> [] ->
  get_llm env = Ok tt ->
  _is_time_limit_question q && negb (_has_payment_days_phrase (sources_text_of q hs))
  = false ->
  draft_answer env q (top_hits_of q hs) (sources_text_of q hs) = Ok ans ->
  (days_question q = true ->
   nums_in_answer ans <> [] ->
   (forall n, In n (nums_in_answer ans) ->
              Str.contains n (Str.lower (sources_text_of q hs)) = false) ->
   synthesis env q conf hs = _llm_fallback_answer hs
   /\ confidence (synthesis env q conf hs) = "medium"
   /\ hits (synthesis env q conf hs) = firstn 1 hs)
  /\ (days_question q = false ->
      synthesis env q conf hs
      = {| confidence := _safe_confidence conf ans; answer := polished ans q;
           hits := hs; table := None |}).
Proof.
  intros Hp Hllm Hgate Hans.
  pose proof (synthesis_with_answer env q conf hs ans Hp Hllm Hgate Hans) as Hs.
  split.
  - intros Hd Hn Hall. rewrite Hs, Hd.
    assert (T : numeric_guard_trips (sources_text_of q hs) ans = true)
      by (apply numeric_guard_trips_iff; auto).
    rewrite T. cbn [andb].
    destruct hs as [|h rest]; [now destruct Hp |]. repeat split.
  - intros Hd. now rewrite Hs, Hd.
Qed.

Lemma numeric_guard_on_day_questions_witness :
  days_question days_query = true
  /\ nums_in_answer invented_reply = ["45"]
  /\ synthesis (env_with [pay_hit] "strong" (Ok invented_reply)) days_query "strong" [pay_hit]
     = {| confidence := "medium";
          answer := "Pay each subcontractor within 10 days after receipt of payment from the Department. [1]";
          hits := [pay_hit]; table := None |}.
Proof.
  assert (Hd : days_question days_query = true) by (vm_compute; reflexivity).
  assert (Hn : nums_in_answer invented_reply = ["45"]) by (vm_compute; reflexivity).
  split; [exact Hd |]. split; [exact Hn |].
  destruct (numeric_guard_on_day_questions
              (env_with [pay_hit] "strong" (Ok invented_reply))
              days_query "strong" [pay_hit] invented_reply) as [G _].
  - vm_compute. discriminate.
  - reflexivity.
  - vm_compute. reflexivity.
  - vm_compute. reflexivity.
  - destruct G as (E & _ & _).
    + exact Hd.
    + rewrite Hn. discriminate.
    + rewrite Hn. intros n [<- | []]. vm_compute. reflexivity.
    + rewrite E. vm_compute. reflexivity.
Defined.

(** C1, as stated, fails twice.  A time-limit question is answered with
    "45 days" although 45 is nowhere in the source block, because another
    number of the answer is; and a question without day wording is not
    checked at all. *)
Lemma numeric_guard_lets_absent_number_through :
  ask_question (env_with [pay_hit] "strong" (Ok mixed_reply)) days_query "all" [] 6 "answer"
  = {| confidence := "strong"; answer := mixed_reply; hits := [pay_hit]; table := None |}
  /\ _is_time_limit_question days_query = true
  /\ nums_in_answer mixed_reply = ["10"; "45"]
  /\ Str.contains "45" (Str.lower (sources_text_of days_query [pay_hit])) = false
  /\ ask_question (env_with [pay_hit] "strong" (Ok cited_reply)) due_query "all" [] 6 "answer"
     = {| confidence := "strong"; answer := "Payment is due in 45 days.";
          hits := [pay_hit]; table := None |}
  /\ Str.contains "45" (Str.lower (sources_text_of due_query [pay_hit])) = false.
Proof. repeat split; vm_compute; reflexivity. Qed.

(** *** Errors of the generation model *)

(** C2. When the generation step raises, the synthesis answers with the
    one-snippet fallback at confidence "medium" if a usable hit exists, and
    with the weak response otherwise (the fixed insufficient-evidence message
    when there is no hit at all); the confidence is one of the three levels. *)
Theorem generation_error_fallback (env : Env) (q conf : string) (hs : list Hit)
  (e : exn) :
  synthesis_try env q hs (top_hits_of q hs) (sources_text_of q hs) = Raise e ->
  (preferred_of hs <> [] ->
   exists h rest,
     hs = h :: rest
     /\ synthesis env q conf hs
        = {| confidence := "medium"; answer := fallback_text h; hits := [h];
             table := None |})
  /\ (preferred_of hs = [] ->
      synthesis env q conf hs = _weak_response hs q
      /\ confidence (synthesis env q conf hs) = "weak")
  /\ (hs = [] -> synthesis env q conf hs = weak_empty)
  /\ In (confidence (synthesis env q conf hs)) confidence_levels.
Proof.
  intros Hraise. unfold sources_text_of in Hraise.
  assert (Hs : synthesis env q conf hs
               = match preferred_of hs with
                 | [] => _weak_response hs q
                 | _ => _llm_fallback_answer hs
                 end).
  { unfold synthesis. cbv zeta. rewrite Hraise. reflexivity. }
  repeat split.
  - intros Hp. destruct hs as [|h rest]; [now destruct Hp |].
    exists h, rest. split; [reflexivity |]. rewrite Hs.
    destruct (preferred_of (h :: rest)); [now destruct Hp | reflexivity].
  - rewrite Hs, H. reflexivity.
  - rewrite Hs, H. apply weak_response_confidence.
  - intros ->. reflexivity.
  - rewrite Hs. destruct (preferred_of hs) as [|p0 pt] eqn:Ep.
    + rewrite weak_response_confidence. cbn. auto.
    + destruct hs as [|h rest]; [discriminate |]. cbn. auto.
Qed.

Lemma generation_error_fallback_witness :
  synthesis_try (env_with [pay_hit] "strong" (Raise llm_timeout))
    days_query [pay_hit] (top_hits_of days_query [pay_hit])
    (sources_text_of days_query [pay_hit]) = Raise llm_timeout
  /\ ask_question (env_with [pay_hit] "strong" (Raise llm_timeout))
       days_query "all" [] 6 "answer"
     = {| confidence := "medium";
          answer := "Pay each subcontractor within 10 days after receipt of payment from the Department. [1]";
          hits := [pay_hit]; table := None |}.
Proof.
  assert (H : synthesis_try (env_with [pay_hit] "strong" (Raise llm_timeout))
                days_query [pay_hit] (top_hits_of days_query [pay_hit])
                (sources_text_of days_query [pay_hit]) = Raise llm_timeout)
    by (vm_compute; reflexivity).
  split; [exact H |].
  destruct (generation_error_fallback _ _ "strong" _ _ H) as (G & _).
  destruct G as (h & rest & Eh & Es); [vm_compute; discriminate |].
  injection Eh as <- <-.
  transitivity (synthesis (env_with [pay_hit] "strong" (Raise llm_timeout))
                  days_query "strong" [pay_hit]); [vm_compute; reflexivity |].
  rewrite Es. vm_compute. reflexivity.
Defined.

(** The fallback itself answers "low" for an empty hit list; the synthesis
    never calls it that way. *)
Lemma llm_fallback_answer_without_hits :
  confidence (_llm_fallback_answer []) = "low".
Proof. reflexivity. Qed.

(** *** Errors of the document store *)

Lemma raised_inside_escapes (env : Env) (query scope : string)
  (mp_ids : list string) (k : nat) (mode : string) (e : exn) :
  raised_inside env query scope mp_ids k mode e <->
  _ask_question_inner env query scope mp_ids k mode = Raise e.
Proof.
  unfold raised_inside, _ask_question_inner. split.
  - intros [H | (hs & conf & u & H & [H' | (hs' & H' & Hc)])]; rewrite H; cbn;
      [reflexivity | now rewrite H' | now rewrite H'].
  - destruct (retrieval env query scope mp_ids k mode) as [[res | hs conf u] | e0];
      cbn; [discriminate | | intros [= ->]; now left].
    intros H. right. exists hs, conf, u. split; [reflexivity |].
    destruct (rehydrate env hs query) as [hs' | e0]; cbn in H.
    + right. exists hs'. split; [reflexivity | exact H].
    + injection H as ->. now left.
Qed.

(** A table lookup that fails at the head of the tail escapes it. *)
Lemma table_lookup_error_escapes (env : Env) (q conf : string) (h : Hit)
  (rest : list Hit) (table_token : option string) (e : exn) :
  conf <> "weak" ->
  Py.truthy (table_uid h) = true ->
  _looks_like_table_query q = true ->
  _table_has_enough_rows env (uid_of h) 2 = Raise e ->
  answer_tail env q conf (h :: rest) table_token = Raise e.
Proof.
  intros Hc Hu Hq He. unfold answer_tail, top_table_answer.
  apply String.eqb_neq in Hc. rewrite Hc, Hu, Hq, He. reflexivity.
Qed.

(** What leaves the passthroughs and the cascade was raised by a store
    operation: the synthesis step returns whatever the generation model
    does. *)
Lemma top_table_answer_raises (env : Env) (q : string) (hs : list Hit)
  (table_token : option string) (e : exn) :
  top_table_answer env q hs table_token = Raise e ->
  (exists uid, _table_has_enough_rows env uid 2 = Raise e)
  \/ (exists uid label h, table_block env table_token uid label h = Raise e).
Proof.
  unfold top_table_answer. destruct hs as [|h0 rest]; [discriminate |].
  destruct (_ && _); [| discriminate].
  destruct (_table_has_enough_rows env (uid_of h0) 2) as [enough | e0] eqn:En; cbn.
  - destruct enough; [| discriminate].
    destruct (table_block env table_token (uid_of h0) None h0) as [tb | e0] eqn:Tb;
      cbn; [discriminate |].
    intros [= <-]. right. now exists (uid_of h0), None, h0.
  - intros [= <-]. left. now exists (uid_of h0).
Qed.

Lemma block_table_answer_raises (env : Env) (q conf : string) (hs : list Hit)
  (table_token : option string) (e : exn) :
  block_table_answer env q conf hs table_token = Raise e ->
  exists uid label h, table_block env table_token uid label h = Raise e.
Proof.
  unfold block_table_answer.
  destruct (_top_table_block hs) as [[tuid tlabel] table_rows].
  destruct table_rows as [|r0 rows]; [discriminate |].
  destruct tuid as [uid|]; [| discriminate].
  destruct (_ && _); [| discriminate].
  destruct (table_block env table_token uid tlabel r0) as [tb | e0] eqn:Tb; cbn;
    [discriminate |].
  intros [= <-]. now exists uid, tlabel, r0.
Qed.

Lemma answer_tail_raises (env : Env) (q conf : string) (hs : list Hit)
  (table_token : option string) (e : exn) :
  answer_tail env q conf hs table_token = Raise e ->
  (exists uid, _table_has_enough_rows env uid 2 = Raise e)
  \/ (exists uid label h, table_block env table_token uid label h = Raise e).
Proof.
  unfold answer_tail. destruct (_ || _); [discriminate |].
  destruct (top_table_answer env q hs table_token) as [r1 | e0] eqn:T1; cbn.
  - destruct r1; [discriminate |].
    destruct (table_header_answer q conf hs); [discriminate |].
    destruct (materials_answer conf hs); [discriminate |].
    destruct (block_table_answer env q conf hs table_token) as [r2 | e0] eqn:T2; cbn.
    + destruct r2; discriminate.
    + intros [= <-]. right. eapply block_table_answer_raises. exact T2.
  - intros [= <-]. eapply top_table_answer_raises. exact T1.
Qed.

Lemma cascade_raises (env : Env) (q : string) (k : nat) (mode conf : string)
  (hs : list Hit) (used_prefix_fallback : bool) (e : exn) :
  cascade env q k mode conf hs used_prefix_fallback = Raise e ->
  (exists hs' conf',
     table_token_answer env (Py.or_empty (_extract_table_token q)) q hs' conf'
     = Raise e)
  \/ (exists uid, _table_has_enough_rows env uid 2 = Raise e)
  \/ (exists uid label h,
        table_block env (_extract_table_token q) uid label h = Raise e).
Proof.
  unfold cascade. cbv zeta.
  destruct (String.eqb mode "sources_only"); [discriminate |].
  destruct (_ && _); [discriminate |].
  destruct (_ && _); [discriminate |].
  destruct (_ && _).
  - match goal with
    | |- match ?x with [] => _ | _ :: _ => _ end = _ -> _ => destruct x
    end; discriminate.
  - destruct (Py.truthy _).
    + intros H. left. eauto.
    + intros H. right. eapply answer_tail_raises. exact H.
Qed.

Lemma escaping_error_from_store (env : Env) (query scope : string)
  (mp_ids : list string) (k : nat) (mode : string) (e : exn) :
  _ask_question_inner env query scope mp_ids k mode = Raise e ->
  raised_by_store env query scope mp_ids k mode e.
Proof.
  unfold _ask_question_inner, raised_by_store. intros H.
  destruct (retrieval env query scope mp_ids k mode) as [[res | hs conf u] | e0] eqn:R;
    cbn in H; [discriminate H | |].
  - destruct (rehydrate env hs query) as [hs' | e0] eqn:Hy; cbn in H.
    + right. right. eapply cascade_raises. exact H.
    + injection H as <-. right. left. now exists hs.
  - injection H as <-. now left.
Qed.

(** While the store answers, the inner function returns, whatever the
    generation model does: an error of the generation step never reaches the
    boundary of [ask_question]. *)
Lemma generation_error_stays_inside (env : Env) (query scope : string)
  (mp_ids : list string) (k : nat) (mode : string) :
  (forall e, ~ raised_by_store env query scope mp_ids k mode e) ->
  exists res,
    _ask_question_inner env query scope mp_ids k mode = Ok res
    /\ ask_question env query scope mp_ids k mode = res.
Proof.
  intros Hup. unfold ask_question.
  destruct (_ask_question_inner env query scope mp_ids k mode) as [res | e] eqn:I.
  - now exists res.
  - destruct (Hup e). now apply escaping_error_from_store.
Qed.




End AskProperties.

(* ------------------------------------------------------------------------- *)
(** ** More general facts: permutations, filters, option loops *)
(* ------------------------------------------------------------------------- *)

Section StableSortPermutation.

Context {A : Type} (before : A -> A -> bool).

Lemma insert_Permutation (x : A) (l : list A) :
  Permutation (Py.insert before x l) (x :: l).
Proof.
  induction l as [|y t IH]; cbn; [apply Permutation_refl |].
  destruct (before x y); [apply Permutation_refl |].
  eapply Permutation_trans; [apply perm_skip, IH | apply perm_swap].
Qed.

(** A sort rearranges the list and nothing else. *)
Lemma sorted_Permutation (l : list A) : Permutation (Py.sorted before l) l.
Proof.
  induction l as [|x t IH]; cbn; [apply Permutation_refl |].
  eapply Permutation_trans; [apply insert_Permutation | now apply perm_skip].
Qed.

Lemma sorted_length (l : list A) : length (Py.sorted before l) = length l.
Proof. apply Permutation_length, sorted_Permutation. Qed.

End StableSortPermutation.

Lemma Qle_bool_total (x y : Q) : Qle_bool x y = false -> Qle_bool y x = true.
Proof.
  intros H. apply Qle_bool_iff. apply Qlt_le_weak. apply Qnot_le_lt.
  intros C. apply Qle_bool_iff in C. congruence.
Qed.

Lemma Qle_bool_trans (x y z : Q) :
  Qle_bool x y = true -> Qle_bool y z = true -> Qle_bool x z = true.
Proof. rewrite !Qle_bool_iff. apply Qle_trans. Qed.

Lemma StronglySorted_filter {A} (R : A -> A -> Prop) (p : A -> bool) (l : list A) :
  StronglySorted R l -> StronglySorted R (List.filter p l).
Proof.
  intros Hs. induction Hs as [|x t Ht IH Hx]; cbn; [constructor |].
  destruct (p x); [| exact IH]. constructor; [exact IH |].
  apply List.Forall_forall. intros y Hy. apply filter_In in Hy.
  rewrite List.Forall_forall in Hx. now apply Hx.
Qed.

Lemma StronglySorted_firstn {A} (R : A -> A -> Prop) (n : nat) (l : list A) :
  StronglySorted R l -> StronglySorted R (firstn n l).
Proof.
  intros Hs. revert n. induction Hs as [|x t Ht IH Hx]; intros [|n]; cbn;
    try constructor; [apply IH |].
  apply List.Forall_forall. intros y Hy. apply In_firstn in Hy.
  rewrite List.Forall_forall in Hx. now apply Hx.
Qed.

Lemma filter_opt_Some {A} (p : A -> option bool) (l r : list A) :
  Py.filter_opt p l = Some r ->
  r = List.filter (fun x => match p x with Some true => true | _ => false end) l
  /\ forall x, In x l -> p x <> None.
Proof.
  revert r. induction l as [|x t IH]; intros r; cbn.
  - intros [= <-]. split; [reflexivity | intros _ []].
  - destruct (p x) as [keep|] eqn:E; [| discriminate].
    destruct (Py.filter_opt p t) as [r'|]; [| discriminate].
    intros [= <-]. destruct (IH r' eq_refl) as [-> Hall]. split.
    + now destruct keep.
    + intros y [<- | Hy]; [congruence | now apply Hall].
Qed.

Lemma filter_opt_None {A} (p : A -> option bool) (l : list A) :
  Py.filter_opt p l = None -> exists x, In x l /\ p x = None.
Proof.
  induction l as [|x t IH]; cbn; [discriminate |].
  destruct (p x) as [keep|] eqn:E; [| intros _; exists x; auto].
  destruct (Py.filter_opt p t) as [r'|]; [discriminate |].
  intros _. destruct (IH eq_refl) as (y & Hy & Ey). exists y. auto.
Qed.

Lemma map_opt_Some {A B} (f : A -> option B) (l : list A) (r : list B) :
  Py.map_opt f l = Some r -> Forall2 (fun x y => f x = Some y) l r.
Proof.
  revert r. induction l as [|x t IH]; intros r; cbn.
  - intros [= <-]. constructor.
  - destruct (f x) as [y|] eqn:E; [| discriminate].
    destruct (Py.map_opt f t) as [r'|]; [| discriminate].
    intros [= <-]. constructor; [exact E | now apply IH].
Qed.

Lemma map_opt_None {A B} (f : A -> option B) (l : list A) :
  Py.map_opt f l = None -> exists x, In x l /\ f x = None.
Proof.
  induction l as [|x t IH]; cbn; [discriminate |].
  destruct (f x) as [y|] eqn:E; [| intros _; exists x; auto].
  destruct (Py.map_opt f t) as [r'|]; [discriminate |].
  intros _. destruct (IH eq_refl) as (z & Hz & Ez). exists z. auto.
Qed.

Lemma StronglySorted_impl {A} (R S : A -> A -> Prop) (l : list A) :
  (forall x y, R x y -> S x y) -> StronglySorted R l -> StronglySorted S l.
Proof.
  intros HRS Hs. induction Hs as [|x t Ht IH Hx]; constructor; [exact IH |].
  eapply List.Forall_impl; [| exact Hx]. intros y. apply HRS.
Qed.

(** Two lists related element by element: an order on the first carries over
    to the second. *)
Lemma StronglySorted_Forall2 {A B} (T : A -> B -> Prop) (R : A -> A -> Prop)
  (S : B -> B -> Prop) (l : list A) (l' : list B) :
  (forall x y x' y', T x x' -> T y y' -> R x y -> S x' y') ->
  Forall2 T l l' -> StronglySorted R l -> StronglySorted S l'.
Proof.
  intros H F. induction F as [|x x' l l' Hx F IH]; intros Hs; [constructor |].
  inversion Hs as [|? ? Hs' Hall]; subst. constructor; [now apply IH |].
  clear IH Hs Hs'. induction F as [|y y' l l' Hy F IH]; [constructor |].
  inversion Hall as [|? ? Hxy Hall']; subst.
  constructor; [eapply H; eassumption | now apply IH].
Qed.

Lemma Forall2_transfer {A B} (T : A -> B -> Prop) (P : A -> Prop) (Q : B -> Prop)
  (l : list A) (l' : list B) :
  (forall x x', T x x' -> P x -> Q x') ->
  Forall2 T l l' -> Forall P l -> Forall Q l'.
Proof.
  intros H F. induction F as [|x x' l l' Hx F IH]; intros Hl; [constructor |].
  inversion Hl; subst. constructor; [eapply H; eassumption | now apply IH].
Qed.

Lemma Forall2_lengths {A B} (T : A -> B -> Prop) (l : list A) (l' : list B) :
  Forall2 T l l' -> length l = length l'.
Proof. induction 1; cbn; congruence. Qed.

Lemma firstn_le_length {A} (n : nat) (l : list A) : (length (firstn n l) <= n)%nat.
Proof. rewrite length_firstn. lia. Qed.

(* ------------------------------------------------------------------------- *)
(** ** The table-of-contents penalty *)
(* ------------------------------------------------------------------------- *)

Section TocPenalty.

Import RerankToc.

Lemma reciprocal_in_unit (x : Q) : (1 <= x)%Q -> (0 < 1 / x)%Q /\ (1 / x <= 1)%Q.
Proof.
  intros H. assert (Hpos : (0 < x)%Q) by (eapply Qlt_le_trans; [| exact H]; reflexivity).
  split.
  - apply Qlt_shift_div_l; [exact Hpos |]. rewrite Qmult_0_l. reflexivity.
  - apply Qle_shift_div_r; [exact Hpos |]. now rewrite Qmult_1_l.
Qed.

Lemma reciprocal_antitone (x y : Q) :
  (0 < x)%Q -> (x <= y)%Q -> (1 / y <= 1 / x)%Q.
Proof.
  intros Hx Hxy. assert (Hy : (0 < y)%Q) by (eapply Qlt_le_trans; eassumption).
  apply Qle_shift_div_r; [exact Hy |].
  assert (Hne : ~ (x == 0)%Q) by (intros E; rewrite E in Hx; discriminate Hx).
  assert (E : (1 / x * y == y / x)%Q) by (field; exact Hne).
  rewrite E.
  apply Qle_shift_div_l; [exact Hx |]. now rewrite Qmult_1_l.
Qed.

Lemma soft_denominator (n : nat) : (1 <= n)%nat -> (1 <= 1 + 0.5 * inject_Z (Z.of_nat n))%Q.
Proof.
  intros H. unfold Qle. cbn. lia.
Qed.

Lemma strong_denominator (n : nat) :
  (1 + 0.5 * inject_Z (Z.of_nat n) <= 1 + 3 * inject_Z (Z.of_nat n))%Q.
Proof. unfold Qle. cbn. lia. Qed.

(** X1. [toc_penalty] is a multiplier in (0, 1]; it is 1 exactly when the text
    holds no table-of-contents entry, and the strong variant never exceeds
    the soft one. *)
Theorem toc_penalty_unit_interval (text : string) (strong : bool) :
  (0 < toc_penalty text strong)%Q
  /\ (toc_penalty text strong <= 1)%Q
  /\ (toc_penalty text true <= toc_penalty text false)%Q
  /\ (toc_entry_count text = 0%nat <-> (toc_penalty text strong == 1)%Q).
Proof.
  unfold toc_penalty. set (n := toc_entry_count text).
  destruct (Nat.leb n 0) eqn:E.
  - apply Nat.leb_le in E. repeat split; try reflexivity; try (intros _; lia).
    + apply Qle_refl.
    + apply Qle_refl.
  - apply Nat.leb_gt in E.
    assert (Hsoft := soft_denominator n E).
    assert (Hss := strong_denominator n).
    assert (Hstrong : (1 <= 1 + 3 * inject_Z (Z.of_nat n))%Q)
      by (eapply Qle_trans; eassumption).
    assert (Hmono : (1 / (1 + 3 * inject_Z (Z.of_nat n))
                     <= 1 / (1 + 0.5 * inject_Z (Z.of_nat n)))%Q).
    { apply reciprocal_antitone; [| exact Hss].
      eapply Qlt_le_trans; [| exact Hsoft]. reflexivity. }
    destruct strong.
    + destruct (reciprocal_in_unit _ Hstrong) as [A B].
      repeat split; try assumption; [lia |].
      intros C. exfalso.
      assert (D : (1 + 3 * inject_Z (Z.of_nat n) == 1)%Q).
      { assert (Hne : ~ (1 + 3 * inject_Z (Z.of_nat n) == 0)%Q).
        { intros Z0. rewrite Z0 in Hstrong. revert Hstrong. unfold Qle. cbn. lia. }
        assert (F : (1 + 3 * inject_Z (Z.of_nat n)
                     == 1 / (1 / (1 + 3 * inject_Z (Z.of_nat n))))%Q)
          by (field; exact Hne).
        rewrite F, C. reflexivity. }
      revert D. unfold Qeq. cbn. lia.
    + destruct (reciprocal_in_unit _ Hsoft) as [A B].
      repeat split; try assumption; [lia |].
      intros C. exfalso.
      assert (D : (1 + 0.5 * inject_Z (Z.of_nat n) == 1)%Q).
      { assert (Hne : ~ (1 + 0.5 * inject_Z (Z.of_nat n) == 0)%Q).
        { intros Z0. rewrite Z0 in Hsoft. revert Hsoft. unfold Qle. cbn. lia. }
        assert (F : (1 + 0.5 * inject_Z (Z.of_nat n)
                     == 1 / (1 / (1 + 0.5 * inject_Z (Z.of_nat n))))%Q)
          by (field; exact Hne).
        rewrite F, C. reflexivity. }
      revert D. unfold Qeq. cbn. lia.
Qed.

End TocPenalty.

(* ------------------------------------------------------------------------- *)
(** ** Sub-multisets of lists *)
(* ------------------------------------------------------------------------- *)

Section SubMultiset.

Context {A : Type}.

Lemma sub_perm_refl (l : list A) : sub_perm l l.
Proof. exists []. now rewrite app_nil_r. Qed.

Lemma Permutation_sub_perm (l' l : list A) : Permutation l' l -> sub_perm l' l.
Proof. intros H. exists []. now rewrite app_nil_r. Qed.

Lemma sub_perm_trans (l1 l2 l3 : list A) :
  sub_perm l1 l2 -> sub_perm l2 l3 -> sub_perm l1 l3.
Proof.
  intros [r1 H1] [r2 H2]. exists (r1 ++ r2). rewrite app_assoc.
  eapply Permutation_trans; [| exact H2]. now apply Permutation_app_tail.
Qed.

Lemma sub_perm_nil (l : list A) : sub_perm [] l.
Proof. exists l. apply Permutation_refl. Qed.

Lemma sub_perm_In (l' l : list A) (x : A) : sub_perm l' l -> In x l' -> In x l.
Proof.
  intros [r H] Hx. eapply Permutation_in; [exact H |]. apply in_app_iff. now left.
Qed.

Lemma sub_perm_NoDup (l' l : list A) : sub_perm l' l -> List.NoDup l -> List.NoDup l'.
Proof.
  intros [r H] Hnd. apply Permutation_sym in H.
  pose proof (Permutation_NoDup H Hnd) as Hn. clear - Hn.
  induction l' as [|x t IH]; cbn in *; [constructor |].
  inversion Hn as [|? ? Hx Ht]; subst. constructor; [| now apply IH].
  intros Hin. apply Hx. apply in_app_iff. now left.
Qed.

Lemma sub_perm_length (l' l : list A) : sub_perm l' l -> (length l' <= length l)%nat.
Proof.
  intros [r H]. apply Permutation_length in H. rewrite length_app in H. lia.
Qed.

Lemma sub_perm_app_tail (a a' b : list A) :
  sub_perm a a' -> sub_perm (a ++ b) (a' ++ b).
Proof.
  intros [r H]. exists r.
  eapply Permutation_trans; [| apply Permutation_app_tail; exact H].
  rewrite <- !app_assoc. apply Permutation_app_head, Permutation_app_comm.
Qed.

Lemma sub_perm_app_head (a b b' : list A) :
  sub_perm b b' -> sub_perm (a ++ b) (a ++ b').
Proof.
  intros [r H]. exists r. rewrite <- app_assoc. now apply Permutation_app_head.
Qed.

Lemma sub_perm_cons (x : A) (l' l : list A) : sub_perm l' l -> sub_perm (x :: l') (x :: l).
Proof. intros [r H]. exists r. cbn. now apply perm_skip. Qed.

Lemma sub_perm_skip (x : A) (l' l : list A) : sub_perm l' l -> sub_perm l' (x :: l).
Proof.
  intros [r H]. exists (x :: r).
  eapply Permutation_trans; [apply Permutation_sym, Permutation_middle |].
  now apply perm_skip.
Qed.

Lemma firstn_sub_perm (n : nat) (l : list A) : sub_perm (firstn n l) l.
Proof. exists (skipn n l). now rewrite firstn_skipn. Qed.

Lemma filter_sub_perm (p : A -> bool) (l : list A) : sub_perm (List.filter p l) l.
Proof.
  induction l as [|x t IH]; cbn; [apply sub_perm_refl |].
  destruct (p x); [now apply sub_perm_cons | now apply sub_perm_skip].
Qed.

(** Two filters that never keep the same element. *)
Lemma filters_sub_perm (p q : A -> bool) (l : list A) :
  (forall x, In x l -> p x = true -> q x = false) ->
  sub_perm (List.filter p l ++ List.filter q l) l.
Proof.
  induction l as [|x t IH]; intros H; cbn; [apply sub_perm_refl |].
  assert (IH' := IH (fun y Hy => H y (or_intror Hy))).
  destruct (p x) eqn:P.
  - rewrite (H x (or_introl eq_refl) P). cbn. now apply sub_perm_cons.
  - destruct (q x).
    + destruct IH' as [r Hr]. exists r.
      eapply Permutation_trans; [| apply perm_skip; exact Hr].
      rewrite <- !app_assoc. cbn. apply Permutation_sym, Permutation_middle.
    + now apply sub_perm_skip.
Qed.

Lemma sub_perm_filter (p : A -> bool) (l' l : list A) :
  sub_perm l' l -> sub_perm (List.filter p l') (List.filter p l).
Proof.
  intros [r H]. exists (List.filter p r). rewrite <- List.filter_app.
  clear - H. induction H as [| x a b H IH | x y a | a b c H1 IH1 H2 IH2]; cbn.
  - constructor.
  - destruct (p x); [now constructor | exact IH].
  - destruct (p x), (p y); try apply Permutation_refl. apply perm_swap.
  - eapply Permutation_trans; eassumption.
Qed.

End SubMultiset.

Lemma sub_perm_map {A B} (f : A -> B) (l' l : list A) :
  sub_perm l' l -> sub_perm (map f l') (map f l).
Proof.
  intros [r H]. exists (map f r). rewrite <- map_app. now apply Permutation_map.
Qed.

(* ------------------------------------------------------------------------- *)
(** ** Lexical search: scope, order and the index error *)
(* ------------------------------------------------------------------------- *)

Section LexicalSearchProperties.

Import BM25Chunks.

Lemma ranked_all_sorted (scores : list Q) :
  StronglySorted (fun i j => (score_at scores j <= score_at scores i)%Q)
                 (ranked_all scores).
Proof.
  unfold ranked_all.
  eapply StronglySorted_impl;
    [| apply (sorted_StronglySorted
                (fun i j => Qle_bool (score_at scores j) (score_at scores i)))].
  - intros i j H. now apply Qle_bool_iff.
  - intros x y. apply Qle_bool_total.
  - intros x y z Hxy Hyz. eapply Qle_bool_trans; eassumption.
Qed.

(** The hits built from a ranked list of row positions. *)
Lemma hits_of_ranked (index : BM25ChunksIndex) (scores : list Q)
  (ok : Meta -> bool) (ranked : list nat) (hits : list BM25ChunkHit) :
  StronglySorted (fun i j => (score_at scores j <= score_at scores i)%Q) ranked ->
  Forall (fun i => exists m, nth_error (meta index) i = Some m /\ ok m = true) ranked ->
  Py.map_opt (fun i => option_map (hit_of scores i) (nth_error (meta index) i)) ranked
  = Some hits ->
  length hits = length ranked
  /\ Forall (fun h => exists i m, nth_error (meta index) i = Some m /\ ok m = true
                                  /\ h = hit_of scores i m) hits
  /\ StronglySorted (fun a b => (score b <= score a)%Q) hits.
Proof.
  intros Hs Hok Hm. apply map_opt_Some in Hm.
  assert (F : Forall2 (fun i h => exists m, nth_error (meta index) i = Some m
                                            /\ h = hit_of scores i m) ranked hits).
  { eapply Forall2_impl; [exact Hm |]. cbn. intros i h E.
    destruct (nth_error (meta index) i) as [m|]; [| discriminate].
    injection E as <-. eauto. }
  split; [symmetry; eapply Forall2_lengths; exact F |]. split.
  - eapply Forall2_transfer; [| exact F | exact Hok].
    cbn. intros i h (m & Em & ->) (m' & Em' & Om').
    exists i, m. rewrite Em in Em'. injection Em' as <-. auto.
  - eapply StronglySorted_Forall2; [| exact F | exact Hs].
    cbn. intros i j h h' (m & _ & ->) (m' & _ & ->) Hij. exact Hij.
Qed.

(** What the lexical search returns. *)
Lemma lexical_hits_spec (index : BM25ChunksIndex) (query scope : string)
  (k : nat) (mp_ids : list string) (min_equation_score : option Q)
  (hits : list BM25ChunkHit) :
  let scores := get_scores index (tokenize query) in
  let ok := allowed_meta scope (map Str.upper mp_ids) min_equation_score in
  bm25_chunks_search_filtered index query k scope mp_ids min_equation_score = Some hits ->
  (length hits <= k)%nat
  /\ Forall (fun h => exists i m, nth_error (meta index) i = Some m /\ ok m = true
                                  /\ h = hit_of scores i m) hits
  /\ StronglySorted (fun a b => (score b <= score a)%Q) hits.
Proof.
  intros scores ok. unfold bm25_chunks_search_filtered. cbv zeta.
  fold scores. fold ok.
  set (pos := fun i => match option_map ok (nth_error (meta index) i) with
                       | Some true => Some (positive (score_at scores i))
                       | other => other
                       end).
  set (allowed := fun i => option_map ok (nth_error (meta index) i)).
  assert (Hallowed : forall i, allowed i = Some true ->
                               exists m, nth_error (meta index) i = Some m /\ ok m = true).
  { intros i. unfold allowed. destruct (nth_error (meta index) i) as [m|]; cbn;
      [intros [= E]; eauto | discriminate]. }
  assert (Hkeep : forall (p : nat -> option bool) r,
             (forall i, p i = Some true -> allowed i = Some true) ->
             Py.filter_opt p (ranked_all scores) = Some r ->
             StronglySorted (fun i j => (score_at scores j <= score_at scores i)%Q)
                            (firstn k r)
             /\ Forall (fun i => exists m, nth_error (meta index) i = Some m
                                           /\ ok m = true) (firstn k r)).
  { intros p r Hp Hr. apply filter_opt_Some in Hr. destruct Hr as [-> _]. split.
    - apply StronglySorted_firstn, StronglySorted_filter, ranked_all_sorted.
    - apply List.Forall_forall. intros i Hi. apply In_firstn, filter_In in Hi.
      destruct Hi as [_ Hi]. cbn beta in Hi. apply Hallowed, Hp.
      destruct (p i) as [[|]|]; [reflexivity | discriminate Hi | discriminate Hi]. }
  destruct (Py.filter_opt pos (ranked_all scores)) as [positive_first|] eqn:E1;
    [| cbn; discriminate].
  assert (Hpos : forall i, pos i = Some true -> allowed i = Some true).
  { intros i. unfold pos. fold (allowed i). destruct (allowed i) as [[|]|]; auto; discriminate. }
  destruct (Hkeep pos positive_first Hpos E1) as [S1 A1].
  destruct (firstn k positive_first) as [|i0 rest] eqn:Er.
  - destruct (Py.filter_opt allowed (ranked_all scores)) as [fallback|] eqn:E2;
      [| cbn; discriminate].
    cbn [option_map]. intros Hm.
    destruct (Hkeep allowed fallback (fun i H => H) E2) as [S2 A2].
    destruct (hits_of_ranked index scores ok _ hits S2 A2 Hm) as (Hlen & Hall & Hs).
    split; [rewrite Hlen; apply firstn_le_length |]. split; assumption.
  - intros Hm.
    destruct (hits_of_ranked index scores ok _ hits S1 A1 Hm) as (Hlen & Hall & Hs).
    split; [rewrite Hlen, <- Er; apply firstn_le_length |]. split; assumption.
Qed.

(** X2. Every hit of the lexical search is built from a metadata row that the
    scope filter allows, the hits come in non-increasing score order, and
    there are at most [k] of them. *)
Theorem bm25_chunks_hits_in_scope (index : BM25ChunksIndex) (query scope : string)
  (k : nat) (mp_ids : list string) (min_equation_score : option Q)
  (hits : list BM25ChunkHit) :
  let scores := get_scores index (tokenize query) in
  let ok := allowed_meta scope (map Str.upper mp_ids) min_equation_score in
  bm25_chunks_search_filtered index query k scope mp_ids min_equation_score = Some hits ->
  (length hits <= k)%nat
  /\ Forall (fun h => exists i m, nth_error (meta index) i = Some m /\ ok m = true
                                  /\ h = hit_of scores i m) hits
  /\ StronglySorted (fun a b => (score b <= score a)%Q) hits.
Proof. apply lexical_hits_spec. Qed.


Lemma bm25_chunks_hits_in_scope_witness :
  exists hits,
    bm25_chunks_search_filtered sample_index "conduit" 5 "standspec" [] None = Some hits
    /\ (length hits <= 5)%nat
    /\ map (fun h => Str.lower (Py.or_empty (doc_type h))) hits
       = ["standspec"; "standspec"].
Proof.
  assert (E : bm25_chunks_search_filtered sample_index "conduit" 5 "standspec" [] None
              = Some (map (fun im => hit_of [-0.5; 0; -0.25]%Q (fst im) (snd im))
                        [(2%nat, sample_meta 3 "standspec" "Coarse aggregate gradation");
                         (0%nat, sample_meta 1 "standspec" "Rigid metallic conduit")]))
    by (vm_compute; reflexivity).
  destruct (bm25_chunks_hits_in_scope sample_index "conduit" "standspec" 5 [] None _ E)
    as (Hlen & _ & _).
  eexists. split; [exact E |]. split; [exact Hlen |]. vm_compute. reflexivity.
Defined.

(** X3. The search raises [IndexError] exactly when the scorer returns more
    scores than the index has metadata rows; with an aligned index it always
    returns. *)
Theorem bm25_chunks_index_error (index : BM25ChunksIndex) (query scope : string)
  (k : nat) (mp_ids : list string) (min_equation_score : option Q) :
  bm25_chunks_search_filtered index query k scope mp_ids min_equation_score = None
  <-> (length (meta index) < length (get_scores index (tokenize query)))%nat.
Proof.
  unfold bm25_chunks_search_filtered. cbv zeta.
  set (scores := get_scores index (tokenize query)).
  set (ok := allowed_meta scope (map Str.upper mp_ids) min_equation_score).
  set (pos := fun i => match option_map ok (nth_error (meta index) i) with
                       | Some true => Some (positive (score_at scores i))
                       | other => other
                       end).
  set (allowed := fun i => option_map ok (nth_error (meta index) i)).
  assert (Hnone : forall i, allowed i = None <-> (length (meta index) <= i)%nat).
  { intros i. unfold allowed. rewrite <- nth_error_None.
    destruct (nth_error (meta index) i); cbn; split; congruence. }
  assert (Hposnone : forall i, pos i = None <-> allowed i = None).
  { intros i. unfold pos. fold (allowed i). destruct (allowed i) as [[|]|]; split; congruence. }
  split.
  - intros H.
    assert (Hbad : exists i, In i (ranked_all scores) /\ allowed i = None).
    { destruct (Py.filter_opt pos (ranked_all scores)) as [pf|] eqn:E1.
      - destruct (firstn k pf) as [|i0 rest] eqn:Er.
        + destruct (Py.filter_opt allowed (ranked_all scores)) as [fb|] eqn:E2.
          * cbn [option_map] in H. apply map_opt_None in H.
            destruct H as (i & Hi & Ei). exists i.
            apply filter_opt_Some in E2. destruct E2 as [-> _].
            apply In_firstn, filter_In in Hi. destruct Hi as [Hi _].
            split; [exact Hi |]. unfold allowed.
            destruct (nth_error (meta index) i); [discriminate | reflexivity].
          * apply filter_opt_None in E2. exact E2.
        + apply map_opt_None in H. destruct H as (i & Hi & Ei). exists i.
          apply filter_opt_Some in E1. destruct E1 as [-> _].
          rewrite <- Er in Hi. apply In_firstn, filter_In in Hi. destruct Hi as [Hi _].
          split; [exact Hi |]. unfold allowed.
          destruct (nth_error (meta index) i); [discriminate | reflexivity].
      - apply filter_opt_None in E1. destruct E1 as (i & Hi & Ei).
        exists i. split; [exact Hi | now apply Hposnone]. }
    destruct Hbad as (i & Hi & Ei). apply ranked_all_In in Hi.
    apply Hnone in Ei. fold scores. lia.
  - intros Hlt.
    assert (Hin : In (length (meta index)) (ranked_all scores))
      by now apply ranked_all_In.
    destruct (Py.filter_opt pos (ranked_all scores)) as [pf|] eqn:E1; [| reflexivity].
    exfalso. apply filter_opt_Some in E1. destruct E1 as [_ Hall].
    apply (Hall _ Hin). apply Hposnone, Hnone. lia.
Qed.

End LexicalSearchProperties.

(* ------------------------------------------------------------------------- *)
(** ** Shaping the fused results: tables *)
(* ------------------------------------------------------------------------- *)

Lemma filter_Permutation {A} (p : A -> bool) (l l' : list A) :
  Permutation l l' -> Permutation (List.filter p l) (List.filter p l').
Proof.
  induction 1 as [| x l l' H IH | x y l | l l' l'' H1 IH1 H2 IH2]; cbn.
  - constructor.
  - destruct (p x); [now constructor | exact IH].
  - destruct (p x), (p y); try apply Permutation_refl. apply perm_swap.
  - eapply Permutation_trans; eassumption.
Qed.

Lemma NoDup_map_filter_firstn {A B} (f : A -> B) (p : A -> bool) (n : nat) (l : list A) :
  List.NoDup (map f (List.filter p l)) ->
  List.NoDup (map f (List.filter p (firstn n l))).
Proof.
  revert n. induction l as [|x t IH]; intros [|n]; cbn; try (intros; constructor).
  destruct (p x); cbn; [| apply IH].
  intros H. inversion H as [|? ? Hx Ht]; subst. constructor; [| now apply IH].
  intros Hin. apply Hx. apply in_map_iff in Hin. destruct Hin as (y & Ey & Hy).
  apply in_map_iff. exists y. split; [exact Ey |].
  apply filter_In in Hy. apply filter_In. destruct Hy as [Hy Py].
  split; [eapply In_firstn; exact Hy | exact Py].
Qed.

Lemma NoDup_snoc {A} (l : list A) (x : A) :
  List.NoDup l -> ~ In x l -> List.NoDup (l ++ [x]).
Proof.
  induction l as [|y t IH]; cbn; intros Hnd Hx.
  - constructor; [intros [] | constructor].
  - inversion Hnd as [|? ? Hy Ht]; subst. constructor.
    + rewrite in_app_iff. cbn. intros [H | [-> | []]]; [now apply Hy | apply Hx; now left].
    + apply IH; [exact Ht | intros H; apply Hx; now right].
Qed.

Lemma filter_length_le {A} (p : A -> bool) (l : list A) :
  (length (List.filter p l) <= length l)%nat.
Proof. induction l as [|x t IH]; cbn; [lia |]. destruct (p x); cbn; lia. Qed.

Lemma filter_split_length {A} (p q : A -> bool) (l : list A) :
  (forall x, In x l -> p x = true -> q x = false) ->
  (length (List.filter p l) + length (List.filter q l) <= length l)%nat.
Proof.
  induction l as [|x t IH]; intros H; cbn; [lia |].
  assert (IH' := IH (fun y Hy => H y (or_intror Hy))).
  destruct (p x) eqn:P.
  - rewrite (H x (or_introl eq_refl) P). cbn. lia.
  - destruct (q x); cbn; lia.
Qed.

Section TableShaping.

Import HybridChunksSearch.

Lemma sort_by_score_ordered (l : list HybridChunkHit) : score_ordered (sort_by_score l).
Proof.
  unfold score_ordered, sort_by_score.
  eapply StronglySorted_impl; [| apply (sorted_StronglySorted by_score_desc)].
  - intros a b H. now apply Qle_bool_iff.
  - intros a b. apply Qle_bool_total.
  - intros a b c Hab Hbc. unfold by_score_desc in *. eapply Qle_bool_trans; eassumption.
Qed.

Lemma sort_by_score_Permutation (l : list HybridChunkHit) :
  Permutation (sort_by_score l) l.
Proof. apply sorted_Permutation. Qed.

Lemma sort_by_score_In (h : HybridChunkHit) (l : list HybridChunkHit) :
  In h (sort_by_score l) <-> In h l.
Proof. apply sorted_In. Qed.

(** *** keep_best *)

Lemma keep_best_keys (best : list (string * HybridChunkHit)) (uid : string)
  (h : HybridChunkHit) :
  map fst (keep_best best uid h)
  = if Py.str_in uid (map fst best) then map fst best else map fst best ++ [uid].
Proof.
  induction best as [|[u prev] tl IH]; cbn; [reflexivity |].
  rewrite (String.eqb_sym uid u).
  destruct (String.eqb u uid) eqn:E; cbn.
  - destruct (Qle_bool (score h) (score prev)); reflexivity.
  - rewrite IH. unfold Py.str_in. destruct (existsb (String.eqb uid) (map fst tl)); reflexivity.
Qed.

Lemma keep_best_In (best : list (string * HybridChunkHit)) (uid : string)
  (h : HybridChunkHit) (ub : string * HybridChunkHit) :
  In ub (keep_best best uid h) -> In ub best \/ ub = (uid, h).
Proof.
  induction best as [|[u prev] tl IH]; cbn.
  - intros [<- | []]. now right.
  - destruct (String.eqb u uid) eqn:E.
    + apply String.eqb_eq in E. subst u.
      destruct (Qle_bool (score h) (score prev)); cbn; intros [<- | H]; auto.
    + cbn. intros [<- | H]; [auto |]. destruct (IH H); auto.
Qed.

(** After [keep_best], the entry of [uid] scores at least as high as [h] and
    as the previous entry; the other entries are untouched. *)
Lemma keep_best_best (best : list (string * HybridChunkHit)) (uid : string)
  (h : HybridChunkHit) :
  exists b, In (uid, b) (keep_best best uid h) /\ (score h <= score b)%Q
            /\ forall prev, In (uid, prev) best -> List.NoDup (map fst best) ->
                            (score prev <= score b)%Q.
Proof.
  induction best as [|[u p] tl IH]; cbn.
  - exists h. split; [now left |]. split; [apply Qle_refl | intros ? []].
  - destruct (String.eqb u uid) eqn:E.
    + apply String.eqb_eq in E. subst u.
      assert (Hu : forall prev, In (uid, prev) ((uid, p) :: tl) ->
                                List.NoDup (map fst ((uid, p) :: tl)) -> prev = p).
      { intros prev [[= <-] | Hin] Hnd; [reflexivity |]. cbn in Hnd.
        inversion Hnd as [|? ? Hx _]; subst. exfalso. apply Hx.
        apply in_map_iff. exists (uid, prev). auto. }
      destruct (Qle_bool (score h) (score p)) eqn:L; cbn.
      * exists p. split; [now left |]. split; [now apply Qle_bool_iff |].
        intros prev Hin Hnd. rewrite (Hu prev Hin Hnd). apply Qle_refl.
      * exists h. split; [now left |]. split; [apply Qle_refl |].
        intros prev Hin Hnd. rewrite (Hu prev Hin Hnd).
        apply Qle_bool_iff. now apply Qle_bool_total.
    + destruct IH as (b & Hb & Hhb & Hprev). exists b. split; [now right |].
      split; [exact Hhb |]. intros prev [[= -> ->] | Hin] Hnd.
      * rewrite String.eqb_refl in E. discriminate.
      * apply Hprev; [exact Hin |]. cbn in Hnd. now inversion Hnd.
Qed.

Lemma keep_best_others (best : list (string * HybridChunkHit)) (uid : string)
  (h : HybridChunkHit) (u : string) (b : HybridChunkHit) :
  u <> uid -> In (u, b) best -> In (u, b) (keep_best best uid h).
Proof.
  intros Hne. induction best as [|[u' p] tl IH]; cbn; [tauto |].
  destruct (String.eqb u' uid) eqn:E.
  - apply String.eqb_eq in E. subst u'.
    intros [[= -> ->] | Hin]; [congruence |].
    destruct (Qle_bool (score h) (score p)); now right.
  - intros [Heq | Hin]; [now left | right; auto].
Qed.

Lemma keep_best_length (best : list (string * HybridChunkHit)) (uid : string)
  (h : HybridChunkHit) :
  (length (keep_best best uid h) <= S (length best))%nat.
Proof.
  induction best as [|[u p] tl IH]; cbn; [lia |].
  destruct (String.eqb u uid); cbn; lia.
Qed.

Lemma str_in_iff (x : string) (l : list string) : Py.str_in x l = true <-> In x l.
Proof.
  split; [apply str_in_In |]. intros H. unfold Py.str_in. apply existsb_exists.
  exists x. split; [exact H | apply String.eqb_refl].
Qed.

Lemma keep_best_sub (best : list (string * HybridChunkHit)) (uid : string)
  (h : HybridChunkHit) :
  sub_perm (map snd (keep_best best uid h)) (map snd best ++ [h]).
Proof.
  induction best as [|[u p] tl IH]; cbn; [apply sub_perm_refl |].
  destruct (String.eqb u uid).
  - destruct (Qle_bool (score h) (score p)); cbn.
    + apply sub_perm_cons. exists [h]. apply Permutation_refl.
    + apply sub_perm_skip, Permutation_sub_perm, Permutation_cons_append.
  - cbn. now apply sub_perm_cons.
Qed.

Lemma collapse_loop (hits : list HybridChunkHit) :
  collapsed hits (fold_left collapse_step hits ([], [])).
Proof.
  induction hits as [|h seen IH] using rev_ind.
  - cbn. repeat split; try constructor; try (intros; contradiction); auto.
    apply sub_perm_refl.
  - rewrite fold_left_app. cbn [fold_left].
    destruct (fold_left collapse_step seen ([], [])) as [best non_table].
    destruct IH as (Hnd & Hbest & Hnon & Hcover & Hkeep & Hlen & Hsub).
    unfold collapse_step. fold (table_backed h).
    destruct (table_backed h) eqn:T; cbn [collapsed].
    + split; [| split; [| split; [| split; [| split; [| split]]]]].
      * rewrite keep_best_keys. destruct (Py.str_in (uid_of h) (map fst best)) eqn:S;
          [exact Hnd |].
        apply NoDup_snoc; [exact Hnd |]. intros Hx.
        apply str_in_iff in Hx. congruence.
      * intros u b Hub. apply keep_best_In in Hub. destruct Hub as [Hub | [= -> ->]].
        -- destruct (Hbest u b Hub) as (A & B & C). rewrite in_app_iff. auto.
        -- rewrite in_app_iff. cbn. auto.
      * intros x Hx. destruct (Hnon x Hx). rewrite in_app_iff. auto.
      * intros x Hx Tx. apply in_app_iff in Hx. destruct Hx as [Hx | [<- | []]].
        -- destruct (Hcover x Hx Tx) as (b & Hb & Hle).
           destruct (String.eqb (uid_of x) (uid_of h)) eqn:E.
           ++ apply String.eqb_eq in E. rewrite E in *.
              destruct (keep_best_best best (uid_of h) h) as (b' & Hb' & _ & Hprev).
              exists b'. split; [exact Hb' |].
              eapply Qle_trans; [exact Hle | now apply Hprev].
           ++ apply String.eqb_neq in E. exists b. split; [| exact Hle].
              now apply keep_best_others.
        -- destruct (keep_best_best best (uid_of h) h) as (b' & Hb' & Hle & _).
           exists b'. auto.
      * intros x Hx Tx. apply in_app_iff in Hx. destruct Hx as [Hx | [<- | []]];
          [now apply Hkeep | congruence].
      * rewrite length_app. cbn. pose proof (keep_best_length best (uid_of h) h). lia.
      * eapply sub_perm_trans;
          [apply sub_perm_app_tail, keep_best_sub |].
        eapply sub_perm_trans; [| apply sub_perm_app_tail; exact Hsub].
        apply Permutation_sub_perm. rewrite <- !app_assoc.
        apply Permutation_app_head, Permutation_app_comm.
    + split; [exact Hnd |]. split; [| split; [| split; [| split; [| split]]]].
      * intros u b Hub. destruct (Hbest u b Hub) as (A & B & C).
        rewrite in_app_iff. auto.
      * intros x Hx. rewrite in_app_iff. apply in_app_iff in Hx.
        destruct Hx as [Hx | [<- | []]]; [destruct (Hnon x Hx); auto | cbn; auto].
      * intros x Hx Tx. apply in_app_iff in Hx. destruct Hx as [Hx | [<- | []]];
          [now apply Hcover | congruence].
      * intros x Hx Tx. rewrite in_app_iff. apply in_app_iff in Hx.
        destruct Hx as [Hx | [<- | []]]; [left; now apply Hkeep | right; now left].
      * rewrite !length_app. cbn. lia.
      * rewrite app_assoc. now apply sub_perm_app_tail.
Qed.

Lemma table_uids_of_merged (seen : list HybridChunkHit)
  (best : list (string * HybridChunkHit)) (non_table : list HybridChunkHit) :
  collapsed seen (best, non_table) ->
  table_uids_of (map snd best ++ non_table) = map fst best.
Proof.
  intros (_ & Hbest & Hnon & _). unfold table_uids_of.
  rewrite List.filter_app, map_app.
  assert (N : List.filter table_backed non_table = []).
  { clear - Hnon. induction non_table as [|x t IH]; cbn; [reflexivity |].
    destruct (Hnon x (or_introl eq_refl)) as [_ ->]. apply IH.
    intros h Hh. apply Hnon. now right. }
  rewrite N, app_nil_r. clear - Hbest.
  induction best as [|[u b] tl IH]; cbn; [reflexivity |].
  destruct (Hbest u b (or_introl eq_refl)) as (_ & Tb & Ub). rewrite Tb. cbn.
  rewrite Ub. f_equal.
  apply IH. intros u' b' H. apply Hbest. now right.
Qed.

Lemma collapse_tables_spec (hits : list HybridChunkHit) (k : nat) :
  (length (collapse_tables hits k) <= k)%nat
  /\ Forall (fun h => In h hits) (collapse_tables hits k)
  /\ score_ordered (collapse_tables hits k)
  /\ List.NoDup (table_uids_of (collapse_tables hits k)).
Proof.
  unfold collapse_tables. pose proof (collapse_loop hits) as Hc.
  destruct (fold_left collapse_step hits ([], [])) as [best non_table].
  split; [apply firstn_le_length |]. split; [| split].
  - apply List.Forall_forall. intros h Hh. apply In_firstn in Hh.
    rewrite sort_by_score_In in Hh.
    destruct Hc as (_ & Hbest & Hnon & _). apply in_app_iff in Hh.
    destruct Hh as [Hh | Hh].
    + apply in_map_iff in Hh. destruct Hh as ([u b] & <- & Hb). now apply (Hbest u b).
    + now apply Hnon.
  - apply StronglySorted_firstn, sort_by_score_ordered.
  - unfold table_uids_of. apply NoDup_map_filter_firstn.
    eapply Permutation_NoDup.
    + apply Permutation_map, filter_Permutation, Permutation_sym, sort_by_score_Permutation.
    + fold (table_uids_of (map snd best ++ non_table)).
      rewrite (table_uids_of_merged hits best non_table Hc). now destruct Hc.
Qed.

(** X4. [collapse_tables] returns hits of its input in non-increasing score
    order, at most [k] of them, and never two hits of the same table. *)
Theorem collapse_tables_one_per_table (hits : list HybridChunkHit) (k : nat) :
  (length (collapse_tables hits k) <= k)%nat
  /\ Forall (fun h => In h hits) (collapse_tables hits k)
  /\ score_ordered (collapse_tables hits k)
  /\ List.NoDup (table_uids_of (collapse_tables hits k)).
Proof. apply collapse_tables_spec. Qed.


(** X5. When [k] is at least the number of hits, [collapse_tables] keeps every
    hit that belongs to no table, and for every table of the input a hit
    that scores at least as high as each of the table's hits. *)
Theorem collapse_tables_keeps_best (hits : list HybridChunkHit) (k : nat) :
  (length hits <= k)%nat ->
  (forall h, In h hits -> table_backed h = false -> In h (collapse_tables hits k))
  /\ (forall h, In h hits -> table_backed h = true ->
        exists b, In b (collapse_tables hits k) /\ table_backed b = true
                  /\ uid_of b = uid_of h /\ (score h <= score b)%Q).
Proof.
  intros Hk. unfold collapse_tables. pose proof (collapse_loop hits) as Hc.
  destruct (fold_left collapse_step hits ([], [])) as [best non_table].
  destruct Hc as (_ & Hbest & _ & Hcover & Hkeep & Hlen & _).
  assert (Hall : firstn k (sort_by_score (map snd best ++ non_table))
                 = sort_by_score (map snd best ++ non_table)).
  { apply firstn_all2. unfold sort_by_score.
    rewrite sorted_length, length_app, length_map. lia. }
  rewrite Hall. split.
  - intros h Hh Th. apply sort_by_score_In, in_app_iff. right. now apply Hkeep.
  - intros h Hh Th. destruct (Hcover h Hh Th) as (b & Hb & Hle).
    exists b. destruct (Hbest _ _ Hb) as (_ & Tb & Ub).
    split; [| auto].
    apply sort_by_score_In, in_app_iff. left. apply in_map_iff. now exists (uid_of h, b).
Qed.

Lemma collapse_tables_keeps_best_witness :
  (length corpus_hits <= 5)%nat
  /\ map chunk_id (collapse_tables corpus_hits 5) = [1%Z; 2%Z; 4%Z; 3%Z]
  /\ (forall h, In h corpus_hits -> table_backed h = true ->
        exists b, In b (collapse_tables corpus_hits 5) /\ table_backed b = true
                  /\ uid_of b = uid_of h /\ (score h <= score b)%Q).
Proof.
  split; [vm_compute; lia |]. split; [vm_compute; reflexivity |].
  apply (collapse_tables_keeps_best corpus_hits 5). vm_compute. lia.
Defined.


(** *** The shaping passes keep a sub-multiset of their input *)

Lemma core_with_score (h : HybridChunkHit) (s : Q) : core (with_score h s) = core h.
Proof. reflexivity. Qed.

Lemma sub_perm_derived (l' l : list HybridChunkHit) : sub_perm l' l -> derived l' l.
Proof. apply sub_perm_map. Qed.

Lemma derived_refl (l : list HybridChunkHit) : derived l l.
Proof. apply sub_perm_refl. Qed.

Lemma derived_trans (l1 l2 l3 : list HybridChunkHit) :
  derived l1 l2 -> derived l2 l3 -> derived l1 l3.
Proof. apply sub_perm_trans. Qed.

Lemma derived_rescored (g : HybridChunkHit -> HybridChunkHit) (l : list HybridChunkHit) :
  (forall h, core (g h) = core h) -> derived (map g l) l.
Proof.
  intros Hg. unfold derived. rewrite map_map.
  rewrite (map_ext _ core) by exact Hg. apply sub_perm_refl.
Qed.

Lemma derived_sort (l : list HybridChunkHit) : derived (sort_by_score l) l.
Proof. apply sub_perm_derived, Permutation_sub_perm, sort_by_score_Permutation. Qed.

Lemma derived_firstn (n : nat) (l : list HybridChunkHit) : derived (firstn n l) l.
Proof. apply sub_perm_derived, firstn_sub_perm. Qed.

Lemma derived_filter (p : HybridChunkHit -> bool) (l : list HybridChunkHit) :
  derived (List.filter p l) l.
Proof. apply sub_perm_derived, filter_sub_perm. Qed.

(** A property that does not look at the score carries over. *)
Lemma derived_Forall (P : HybridChunkHit -> Prop) (l' l : list HybridChunkHit) :
  (forall a b, core a = core b -> P a -> P b) ->
  derived l' l -> Forall P l -> Forall P l'.
Proof.
  intros HP Hd Hl. apply List.Forall_forall. intros h' Hh'.
  assert (Hin : In (core h') (map core l)).
  { eapply sub_perm_In; [exact Hd |]. now apply in_map. }
  apply in_map_iff in Hin. destruct Hin as (h & E & Hh).
  rewrite List.Forall_forall in Hl. eapply HP; [exact E | now apply Hl].
Qed.

Lemma derived_NoDup {B} (f : HybridChunkHit -> B) (l' l : list HybridChunkHit) :
  (forall h, f (core h) = f h) ->
  derived l' l -> List.NoDup (map f l) -> List.NoDup (map f l').
Proof.
  intros Hf Hd Hnd.
  rewrite <- (map_ext (fun h => f (core h)) f) by exact Hf.
  rewrite <- (map_ext (fun h => f (core h)) f) in Hnd by exact Hf.
  rewrite <- map_map. rewrite <- map_map in Hnd.
  eapply sub_perm_NoDup; [apply sub_perm_map; exact Hd | exact Hnd].
Qed.

Lemma filter_map_swap {A B} (f : A -> B) (p : B -> bool) (l : list A) :
  List.filter p (map f l) = map f (List.filter (fun x => p (f x)) l).
Proof.
  induction l as [|x t IH]; cbn; [reflexivity |].
  destruct (p (f x)); cbn; now rewrite IH.
Qed.

Lemma table_uids_of_core (l : list HybridChunkHit) :
  table_uids_of (map core l) = table_uids_of l.
Proof.
  unfold table_uids_of. rewrite filter_map_swap, map_map. reflexivity.
Qed.

Lemma derived_table_uids (l' l : list HybridChunkHit) :
  derived l' l -> List.NoDup (table_uids_of l) -> List.NoDup (table_uids_of l').
Proof.
  intros Hd Hnd. rewrite <- table_uids_of_core. rewrite <- table_uids_of_core in Hnd.
  eapply sub_perm_NoDup; [| exact Hnd].
  unfold table_uids_of. apply sub_perm_map, sub_perm_filter. exact Hd.
Qed.

Lemma opt_eqb_refl {A} (eqb : A -> A -> bool) (x : option A) :
  (forall a, eqb a a = true) -> Ask.opt_eqb eqb x x = true.
Proof. intros H. destruct x; cbn; auto. Qed.

Lemma Qeq_bool_same (x : Q) : Qeq_bool x x = true.
Proof. apply Qeq_bool_iff. reflexivity. Qed.

Lemma hit_eqb_refl (h : HybridChunkHit) : hit_eqb h h = true.
Proof.
  unfold hit_eqb.
  rewrite Qeq_bool_same, !Z.eqb_refl, !String.eqb_refl.
  rewrite !(opt_eqb_refl String.eqb) by apply String.eqb_refl.
  rewrite !(opt_eqb_refl Qeq_bool) by apply Qeq_bool_same.
  rewrite (opt_eqb_refl Z.eqb) by apply Z.eqb_refl.
  reflexivity.
Qed.

Lemma prefer_sub_perm (p : HybridChunkHit -> bool) (l : list HybridChunkHit) :
  sub_perm (prefer p l) l.
Proof.
  unfold prefer. destruct (List.filter p l) as [|h0 rest] eqn:E; [apply sub_perm_refl |].
  rewrite <- E. apply filters_sub_perm. intros x Hx Px.
  apply negb_false_iff. unfold hit_in. apply existsb_exists. exists x.
  split; [apply filter_In; auto | apply hit_eqb_refl].
Qed.

Lemma section_cleanup_derived (query : string) (l : list HybridChunkHit) :
  derived (section_cleanup query l) l.
Proof.
  apply sub_perm_derived. unfold section_cleanup.
  destruct (Rerank.is_section_intent query); [| apply sub_perm_refl].
  set (l1 := List.filter (fun h => negb (kind_in h low_kinds)) l).
  set (l2 := List.filter (fun h => negb (mismatched h)) l1).
  assert (H2 : sub_perm l2 l).
  { eapply sub_perm_trans; apply filter_sub_perm. }
  destruct (Py.truthy (extract_section_dot query)).
  - eapply sub_perm_trans; [apply prefer_sub_perm | exact H2].
  - destruct (Py.truthy (extract_section_prefix query)); [| exact H2].
    eapply sub_perm_trans; [apply prefer_sub_perm | exact H2].
Qed.

Lemma equation_boost_derived (query : string) (l : list HybridChunkHit) :
  derived (equation_boost query l) l.
Proof.
  unfold equation_boost. destruct (is_equation_query query); [| apply derived_refl].
  eapply derived_trans; [apply derived_sort |]. apply derived_rescored.
  intros h. destruct (Ask.opt_eqb String.eqb (chunk_kind h) (Some "equation")); reflexivity.
Qed.

Lemma table_token_boost_derived (query : string) (l : list HybridChunkHit) :
  derived (table_token_boost query l) l.
Proof.
  unfold table_token_boost. destruct (table_token_of query) as [tok|]; [| apply derived_refl].
  destruct (Str.is_empty tok); [apply derived_refl |].
  eapply derived_trans; [apply derived_sort |]. apply derived_rescored. reflexivity.
Qed.

Lemma filter_filter {A} (p q : A -> bool) (l : list A) :
  List.filter p (List.filter q l) = List.filter (fun x => q x && p x) l.
Proof.
  induction l as [|x t IH]; cbn; [reflexivity |].
  destruct (q x); cbn; [destruct (p x); now rewrite IH | exact IH].
Qed.

(** X6. [_table_group_boost] rearranges part of its input: every hit it
    returns is a hit of the input, none more often than there, and every hit
    that belongs to no table is kept. *)
Theorem table_group_boost_keeps_text_hits (results : list HybridChunkHit)
  (query : string) :
  sub_perm (_table_group_boost results query) results
  /\ Forall (fun h => In h (_table_group_boost results query))
            (List.filter (fun h => negb (table_backed h)) results).
Proof.
  unfold _table_group_boost.
  assert (Hsame : sub_perm results results
                  /\ Forall (fun h => In h results)
                            (List.filter (fun h => negb (table_backed h)) results)).
  { split; [apply sub_perm_refl |]. apply List.Forall_forall. intros h Hh.
    now apply filter_In in Hh. }
  destruct results as [|r0 rs] eqn:Er; [exact Hsame |]. rewrite <- Er in *. clear Er r0 rs.
  destruct (negb (existsb _ table_intent_words)); [exact Hsame |].
  set (table_hits := List.filter (fun h => Py.truthy (table_uid h)) results).
  set (rows_of := fun uid => List.filter (fun h => String.eqb (uid_of h) uid) table_hits).
  destruct (List.filter _ (Py.unique (map uid_of table_hits))) as [|first others];
    [exact Hsame |].
  set (best_uid := fold_left _ others first).
  set (rest := List.filter (fun h => negb (Py.truthy (table_uid h))
                                     || negb (String.eqb (uid_of h) best_uid)) results).
  split.
  - eapply sub_perm_trans; [apply Permutation_sub_perm, sort_by_score_Permutation |].
    eapply sub_perm_trans.
    + apply sub_perm_app_tail. eapply sub_perm_trans; [apply firstn_sub_perm |].
      apply Permutation_sub_perm, sort_by_score_Permutation.
    + unfold rows_of, table_hits, rest. rewrite filter_filter.
      apply filters_sub_perm. intros x _ Hx. apply andb_prop in Hx. destruct Hx as [T U].
      rewrite T, U. reflexivity.
  - apply List.Forall_forall. intros h Hh. apply filter_In in Hh. destruct Hh as [Hh Th].
    apply sort_by_score_In, in_app_iff. right. apply filter_In. split; [exact Hh |].
    unfold table_backed in Th. rewrite Th. reflexivity.
Qed.

Lemma table_group_boost_derived (results : list HybridChunkHit) (query : string) :
  derived (_table_group_boost results query) results.
Proof.
  unfold _table_group_boost.
  destruct results as [|r0 rs] eqn:Er; [apply derived_refl |]. rewrite <- Er. clear Er r0 rs.
  destruct (negb (existsb _ table_intent_words)); [apply derived_refl |].
  set (table_hits := List.filter (fun h => Py.truthy (table_uid h)) results).
  destruct (List.filter _ (Py.unique (map uid_of table_hits))) as [|first others];
    [apply derived_refl |].
  apply sub_perm_derived.
  eapply sub_perm_trans; [apply Permutation_sub_perm, sort_by_score_Permutation |].
  eapply sub_perm_trans.
  - apply sub_perm_app_tail. eapply sub_perm_trans; [apply firstn_sub_perm |].
    apply Permutation_sub_perm, sort_by_score_Permutation.
  - unfold table_hits. rewrite filter_filter.
    apply filters_sub_perm. intros x _ Hx. apply andb_prop in Hx. destruct Hx as [T U].
    rewrite T, U. reflexivity.
Qed.

Lemma collapse_tables_derived (hits : list HybridChunkHit) (k : nat) :
  derived (collapse_tables hits k) hits.
Proof.
  apply sub_perm_derived. unfold collapse_tables. pose proof (collapse_loop hits) as Hc.
  destruct (fold_left collapse_step hits ([], [])) as [best non_table].
  destruct Hc as (_ & _ & _ & _ & _ & _ & Hsub).
  eapply sub_perm_trans; [apply firstn_sub_perm |].
  eapply sub_perm_trans; [apply Permutation_sub_perm, sort_by_score_Permutation | exact Hsub].
Qed.

Lemma boost_table_hits_permutation (rows : list ChunkIngestion.TableRowRec)
  (query : string) (hits : list HybridChunkHit) :
  Permutation (boost_table_hits_for_table_queries rows query hits) hits.
Proof.
  unfold boost_table_hits_for_table_queries.
  set (bs := boosted_score rows _).
  eapply Permutation_trans; [apply Permutation_map, sorted_Permutation |].
  rewrite map_map. cbn. rewrite map_id. apply Permutation_refl.
Qed.

(** X7. [boost_table_hits_for_table_queries] only reorders the hits. *)
Theorem boost_table_hits_reorders (rows : list ChunkIngestion.TableRowRec)
  (query : string) (hits : list HybridChunkHit) :
  Permutation (boost_table_hits_for_table_queries rows query hits) hits.
Proof. apply boost_table_hits_permutation. Qed.


End TableShaping.

(* ------------------------------------------------------------------------- *)
(** ** Vector search *)
(* ------------------------------------------------------------------------- *)

Section VectorSearchProperties.

Import FaissChunks.

Lemma collect_spec (metas : list BM25Chunks.Meta) (ok : BM25Chunks.Meta -> bool)
  (k : nat) (results : list (Q * Z)) :
  forall init hits,
    collect metas ok k init results = Some hits ->
    exists new,
      hits = init ++ new
      /\ Forall (fun h => exists sc m, In m metas /\ ok m = true /\ h = hit_of sc m) new
      /\ (length hits <= Nat.max k (S (length init)))%nat
      /\ (length new <= length results)%nat.
Proof.
  induction results as [|[sc idx] tl IH]; intros init hits; cbn.
  - intros [= <-]. exists []. rewrite app_nil_r.
    split; [reflexivity |]. split; [apply List.Forall_nil |]. cbn. split; lia.
  - assert (Hskip : collect metas ok k init tl = Some hits ->
                    exists new, hits = init ++ new
                      /\ Forall (fun h => exists sc m, In m metas /\ ok m = true
                                                       /\ h = hit_of sc m) new
                      /\ (length hits <= Nat.max k (S (length init)))%nat
                      /\ (length new <= S (length tl))%nat).
    { intros H. destruct (IH _ _ H) as (new & A & B & C & D). exists new. auto. }
    destruct (idx <? 0)%Z; [exact Hskip |].
    destruct (nth_error metas (Z.to_nat idx)) as [m|] eqn:Em; [| discriminate].
    destruct (ok m) eqn:Om; cbn [negb]; [| exact Hskip].
    assert (Hm : exists sc' m', In m' metas /\ ok m' = true /\ hit_of sc m = hit_of sc' m').
    { exists sc, m. split; [eapply nth_error_In; exact Em | auto]. }
    destruct (Nat.leb k (length (init ++ [hit_of sc m]))) eqn:L.
    + intros [= <-]. exists [hit_of sc m]. split; [reflexivity |].
      split; [repeat constructor; exact Hm |].
      rewrite length_app. cbn. split; lia.
    + intros H. apply Nat.leb_gt in L.
      destruct (IH _ _ H) as (new & A & B & C & D).
      exists (hit_of sc m :: new). rewrite <- app_assoc in A. split; [exact A |].
      split; [constructor; assumption |].
      rewrite length_app in C, L. cbn in C, L. cbn. split; lia.
Qed.

(** What the vector search returns. *)
Lemma vector_hits_spec (index : FaissChunksIndex) (query scope : string)
  (k : nat) (mp_ids : list string) (min_equation_score : option Q)
  (hits : list FaissChunkHit) :
  let ok := BM25Chunks.allowed_meta scope (map Str.upper mp_ids) min_equation_score in
  faiss_chunks_search_filtered index query k scope mp_ids min_equation_score = Some hits ->
  (length hits <= Nat.max k 1)%nat
  /\ Forall (fun h => exists sc m, In m (meta index) /\ ok m = true /\ h = hit_of sc m) hits.
Proof.
  intros ok H. unfold faiss_chunks_search_filtered in H.
  destruct (collect_spec _ _ _ _ _ _ H) as (new & -> & Hall & Hlen & _).
  cbn in *. split; [exact Hlen | exact Hall].
Qed.

(** X8. Every hit of the vector search is built from a metadata row that the
    scope filter allows, and for [k >= 1] there are at most [k] hits. *)
Theorem faiss_chunks_hits_in_scope (index : FaissChunksIndex) (query scope : string)
  (k : nat) (mp_ids : list string) (min_equation_score : option Q)
  (hits : list FaissChunkHit) :
  let ok := BM25Chunks.allowed_meta scope (map Str.upper mp_ids) min_equation_score in
  (1 <= k)%nat ->
  faiss_chunks_search_filtered index query k scope mp_ids min_equation_score = Some hits ->
  (length hits <= k)%nat
  /\ Forall (fun h => exists sc m, In m (meta index) /\ ok m = true /\ h = hit_of sc m) hits.
Proof.
  intros ok Hk H. destruct (vector_hits_spec _ _ _ _ _ _ _ H) as [Hlen Hall].
  split; [lia | exact Hall].
Qed.

Lemma faiss_chunks_hits_in_scope_witness :
  exists hits,
    faiss_chunks_search_filtered corpus_vectors "conduit" 2 "standspec" [] None = Some hits
    /\ map chunk_id hits = [2; 4]%Z.
Proof.
  assert (E : faiss_chunks_search_filtered corpus_vectors "conduit" 2 "standspec" [] None
              = Some [hit_of 0.9 (corpus_row 2 "content" (Some "701.01") None
                                    "701.01  DESCRIPTION This section covers conduit.");
                      hit_of 0.8 (corpus_row 4 "table_row" (Some "701.02") (Some "tbl_a")
                                    "No. 4   100")])
    by (vm_compute; reflexivity).
  destruct (faiss_chunks_hits_in_scope corpus_vectors "conduit" "standspec" 2 [] None _
              (le_S _ _ (le_n 1)) E) as [_ _].
  eexists. split; [exact E | reflexivity].
Defined.

End VectorSearchProperties.

(* ------------------------------------------------------------------------- *)
(** ** The hybrid search *)
(* ------------------------------------------------------------------------- *)

Section HybridSearchProperties.

Import HybridChunksSearch.

Lemma distinct_from_In (seen l : list Z) (x : Z) :
  In x (distinct_from seen l) -> In x l /\ ~ In x seen.
Proof.
  revert seen. induction l as [|y t IH]; intros seen; cbn; [tauto |].
  destruct (existsb (Z.eqb y) seen) eqn:E.
  - intros H. destruct (IH _ H). auto.
  - intros [<- | H].
    + split; [now left |]. intros Hin.
      assert (existsb (Z.eqb y) seen = true)
        by (apply existsb_exists; exists y; split; [exact Hin | apply Z.eqb_refl]).
      congruence.
    + destruct (IH _ H) as [A B]. split; [now right |]. intros C. apply B. now right.
Qed.

Lemma distinct_from_NoDup (seen l : list Z) : List.NoDup (distinct_from seen l).
Proof.
  revert seen. induction l as [|y t IH]; intros seen; cbn; [constructor |].
  destruct (existsb (Z.eqb y) seen); [apply IH |].
  constructor; [| apply IH]. intros H. apply distinct_from_In in H.
  destruct H as [_ H]. apply H. now left.
Qed.

Lemma last_with_spec {H : Type} (id_of : H -> Z) (hits : list H) (cid : Z) (h : H) :
  last_with id_of hits cid = Some h -> In h hits /\ id_of h = cid.
Proof.
  unfold last_with. intros E. apply find_some in E. destruct E as [Hin E].
  apply in_rev in Hin. apply Z.eqb_eq in E. auto.
Qed.

Lemma allowed_meta_relax (scope : string) (ids : list string) (lo : Q)
  (m : BM25Chunks.Meta) :
  BM25Chunks.allowed_meta scope ids (Some lo) m = true ->
  BM25Chunks.allowed_meta scope ids None m = true.
Proof.
  unfold BM25Chunks.allowed_meta.
  destruct (negb (Qle_bool lo (BM25Chunks.m_equation_score m))); [discriminate | auto].
Qed.

Section Fused.

Variables (lexical : BM25Chunks.BM25ChunksIndex) (vectors : FaissChunks.FaissChunksIndex).
Variables (scope : string) (mp_ids : list string).
Variables (bm25_hits eq_bm25_hits : list BM25Chunks.BM25ChunkHit).
Variables (vec_hits eq_vec_hits : list FaissChunks.FaissChunkHit).

Let metasL := BM25Chunks.meta lexical.
Let metasV := FaissChunks.meta vectors.
Let ok := BM25Chunks.allowed_meta scope (map Str.upper mp_ids) None.
Let row_of := retrieved_in_scope lexical vectors scope mp_ids.

Hypothesis lexical_rows :
  Forall (fun b => exists scores i m, In m metasL /\ ok m = true
                                      /\ b = BM25Chunks.hit_of scores i m)
         (bm25_hits ++ eq_bm25_hits).
Hypothesis vector_rows :
  Forall (fun v => exists sc m, In m metasV /\ ok m = true
                                /\ v = FaissChunks.hit_of sc m)
         (vec_hits ++ eq_vec_hits).

Lemma fused_lexical (x : HybridChunkHit) (sc : Q) (cid : Z)
  (b : BM25Chunks.BM25ChunkHit) bo vo :
  x = fused_hit sc cid (Lexical b) bo vo ->
  In b (bm25_hits ++ eq_bm25_hits) -> BM25Chunks.chunk_id b = cid -> row_of x.
Proof.
  intros -> Hin Hid. rewrite List.Forall_forall in lexical_rows.
  destruct (lexical_rows b Hin) as (scores & i & m & Hm & Om & ->).
  exists m. split; [now left |]. split; [exact Om |].
  unfold built_from. cbn in *. repeat split; auto.
Qed.

Lemma fused_vector (x : HybridChunkHit) (sc : Q) (cid : Z)
  (v : FaissChunks.FaissChunkHit) bo vo :
  x = fused_hit sc cid (Vector v) bo vo ->
  In v (vec_hits ++ eq_vec_hits) -> FaissChunks.chunk_id v = cid -> row_of x.
Proof.
  intros -> Hin Hid. rewrite List.Forall_forall in vector_rows.
  destruct (vector_rows v Hin) as (s & m & Hm & Om & ->).
  exists m. split; [now right |]. split; [exact Om |].
  unfold built_from. cbn in *. repeat split; auto.
Qed.

Lemma result_for_spec (fused : gmap Z Q) (cid : Z) (x : HybridChunkHit) :
  In x (result_for fused bm25_hits eq_bm25_hits vec_hits eq_vec_hits cid) ->
  chunk_id x = cid /\ row_of x.
Proof.
  unfold result_for.
  destruct (last_with BM25Chunks.chunk_id bm25_hits cid) as [b|] eqn:Eb.
  - intros [<- | []]. apply last_with_spec in Eb. destruct Eb as [Hb Hid].
    split; [reflexivity |]. eapply fused_lexical; [reflexivity | apply in_app_iff; now left | exact Hid].
  - destruct (last_with FaissChunks.chunk_id vec_hits cid) as [v|] eqn:Ev.
    + intros [<- | []]. apply last_with_spec in Ev. destruct Ev as [Hv Hid].
      split; [reflexivity |]. eapply fused_vector; [reflexivity | apply in_app_iff; now left | exact Hid].
    + unfold eq_lookup.
      destruct (last_with FaissChunks.chunk_id eq_vec_hits cid) as [v|] eqn:Eev.
      * intros [<- | []]. apply last_with_spec in Eev. destruct Eev as [Hv Hid].
        split; [reflexivity |].
        eapply fused_vector; [reflexivity | apply in_app_iff; now right | exact Hid].
      * destruct (last_with BM25Chunks.chunk_id eq_bm25_hits cid) as [b|] eqn:Eeb;
          cbn [option_map]; [| intros []].
        intros [<- | []]. apply last_with_spec in Eeb. destruct Eeb as [Hb Hid].
        split; [reflexivity |].
        eapply fused_lexical; [reflexivity | apply in_app_iff; now right | exact Hid].
Qed.

Lemma results_spec (fused : gmap Z Q) (ids : list Z) :
  List.NoDup ids ->
  let base := flat_map (result_for fused bm25_hits eq_bm25_hits vec_hits eq_vec_hits) ids in
  List.NoDup (map chunk_id base) /\ Forall row_of base
  /\ Forall (fun x => In (chunk_id x) ids) base.
Proof.
  intros Hnd. induction Hnd as [|cid ids Hcid Hids IH]; cbn.
  - repeat split; constructor.
  - destruct IH as (IH1 & IH2 & IH3).
    set (here := result_for fused bm25_hits eq_bm25_hits vec_hits eq_vec_hits cid).
    assert (Hhere : forall x, In x here -> chunk_id x = cid /\ row_of x)
      by (intros x; apply result_for_spec).
    assert (Hone : here = [] \/ exists x, here = [x]).
    { unfold here, result_for.
      destruct (match last_with BM25Chunks.chunk_id bm25_hits cid with
                | Some h => Some (Lexical h)
                | None => _ end); eauto. }
    split; [| split].
    + rewrite map_app. destruct Hone as [-> | [x Hx]]; [exact IH1 |].
      rewrite Hx. cbn. constructor; [| exact IH1].
      destruct (Hhere x) as [Hid _]; [rewrite Hx; now left |].
      rewrite Hid. intros Hin. apply in_map_iff in Hin. destruct Hin as (y & Ey & Hy).
      rewrite List.Forall_forall in IH3. apply Hcid. rewrite <- Ey. now apply IH3.
    + apply List.Forall_app. split; [| exact IH2].
      apply List.Forall_forall. intros x Hx. now apply Hhere.
    + apply List.Forall_app. split.
      * apply List.Forall_forall. intros x Hx. left. symmetry. now apply Hhere.
      * eapply List.Forall_impl; [| exact IH3]. intros x Hx. now right.
Qed.

End Fused.

Lemma compute_confidence_level (s : Q) (n : Z) :
  In (HybridChunks.compute_confidence s n) confidence_levels.
Proof.
  unfold HybridChunks.compute_confidence, confidence_levels.
  destruct (Qle_bool 0.035 s && (1 <=? n)%Z); [now left |].
  destruct (Qle_bool 0.02 s); [right; now left | right; right; now left].
Qed.

Lemma section_cleanup_kinds (query : string) (l : list HybridChunkHit) :
  Rerank.is_section_intent query = true ->
  Forall (fun h => kind_in h low_kinds = false) (section_cleanup query l).
Proof.
  intros Hs. unfold section_cleanup. rewrite Hs.
  set (l1 := List.filter (fun h => negb (kind_in h low_kinds)) l).
  set (l2 := List.filter (fun h => negb (mismatched h)) l1).
  assert (H1 : Forall (fun h => kind_in h low_kinds = false) l1).
  { apply List.Forall_forall. intros h Hh. apply filter_In in Hh.
    now apply negb_true_iff. }
  assert (H2 : forall l', sub_perm l' l2 ->
                          Forall (fun h => kind_in h low_kinds = false) l').
  { intros l' Hl'. apply List.Forall_forall. intros h Hh.
    rewrite List.Forall_forall in H1. apply H1.
    eapply sub_perm_In; [apply filter_sub_perm |].
    eapply sub_perm_In; [exact Hl' | exact Hh]. }
  destruct (Py.truthy (extract_section_dot query)); [apply H2, prefer_sub_perm |].
  destruct (Py.truthy (extract_section_prefix query));
    [apply H2, prefer_sub_perm | apply H2, sub_perm_refl].
Qed.

Section Shaped.

Variables (lexical : BM25Chunks.BM25ChunksIndex) (vectors : FaissChunks.FaissChunksIndex).
Variables (scope : string) (mp_ids : list string).
Variables (bm25_hits eq_bm25_hits : list BM25Chunks.BM25ChunkHit).
Variables (vec_hits eq_vec_hits : list FaissChunks.FaissChunkHit).

Let ok := BM25Chunks.allowed_meta scope (map Str.upper mp_ids) None.

Hypothesis lexical_rows :
  Forall (fun b => exists scores i m, In m (BM25Chunks.meta lexical) /\ ok m = true
                                      /\ b = BM25Chunks.hit_of scores i m)
         (bm25_hits ++ eq_bm25_hits).
Hypothesis vector_rows :
  Forall (fun v => exists sc m, In m (FaissChunks.meta vectors) /\ ok m = true
                                /\ v = FaissChunks.hit_of sc m)
         (vec_hits ++ eq_vec_hits).

(** What [fuse_and_shape] returns, for hits that the searches built from
    in-scope rows. *)
Lemma fuse_and_shape_spec (rows : list ChunkIngestion.TableRowRec)
  (query : string) (k : nat) :
  let res := fuse_and_shape rows query k bm25_hits eq_bm25_hits vec_hits eq_vec_hits in
  (length (fst res) <= k)%nat
  /\ score_ordered (fst res)
  /\ In (snd res) confidence_levels
  /\ ((1 <= k)%nat ->
      match fst res with
      | [] => snd res = "weak"
      | top :: _ => exists overlap,
                      snd res = HybridChunks.compute_confidence (score top) overlap
      end)
  /\ (Rerank.is_section_intent query = true ->
      Forall (fun h => kind_in h low_kinds = false) (fst res))
  /\ List.NoDup (table_uids_of (fst res))
  /\ List.NoDup (map chunk_id (fst res))
  /\ Forall (retrieved_in_scope lexical vectors scope mp_ids) (fst res).
Proof.
  unfold fuse_and_shape. cbv zeta.
  set (fused := HybridChunks.reciprocal_rank_fusion _ 60).
  set (ids := firstn _ (Py.sorted _ (distinct _))).
  set (base := flat_map _ ids).
  set (s1 := section_cleanup query base).
  set (s2 := equation_boost query s1).
  set (s3 := table_token_boost query s2).
  set (s4 := _table_group_boost s3 query).
  set (s5 := collapse_tables s4 _).
  set (s6 := if is_table_query query then _ else s5).
  set (R := sort_by_score s6).
  cbn [fst snd].
  assert (Hids : List.NoDup ids).
  { unfold ids. eapply sub_perm_NoDup; [apply firstn_sub_perm |].
    eapply Permutation_NoDup; [apply Permutation_sym, sorted_Permutation |].
    apply distinct_from_NoDup. }
  destruct (results_spec lexical vectors scope mp_ids bm25_hits eq_bm25_hits
              vec_hits eq_vec_hits lexical_rows vector_rows fused ids Hids)
    as (Bnd & Brow & _).
  fold base in Bnd, Brow.
  assert (D65 : derived s6 s5).
  { unfold s6. destruct (is_table_query query); [| apply derived_refl].
    apply sub_perm_derived, Permutation_sub_perm, boost_table_hits_permutation. }
  assert (DR5 : derived (firstn k R) s5).
  { eapply derived_trans; [apply derived_firstn |].
    eapply derived_trans; [apply derived_sort | exact D65]. }
  assert (D51 : derived s5 s1).
  { eapply derived_trans; [apply collapse_tables_derived |].
    eapply derived_trans; [apply table_group_boost_derived |].
    eapply derived_trans; [apply table_token_boost_derived |].
    apply equation_boost_derived. }
  assert (DR1 : derived (firstn k R) s1) by (eapply derived_trans; eassumption).
  assert (DRb : derived (firstn k R) base).
  { eapply derived_trans; [exact DR1 | apply section_cleanup_derived]. }
  split; [apply firstn_le_length |].
  split; [apply StronglySorted_firstn, sort_by_score_ordered |].
  split; [destruct R; [right; right; now left | apply compute_confidence_level] |].
  split; [| split; [| split; [| split]]].
  - intros Hk. destruct R as [|top rest]; [now destruct k |].
    destruct k as [|k']; [lia |]. cbn. eauto.
  - intros Hs. eapply derived_Forall; [| exact DR1 | now apply section_cleanup_kinds].
    intros a b E Ha. change (kind_in (core b) low_kinds = false).
    rewrite <- E. exact Ha.
  - eapply derived_table_uids; [exact DR5 |]. apply collapse_tables_spec.
  - eapply derived_NoDup; [| exact DRb | exact Bnd]. reflexivity.
  - eapply derived_Forall; [| exact DRb | exact Brow].
    intros a b E (m & Hm & Om & Hb). exists m. split; [exact Hm |]. split; [exact Om |].
    change (built_from (core b) m). rewrite <- E. exact Hb.
Qed.

End Shaped.

Lemma lexical_rows_of (index : BM25Chunks.BM25ChunksIndex) (query scope : string)
  (k : nat) (mp_ids : list string) (lo : option Q) (hits : list BM25Chunks.BM25ChunkHit) :
  BM25Chunks.bm25_chunks_search_filtered index query k scope mp_ids lo = Some hits ->
  Forall (fun b => exists scores i m,
            In m (BM25Chunks.meta index)
            /\ BM25Chunks.allowed_meta scope (map Str.upper mp_ids) None m = true
            /\ b = BM25Chunks.hit_of scores i m) hits.
Proof.
  intros H. destruct (lexical_hits_spec _ _ _ _ _ _ _ H) as (_ & Hall & _).
  eapply List.Forall_impl; [| exact Hall]. cbn. intros b (i & m & Em & Om & ->).
  exists (BM25Chunks.get_scores index (BM25Chunks.tokenize query)), i, m.
  split; [eapply nth_error_In; exact Em |]. split; [| reflexivity].
  destruct lo; [eapply allowed_meta_relax; exact Om | exact Om].
Qed.

Lemma vector_rows_of (index : FaissChunks.FaissChunksIndex) (query scope : string)
  (k : nat) (mp_ids : list string) (lo : option Q) (hits : list FaissChunks.FaissChunkHit) :
  FaissChunks.faiss_chunks_search_filtered index query k scope mp_ids lo = Some hits ->
  Forall (fun v => exists sc m,
            In m (FaissChunks.meta index)
            /\ BM25Chunks.allowed_meta scope (map Str.upper mp_ids) None m = true
            /\ v = FaissChunks.hit_of sc m) hits.
Proof.
  intros H. destruct (vector_hits_spec _ _ _ _ _ _ _ H) as (_ & Hall).
  eapply List.Forall_impl; [| exact Hall]. cbn. intros v (sc & m & Hm & Om & ->).
  exists sc, m. split; [exact Hm |]. split; [| reflexivity].
  destruct lo; [eapply allowed_meta_relax; exact Om | exact Om].
Qed.

(** What the hybrid search returns when none of its searches raises. *)
Lemma hybrid_chunks_search_spec (lexical : BM25Chunks.BM25ChunksIndex)
  (vectors : FaissChunks.FaissChunksIndex) (rows : list ChunkIngestion.TableRowRec)
  (query : string) (k : nat) (scope : string) (mp_ids : list string)
  (hits : list HybridChunkHit) (conf : string) :
  hybrid_chunks_search lexical vectors rows query k scope mp_ids = Some (hits, conf) ->
  (length hits <= k)%nat
  /\ score_ordered hits
  /\ In conf confidence_levels
  /\ ((1 <= k)%nat ->
      match hits with
      | [] => conf = "weak"
      | top :: _ => exists overlap,
                      conf = HybridChunks.compute_confidence (score top) overlap
      end)
  /\ (Rerank.is_section_intent query = true ->
      Forall (fun h => kind_in h low_kinds = false) hits)
  /\ List.NoDup (table_uids_of hits)
  /\ List.NoDup (map chunk_id hits)
  /\ Forall (retrieved_in_scope lexical vectors scope mp_ids) hits.
Proof.
  unfold hybrid_chunks_search. cbv zeta.
  destruct (BM25Chunks.bm25_chunks_search_filtered lexical query _ scope mp_ids None)
    as [b|] eqn:Eb; [| discriminate].
  destruct (FaissChunks.faiss_chunks_search_filtered vectors query _ scope mp_ids None)
    as [v|] eqn:Ev; [| discriminate].
  apply lexical_rows_of in Eb. apply vector_rows_of in Ev.
  destruct (is_equation_query query).
  - destruct (BM25Chunks.bm25_chunks_search_filtered lexical query 50 scope mp_ids _)
      as [eb|] eqn:Eeb; [| discriminate].
    destruct (FaissChunks.faiss_chunks_search_filtered vectors query 50 scope mp_ids _)
      as [ev|] eqn:Eev; [| discriminate].
    apply lexical_rows_of in Eeb. apply vector_rows_of in Eev.
    intros H.
    assert (E : fuse_and_shape rows query k b eb v ev = (hits, conf)) by congruence.
    pose proof (fuse_and_shape_spec lexical vectors scope mp_ids b eb v ev
                  (proj2 (List.Forall_app _ _ _) (conj Eb Eeb))
                  (proj2 (List.Forall_app _ _ _) (conj Ev Eev)) rows query k) as S.
    cbv zeta in S. rewrite E in S. exact S.
  - intros H.
    assert (E : fuse_and_shape rows query k b [] v [] = (hits, conf)) by congruence.
    assert (Eb' : Forall (fun b0 => exists scores i m,
                            In m (BM25Chunks.meta lexical)
                            /\ BM25Chunks.allowed_meta scope (map Str.upper mp_ids) None m = true
                            /\ b0 = BM25Chunks.hit_of scores i m) (b ++ []))
      by now rewrite app_nil_r.
    assert (Ev' : Forall (fun v0 => exists sc m,
                            In m (FaissChunks.meta vectors)
                            /\ BM25Chunks.allowed_meta scope (map Str.upper mp_ids) None m = true
                            /\ v0 = FaissChunks.hit_of sc m) (v ++ []))
      by now rewrite app_nil_r.
    pose proof (fuse_and_shape_spec lexical vectors scope mp_ids b [] v []
                  Eb' Ev' rows query k) as S.
    cbv zeta in S. rewrite E in S. exact S.
Qed.

(** X9. The hybrid search returns at most [k] hits in non-increasing score
    order; its confidence is one of strong, medium and weak, it is weak when
    nothing is returned and otherwise the level of the best hit's score. *)
Theorem hybrid_chunks_search_bounded (lexical : BM25Chunks.BM25ChunksIndex)
  (vectors : FaissChunks.FaissChunksIndex) (rows : list ChunkIngestion.TableRowRec)
  (query : string) (k : nat) (scope : string) (mp_ids : list string)
  (hits : list HybridChunkHit) (conf : string) :
  (1 <= k)%nat ->
  hybrid_chunks_search lexical vectors rows query k scope mp_ids = Some (hits, conf) ->
  (length hits <= k)%nat
  /\ score_ordered hits
  /\ In conf confidence_levels
  /\ match hits with
     | [] => conf = "weak"
     | top :: _ => exists overlap,
                     conf = HybridChunks.compute_confidence (score top) overlap
     end.
Proof.
  intros Hk H. destruct (hybrid_chunks_search_spec _ _ _ _ _ _ _ _ _ H)
    as (A & B & C & D & _).
  split; [exact A |]. split; [exact B |]. split; [exact C | exact (D Hk)].
Qed.

Lemma hybrid_chunks_search_bounded_witness :
  exists hits conf,
    hybrid_chunks_search corpus_lexical corpus_vectors [] "conduit" 2 "all" []
    = Some (hits, conf)
    /\ (length hits <= 2)%nat /\ In conf confidence_levels.
Proof.
  destruct (hybrid_chunks_search corpus_lexical corpus_vectors [] "conduit" 2 "all" [])
    as [[hits conf]|] eqn:E; [| vm_compute in E; discriminate E].
  exists hits, conf. split; [reflexivity |].
  destruct (hybrid_chunks_search_bounded _ _ _ _ _ _ _ _ _ (le_S _ _ (le_n 1)) E)
    as (A & _ & C & _).
  split; assumption.
Defined.

(** X10. For a query with section intent the hybrid search returns no chunk of
    kind toc or front_matter. *)
Theorem hybrid_chunks_search_section_intent (lexical : BM25Chunks.BM25ChunksIndex)
  (vectors : FaissChunks.FaissChunksIndex) (rows : list ChunkIngestion.TableRowRec)
  (query : string) (k : nat) (scope : string) (mp_ids : list string)
  (hits : list HybridChunkHit) (conf : string) :
  Rerank.is_section_intent query = true ->
  hybrid_chunks_search lexical vectors rows query k scope mp_ids = Some (hits, conf) ->
  Forall (fun h => kind_in h low_kinds = false) hits.
Proof.
  intros Hs H. destruct (hybrid_chunks_search_spec _ _ _ _ _ _ _ _ _ H)
    as (_ & _ & _ & _ & E & _). auto.
Qed.

Lemma hybrid_chunks_search_section_intent_witness :
  exists hits conf,
    hybrid_chunks_search corpus_lexical corpus_vectors [] "701.02 materials" 3
      "standspec" [] = Some (hits, conf)
    /\ map chunk_id hits = [2; 4; 3]%Z
    /\ Forall (fun h => kind_in h low_kinds = false) hits.
Proof.
  destruct (hybrid_chunks_search corpus_lexical corpus_vectors [] "701.02 materials" 3
              "standspec" []) as [[hits conf]|] eqn:E; [| vm_compute in E; discriminate E].
  exists hits, conf. split; [reflexivity |]. split.
  - vm_compute in E. injection E as <- _. reflexivity.
  - apply (hybrid_chunks_search_section_intent corpus_lexical corpus_vectors []
             "701.02 materials" 3 "standspec" [] hits conf);
      [vm_compute; reflexivity | exact E].
Defined.

(** X11. The hybrid search never returns two hits of the same table. *)
Theorem hybrid_chunks_search_one_hit_per_table (lexical : BM25Chunks.BM25ChunksIndex)
  (vectors : FaissChunks.FaissChunksIndex) (rows : list ChunkIngestion.TableRowRec)
  (query : string) (k : nat) (scope : string) (mp_ids : list string)
  (hits : list HybridChunkHit) (conf : string) :
  hybrid_chunks_search lexical vectors rows query k scope mp_ids = Some (hits, conf) ->
  List.NoDup (table_uids_of hits).
Proof.
  intros H. now destruct (hybrid_chunks_search_spec _ _ _ _ _ _ _ _ _ H)
    as (_ & _ & _ & _ & _ & F & _).
Qed.

Lemma hybrid_chunks_search_one_hit_per_table_witness :
  exists hits conf,
    hybrid_chunks_search corpus_lexical corpus_vectors [] "gradation table for conduit" 5
      "all" [] = Some (hits, conf)
    /\ table_uids_of hits = ["tbl_a"]
    /\ List.NoDup (table_uids_of hits).
Proof.
  destruct (hybrid_chunks_search corpus_lexical corpus_vectors []
              "gradation table for conduit" 5 "all" [])
    as [[hits conf]|] eqn:E; [| vm_compute in E; discriminate E].
  exists hits, conf. split; [reflexivity |]. split.
  - vm_compute in E. injection E as <- _. reflexivity.
  - apply (hybrid_chunks_search_one_hit_per_table _ _ _ _ _ _ _ _ _ E).
Defined.

(** X12. Every hit of the hybrid search shows a chunk of the lexical or the
    vector index that the scope filter allows, and no chunk is returned
    twice. *)
Theorem hybrid_chunks_search_in_scope (lexical : BM25Chunks.BM25ChunksIndex)
  (vectors : FaissChunks.FaissChunksIndex) (rows : list ChunkIngestion.TableRowRec)
  (query : string) (k : nat) (scope : string) (mp_ids : list string)
  (hits : list HybridChunkHit) (conf : string) :
  hybrid_chunks_search lexical vectors rows query k scope mp_ids = Some (hits, conf) ->
  Forall (retrieved_in_scope lexical vectors scope mp_ids) hits
  /\ List.NoDup (map chunk_id hits).
Proof.
  intros H. destruct (hybrid_chunks_search_spec _ _ _ _ _ _ _ _ _ H)
    as (_ & _ & _ & _ & _ & _ & G & I). auto.
Qed.

Lemma hybrid_chunks_search_in_scope_witness :
  exists hits conf,
    hybrid_chunks_search corpus_lexical corpus_vectors [] "conduit" 5 "mp" []
    = Some (hits, conf)
    /\ hits = []
    /\ Forall (retrieved_in_scope corpus_lexical corpus_vectors "mp" []) hits.
Proof.
  destruct (hybrid_chunks_search corpus_lexical corpus_vectors [] "conduit" 5 "mp" [])
    as [[hits conf]|] eqn:E; [| vm_compute in E; discriminate E].
  exists hits, conf. split; [reflexivity |]. split.
  - vm_compute in E. injection E as <- _. reflexivity.
  - apply (hybrid_chunks_search_in_scope _ _ _ _ _ _ _ _ _ E).
Defined.

End HybridSearchProperties.

(* ------------------------------------------------------------------------- *)
(** ** Table blocks of a page *)
(* ------------------------------------------------------------------------- *)

Section FoldRelation.

Context {A B : Type} (R : A -> A -> Prop) (f : A -> B -> A).

Hypothesis R_refl : forall a, R a a.
Hypothesis R_trans : forall a b c, R a b -> R b c -> R a c.

Lemma fold_left_related (l : list B) (a : A) :
  (forall a' b, In b l -> R a' (f a' b)) -> R a (fold_left f l a).
Proof.
  revert a. induction l as [|b t IH]; intros a Hstep; cbn; [apply R_refl |].
  apply (R_trans _ (f a b)).
  - apply Hstep. now left.
  - apply IH. intros a' b' Hb. apply Hstep. now right.
Qed.

End FoldRelation.

Lemma StronglySorted_snoc {A} (R : A -> A -> Prop) (l : list A) (x : A) :
  StronglySorted R l -> Forall (fun a => R a x) l -> StronglySorted R (l ++ [x]).
Proof.
  intros Hs. induction Hs as [|y t Ht IH Hy]; cbn; intros Hx.
  - repeat constructor.
  - inversion Hx as [|? ? Hyx Htx]; subst. constructor; [now apply IH |].
    apply Forall_snoc; assumption.
Qed.

Section TableBlockProperties.

Import ChunkIngestion.

Lemma table_block_of_more (lns : list string) (x : string) (b : TableBlock) :
  table_block_of lns b -> table_block_of (lns ++ [x]) b.
Proof.
  intros (pre & post & hd & tl & E & H).
  exists pre, (post ++ [x]), hd, tl. split; [| exact H].
  rewrite E, <- !app_assoc. reflexivity.
Qed.

(** Closing the open run of lines at the end of [seen]. *)
Lemma flush_scanned (seen : list string) (st : scan) (s : Z) :
  scanned seen st -> buf_start st = Some s ->
  Forall (table_block_of seen) (blocks (flush (Z.of_nat (length seen) - 1) st))
  /\ StronglySorted apart (blocks (flush (Z.of_nat (length seen) - 1) st))
  /\ Forall (fun b => (end_line b < Z.of_nat (length seen))%Z)
            (blocks (flush (Z.of_nat (length seen) - 1) st)).
Proof.
  intros (Hb & Hs & Hopen) Es. rewrite Es in Hopen.
  destruct Hopen as (pre & hd & tl & Eseen & Ebuf & Epre & Hhd & Htl & Hend).
  assert (Hlen : length seen = (length pre + S (length tl))%nat).
  { rewrite Eseen, Ebuf, length_app. reflexivity. }
  assert (Hold : Forall (fun b => (end_line b < Z.of_nat (length seen))%Z) (blocks st)).
  { eapply List.Forall_impl; [| exact Hend]. intros b Hlt. cbn in *. lia. }
  unfold flush. cbn [blocks]. rewrite Es, Ebuf. rewrite <- Ebuf.
  fold nonblank.
  match goal with
  | |- context [Nat.leb 5 ?n] => destruct (Nat.leb 5 n) eqn:E5
  end; [| now repeat split].
  apply Nat.leb_le in E5. split; [| split].
  - apply Forall_snoc; [exact Hb |].
    exists pre, [], hd, tl. cbn. rewrite app_nil_r.
    repeat split; try assumption. all: lia.
  - apply StronglySorted_snoc; [exact Hs |].
    eapply List.Forall_impl; [| exact Hend]. intros b Hlt. unfold apart. cbn in *. lia.
  - apply Forall_snoc; [exact Hold |]. cbn. lia.
Qed.

Lemma scan_line_scanned (seen : list string) (st : scan) (x : string) :
  scanned seen st -> scanned (seen ++ [x]) (scan_line st (length seen, x)).
Proof.
  intros Hst. pose proof Hst as (Hb & Hs & Hopen).
  assert (Hmore : forall l, Forall (table_block_of seen) l ->
                            Forall (table_block_of (seen ++ [x])) l).
  { intros l. apply List.Forall_impl. intros b. apply table_block_of_more. }
  unfold scan_line. cbn [fst snd]. fold (table_header x). fold (section_header x).
  unfold scanned. rewrite ?length_app. cbn [length].
  destruct (table_header x) eqn:Hx.
  - destruct (buf_start st) as [s|] eqn:Es.
    + destruct (flush_scanned seen st s Hst Es) as (Fb & Fs & Fe).
      split; [now apply Hmore |]. split; [exact Fs |]. cbn.
      exists seen, x, []. repeat split; try assumption; constructor.
    + destruct Hopen as (Ebuf & Hend). rewrite Ebuf.
      split; [now apply Hmore |]. split; [exact Hs |]. cbn.
      exists seen, x, []. repeat split; try assumption; constructor.
  - destruct (buf_start st) as [s|] eqn:Es.
    + destruct (section_header x) eqn:Sx.
      * destruct (flush_scanned seen st s Hst Es) as (Fb & Fs & Fe).
        split; [now apply Hmore |]. split; [exact Fs |]. cbn. split; [reflexivity |].
        eapply List.Forall_impl; [| exact Fe]. intros b Hlt. cbn in *. lia.
      * split; [now apply Hmore |]. split; [exact Hs |]. cbn.
        destruct Hopen as (pre & hd & tl & Eseen & Ebuf & Epre & Hhd & Htl & Hend).
        exists pre, hd, (tl ++ [x]). rewrite Ebuf. rewrite Ebuf in Eseen.
        repeat split; try assumption.
        -- rewrite Eseen, <- app_assoc. reflexivity.
        -- apply Forall_snoc; [exact Htl | now split].
    + split; [now apply Hmore |]. split; [exact Hs |]. rewrite ?Es.
      destruct Hopen as (Ebuf & Hend). split; [exact Ebuf |].
      eapply List.Forall_impl; [| exact Hend]. intros b Hlt. cbn in *. lia.
Qed.

Lemma scan_scanned (l : list string) : forall (seen : list string) (st : scan),
  scanned seen st ->
  scanned (seen ++ l) (fold_left scan_line (Py.enumerate (length seen) l) st).
Proof.
  induction l as [|x t IH]; intros seen st Hst; cbn.
  - now rewrite app_nil_r.
  - replace (seen ++ x :: t) with ((seen ++ [x]) ++ t) by now rewrite <- app_assoc.
    replace (S (length seen)) with (length (seen ++ [x]))
      by (rewrite length_app; cbn; lia).
    apply IH. now apply scan_line_scanned.
Qed.

(** X13. Every table block of a page is a run of consecutive lines of the
    page, numbered from [start_line] to [end_line]: it opens with a table
    header, holds no other table header and no section header, and has at
    least five non-blank lines.  The blocks come in page order and do not
    overlap. *)
Theorem extract_table_blocks_shape (page_text : string) :
  Forall (table_block_of (Str.splitlines page_text)) (extract_table_blocks page_text)
  /\ StronglySorted apart (extract_table_blocks page_text).
Proof.
  unfold extract_table_blocks. cbv zeta.
  set (lns := Str.splitlines page_text).
  assert (H : scanned lns (fold_left scan_line (Py.enumerate 0 lns)
                             {| blocks := []; buf := []; buf_start := None |})).
  { apply (scan_scanned lns []). repeat split; constructor. }
  destruct (buf_start _) as [s|] eqn:Es.
  - destruct (flush_scanned _ _ s H Es) as (Fb & Fs & _). now split.
  - destruct H as (Hb & Hs & _). now split.
Qed.

End TableBlockProperties.

(* ------------------------------------------------------------------------- *)
(** ** Linking inline table references *)
(* ------------------------------------------------------------------------- *)

Section LinkProperties.

Import ChunkIngestion.

Lemma candidates_on_In (store : DB) (document_id page : Z) (t : TableRec) :
  In t (candidates_on store document_id page) ->
  In t (tables store) /\ t_document_id t = document_id /\ t_page_number t = page.
Proof.
  unfold candidates_on. rewrite sorted_In, filter_In, andb_true_iff, !Z.eqb_eq.
  tauto.
Qed.

Lemma matching_uids_In (store : DB) (uids : list string) (token uid : string) :
  In uid (matching_uids store uids token) -> In uid uids.
Proof.
  unfold matching_uids, Py.unique. intros H. apply unique_from_In in H.
  apply in_map_iff in H. destruct H as (r & <- & Hr).
  apply filter_In in Hr. destruct Hr as [_ Hr].
  apply andb_true_iff in Hr. destruct Hr as [Hr _]. now apply str_in_In.
Qed.

Lemma label_of_found (cands : list TableRec) (uid : string) :
  In uid (map t_table_uid cands) ->
  exists c, In c cands /\ t_table_uid c = uid /\ t_table_label c = label_of cands uid.
Proof.
  intros H. apply in_map_iff in H. destruct H as (c0 & E0 & H0).
  unfold label_of.
  destruct (List.filter _ cands) as [|c rest] eqn:F.
  - assert (Hin : In c0 (List.filter (fun c => String.eqb (t_table_uid c) uid) cands)).
    { apply filter_In. split; [exact H0 | now apply String.eqb_eq]. }
    rewrite F in Hin. destruct Hin.
  - assert (Hin : In c (List.filter (fun c => String.eqb (t_table_uid c) uid) cands)).
    { rewrite F. now left. }
    apply filter_In in Hin. destruct Hin as [Hc Ec]. apply String.eqb_eq in Ec.
    now exists c.
Qed.

Lemma resolve_matched (cands : list TableRec) (matched : list string)
  (uid label : string) :
  (forall u, In u matched -> In u (map t_table_uid cands)) ->
  match matched with
  | [u] => Some (u, label_of cands u)
  | _ =>
      match List.filter (fun c => Py.str_in (t_table_uid c) matched) cands with
      | c :: _ => Some (t_table_uid c, t_table_label c)
      | [] => None
      end
  end = Some (uid, label) ->
  exists c, In c cands /\ t_table_uid c = uid /\ t_table_label c = label.
Proof.
  intros Hsub.
  assert (First :
    match List.filter (fun c => Py.str_in (t_table_uid c) matched) cands with
    | c :: _ => Some (t_table_uid c, t_table_label c)
    | [] => None
    end = Some (uid, label) ->
    exists c, In c cands /\ t_table_uid c = uid /\ t_table_label c = label).
  { destruct (List.filter _ cands) as [|c rest] eqn:F; [discriminate |].
    intros E. assert (E1 : t_table_uid c = uid) by congruence.
    assert (E2 : t_table_label c = label) by congruence.
    exists c. split; [| now split].
    assert (Hin : In c (List.filter (fun c => Py.str_in (t_table_uid c) matched) cands)).
    { rewrite F. now left. }
    apply filter_In in Hin. tauto. }
  destruct matched as [|u [|u' rest]]; try exact First.
  intros E. assert (E1 : u = uid) by congruence.
  assert (E2 : label_of cands u = label) by congruence. subst uid.
  destruct (label_of_found cands u) as (c & Hc & Eu & El).
  - apply Hsub. now left.
  - exists c. split; [exact Hc |]. split; [exact Eu | congruence].
Qed.

Lemma resolve_on_page_In (store : DB) (cands : list TableRec) (token uid label : string) :
  resolve_on_page store cands token = Some (uid, label) ->
  exists c, In c cands /\ t_table_uid c = uid /\ t_table_label c = label.
Proof.
  unfold resolve_on_page. cbv zeta.
  destruct cands as [|c [|c' rest]].
  - apply resolve_matched. intros u. apply matching_uids_In.
  - intros E. exists c. split; [now left |]. split; congruence.
  - apply resolve_matched. intros u. apply matching_uids_In.
Qed.

Lemma resolve_offsets_local (store : DB) (document_id page_no : Z) (token : string)
  (offsets : list Z) (uid label : string) :
  resolve_offsets store document_id page_no token offsets = Some (uid, label) ->
  exists t off, In off offsets /\ In t (tables store)
                /\ t_table_uid t = uid /\ t_table_label t = label
                /\ t_document_id t = document_id
                /\ t_page_number t = (page_no + off)%Z.
Proof.
  induction offsets as [|off tl IH]; cbn [resolve_offsets]; [discriminate |].
  destruct (candidates_on store document_id (page_no + off)) as [|c cs] eqn:C.
  - intros H. destruct (IH H) as (t & o & Ho & Ht). exists t, o. split; [now right | exact Ht].
  - intros H. apply resolve_on_page_In in H. destruct H as (t & Ht & Eu & El).
    rewrite <- C in Ht. apply candidates_on_In in Ht. destruct Ht as (Ht & Ed & Ep).
    exists t, off. repeat split; try assumption. now left.
Qed.

Lemma resolve_table_uid_spec (store : DB) (document_id page_no : Z) (token : string)
  (uid label : string) :
  _resolve_table_uid store document_id page_no token = Some (uid, label) ->
  table_near store document_id page_no uid label.
Proof.
  intros H. apply resolve_offsets_local in H.
  destruct H as (t & off & Ho & Ht & Eu & El & Ed & Ep).
  exists t. repeat split; try assumption;
    cbn in Ho; destruct Ho as [<- | [<- | [<- | []]]]; lia.
Qed.

(** X14. A table reference is resolved only to a stored table of the same
    document on the page of the chunk or on the page before or after it, and
    the label returned is the label of that table. *)
Theorem resolve_table_uid_local (store : DB) (document_id page_no : Z) (token : string)
  (uid label : string) :
  _resolve_table_uid store document_id page_no token = Some (uid, label) ->
  table_near store document_id page_no uid label.
Proof. apply resolve_table_uid_spec. Qed.

(** On the page after the table of the sample store the reference still
    resolves to that table. *)
Lemma resolve_table_uid_local_witness :
  exists uid label,
    _resolve_table_uid rebuilt_sample 7 3 "701.02-1" = Some (uid, label)
    /\ table_near rebuilt_sample 7 3 uid label.
Proof.
  destruct (_resolve_table_uid rebuilt_sample 7 3 "701.02-1") as [[uid label]|] eqn:E;
    [| vm_compute in E; discriminate E].
  exists uid, label. split; [reflexivity |].
  exact (resolve_table_uid_local rebuilt_sample 7 3 "701.02-1" uid label E).
Defined.

Lemma resolve_table_uid_reads (s1 s2 : DB) (document_id page_no : Z) (token : string) :
  tables s1 = tables s2 -> table_rows s1 = table_rows s2 ->
  _resolve_table_uid s1 document_id page_no token
  = _resolve_table_uid s2 document_id page_no token.
Proof.
  intros Ht Hr.
  unfold _resolve_table_uid, resolve_offsets, resolve_on_page, matching_uids, candidates_on.
  now rewrite Ht, Hr.
Qed.

Lemma link_chunk_skips (store : DB) (document_id : Z) (c : ChunkRow) :
  linkable document_id c = false -> link_chunk store document_id c = c.
Proof. intros H. unfold link_chunk. now rewrite H. Qed.

Lemma link_chunk_twice (s1 s2 : DB) (document_id : Z) (c : ChunkRow) :
  tables s2 = tables s1 -> table_rows s2 = table_rows s1 ->
  link_chunk s2 document_id (link_chunk s1 document_id c) = link_chunk s1 document_id c.
Proof.
  intros Ht Hr. unfold link_chunk at 2 3.
  destruct (linkable document_id c) eqn:L; [| now apply link_chunk_skips].
  destruct (Re.search Re.I _TABLE_TOKEN_RE (c_text c)) as [m|] eqn:S.
  - destruct (_resolve_table_uid s1 _ _ _) as [[uid label]|] eqn:R.
    + apply link_chunk_skips. unfold linkable. cbn. apply andb_false_r.
    + unfold link_chunk. rewrite L, S.
      rewrite (resolve_table_uid_reads s2 s1) by assumption. now rewrite R.
  - unfold link_chunk. now rewrite L, S.
Qed.

(** X15. Linking the table references of a document a second time changes
    nothing, and linking never touches a chunk row of another document, a
    table-of-contents or front-matter row, or a row that has a table. *)
Theorem link_table_uids_idempotent (store : DB) (document_id : Z) :
  link_table_uids_for_document (link_table_uids_for_document store document_id) document_id
  = link_table_uids_for_document store document_id
  /\ Forall2 (fun c c' => linkable document_id c = false -> c' = c)
             (chunks store)
             (chunks (link_table_uids_for_document store document_id)).
Proof.
  split.
  - unfold link_table_uids_for_document. cbn. f_equal.
    rewrite map_map. apply map_ext. intros c. now apply link_chunk_twice.
  - cbn. induction (chunks store) as [|c t IH]; cbn; constructor; [| exact IH].
    intros L. now apply link_chunk_skips.
Qed.

End LinkProperties.

(* ------------------------------------------------------------------------- *)
(** ** The rebuilt store *)
(* ------------------------------------------------------------------------- *)

Section RebuiltStore.

Import ChunkIngestion.

Variables (sha1_hex : string -> string) (equation_score : string -> Q).

(** *** The totals *)

Lemma insert_chunk_counted (c : ChunkRow) (st : ins) :
  counted st -> counted (insert_chunk c st).
Proof.
  intros (Hc & Hr & Ht). unfold counted. cbn. rewrite length_app. cbn.
  repeat split; lia.
Qed.

Lemma insert_table_row_counted (r : TableRowRec) (st : ins) :
  counted st -> counted (insert_table_row r st).
Proof.
  intros (Hc & Hr & Ht). unfold counted. cbn. rewrite length_app. cbn.
  repeat split; lia.
Qed.

Lemma insert_table_counted (t : TableRec) (st : ins) :
  counted st -> counted (insert_table t st).
Proof.
  intros (Hc & Hr & Ht). unfold counted. cbn. unfold insert_or_replace_table.
  rewrite length_app. cbn.
  pose proof (filter_length_le
                (fun t' => negb (String.eqb (t_table_uid t') (t_table_uid t)))
                (tables (db st))).
  repeat split; lia.
Qed.

Lemma insert_page_tables_counted (d : Document) (by_page : gmap Z ctx)
  (st : ins) (page : Z * string) :
  counted st -> counted (insert_page_tables sha1_hex d by_page st page).
Proof.
  intros H. unfold insert_page_tables.
  apply fold_left_invariant; [exact H |].
  intros st1 tb _ H1. unfold insert_block.
  apply fold_left_invariant; [now apply insert_table_counted |].
  intros st2 row _ H2. unfold insert_row.
  destruct (Str.is_empty _); [exact H2 |].
  now apply insert_chunk_counted, insert_table_row_counted.
Qed.

Lemma rebuild_document_counted (st : ins) (d : Document) :
  counted st -> counted (rebuild_document sha1_hex equation_score st d).
Proof.
  intros H. unfold rebuild_document. cbv zeta.
  match goal with
  | |- counted {| db := link_table_uids_for_document (db ?s) _;
                  chunk_index := _; total_chunks := _; total_tables := _;
                  total_table_rows := _ |} =>
      assert (H2 : counted s)
  end.
  { apply fold_left_invariant.
    - apply fold_left_invariant; [exact H |].
      intros st1 ch _ H1. now apply insert_chunk_counted.
    - intros st1 pg _. apply insert_page_tables_counted. }
  destruct H2 as (Hc & Hr & Ht). unfold counted. cbn. rewrite length_map.
  now repeat split.
Qed.

(** *** The references between the tables *)

Lemma has_table_kept (t : TableRec) (ts : list TableRec) (uid : string) :
  has_table ts uid -> has_table (insert_or_replace_table t ts) uid.
Proof.
  intros (t0 & H0 & E0). unfold insert_or_replace_table.
  destruct (String.eqb (t_table_uid t0) (t_table_uid t)) eqn:E.
  - apply String.eqb_eq in E. exists t. split; [| congruence].
    apply in_app_iff. right. now left.
  - exists t0. split; [| exact E0]. apply in_app_iff. left.
    apply filter_In. split; [exact H0 |]. now rewrite E.
Qed.

Lemma has_table_new (t : TableRec) (ts : list TableRec) :
  has_table (insert_or_replace_table t ts) (t_table_uid t).
Proof.
  exists t. split; [| reflexivity]. apply in_app_iff. right. now left.
Qed.

Lemma chunk_refs_mono (ts ts' : list TableRec) (rs rs' : list TableRowRec)
  (c : ChunkRow) :
  (forall uid, has_table ts uid -> has_table ts' uid) ->
  (forall r, In r rs -> In r rs') ->
  chunk_refs ts rs c -> chunk_refs ts' rs' c.
Proof.
  intros Ht Hr (H1 & H2). split.
  - intros uid E. apply Ht. now apply H1.
  - intros idx E. destruct (H2 idx E) as (r & Hin & H). exists r.
    split; [now apply Hr | exact H].
Qed.

Lemma insert_table_refs (t : TableRec) (st : ins) :
  refs_ok (db st) -> refs_ok (db (insert_table t st)).
Proof.
  intros (Hc & Hr). split; cbn.
  - eapply List.Forall_impl; [| exact Hc]. intros c.
    apply chunk_refs_mono; [apply has_table_kept | auto].
  - eapply List.Forall_impl; [| exact Hr]. intros r. apply has_table_kept.
Qed.

Lemma insert_table_row_refs (r : TableRowRec) (st : ins) :
  has_table (tables (db st)) (r_table_uid r) ->
  refs_ok (db st) -> refs_ok (db (insert_table_row r st)).
Proof.
  intros Hu (Hc & Hr). split; cbn.
  - eapply List.Forall_impl; [| exact Hc]. intros c.
    apply chunk_refs_mono; [auto |]. intros r0 H0. apply in_app_iff. now left.
  - apply Forall_snoc; assumption.
Qed.

Lemma insert_chunk_refs (c : ChunkRow) (st : ins) :
  chunk_refs (tables (db st)) (table_rows (db st)) c ->
  refs_ok (db st) -> refs_ok (db (insert_chunk c st)).
Proof.
  intros Hnew (Hc & Hr). split; cbn; [| exact Hr].
  apply Forall_snoc; assumption.
Qed.

Lemma insert_row_refs (doc_id page_no : Z) (section : ctx) (uid label : string)
  (st : ins) (row : nat * string) :
  refs_ok (db st) /\ has_table (tables (db st)) uid ->
  refs_ok (db (insert_row doc_id page_no section uid label st row))
  /\ has_table (tables (db (insert_row doc_id page_no section uid label st row))) uid.
Proof.
  intros (H & Hu). unfold insert_row. cbv zeta.
  destruct (Str.is_empty _); [now split |].
  split; [| exact Hu].
  apply insert_chunk_refs.
  - split; cbn.
    + intros u E. now simplify_eq.
    + intros idx E. simplify_eq.
      eexists. split; [apply in_app_iff; right; now left |]. cbn. now repeat split.
  - now apply insert_table_row_refs.
Qed.

Lemma insert_page_tables_refs (d : Document) (by_page : gmap Z ctx)
  (st : ins) (page : Z * string) :
  refs_ok (db st) -> refs_ok (db (insert_page_tables sha1_hex d by_page st page)).
Proof.
  intros H. unfold insert_page_tables.
  apply (fold_left_invariant (fun s => refs_ok (db s))); [exact H |].
  intros st1 tb _ H1. unfold insert_block. cbv zeta.
  match goal with
  | |- refs_ok (db (fold_left (insert_row _ _ _ ?uid _) _ _)) =>
      apply (fold_left_invariant
               (fun s => refs_ok (db s) /\ has_table (tables (db s)) uid))
  end.
  - split; [now apply insert_table_refs | apply has_table_new].
  - intros st2 row _. apply insert_row_refs.
Qed.

Lemma link_chunk_refs (store : DB) (document_id : Z) (c : ChunkRow) :
  chunk_refs (tables store) (table_rows store) c ->
  chunk_refs (tables store) (table_rows store) (link_chunk store document_id c).
Proof.
  intros H. unfold link_chunk.
  destruct (linkable document_id c) eqn:L; [| exact H].
  destruct (Re.search _ _ _) as [m|]; [| exact H].
  destruct (_resolve_table_uid _ _ _ _) as [[uid label]|] eqn:R; [| exact H].
  apply resolve_table_uid_spec in R. destruct R as (t & Ht & Eu & _).
  assert (Enone : c_table_uid c = None).
  { unfold linkable in L. apply andb_true_iff in L. destruct L as [_ L].
    destruct (c_table_uid c); [discriminate L | reflexivity]. }
  destruct H as (_ & H2). split; cbn.
  - intros u E. simplify_eq. now exists t.
  - intros idx E. destruct (H2 idx E) as (r & _ & Er & _). congruence.
Qed.

Lemma rebuild_document_refs (st : ins) (d : Document) :
  refs_ok (db st) -> refs_ok (db (rebuild_document sha1_hex equation_score st d)).
Proof.
  intros H. unfold rebuild_document. cbv zeta. cbn [db].
  match goal with
  | |- refs_ok (link_table_uids_for_document (db ?s) _) =>
      assert (H2 : refs_ok (db s))
  end.
  { apply (fold_left_invariant (fun s => refs_ok (db s))).
    - apply (fold_left_invariant (fun s => refs_ok (db s))); [exact H |].
      intros st1 ch _ H1. unfold insert_content. apply insert_chunk_refs; [| exact H1].
      split; cbn; discriminate.
    - intros st1 pg _. apply insert_page_tables_refs. }
  destruct H2 as (Hc & Hr). split; cbn; [| exact Hr].
  apply List.Forall_map. eapply List.Forall_impl; [| exact Hc].
  intros c. apply link_chunk_refs.
Qed.

(** X16. The totals that a rebuild reports are the numbers of rows it leaves
    in the store: the documents, the chunk rows and the table rows are
    counted exactly, and the stored tables are at most the tables counted. *)
Theorem rebuild_chunks_counts (store : DB) :
  n_documents (snd (rebuild_chunks sha1_hex equation_score store))
  = Z.of_nat (length (documents store))
  /\ n_chunks (snd (rebuild_chunks sha1_hex equation_score store))
     = Z.of_nat (length (chunks (fst (rebuild_chunks sha1_hex equation_score store))))
  /\ n_table_rows (snd (rebuild_chunks sha1_hex equation_score store))
     = Z.of_nat (length (table_rows (fst (rebuild_chunks sha1_hex equation_score store))))
  /\ (Z.of_nat (length (tables (fst (rebuild_chunks sha1_hex equation_score store))))
      <= n_tables (snd (rebuild_chunks sha1_hex equation_score store)))%Z.
Proof.
  unfold rebuild_chunks. cbn [fst snd n_documents n_chunks n_tables n_table_rows].
  split; [unfold docs_of; now rewrite sorted_length |].
  assert (H : counted (rebuild_state sha1_hex equation_score store)).
  { unfold rebuild_state. apply fold_left_invariant.
    - unfold counted. cbn. repeat split; lia.
    - intros st d _. apply rebuild_document_counted. }
  exact H.
Qed.

(** X17. After a rebuild no reference dangles: a chunk row that names a table
    names a stored table, a table row chunk repeats a stored row of its
    table (same row index, same text), and every stored table row belongs
    to a stored table. *)
Theorem rebuild_chunks_references (store : DB) :
  refs_ok (fst (rebuild_chunks sha1_hex equation_score store)).
Proof.
  unfold rebuild_chunks, rebuild_state. cbn [fst].
  apply (fold_left_invariant (fun s => refs_ok (db s))).
  - split; constructor.
  - intros st d _. apply rebuild_document_refs.
Qed.

End RebuiltStore.

Section ChunkIndexes.

Import ChunkIngestion.

Variables (sha1_hex : string -> string) (equation_score : string -> Q).

Lemma counting_from_snoc (base : Z) (n : nat) :
  counting_from base (S n) = counting_from base n ++ [(base + Z.of_nat n)%Z].
Proof. unfold counting_from. rewrite seq_S, map_app. reflexivity. Qed.

Lemma counting_from_app (base : Z) (n m : nat) :
  counting_from base (n + m)
  = counting_from base n ++ counting_from (base + Z.of_nat n) m.
Proof.
  induction m as [|m IH].
  - rewrite Nat.add_0_r. cbn. now rewrite app_nil_r.
  - rewrite Nat.add_succ_r, !counting_from_snoc, IH, <- app_assoc.
    do 3 f_equal. lia.
Qed.

Lemma appended_refl (document_id : Z) (st : ins) : appended document_id st st.
Proof.
  exists []. rewrite app_nil_r. repeat split; [constructor | cbn; lia].
Qed.

Lemma appended_trans (document_id : Z) (a b c : ins) :
  appended document_id a b -> appended document_id b c -> appended document_id a c.
Proof.
  intros (n1 & E1 & D1 & I1 & C1) (n2 & E2 & D2 & I2 & C2).
  exists (n1 ++ n2). split; [now rewrite E2, E1, <- app_assoc |].
  split; [apply List.Forall_app; now split |].
  rewrite map_app, length_app, counting_from_app, I1, I2, C1, C2.
  split; [reflexivity | lia].
Qed.

Lemma insert_chunk_appended (document_id : Z) (c : ChunkRow) (st : ins) :
  c_document_id c = document_id -> c_chunk_index c = chunk_index st ->
  appended document_id st (insert_chunk c st).
Proof.
  intros Hd Hi. exists [c]. cbn. repeat split.
  - now repeat constructor.
  - unfold counting_from. cbn. f_equal. lia.
Qed.

Lemma insert_page_tables_appended (d : Document) (by_page : gmap Z ctx)
  (st : ins) (page : Z * string) :
  appended (d_id d) st (insert_page_tables sha1_hex d by_page st page).
Proof.
  unfold insert_page_tables.
  apply (fold_left_related (appended (d_id d)));
    [apply appended_refl | apply appended_trans |].
  intros st1 tb _. unfold insert_block. cbv zeta.
  eapply appended_trans; cycle 1.
  { apply (fold_left_related (appended (d_id d)));
      [apply appended_refl | apply appended_trans |].
    intros st2 row _. unfold insert_row. cbv zeta.
    destruct (Str.is_empty _); [apply appended_refl |].
    eapply appended_trans; cycle 1.
    { apply insert_chunk_appended; reflexivity. }
    exists []. cbn. rewrite app_nil_r. repeat split; [constructor | lia]. }
  exists []. cbn. rewrite app_nil_r. repeat split; [constructor | lia].
Qed.

Lemma link_chunk_key (store : DB) (document_id : Z) (c : ChunkRow) :
  c_document_id (link_chunk store document_id c) = c_document_id c
  /\ c_chunk_index (link_chunk store document_id c) = c_chunk_index c.
Proof.
  unfold link_chunk. destruct (linkable document_id c); [| now split].
  destruct (Re.search _ _ _); [| now split].
  destruct (_resolve_table_uid _ _ _ _) as [[uid label]|]; now split.
Qed.

Lemma chunks_of_linked (store : DB) (d document_id : Z) (cs : list ChunkRow) :
  map c_chunk_index (chunks_of document_id (map (link_chunk store d) cs))
  = map c_chunk_index (chunks_of document_id cs).
Proof.
  unfold chunks_of. induction cs as [|c t IH]; cbn; [reflexivity |].
  destruct (link_chunk_key store d c) as [-> Ei].
  destruct (c_document_id c =? document_id)%Z; cbn; [now rewrite Ei, IH | exact IH].
Qed.

Lemma indexed_linked (store : DB) (d : Z) (cs : list ChunkRow) :
  indexed cs -> indexed (map (link_chunk store d) cs).
Proof.
  intros H document_id.
  rewrite <- (length_map c_chunk_index), chunks_of_linked, length_map. apply H.
Qed.

Lemma chunks_of_all (document_id : Z) (cs : list ChunkRow) :
  Forall (fun c => c_document_id c = document_id) cs -> chunks_of document_id cs = cs.
Proof.
  unfold chunks_of. induction 1 as [|c t Hc Ht IH]; cbn; [reflexivity |].
  rewrite Hc, Z.eqb_refl. now f_equal.
Qed.

Lemma chunks_of_none (document_id : Z) (cs : list ChunkRow) :
  Forall (fun c => c_document_id c <> document_id) cs -> chunks_of document_id cs = [].
Proof.
  unfold chunks_of. induction 1 as [|c t Hc Ht IH]; cbn; [reflexivity |].
  apply Z.eqb_neq in Hc. now rewrite Hc.
Qed.

(** The chunk rows that the rebuild of one document adds. *)
Lemma rebuild_document_appended (st : ins) (d : Document) :
  exists new,
    chunks (db (rebuild_document sha1_hex equation_score st d))
    = map (link_chunk
             (db (fold_left (insert_page_tables sha1_hex d
                     (section_context_by_page
                        (Chunking.chunk_document_pages (pages_of (db st) (d_id d)))
                        (pages_of (db st) (d_id d))))
                    (pages_of (db st) (d_id d))
                    (fold_left (insert_content equation_score (d_id d))
                       (Chunking.chunk_document_pages (pages_of (db st) (d_id d)))
                       {| db := db st; chunk_index := 0;
                          total_chunks := total_chunks st;
                          total_tables := total_tables st;
                          total_table_rows := total_table_rows st |})))
             (d_id d))
          (chunks (db st) ++ new)
    /\ Forall (fun c => c_document_id c = d_id d) new
    /\ map c_chunk_index new = counting_from 0 (length new).
Proof.
  unfold rebuild_document. cbv zeta. cbn [db chunks link_table_uids_for_document].
  set (st0 := {| db := db st; chunk_index := 0; total_chunks := total_chunks st;
                 total_tables := total_tables st;
                 total_table_rows := total_table_rows st |}).
  set (st1 := fold_left (insert_content equation_score (d_id d)) _ st0).
  set (st2 := fold_left (insert_page_tables sha1_hex d _) _ st1).
  assert (H : appended (d_id d) st0 st2).
  { apply (appended_trans _ _ st1).
    - apply (fold_left_related (appended (d_id d)));
        [apply appended_refl | apply appended_trans |].
      intros a ch _. unfold insert_content. now apply insert_chunk_appended.
    - apply (fold_left_related (appended (d_id d)));
        [apply appended_refl | apply appended_trans |].
      intros a pg _. apply insert_page_tables_appended. }
  destruct H as (new & E & D & I & _). exists new.
  split; [now rewrite E |]. now split.
Qed.

Lemma rebuild_documents_indexed (docs : list Document) :
  forall (st : ins) (ids : list Z),
    List.NoDup (map d_id docs) ->
    (forall d, In d docs -> ~ In (d_id d) ids) ->
    Forall (fun c => In (c_document_id c) ids) (chunks (db st)) ->
    indexed (chunks (db st)) ->
    indexed (chunks (db (fold_left (rebuild_document sha1_hex equation_score) docs st))).
Proof.
  induction docs as [|d rest IH]; intros st ids Hnd Hfresh Hold Hidx; cbn [fold_left];
    [exact Hidx |].
  cbn in Hnd. inversion Hnd as [|? ? Hd Hrest]; subst.
  destruct (rebuild_document_appended st d) as (new & E & Hnew & Inew).
  apply (IH _ (d_id d :: ids)).
  - exact Hrest.
  - intros d' Hd' [Hin | Hin].
    + apply Hd. rewrite Hin. now apply in_map.
    + apply (Hfresh d'); [now right | exact Hin].
  - rewrite E. apply List.Forall_map, List.Forall_app. split.
    + eapply List.Forall_impl; [| exact Hold]. intros c Hc.
      rewrite (proj1 (link_chunk_key _ _ c)). now right.
    + eapply List.Forall_impl; [| exact Hnew]. intros c Hc.
      rewrite (proj1 (link_chunk_key _ _ c)). now left.
  - rewrite E. apply indexed_linked. intros document_id.
    unfold chunks_of. rewrite List.filter_app. fold (chunks_of document_id (chunks (db st))).
    fold (chunks_of document_id new).
    destruct (Z.eq_dec document_id (d_id d)) as [-> | Hne].
    + rewrite (chunks_of_none (d_id d) (chunks (db st))).
      * cbn [app]. rewrite chunks_of_all by exact Hnew. exact Inew.
      * eapply List.Forall_impl; [| exact Hold]. intros c Hc Ec.
        apply (Hfresh d); [now left | now rewrite <- Ec].
    + rewrite (chunks_of_none document_id new).
      * rewrite app_nil_r. apply Hidx.
      * eapply List.Forall_impl; [| exact Hnew]. intros c Hc. cbn in Hc. congruence.
Qed.

(** X18. When the documents have distinct ids, the chunk rows that a rebuild
    stores for a document carry the chunk indexes 0, 1, 2, ... in insert
    order: the content chunks first, the table row chunks after them. *)
Theorem rebuild_chunks_indexed (store : DB) :
  List.NoDup (map d_id (documents store)) ->
  indexed (chunks (fst (rebuild_chunks sha1_hex equation_score store))).
Proof.
  intros Hnd. unfold rebuild_chunks, rebuild_state. cbn [fst].
  apply (rebuild_documents_indexed _ _ []).
  - eapply Permutation_NoDup; [| exact Hnd].
    apply Permutation_map, Permutation_sym. unfold docs_of. apply sorted_Permutation.
  - intros d _ [].
  - constructor.
  - intros document_id. reflexivity.
Qed.

End ChunkIndexes.

Lemma rebuild_chunks_indexed_witness :
  List.NoDup (map ChunkIngestion.d_id (ChunkIngestion.documents sample_store))
  /\ indexed (ChunkIngestion.chunks rebuilt_sample).
Proof.
  assert (H : List.NoDup (map ChunkIngestion.d_id (ChunkIngestion.documents sample_store))).
  { cbn. constructor; [intros [] | constructor]. }
  split; [exact H |].
  exact (rebuild_chunks_indexed (fun s => s) (fun _ => 0%Q) sample_store H).
Defined.

(* ------------------------------------------------------------------------- *)
(** ** The chunks of a document *)
(* ------------------------------------------------------------------------- *)

Lemma substring_length_le (s : string) : forall a n,
  (String.length (String.substring a n s) <= n)%nat.
Proof.
  induction s as [|c t IH]; intros [|a] [|n]; cbn; try lia.
  - specialize (IH 0%nat n). lia.
  - apply (IH a 0%nat).
  - apply (IH a (S n)).
Qed.

Lemma take_length (n : nat) (s : string) : (String.length (Str.take n s) <= n)%nat.
Proof. apply substring_length_le. Qed.

Section ChunkProperties.

Import Chunking.

(** *** Only the first chunk can lack a section *)

Lemma sectioned_snoc (l : list Chunk) (c : Chunk) :
  sectioned_after_first l -> (l <> [] -> section_id c <> None) ->
  sectioned_after_first (l ++ [c]).
Proof.
  destruct l as [|x t]; cbn; intros Hl Hc; [constructor |].
  apply Forall_snoc; [exact Hl |]. now apply Hc.
Qed.

Lemma flush_sectioned (a : acc) :
  sectioning a -> sectioned_after_first (chunks (flush a)).
Proof.
  intros (Hs & _ & Hc). unfold flush.
  destruct (cur_start a), (cur_end a), (cur_buf a); cbn; try exact Hs.
  destruct (Str.is_empty _); [exact Hs |].
  now apply sectioned_snoc.
Qed.

Lemma step_sectioning (p : Z) (a : acc) (seg : PageSegment) :
  sectioning a -> sectioning (step p a seg).
Proof.
  intros H. pose proof (flush_sectioned a H) as Hf. destruct H as (Hs & Hn & Hc).
  unfold step, sectioning. cbn.
  destruct (cur_start a) as [s|] eqn:Es; cbn.
  - destruct (is_some (seg_section_id seg)
              && negb (opt_str_eqb (seg_section_id seg) (cur_section a))) eqn:New; cbn.
    + split; [exact Hf |]. split; [discriminate |].
      intros _. apply andb_true_iff in New. destruct New as [New _].
      destruct (seg_section_id seg); [discriminate | discriminate New].
    + destruct (negb (is_some (cur_section a)) && is_some (seg_section_id seg)) eqn:Late; cbn.
      * split; [exact Hs |]. split; [discriminate |].
        intros _. apply andb_true_iff in Late. destruct Late as [_ Late].
        destruct (seg_section_id seg); [discriminate | discriminate Late].
      * rewrite Es. split; [exact Hs |]. split; [discriminate | exact Hc].
  - rewrite (Hn eq_refl). split; [exact I |]. split; [discriminate |].
    intros C. now contradiction C.
Qed.

Lemma chunk_document_pages_sectioning (pages : list (Z * string)) :
  sectioning (fold_left page_step pages init).
Proof.
  apply fold_left_invariant.
  - split; [exact I |]. split; [reflexivity |]. intros C. now contradiction C.
  - intros a pg _ Ha. unfold page_step.
    apply fold_left_invariant; [exact Ha |].
    intros a' seg _. apply step_sectioning.
Qed.

(** X19. Only the first chunk of a document can lack a section id: every
    later chunk was opened by a section or subsection header. *)
Theorem chunk_document_pages_front_matter_first (pages : list (Z * string)) :
  sectioned_after_first (chunk_document_pages pages).
Proof.
  unfold chunk_document_pages. apply flush_sectioned.
  apply chunk_document_pages_sectioning.
Qed.

(** *** Page numbers and headings *)

Lemma first_section_line_short (marker : string) (lns : list string) :
  short_heading (first_section_line marker lns).
Proof.
  induction lns as [|ln tl IH]; cbn; [discriminate |].
  destruct (Re.matches _ _ _); [| exact IH].
  intros s E. injection E as <-. apply take_length.
Qed.

Lemma section_heading_line_short (text marker : string) :
  short_heading (_section_heading_line text marker).
Proof.
  unfold _section_heading_line. destruct (Str.is_empty text); [discriminate |].
  pose proof (first_section_line_short marker (Str.splitlines text)) as H.
  destruct (first_section_line marker (Str.splitlines text)) as [ln|]; [exact H |].
  intros s E. injection E as <-. apply take_length.
Qed.

Lemma segments_between_short (text preamble : string)
  (mk : Re.mobj -> string -> PageSegment) (ms : list Re.mobj) : forall first,
  (forall m seg, short_heading (seg_heading (mk m seg))) ->
  Forall (fun seg => short_heading (seg_heading seg))
         (segments_between text preamble first ms mk).
Proof.
  induction ms as [|m tl IH]; intros first Hmk; cbn; constructor.
  - apply Hmk.
  - now apply IH.
Qed.

Lemma split_page_into_segments_short (text : string) :
  Forall (fun seg => short_heading (seg_heading seg)) (split_page_into_segments text).
Proof.
  unfold split_page_into_segments.
  destruct (Str.is_empty text); [repeat constructor; discriminate |].
  destruct (Re.finditer Re.M SUBSECTION_HEADER_RE text) as [|m ms].
  - destruct (Re.finditer Re.MI SECTION_RE text) as [|m ms].
    + repeat constructor. discriminate.
    + apply segments_between_short. intros m' seg. cbn.
      apply section_heading_line_short.
  - apply segments_between_short. intros m' seg s E. cbn in E.
    injection E as <-. apply take_length.
Qed.

Lemma flush_paging (ps : list Z) (a : acc) :
  paging ps a -> Forall (chunk_of_pages ps) (chunks (flush a)).
Proof.
  intros (Hc & Hs & He & Hh). unfold flush.
  destruct (cur_start a) as [s|], (cur_end a) as [e|], (cur_buf a); cbn; try exact Hc.
  destruct (Str.is_empty _); [exact Hc |].
  apply Forall_snoc; [exact Hc |]. repeat split; cbn; auto.
Qed.

Lemma step_paging (ps : list Z) (p : Z) (a : acc) (seg : PageSegment) :
  In p ps -> short_heading (seg_heading seg) ->
  paging ps a -> paging ps (step p a seg).
Proof.
  intros Hp Hseg H. pose proof (flush_paging ps a H) as Hf.
  destruct H as (Hc & Hs & He & Hh).
  assert (Hend : forall e, Some p = Some e -> In e ps) by (intros e [= <-]; exact Hp).
  unfold step, paging. cbn.
  destruct (cur_start a) as [s|] eqn:Es; cbn.
  - destruct (_ && _); cbn.
    + repeat split; auto.
    + destruct (_ && _); cbn; repeat split; auto. now rewrite Es.
  - repeat split; auto.
Qed.

(** X20. Every chunk of a document starts and ends on a page of the document,
    and its heading has at most 200 characters. *)
Theorem chunk_document_pages_from_pages (pages : list (Z * string)) :
  Forall (chunk_of_pages (map fst pages)) (chunk_document_pages pages).
Proof.
  unfold chunk_document_pages. apply flush_paging.
  apply fold_left_invariant.
  - split; [constructor |]. repeat split; discriminate.
  - intros a pg Hpg Ha. unfold page_step.
    apply fold_left_invariant; [exact Ha |].
    intros a' seg Hseg. apply step_paging.
    + now apply in_map.
    + pose proof (split_page_into_segments_short (snd pg)) as Hall.
      rewrite List.Forall_forall in Hall. now apply Hall.
Qed.

End ChunkProperties.

(* ------------------------------------------------------------------------- *)
(** ** What the cascade cites *)
(* ------------------------------------------------------------------------- *)

Section CitationProperties.

Import Ask.

Lemma Ok_inj {A} (a b : A) : Ok a = Ok b -> a = b.
Proof. congruence. Qed.

Lemma cites_only_sub (hs hs' : list Hit) (res : AskResult) :
  (forall h, In h hs' -> In h hs) -> cites_only hs' res -> cites_only hs res.
Proof.
  intros Hsub. unfold cites_only. apply List.Forall_impl. intros h. apply Hsub.
Qed.

Lemma cites_firstn (n : nat) (hs : list Hit) : Forall (fun h => In h hs) (firstn n hs).
Proof. apply List.Forall_forall. intros h. apply In_firstn. Qed.

Lemma weak_response_cites (hs : list Hit) (q : string) :
  cites_only hs (_weak_response hs q).
Proof.
  unfold _weak_response, cites_only. destruct hs as [|top rest]; [constructor |].
  destruct (negb _); [constructor |].
  cbv zeta. destruct (Str.is_empty _); [constructor |]. apply cites_firstn.
Qed.

Lemma llm_fallback_cites (hs : list Hit) : cites_only hs (_llm_fallback_answer hs).
Proof.
  unfold _llm_fallback_answer, cites_only. destruct hs as [|h rest]; [constructor |].
  apply cites_firstn.
Qed.

Lemma synthesis_cites (env : Env) (q conf : string) (hs : list Hit) :
  cites_only hs (synthesis env q conf hs).
Proof.
  assert (Hall : Forall (fun h => In h hs) hs) by now apply List.Forall_forall.
  unfold synthesis. destruct (preferred_of hs); [apply weak_response_cites |].
  cbv zeta. unfold synthesis_try, draft_answer, bind.
  destruct (get_llm env); [| apply llm_fallback_cites].
  destruct (_ && _); [exact Hall |].
  destruct (Str.is_empty (statute_answer _ _)).
  - destruct (chat env _ _); [| apply llm_fallback_cites].
    destruct (_ && _); [apply llm_fallback_cites | exact Hall].
  - destruct (_ && _); [apply llm_fallback_cites | exact Hall].
Qed.

Lemma top_table_block_rows (hs : list Hit) (h : Hit) :
  In h (snd (_top_table_block hs)) -> In h hs.
Proof.
  unfold _top_table_block.
  destruct (List.filter _ hs) as [|t ts] eqn:F; [cbn; tauto |].
  cbv zeta. cbn [snd]. intros H. apply In_firstn in H. apply filter_In in H. destruct H as [H _].
  rewrite <- F in H. apply filter_In in H. tauto.
Qed.

Lemma answer_tail_cites (env : Env) (q conf : string) (hs : list Hit)
  (table_token : option string) (res : AskResult) :
  answer_tail env q conf hs table_token = Ok res -> cites_only hs res.
Proof.
  unfold answer_tail.
  destruct (_ || _); [intros [= <-]; apply weak_response_cites |].
  unfold bind.
  destruct (top_table_answer env q hs table_token) as [[r1|]|e] eqn:T1;
    [| | discriminate].
  - intros [= <-]. revert T1. unfold top_table_answer, bind.
    destruct hs as [|h0 rest]; [discriminate |].
    destruct (_ && _); [| discriminate].
    destruct (_table_has_enough_rows env _ _) as [[]|]; try discriminate.
    destruct (table_block env _ _ _ _) as [[tb|]|]; try discriminate.
    intros [= <-]. apply (cites_firstn 1).
  - destruct (table_header_answer q conf hs) as [r|] eqn:T2.
    { intros [= <-]. revert T2. unfold table_header_answer. cbv zeta.
      destruct (Re.search _ _ _); [| discriminate].
      destruct (find _ hs) as [best|] eqn:F; [| discriminate].
      intros [= <-]. constructor; [| constructor]. now apply find_some in F. }
    destruct (materials_answer conf hs) as [r|] eqn:T3.
    { intros [= <-]. revert T3. unfold materials_answer.
      destruct hs as [|h0 rest]; [discriminate |].
      destruct (_ && _); [| discriminate].
      intros [= <-]. apply (cites_firstn 1). }
    destruct (block_table_answer env q conf hs table_token) as [[r2|]|e] eqn:T4;
      [| | discriminate].
    + intros [= <-]. revert T4. unfold block_table_answer, bind.
      pose proof (top_table_block_rows hs) as Hrows.
      destruct (_top_table_block hs) as [[tuid tlabel] rows]. cbn in Hrows.
      destruct rows as [|r0 rows]; [discriminate |].
      destruct tuid as [uid|]; [| discriminate].
      destruct (_ && _); [| discriminate].
      destruct (table_block env _ _ _ _) as [[tb|]|]; try discriminate.
      intros [= <-]. now apply List.Forall_forall.
    + intros [= <-]. apply synthesis_cites.
Qed.

Lemma prefer_content_In (k : nat) (hs : list Hit) (h : Hit) :
  In h (prefer_content k hs) -> In h hs.
Proof.
  unfold prefer_content. cbv zeta.
  destruct (preferred_of hs) as [|p ps] eqn:P; [tauto |]. rewrite <- P.
  assert (Hp : forall x, In x (preferred_of hs) -> In x hs).
  { intros x Hx. apply filter_In in Hx. tauto. }
  assert (Hl : forall x n, In x (firstn n (List.filter (fun h => kind_in h low_value_kinds) hs))
                           \/ In x (skipn n (List.filter (fun h => kind_in h low_value_kinds) hs))
                           -> In x hs).
  { intros x n Hx.
    assert (Hx' : In x (List.filter (fun h => kind_in h low_value_kinds) hs)).
    { rewrite <- (firstn_skipn n). apply in_app_iff. exact Hx. }
    apply filter_In in Hx'. tauto. }
  destruct (Nat.leb k _); rewrite !in_app_iff.
  - intros [H | H]; [apply Hp; eapply In_firstn; exact H |].
    apply filter_In in H. tauto.
  - intros [H | H]; [now apply Hp | eapply Hl; exact H].
Qed.

(** X21. Unless the query names a table by its number, whatever the cascade
    answers it cites retrieved hits only: every hit of the result is one of
    the hits the cascade was given. *)
Theorem cascade_cites_retrieved (env : Env) (q : string) (k : nat) (mode conf : string)
  (hs : list Hit) (used_prefix_fallback : bool) (res : AskResult) :
  Py.truthy (_extract_table_token q) = false ->
  cascade env q k mode conf hs used_prefix_fallback = Ok res ->
  cites_only hs res.
Proof.
  intros Htok.
  assert (Hall : Forall (fun h => In h hs) hs) by now apply List.Forall_forall.
  unfold cascade. cbv zeta. rewrite Htok.
  destruct (String.eqb mode "sources_only"); [intros [= <-]; exact Hall |].
  destruct (_ && _); [intros [= <-]; exact Hall |].
  destruct (_ && _); [intros [= <-]; exact Hall |].
  set (hs1 := if negb (_looks_like_table_query q)
             then List.filter (fun h => negb (kind_in h ["table_row"])) hs else hs).
  set (hs2 := if String.eqb mode "answer" && negb (_looks_like_table_query q)
                 && negb (Rerank.is_section_intent q)
              then prefer_content k hs1 else hs1).
  assert (H1 : forall h, In h hs1 -> In h hs).
  { intros h. unfold hs1. destruct (negb _); [| tauto].
    intros H. apply filter_In in H. tauto. }
  assert (H2 : forall h, In h hs2 -> In h hs).
  { intros h. unfold hs2. destruct (_ && _); [| apply H1].
    intros H. apply H1. eapply prefer_content_In. exact H. }
  clearbody hs2. clear H1 hs1.
  destruct (_ && _).
  - destruct hs2 as [|h2 rest]; [intros [= <-]; constructor |].
    intros Hres. apply Ok_inj in Hres. subst res.
    unfold plain_result, cites_only. cbn [hits].
    apply List.Forall_forall. intros h Hh. apply H2.
    unfold _select_section_hits in Hh. eapply In_firstn. exact Hh.
  - intros H. apply answer_tail_cites in H. now apply (cites_only_sub hs hs2).
Qed.

Lemma cascade_cites_retrieved_witness :
  exists res,
    cascade (env_with [pay_hit; curing_hit] "medium" (Ok cited_reply))
            due_query 5 "answer" "medium" [pay_hit; curing_hit] false = Ok res
    /\ cites_only [pay_hit; curing_hit] res.
Proof.
  destruct (cascade (env_with [pay_hit; curing_hit] "medium" (Ok cited_reply))
                    due_query 5 "answer" "medium" [pay_hit; curing_hit] false)
    as [res|e] eqn:E; [| vm_compute in E; discriminate E].
  exists res. split; [reflexivity |].
  apply (cascade_cites_retrieved
           (env_with [pay_hit; curing_hit] "medium" (Ok cited_reply))
           due_query 5 "answer" "medium" [pay_hit; curing_hit] false res);
    [vm_compute; reflexivity | exact E].
Defined.

(** X22. [prefer_content] never drops a hit of a low-value kind and never
    lets one ahead of a content hit: with no content hit the list is left as
    it is, otherwise the result is the first [k] content hits followed by
    all the low-value hits, in their order. *)
Theorem prefer_content_keeps_low_value (k : nat) (hs : list Hit) :
  (preferred_of hs = [] -> prefer_content k hs = hs)
  /\ (preferred_of hs <> [] ->
      prefer_content k hs = firstn k (preferred_of hs) ++ low_value_of hs).
Proof.
  unfold prefer_content, low_value_of. cbv zeta.
  destruct (preferred_of hs) as [|p ps] eqn:P.
  - split; [reflexivity |]. intros C. now contradiction C.
  - split; [discriminate |]. intros _.
    destruct (Nat.leb k (length (p :: ps))) eqn:K; [reflexivity |].
    apply Nat.leb_gt in K. rewrite firstn_skipn.
    rewrite firstn_all2 by lia. reflexivity.
Qed.

(** In the sources-only mode the answer does not depend on the generation
    model or on the table lookups: two environments with the same retrieval
    and the same re-hydration give the same result. *)
Theorem sources_only_ignores_llm (env env' : Env) (query scope : string)
  (mp_ids : list string) (k : nat) :
  retrieval env query scope mp_ids k "sources_only"
  = retrieval env' query scope mp_ids k "sources_only" ->
  (forall hs, rehydrate env hs query = rehydrate env' hs query) ->
  ask_question env query scope mp_ids k "sources_only"
  = ask_question env' query scope mp_ids k "sources_only".
Proof.
  intros Hr Hh. unfold ask_question, _ask_question_inner, bind. rewrite Hr.
  destruct (retrieval env' query scope mp_ids k "sources_only") as [[res|hs conf u]|e];
    try reflexivity.
  rewrite Hh. destruct (rehydrate env' hs query) as [hs'|e]; reflexivity.
Qed.

Lemma sources_only_ignores_llm_witness :
  ask_question (env_with [pay_hit; curing_hit] "medium" (Ok invented_reply))
               days_query "all" [] 5 "sources_only"
  = ask_question (env_with [pay_hit; curing_hit] "medium" (Raise llm_timeout))
                 days_query "all" [] 5 "sources_only".
Proof.
  apply (sources_only_ignores_llm
           (env_with [pay_hit; curing_hit] "medium" (Ok invented_reply))
           (env_with [pay_hit; curing_hit] "medium" (Raise llm_timeout))
           days_query "all" [] 5); [reflexivity | intros hs; reflexivity].
Defined.

End CitationProperties.

(* ------------------------------------------------------------------------- *)
(** ** The cell grid of a table *)
(* ------------------------------------------------------------------------- *)

Section GridProperties.

Import Tables TablesRouter.

(** *** Parsing rows into cells *)

Lemma split_cells_nonempty (text : string) :
  Forall (fun s => nonempty_cell s = true) (_split_cells text).
Proof.
  unfold _split_cells. cbv zeta. apply List.Forall_forall. intros s Hs.
  apply filter_In in Hs. tauto.
Qed.

Lemma parse_step_nonempty (st : parsing) (row : TableRow) :
  Forall (fun r => Forall (fun s => nonempty_cell s = true) (snd r)) (parsed_rows st) ->
  Forall (fun s => nonempty_cell s = true) (current_row_cells st) ->
  Forall (fun r => Forall (fun s => nonempty_cell s = true) (snd r))
         (parsed_rows (parse_step st row))
  /\ Forall (fun s => nonempty_cell s = true) (current_row_cells (parse_step st row)).
Proof.
  intros Hp Hc. unfold parse_step. cbv zeta.
  destruct (Str.is_empty _); [now split |].
  destruct (is_nil _); [now split |].
  pose proof (split_cells_nonempty (Str.strip (row_text row))) as Hnew.
  destruct (_ && _); cbn.
  - split; [apply Forall_snoc; assumption | exact Hnew].
  - split; [exact Hp | apply List.Forall_app; now split].
Qed.

Lemma parsed_rows_nonempty (rows : list TableRow) :
  Forall (fun r => Forall (fun s => nonempty_cell s = true) (snd r)) (parsed_rows_of rows).
Proof.
  unfold parsed_rows_of. cbv zeta.
  match goal with
  | |- context [fold_left parse_step rows ?i] =>
      assert (H : Forall (fun r => Forall (fun s => nonempty_cell s = true) (snd r))
                         (parsed_rows (fold_left parse_step rows i))
                  /\ Forall (fun s => nonempty_cell s = true)
                            (current_row_cells (fold_left parse_step rows i)))
  end.
  { apply (fold_left_invariant
             (fun st => Forall (fun r => Forall (fun s => nonempty_cell s = true) (snd r))
                               (parsed_rows st)
                        /\ Forall (fun s => nonempty_cell s = true) (current_row_cells st))).
    - split; constructor.
    - intros st row _ [Hp Hc]. now apply parse_step_nonempty. }
  destruct H as [Hp Hc]. destruct (is_nil _); [exact Hp |].
  apply Forall_snoc; [exact Hp | exact Hc].
Qed.

Lemma col_count_bound (parsed : list (Z * Z * list string)) :
  Forall (fun r => (length (snd r) <= col_count_of parsed)%nat) parsed.
Proof.
  unfold col_count_of. induction parsed as [|r t IH]; cbn; constructor; [lia |].
  eapply List.Forall_impl; [| exact IH]. cbn. intros x Hx. lia.
Qed.

Lemma padded_row (cells : list string) : forall (n : nat),
  (length cells <= n)%nat ->
  map (fun i => nth i cells EmptyString) (seq 0 n)
  = cells ++ repeat EmptyString (n - length cells).
Proof.
  induction cells as [|c t IH]; intros n Hn.
  - cbn [app length]. rewrite Nat.sub_0_r. clear Hn.
    rewrite (map_ext _ (fun _ => EmptyString)) by (intros [|i]; reflexivity).
    generalize 0%nat. induction n as [|n IHn]; intros a; cbn; [reflexivity |].
    now rewrite IHn.
  - destruct n as [|n]; cbn in Hn; [lia |].
    cbn [seq map nth length Nat.sub app]. f_equal.
    rewrite <- seq_shift, map_map. apply IH. lia.
Qed.

Lemma filter_padding (cells : list string) (n : nat) :
  Forall (fun s => nonempty_cell s = true) cells ->
  List.filter nonempty_cell (cells ++ repeat EmptyString n) = cells.
Proof.
  intros H. rewrite List.filter_app.
  replace (List.filter nonempty_cell (repeat EmptyString n)) with (@nil string).
  - rewrite app_nil_r. induction H as [|c t Hc Ht IH]; cbn; [reflexivity |].
    rewrite Hc. now f_equal.
  - induction n as [|n IH]; cbn; [reflexivity | exact IH].
Qed.

Lemma cells_of_rows_coordinates (uid : string) (cols : nat)
  (parsed : list (Z * Z * list string)) : forall (start : nat),
  map coordinates (flat_map (cells_of_row uid cols) (Py.enumerate start parsed))
  = list_prod (map Z.of_nat (seq start (length parsed))) (counting cols).
Proof.
  induction parsed as [|[[mn mx] cells] t IH]; intros start; cbn [Py.enumerate flat_map];
    [reflexivity |].
  rewrite map_app, IH. cbn [length seq map list_prod]. f_equal.
  unfold cells_of_row, counting. rewrite !map_map. reflexivity.
Qed.

Lemma cells_of_rows_texts (uid : string) (cols : nat)
  (parsed : list (Z * Z * list string)) : forall (start : nat),
  Forall (fun r => Forall (fun s => nonempty_cell s = true) (snd r)) parsed ->
  Forall (fun r => (length (snd r) <= cols)%nat) parsed ->
  List.filter nonempty_cell
    (map cell_text (flat_map (cells_of_row uid cols) (Py.enumerate start parsed)))
  = concat (map snd parsed).
Proof.
  induction parsed as [|[[mn mx] cells] t IH]; intros start Hne Hlen;
    cbn [Py.enumerate flat_map]; [reflexivity |].
  inversion Hne as [|? ? Hc Ht]; subst. inversion Hlen as [|? ? Lc Lt]; subst.
  cbn [snd] in Hc, Lc.
  rewrite map_app, List.filter_app, IH by assumption. cbn [map concat snd]. f_equal.
  unfold cells_of_row. rewrite map_map. cbn [cell_text].
  rewrite padded_row by exact Lc. now apply filter_padding.
Qed.

Lemma cells_of_rows_uid (uid : string) (cols : nat)
  (parsed : list (Z * Z * list string)) : forall (start : nat),
  Forall (fun c => cell_table_uid c = uid)
         (flat_map (cells_of_row uid cols) (Py.enumerate start parsed)).
Proof.
  induction parsed as [|[[mn mx] cells] t IH]; intros start;
    cbn [Py.enumerate flat_map]; [constructor |].
  apply List.Forall_app. split; [| apply IH].
  unfold cells_of_row. apply List.Forall_map. apply List.Forall_forall. now intros.
Qed.

(** X23. The cells parsed from the rows of a table are either none, or a full
    grid of at least two rows and two columns in row-major order, each
    position exactly once, with the table uid of the first row; and the
    non-empty cell texts are exactly the cells split off the rows, in
    order: padding adds empty cells, nothing is lost. *)
Theorem parse_table_rows_grid (rows : list TableRow) :
  let parsed := parsed_rows_of rows in
  let cells := parse_table_rows_to_cells rows in
  cells = []
  \/ ((2 <= length parsed)%nat
      /\ (2 <= col_count_of parsed)%nat
      /\ map coordinates cells
         = list_prod (counting (length parsed)) (counting (col_count_of parsed))
      /\ List.filter nonempty_cell (map cell_text cells) = concat (map snd parsed)
      /\ Forall (fun c => Some (cell_table_uid c) = option_map table_uid (hd_error rows))
                cells).
Proof.
  cbv zeta. unfold parse_table_rows_to_cells.
  destruct rows as [|first rest]; [now left |].
  set (rows := first :: rest). cbv zeta.
  destruct (Nat.ltb (length (parsed_rows_of rows)) 2) eqn:R; [now left |].
  destruct (Nat.ltb (col_count_of (parsed_rows_of rows)) 2) eqn:C; [now left |].
  apply Nat.ltb_ge in R, C. right.
  split; [exact R |]. split; [exact C |]. split; [| split].
  - apply cells_of_rows_coordinates.
  - apply cells_of_rows_texts; [apply parsed_rows_nonempty | apply col_count_bound].
  - eapply List.Forall_impl; [| apply cells_of_rows_uid]. cbn. now intros c ->.
Qed.

(** *** The grid built from the stored cells *)

Lemma py_index_natural (n : nat) (i : Z) :
  (0 <= i < Z.of_nat n)%Z -> py_index n i = Some (Z.to_nat i).
Proof.
  intros H. unfold py_index.
  replace (0 <=? i)%Z with true by (symmetry; apply Z.leb_le; lia).
  replace (i <? Z.of_nat n)%Z with true by (symmetry; apply Z.ltb_lt; lia).
  reflexivity.
Qed.

Lemma lookup_repeat {A} (x y : A) (n i : nat) : repeat x n !! i = Some y -> y = x.
Proof.
  revert i. induction n as [|n IH]; intros [|i]; cbn; try discriminate.
  - congruence.
  - apply IH.
Qed.

Lemma rectangular_empty (n m : nat) :
  rectangular (repeat (repeat EmptyString m) n) n m.
Proof.
  split; [apply repeat_length |]. apply List.Forall_forall. intros row Hrow.
  apply repeat_spec in Hrow. subst row. apply repeat_length.
Qed.

Lemma shows_empty (n m : nat) : shows [] (repeat (repeat EmptyString m) n).
Proof.
  intros r c s. unfold cell_at.
  destruct (repeat (repeat EmptyString m) n !! r) as [row|] eqn:Er; [| discriminate].
  apply lookup_repeat in Er. subst row. intros Hc. apply lookup_repeat in Hc.
  right. split; [intros x [] | exact Hc].
Qed.

Lemma rectangular_row (g : list (list string)) (n m r : nat) :
  rectangular g n m -> (r < n)%nat -> exists row, g !! r = Some row /\ length row = m.
Proof.
  intros [Hn Hm] Hr.
  destruct (lookup_lt_is_Some_2 g r) as [row Hrow]; [lia |].
  exists row. split; [exact Hrow |].
  rewrite List.Forall_forall in Hm. apply Hm.
  apply list_elem_of_In. eapply list_elem_of_lookup_2. exact Hrow.
Qed.

Lemma set_cell_natural (g : list (list string)) (n m : nat) (x : TableCell)
  (done : list TableCell) :
  rectangular g n m -> natural x ->
  (row_num x < Z.of_nat n)%Z -> (col_num x < Z.of_nat m)%Z ->
  shows done g ->
  exists g', set_cell g (row_num x) (col_num x) (cell_text x) = Some g'
             /\ rectangular g' n m /\ shows (done ++ [x]) g'.
Proof.
  intros Hrect [Hr0 Hc0] Hr Hc Hshows.
  destruct (rectangular_row g n m (Z.to_nat (row_num x)) Hrect) as (row & Erow & Lrow);
    [lia |].
  destruct Hrect as [Hn Hm]. unfold set_cell.
  rewrite py_index_natural by lia. rewrite Erow.
  rewrite py_index_natural by lia.
  eexists. split; [reflexivity |]. split; [split |].
  - now rewrite length_insert.
  - apply List.Forall_forall. intros row' Hin. apply list_elem_of_In in Hin.
    apply list_elem_of_lookup_1 in Hin. destruct Hin as [i Hi].
    apply list_lookup_insert_Some in Hi.
    destruct Hi as [(_ & <- & _) | (_ & Hi)].
    + now rewrite length_insert.
    + rewrite List.Forall_forall in Hm. apply Hm. apply list_elem_of_In.
      eapply list_elem_of_lookup_2. exact Hi.
  - intros r c s. unfold cell_at.
    destruct (decide (Z.to_nat (row_num x) = r)) as [<- | Hne].
    + rewrite list_lookup_insert_eq by lia.
      destruct (decide (Z.to_nat (col_num x) = c)) as [<- | Hnc].
      * rewrite list_lookup_insert_eq by lia. intros [= <-].
        left. exists x. split; [apply in_app_iff; right; now left |].
        split; [split; lia | reflexivity].
      * rewrite list_lookup_insert_ne by exact Hnc. intros Hs.
        destruct (Hshows (Z.to_nat (row_num x)) c s) as [(y & Hy & Py & Ey) | (Hno & Ey)].
        { unfold cell_at. now rewrite Erow. }
        { left. exists y. split; [apply in_app_iff; now left | now split]. }
        { right. split; [| exact Ey]. intros y Hy.
          apply in_app_iff in Hy. destruct Hy as [Hy | [<- | []]]; [now apply Hno |].
          intros [_ Pc]. apply Hnc. lia. }
    + rewrite list_lookup_insert_ne by exact Hne. intros Hs.
      destruct (Hshows r c s) as [(y & Hy & Py & Ey) | (Hno & Ey)]; [exact Hs | |].
      { left. exists y. split; [apply in_app_iff; now left | now split]. }
      { right. split; [| exact Ey]. intros y Hy.
        apply in_app_iff in Hy. destruct Hy as [Hy | [<- | []]]; [now apply Hno |].
        intros [Pr _]. apply Hne. lia. }
Qed.

Lemma fill_natural (n m : nat) (cs : list TableCell) :
  forall (done : list TableCell) (g : list (list string)),
    rectangular g n m ->
    Forall (fun x => natural x /\ (row_num x < Z.of_nat n)%Z
                     /\ (col_num x < Z.of_nat m)%Z) cs ->
    shows done g ->
    exists g', fold_left fill cs (Some g) = Some g'
               /\ rectangular g' n m /\ shows (done ++ cs) g'.
Proof.
  induction cs as [|x t IH]; intros done g Hrect Hcs Hshows; cbn [fold_left].
  - exists g. rewrite app_nil_r. split; [reflexivity | split; assumption].
  - inversion Hcs as [|? ? (Hx & Hr & Hc) Ht]; subst.
    destruct (set_cell_natural g n m x done Hrect Hx Hr Hc Hshows)
      as (g1 & E1 & R1 & S1).
    cbn [fill]. rewrite E1.
    destruct (IH (done ++ [x]) g1 R1 Ht S1) as (g' & E & R & S).
    exists g'. rewrite <- app_assoc in S. split; [exact E | split; assumption].
Qed.

Lemma max_of_le (f : TableCell -> Z) (others : list TableCell) :
  forall (first : TableCell),
    (f first <= max_of f first others)%Z
    /\ Forall (fun x => (f x <= max_of f first others)%Z) others.
Proof.
  unfold max_of.
  assert (G : forall (m : Z),
            (m <= fold_left (fun m c => Z.max m (f c)) others m)%Z
            /\ Forall (fun x => (f x <= fold_left (fun m c => Z.max m (f c)) others m)%Z)
                      others).
  { induction others as [|y t IH]; intros m; cbn; [split; [lia | constructor] |].
    destruct (IH (Z.max m (f y))) as [H1 H2]. split; [lia |].
    constructor; [lia | exact H2]. }
  intros first. apply G.
Qed.

Lemma grid_of_natural (uid : string) (first : TableCell) (others : list TableCell) :
  Forall natural (first :: others) ->
  exists g, grid_of uid first others = Done g
            /\ g_table_uid g = uid
            /\ (0 < row_count g)%Z /\ (0 < col_count g)%Z
            /\ rectangular (grid g) (Z.to_nat (row_count g)) (Z.to_nat (col_count g))
            /\ shows (first :: others) (grid g).
Proof.
  intros Hnat. unfold grid_of. cbv zeta.
  destruct (max_of_le row_num others first) as [Rf Ro].
  destruct (max_of_le col_num others first) as [Cf Co].
  set (rc := (max_of row_num first others + 1)%Z).
  set (cc := (max_of col_num first others + 1)%Z).
  assert (Hf : natural first) by now inversion Hnat.
  destruct Hf as [Hr0 Hc0].
  destruct (fill_natural (Z.to_nat rc) (Z.to_nat cc) (first :: others) []
              (repeat (repeat EmptyString (Z.to_nat cc)) (Z.to_nat rc)))
    as (g & E & R & S).
  - apply rectangular_empty.
  - assert (Hall : Forall (fun x => (row_num x <= max_of row_num first others)%Z
                                    /\ (col_num x <= max_of col_num first others)%Z)
                          (first :: others)).
    { constructor; [now split |].
      rewrite List.Forall_forall in Ro, Co. apply List.Forall_forall.
      intros x Hx. split; [now apply Ro | now apply Co]. }
    rewrite List.Forall_forall in Hnat, Hall. apply List.Forall_forall.
    intros x Hx. specialize (Hnat x Hx). specialize (Hall x Hx).
    split; [exact Hnat |]. unfold rc, cc. lia.
  - apply shows_empty.
  - rewrite E. eexists. split; [reflexivity |]. cbn.
    split; [reflexivity |]. split; [unfold rc; lia |]. split; [unfold cc; lia |].
    split; [exact R | exact S].
Qed.

(** X24. When the stored cells of a table have no negative row or column
    number, [/tables/cells] answers 404 if there is no cell and otherwise
    returns a grid of [row_count] rows of [col_count] columns each, which
    shows at every position the text of a cell stored for that position, or
    the empty string where none is stored; it never fails on an index. *)
Theorem table_cells_grid (store : list CellRec) (uid : string) :
  Forall natural (get_table_cells store uid) ->
  match table_cells store uid with
  | NotFound _ => get_table_cells store uid = []
  | IndexError => False
  | Done g =>
      g_table_uid g = uid
      /\ (0 < row_count g)%Z /\ (0 < col_count g)%Z
      /\ rectangular (grid g) (Z.to_nat (row_count g)) (Z.to_nat (col_count g))
      /\ shows (get_table_cells store uid) (grid g)
  end.
Proof.
  intros Hnat. unfold table_cells.
  destruct (get_table_cells store uid) as [|first others]; [reflexivity |].
  destruct (grid_of_natural uid first others Hnat) as (g & -> & H). exact H.
Qed.

Lemma table_cells_grid_witness :
  Forall natural (get_table_cells sieve_cells "tbl_a")
  /\ match table_cells sieve_cells "tbl_a" with
     | Done g => rectangular (grid g) 3 3
                 /\ shows (get_table_cells sieve_cells "tbl_a") (grid g)
     | _ => False
     end.
Proof.
  assert (H : Forall natural (get_table_cells sieve_cells "tbl_a")).
  { vm_compute. repeat constructor; discriminate. }
  split; [exact H |].
  pose proof (table_cells_grid sieve_cells "tbl_a" H) as G.
  destruct (table_cells sieve_cells "tbl_a") as [g | d |] eqn:E;
    [| vm_compute in E; discriminate E | exact G].
  destruct G as (_ & _ & _ & R & S). split; [| exact S].
  assert (Ec : (row_count g, col_count g) = (3%Z, 3%Z)).
  { vm_compute in E. injection E as <-. reflexivity. }
  injection Ec as Er Ecc. rewrite Er, Ecc in R. exact R.
Defined.

(** *** Paging through the rows *)

(** X25. A page of [/tables/rows] holds the rows that follow the first
    [offset] rows of the table, at most [limit] of them.  Without a next
    offset the page holds all the rows that were left; a next offset is the
    number of rows up to the end of the page, which is then full, and it is
    smaller than the total. *)
Theorem table_rows_paging (row_store : list ChunkIngestion.TableRowRec)
  (cell_store : list CellRec) (uid : string) (limit_ offset_ : nat)
  (include_cells : bool) (p : RowsOut) :
  table_rows row_store cell_store uid limit_ offset_ include_cells = Done p ->
  let all := map row_out (rows_of_table row_store uid) in
  total p = length all
  /\ rows p = firstn limit_ (skipn offset_ all)
  /\ (next_offset p = None -> rows p = skipn offset_ all)
  /\ (forall o, next_offset p = Some o ->
        o = (offset_ + limit_)%nat /\ length (rows p) = limit_ /\ (o < total p)%nat).
Proof.
  intros Hp. cbv zeta.
  set (all := rows_of_table row_store uid).
  assert (E : total p = length all
              /\ rows p = map row_out (firstn limit_ (skipn offset_ all))
              /\ next_offset p
                 = if Nat.ltb (offset_ + length (firstn limit_ (skipn offset_ all)))
                              (length all)
                   then Some (offset_ + length (firstn limit_ (skipn offset_ all)))%nat
                   else None).
  { revert Hp. unfold table_rows. cbv zeta. fold all.
    destruct include_cells.
    - destruct (get_table_cells cell_store uid) as [|first others].
      + intros [= <-]. now repeat split.
      + destruct (grid_of uid first others); try discriminate.
        intros [= <-]. now repeat split.
    - intros [= <-]. now repeat split. }
  destruct E as (Et & Er & En).
  assert (Lpage : length (firstn limit_ (skipn offset_ all))
                  = Nat.min limit_ (length all - offset_)).
  { now rewrite length_firstn, length_skipn. }
  rewrite length_map. split; [exact Et |].
  split; [now rewrite Er, skipn_map, firstn_map |]. split.
  - intros Hnone. rewrite Hnone in En.
    destruct (Nat.ltb _ _) eqn:L; [discriminate |]. apply Nat.ltb_ge in L.
    rewrite Er, skipn_map. f_equal. apply firstn_all2. rewrite length_skipn. lia.
  - intros o Ho. rewrite Ho in En.
    destruct (Nat.ltb _ _) eqn:L; [| discriminate]. apply Nat.ltb_lt in L.
    injection En as ->. rewrite Er, length_map, Et. lia.
Qed.

Lemma table_rows_paging_witness :
  exists p,
    table_rows sieve_store sieve_cells "tbl_a" 3 0 true = Done p
    /\ length (rows p) = 3%nat /\ next_offset p = Some 3%nat /\ total p = 4%nat.
Proof.
  destruct (table_rows sieve_store sieve_cells "tbl_a" 3 0 true) as [p | d |] eqn:E;
    [| vm_compute in E; discriminate E | vm_compute in E; discriminate E].
  exists p. split; [reflexivity |].
  destruct (table_rows_paging sieve_store sieve_cells "tbl_a" 3 0 true p E)
    as (Et & Er & _ & Hn).
  assert (En : next_offset p = Some 3%nat).
  { vm_compute in E. injection E as <-. reflexivity. }
  destruct (Hn 3%nat En) as (_ & Hl & _).
  split; [exact Hl |]. split; [exact En |]. rewrite Et. vm_compute. reflexivity.
Defined.

End GridProperties.

(* ------------------------------------------------------------------------- *)
(** ** The citations of an answer *)
(* ------------------------------------------------------------------------- *)

Lemma filter_sublist {A} (p : A -> bool) (l : list A) : List.filter p l `sublist_of` l.
Proof.
  induction l as [|x t IH]; cbn; [constructor |].
  destruct (p x); [now apply sublist_skip | now apply sublist_cons].
Qed.

Lemma firstn_sublist {A} (n : nat) (l : list A) : firstn n l `sublist_of` l.
Proof.
  revert n. induction l as [|x t IH]; intros [|n]; cbn; try constructor.
  - apply sublist_nil_l.
  - apply IH.
Qed.

Lemma enumerate_filter_sublist {A} (p : nat * A -> bool) (l : list A) :
  forall (start : nat),
    map snd (List.filter p (Py.enumerate start l)) `sublist_of` l.
Proof.
  induction l as [|x t IH]; intros start; cbn; [constructor |].
  destruct (p (start, x)); cbn; [apply sublist_skip | apply sublist_cons]; apply IH.
Qed.

Lemma sublist_Forall {A} (P : A -> Prop) (l' l : list A) :
  l' `sublist_of` l -> Forall P l -> Forall P l'.
Proof.
  induction 1 as [| x l1 l2 H IH | x l1 l2 H IH]; intros Hl.
  - constructor.
  - inversion Hl; subst. constructor; auto.
  - inversion Hl; subst. auto.
Qed.

Section ChatCitations.

Import ChatRouter.

Lemma markers_sublist (answer : string) (citations : list AskCitation) :
  filter_citations_by_answer_markers answer citations `sublist_of` citations.
Proof.
  unfold filter_citations_by_answer_markers. cbv zeta.
  destruct (cited_numbers answer); [apply firstn_sublist |].
  apply enumerate_filter_sublist.
Qed.

(** X26. The citations of [/chat/ask] are citations of the hits of the answer,
    in the order of the hits and none twice; and when the answer has hits,
    the response has at least one citation. *)
Theorem chat_ask_citations_from_hits (req : AskRequest) (out : Out) :
  r_citations (chat_ask req out) `sublist_of` map citation_of (o_hits out)
  /\ (o_hits out <> [] -> r_citations (chat_ask req out) <> []).
Proof.
  unfold chat_ask. cbv zeta. cbn [r_citations].
  set (original := map citation_of (o_hits out)).
  match goal with
  | |- match ?c with [] => _ | _ => _ end `sublist_of` _ /\ _ =>
      assert (Hsub : c `sublist_of` original); [| destruct c as [|c0 cs] eqn:E]
  end.
  - destruct (String.eqb (mode req) "answer"); [apply markers_sublist |].
    destruct (String.eqb (mode req) "sources_only"); [| reflexivity].
    assert (Hc : filter_sources_only original (k req) `sublist_of` original).
    { unfold filter_sources_only. etransitivity; [apply firstn_sublist |].
      apply filter_sublist. }
    destruct (extract_section_id (query req)) as [target|]; [| exact Hc].
    destruct (Str.is_empty target); [exact Hc |].
    destruct (List.filter _ (filter_sources_only original (k req)))
      as [|f fs] eqn:F; [exact Hc |].
    rewrite <- F. etransitivity; [apply filter_sublist | exact Hc].
  - split; [apply firstn_sublist |].
    intros Hhits. unfold original.
    destruct (o_hits out) as [|h hs]; [now contradiction Hhits |]. discriminate.
  - split; [exact Hsub | discriminate].
Qed.

(** X27. In the sources-only mode, when the first [k] citations that are not
    table-of-contents-like are not all filtered away, the response holds at
    most [k] citations, none of them table-of-contents-like; and when the
    query names a section that one of them belongs to, every citation of
    the response belongs to that section. *)
Theorem chat_ask_sources_only_section (req : AskRequest) (out : Out) :
  mode req = "sources_only" ->
  filter_sources_only (map citation_of (o_hits out)) (k req) <> [] ->
  (length (r_citations (chat_ask req out)) <= k req)%nat
  /\ Forall not_tocish (r_citations (chat_ask req out))
  /\ (forall target,
        extract_section_id (query req) = Some target ->
        Exists (in_section target)
               (filter_sources_only (map citation_of (o_hits out)) (k req)) ->
        Forall (in_section target) (r_citations (chat_ask req out))).
Proof.
  intros Hmode Hne. unfold chat_ask. cbv zeta. cbn [r_citations]. rewrite Hmode.
  cbn [String.eqb Ascii.eqb Bool.eqb].
  set (original := map citation_of (o_hits out)) in *.
  set (cleaned := filter_sources_only original (k req)) in *.
  assert (Hlen : (length cleaned <= k req)%nat).
  { unfold cleaned, filter_sources_only. rewrite length_firstn. lia. }
  assert (Hplain : Forall not_tocish cleaned).
  { unfold cleaned, filter_sources_only.
    apply (sublist_Forall _ _ _ (firstn_sublist _ _)).
    apply List.Forall_forall. intros c Hc. apply filter_In in Hc.
    destruct Hc as [_ Hc]. unfold not_tocish. now destruct (is_tocish (c_snippet c)). }
  assert (Hcleaned : match cleaned with
                     | [] => firstn (Nat.min 3 (length original)) original
                     | _ => cleaned
                     end = cleaned).
  { destruct cleaned; [now contradiction Hne | reflexivity]. }
  destruct (extract_section_id (query req)) as [target|];
    [| rewrite Hcleaned; split; [exact Hlen |]; split; [exact Hplain | discriminate]].
  destruct (Str.is_empty target) eqn:Et.
  { rewrite Hcleaned. split; [exact Hlen |]. split; [exact Hplain |].
    intros t [= <-] Hex. apply List.Exists_exists in Hex.
    destruct Hex as (c & _ & Hc). unfold in_section, section_prefix_match in Hc.
    cbv zeta in Hc. unfold normalize_section at 1 in Hc. cbn [Py.truthy] in Hc.
    rewrite Et in Hc. cbn in Hc. discriminate Hc. }
  destruct (List.filter (fun c => section_prefix_match target (c_section_id c)) cleaned)
    as [|f fs] eqn:F.
  - rewrite Hcleaned. split; [exact Hlen |]. split; [exact Hplain |].
    intros t [= <-] Hex. apply List.Exists_exists in Hex.
    destruct Hex as (c & Hin & Hc).
    assert (Hf : In c (List.filter (fun c => section_prefix_match target (c_section_id c))
                                   cleaned)).
    { apply filter_In. now split. }
    rewrite F in Hf. destruct Hf.
  - rewrite <- F.
    pose proof (filter_sublist (fun c => section_prefix_match target (c_section_id c))
                               cleaned) as Hs.
    split; [| split].
    + pose proof (filter_length_le
                    (fun c => section_prefix_match target (c_section_id c)) cleaned).
      lia.
    + exact (sublist_Forall _ _ _ Hs Hplain).
    + intros t [= <-] _. apply List.Forall_forall. intros c Hc.
      apply filter_In in Hc. apply Hc.
Qed.

Lemma chat_ask_sources_only_section_witness :
  map c_chunk_id (r_citations (chat_ask section_request section_out)) = [2%Z; 4%Z]
  /\ Forall not_tocish (r_citations (chat_ask section_request section_out))
  /\ Forall (in_section "701") (r_citations (chat_ask section_request section_out)).
Proof.
  split; [vm_compute; reflexivity |].
  destruct (chat_ask_sources_only_section section_request section_out)
    as (_ & Hp & Hs); [reflexivity | vm_compute; discriminate |].
  split; [exact Hp |]. apply Hs; [vm_compute; reflexivity |].
  apply List.Exists_exists.
  exists (citation_of (section_hit 2 (Some "701.03") "701.03  CONSTRUCTION")).
  split; [vm_compute; now left | vm_compute; reflexivity].
Defined.

End ChatCitations.

(* ------------------------------------------------------------------------- *)
(** ** A page of library search results *)
(* ------------------------------------------------------------------------- *)

Lemma prefix_same (s : string) : String.prefix s s = true.
Proof.
  induction s as [|c t IH]; cbn; [reflexivity |].
  destruct (ascii_dec c c); [exact IH | congruence].
Qed.

Lemma skipn_sub_perm {A} (n : nat) (l : list A) : sub_perm (skipn n l) l.
Proof.
  exists (firstn n l). rewrite <- (firstn_skipn n l) at 3. apply Permutation_app_comm.
Qed.

Section LibraryProperties.

Import LibrarySearch.

Lemma keeps_passes (req : DocumentSearchRequest) (h : HybridChunksSearch.HybridChunkHit) :
  keeps req h = true -> passes req (result_of h).
Proof.
  unfold keeps, passes. cbn [r_doc_type r_mp_id result_of]. cbv zeta. intros H. split.
  - intros Hne.
    destruct (Str.is_empty (doc_type_filter req)) eqn:E.
    { destruct (doc_type_filter req); [now contradiction Hne | discriminate E]. }
    cbn [negb andb] in H.
    destruct (String.eqb _ (doc_type_filter req)) eqn:Q; [| discriminate H].
    now apply String.eqb_eq.
  - intros Hne.
    destruct (_ && _); [discriminate H |].
    destruct (Str.is_empty (mp_filter req)) eqn:E.
    { destruct (mp_filter req); [now contradiction Hne | discriminate E]. }
    cbn [negb] in H.
    destruct (Str.is_empty (Str.upper _)); [discriminate H |]. cbn [orb] in H.
    destruct (Str.startswith _ (mp_filter req)) eqn:P; [reflexivity |].
    cbn [negb andb] in H.
    destruct (String.eqb _ (mp_filter req)) eqn:Q; [| discriminate H].
    apply String.eqb_eq in Q. unfold Str.startswith in P.
    rewrite Q, prefix_same in P. discriminate P.
Qed.

(** X28. A page of the library search holds at most [k] results, every result
    passes the document-type and the MP filter of the request, no chunk is
    listed twice, and a total is reported only when it is smaller than the
    size of the pool that was searched. *)
Theorem library_search_page (lexical : BM25Chunks.BM25ChunksIndex)
  (vectors : FaissChunks.FaissChunksIndex) (rows : list ChunkIngestion.TableRowRec)
  (req : DocumentSearchRequest) (resp : DocumentSearchResponse) :
  library_search lexical vectors rows req = Some resp ->
  (length (results resp) <= k req)%nat
  /\ Forall (passes req) (results resp)
  /\ List.NoDup (map r_chunk_id (results resp))
  /\ (forall n, total resp = Some n -> (n < pool_k_of req)%nat).
Proof.
  unfold library_search. cbv zeta.
  destruct (HybridChunksSearch.hybrid_chunks_search _ _ _ _ _ _ _)
    as [[hits conf]|] eqn:E; [| discriminate].
  apply hybrid_chunks_search_spec in E.
  destruct E as (_ & _ & _ & _ & _ & _ & Hnd & _).
  intros [= <-]. cbn [results total]. split; [| split; [| split]].
  - rewrite length_map, length_firstn. lia.
  - apply List.Forall_map. apply List.Forall_forall. intros h Hh.
    apply keeps_passes. apply In_firstn in Hh.
    assert (Hf : In h (List.filter (keeps req) hits)).
    { rewrite <- (firstn_skipn (offset req)). apply in_app_iff. now right. }
    apply filter_In in Hf. tauto.
  - rewrite map_map. cbn [r_chunk_id result_of].
    apply (sub_perm_NoDup _ (map HybridChunksSearch.chunk_id hits)); [| exact Hnd].
    apply sub_perm_map.
    eapply sub_perm_trans; [apply firstn_sub_perm |].
    eapply sub_perm_trans; [apply skipn_sub_perm | apply filter_sub_perm].
  - intros n. destruct (Nat.ltb _ _) eqn:L; [| discriminate].
    intros [= <-]. now apply Nat.ltb_lt.
Qed.

Lemma library_search_page_witness :
  exists resp,
    library_search corpus_lexical corpus_vectors [] corpus_request = Some resp
    /\ map r_chunk_id (results resp) = [1%Z; 4%Z]
    /\ Forall (passes corpus_request) (results resp).
Proof.
  destruct (library_search corpus_lexical corpus_vectors [] corpus_request)
    as [resp|] eqn:E; [| vm_compute in E; discriminate E].
  exists resp. split; [reflexivity |].
  destruct (library_search_page corpus_lexical corpus_vectors [] corpus_request resp E)
    as (_ & Hp & _).
  split; [| exact Hp].
  vm_compute in E. injection E as <-. reflexivity.
Defined.

End LibraryProperties.

(* ------------------------------------------------------------------------- *)
(** ** Ingesting a document twice *)
(* ------------------------------------------------------------------------- *)

Lemma find_map_same {A} (p : A -> bool) (f : A -> A) (l : list A) :
  (forall x, p (f x) = p x) -> find p (map f l) = option_map f (find p l).
Proof.
  intros H. induction l as [|x t IH]; cbn; [reflexivity |].
  rewrite H. destruct (p x); [reflexivity | exact IH].
Qed.

Lemma find_snoc_new {A} (p : A -> bool) (l : list A) (x : A) :
  find p l = None -> p x = true -> find p (l ++ [x]) = Some x.
Proof.
  intros Hl Hx. induction l as [|y t IH]; cbn in *; [now rewrite Hx |].
  destruct (p y); [discriminate | now apply IH].
Qed.

Lemma filter_none {A} (p : A -> bool) (l : list A) :
  List.filter p (List.filter (fun x => negb (p x)) l) = [].
Proof.
  induction l as [|x t IH]; cbn; [reflexivity |].
  destruct (p x) eqn:E; cbn; [exact IH |]. now rewrite E.
Qed.

Section UpsertProperties.

Import Ingestion.

Variables (path_name path_stem sha256_file : string -> string)
          (extract_pages_text : string -> list string)
          (lastrowid : list DocRow -> Z).

Lemma page_rows_for (document_id_ : Z) (texts : list string) :
  List.filter (fun p => (document_id p =? document_id_)%Z) (page_rows document_id_ texts)
  = page_rows document_id_ texts.
Proof.
  unfold page_rows. generalize 1%nat.
  induction texts as [|t ts IH]; intros n; cbn; [reflexivity |].
  rewrite Z.eqb_refl. f_equal. apply IH.
Qed.

(** X29. Ingesting the same unchanged file again does nothing: the second call
    reports that it skipped the file, names the same document and leaves the
    store as the first call left it.  A call that ingests writes one page
    row per extracted page, and for a document that was known before, its
    page rows are afterwards exactly the extracted pages, numbered from 1. *)
Theorem upsert_document_twice (now later pdf_path : string) (st : Store) :
  let first := upsert_document_and_pages path_name path_stem sha256_file
                 extract_pages_text lastrowid now pdf_path st in
  upsert_document_and_pages path_name path_stem sha256_file extract_pages_text
    lastrowid later pdf_path (snd first)
  = ((false, snd (fst (fst first)), 0%nat), snd first)
  /\ (fst (fst (fst first)) = true ->
      snd (fst first) = length (extract_pages_text pdf_path))
  /\ (fst (fst (fst first)) = true -> known pdf_path st <> None ->
      pages_for (snd (fst (fst first))) (snd first)
      = page_rows (snd (fst (fst first))) (extract_pages_text pdf_path)).
Proof.
  cbv zeta. unfold upsert_document_and_pages, known.
  destruct (classify_pdf path_name path_stem pdf_path) as [[dt mp] dn].
  destruct (find (fun d => String.eqb (file_path d) pdf_path) (documents st))
    as [e|] eqn:F.
  - destruct (String.eqb (file_hash e) (sha256_file pdf_path)) eqn:H.
    + cbn [fst snd]. rewrite F, H. split; [reflexivity |]. split; discriminate.
    + cbn [fst snd documents pages]. split; [| split].
      * rewrite find_map_same.
        2:{ intros d. destruct (id d =? id e)%Z; reflexivity. }
        rewrite F. cbn [option_map]. rewrite Z.eqb_refl. cbn [file_hash id].
        now rewrite String.eqb_refl.
      * reflexivity.
      * intros _ _. unfold pages_for. cbn [pages].
        rewrite List.filter_app, filter_none, page_rows_for. reflexivity.
  - cbn [fst snd documents pages]. split; [| split].
    + rewrite (find_snoc_new _ _ _ F) by (cbn; apply String.eqb_refl).
      cbn [file_hash id]. now rewrite String.eqb_refl.
    + reflexivity.
    + intros _ C. now contradiction C.
Qed.

End UpsertProperties.

(* ------------------------------------------------------------------------- *)
(** ** Accepted tokens *)
(* ------------------------------------------------------------------------- *)

Section AuthProperties.

Import Auth.

Variables (supabase_env : option string)
          (http_get_keys : string -> option (list Jwk))
          (unverified_kid : string -> option (option string))
          (from_jwk : Jwk -> option string)
          (decode_unverified : string -> decoding)
          (decode : string -> string -> bool -> decoding).

Lemma cache_get_set (c : cache) (url : string) (e : entry) :
  cache_get (cache_set c url e) url = Some e.
Proof. unfold cache_get, cache_set. cbn. now rewrite String.eqb_refl. Qed.

(** The keys that [_get_jwks_keys] returns are those of the cache entry it
    leaves behind. *)
Lemma get_jwks_keys_cached (now : Q) (c c1 : cache) (url : string) (force : bool)
  (ks : list Jwk) :
  _get_jwks_keys http_get_keys now c url force = (Return ks, c1) ->
  exists e, cache_get c1 url = Some e /\ keys e = ks.
Proof.
  unfold _get_jwks_keys. cbv zeta.
  assert (Refresh :
    match _fetch_jwks http_get_keys url with
    | Return jwks =>
        match List.filter (fun k => Py.truthy (kid k)) jwks with
        | [] => (Http 503 "JWKS did not contain any keys", c)
        | _ :: _ =>
            (Return (List.filter (fun k => Py.truthy (kid k)) jwks),
             cache_set c url
               {| keys := List.filter (fun k => Py.truthy (kid k)) jwks;
                  fetched_at := now |})
        end
    | Http status detail => (Http status detail, c)
    | Uncaught => (Uncaught, c)
    end = (Return ks, c1) ->
    exists e, cache_get c1 url = Some e /\ keys e = ks).
  { destruct (_fetch_jwks http_get_keys url) as [jwks | st d |]; try discriminate.
    destruct (List.filter _ jwks) as [|k0 rest] eqn:F; [discriminate |].
    intros E. assert (E1 : k0 :: rest = ks) by congruence.
    assert (E2 : cache_set c url {| keys := k0 :: rest; fetched_at := now |} = c1)
      by congruence.
    subst. eexists. split; [apply cache_get_set | reflexivity]. }
  destruct (cache_get c url) as [e|] eqn:G; [| exact Refresh].
  destruct (_ && _); [| exact Refresh].
  intros E. assert (E1 : keys e = ks) by congruence. assert (E2 : c = c1) by congruence.
  subst. now exists e.
Qed.

Lemma check_claims_accepts (expected_iss : string) (claims accepted : Claims) :
  check_claims expected_iss claims = Return accepted ->
  accepted = claims
  /\ issuer_of claims = Return (rstrip_slash expected_iss)
  /\ for_authenticated claims.
Proof.
  unfold check_claims, for_authenticated.
  destruct (issuer_of claims) as [i | st d |]; try discriminate.
  destruct (String.eqb i (rstrip_slash expected_iss)) eqn:Ei; [| discriminate].
  apply String.eqb_eq in Ei. subst i. cbn [negb].
  destruct (aud claims) as [a|].
  - destruct (valid_aud a) eqn:Va; [| discriminate].
    intros [= <-]. split; [reflexivity |]. split; [reflexivity |].
    now intros a' [= <-].
  - intros [= <-]. split; [reflexivity |]. split; [reflexivity | discriminate].
Qed.

(** X30. [verify_jwt] returns claims only for a token that names a key in
    force in the cached key set of the project, whose signature check with
    that key returned those claims, whose issuer is the auth endpoint of the
    configured project, and whose audience, when it has one, is or contains
    "authenticated". *)
Theorem verify_jwt_accepts_only (now later : Q) (c c' : cache) (token : string)
  (claims : Claims) :
  verify_jwt supabase_env http_get_keys unverified_kid from_jwk decode_unverified
             decode now later c token = (Return claims, c') ->
  exists supabase_url kid_ jwk public_key aud_present,
    _get_supabase_url supabase_env = Return supabase_url
    /\ unverified_kid token = Some kid_
    /\ cached_key c' supabase_url kid_ jwk
    /\ from_jwk jwk = Some public_key
    /\ decode token public_key aud_present = Decoded claims
    /\ issued_by supabase_url claims
    /\ for_authenticated claims.
Proof.
  unfold verify_jwt.
  destruct (_get_supabase_url supabase_env) as [url | st d |]; try discriminate.
  cbv zeta. destruct (unverified_kid token) as [kid_|]; [| discriminate].
  destruct (_get_jwks_keys http_get_keys now c url false) as [[ks | st d |] c1] eqn:G1;
    try discriminate.
  assert (Found : forall jwk c2,
            cached_key c2 url kid_ jwk ->
            match from_jwk jwk with
            | None => (Http 401 "Invalid token", c2)
            | Some public_key =>
                match decode_unverified token with
                | Decoded unverified_claims =>
                    match decode token public_key
                                 (Chunking.is_some (aud unverified_claims)) with
                    | Decoded claims0 =>
                        (check_claims (url ++ "/auth/v1") claims0, c2)
                    | ExpiredSignature => (Http 401 "Token expired", c2)
                    | InvalidToken => (Http 401 "Invalid token", c2)
                    | OtherError => (Uncaught, c2)
                    end
                | ExpiredSignature => (Http 401 "Token expired", c2)
                | InvalidToken => (Http 401 "Invalid token", c2)
                | OtherError => (Uncaught, c2)
                end
            end = (Return claims, c') ->
            exists supabase_url kid0 jwk0 public_key aud_present,
              Return url = Return supabase_url
              /\ Some kid_ = Some kid0
              /\ cached_key c' supabase_url kid0 jwk0
              /\ from_jwk jwk0 = Some public_key
              /\ decode token public_key aud_present = Decoded claims
              /\ issued_by supabase_url claims
              /\ for_authenticated claims).
  { intros jwk c2 Hkey.
    destruct (from_jwk jwk) as [pk|] eqn:Fk; [| discriminate].
    destruct (decode_unverified token) as [uc | | |]; try discriminate.
    destruct (decode token pk (Chunking.is_some (aud uc))) as [cl | | |] eqn:D;
      try discriminate.
    intros E. assert (E1 : check_claims (url ++ "/auth/v1") cl = Return claims)
      by congruence.
    assert (E2 : c2 = c') by congruence. subst c2.
    apply check_claims_accepts in E1. destruct E1 as (-> & Hi & Ha).
    exists url, kid_, jwk, pk, (Chunking.is_some (aud uc)).
    repeat split; assumption. }
  destruct (key_for ks kid_) as [jwk|] eqn:K1.
  - apply Found. apply get_jwks_keys_cached in G1. destruct G1 as (e & Ge & <-).
    now exists e.
  - destruct (_get_jwks_keys http_get_keys later c1 url true)
      as [[ks' | st d |] c2] eqn:G2; try discriminate.
    destruct (key_for ks' kid_) as [jwk|] eqn:K2; [| discriminate].
    apply Found. apply get_jwks_keys_cached in G2. destruct G2 as (e & Ge & <-).
    now exists e.
Qed.

End AuthProperties.

Lemma verify_jwt_accepts_only_witness :
  exists c',
    Auth.verify_jwt (Some "https://nj.example.co/") (fun _ => Some [project_key])
      (fun _ => Some (Some "k1")) (fun k => Some (Auth.material k))
      (fun _ => Auth.Decoded user_claims) (fun _ _ _ => Auth.Decoded user_claims)
      0 0 [] "token" = (Auth.Return user_claims, c')
    /\ cached_key c' "https://nj.example.co" (Some "k1") project_key
    /\ issued_by "https://nj.example.co" user_claims.
Proof.
  destruct (Auth.verify_jwt (Some "https://nj.example.co/")
              (fun _ => Some [project_key]) (fun _ => Some (Some "k1"))
              (fun k => Some (Auth.material k)) (fun _ => Auth.Decoded user_claims)
              (fun _ _ _ => Auth.Decoded user_claims) 0 0 [] "token")
    as [r c'] eqn:E.
  assert (Er : r = Auth.Return user_claims).
  { vm_compute in E. injection E as <- _. reflexivity. }
  subst r. exists c'. split; [reflexivity |].
  destruct (verify_jwt_accepts_only _ _ _ _ _ _ _ _ _ _ _ _ E)
    as (url & kid_ & jwk & pk & ap & Hu & Hk & Hc & Hf & _ & Hi & _).
  assert (Eu : url = "https://nj.example.co").
  { vm_compute in Hu. now injection Hu as <-. }
  assert (Ek : kid_ = Some "k1") by (now injection Hk as <-).
  subst url kid_. split; [| exact Hi].
  destruct Hc as (e & Ge & Ke). exists e. split; [exact Ge |].
  rewrite Ke. f_equal.
  assert (Ec : c' = [("https://nj.example.co",
                      {| Auth.keys := [project_key]; Auth.fetched_at := 0 |})]).
  { vm_compute in E. now injection E as <-. }
  subst c'. vm_compute in Ge. injection Ge as <-. vm_compute in Ke.
  now injection Ke as <-.
Defined.
